(* ===== verification/_CoqProject ===== *)
-Q . S2P
Prelude.v
PyFloat.v
Base64.v
Json.v
JsonFuel.v
Http.v
Task.v
RedSocial.v
Text.v
Write.v
Schedule.v
Dates.v
Contracts.v
Estado.v
Flow.v
Facebook.v
Instagram.v
TikTok.v
LinkedIn.v
Publish.v
Creator.v
Revisar.v
Publicar.v
Witnesses.v
ContractWitnesses.v
PublishWitnesses.v
