(* ===== verification/Prelude.v ===== *)
(** * A verification development of the GenioLibre Odoo add-ons

    The repository holds two Odoo add-ons.  The larger,
    [src/gl_geniolibre/models/project_task.py], is a publication
    orchestrator: a marketing task (model [project.task]) carries an
    attachment (image or video) that is pushed to up to four platforms
    (Facebook, Instagram, TikTok, LinkedIn).  Each platform keeps its own
    phase in a Char field of the task ([fb_estado], [ig_estado], [tt_estado],
    [li_estado]) with the values "Programado", "Procesando", "Revisando",
    "Publicado" and "Error".  [programar_post] schedules an approved task,
    [publicar_post] starts the publication, and [revisar_post] (by hand, or
    by the scheduler with [from_cron=True]) advances every selected platform
    through its [_run_<platform>_flow] and sets [post_estado] to "Publicado"
    once all of them are published.  Every assignment to a field goes
    through the add-on's [write] override, which validates the publication
    date and the attachments and measures videos with ffprobe.  The second
    add-on, [src/sales_contract_and_recurring_invoices/models/subscription_contracts.py],
    bills subscription contracts: a button and a daily job create invoices
    and move each contract's [next_invoice_date] with dateutil's
    [relativedelta].

    ** How the code is modelled

    - Python and Odoo are embedded shallowly.  A Char/Text/Integer field
      holds a [val] ([VFalse] is Odoo's [False]/[None]); the fields the
      publication code writes live in a [gmap string val] keyed by the
      field name, so that Odoo's [write(vals)] is a left-biased map union.
    - Code that reads and writes state and may raise is written in the state
      and exception monad [PyM S A] of this file: an exception keeps the
      state reached when it was raised, as Python does; Odoo's rollback of a
      request or a scheduled job that raises is [transaction].  Early
      [return]s inside a sequence of [if] blocks are the statements [stmt].
    - What is not code of the repository is an oracle, a class whose
      instances answer: the platforms' HTTP API ([Http.Remote]), ffprobe
      ([Write.Ffprobe]), the attachment table, the configuration parameters,
      [html2plaintext], [mimetypes.guess_type] ([Publish.MimeTypes]) and
      boto3's S3 client with the clock and random digits of
      [upload_files_to_s3] ([Publicar.S3]).  Every theorem holds for every oracle that gives
      the answers its hypotheses name; [Witnesses.v] builds such oracles.
    - Library code the sources call is modelled after the libraries
      themselves: CPython's [datetime] and dateutil's [relativedelta]
      ([Dates.v]); CPython's [json] module ([Json.v]), whose parser reads
      every document the platforms may send (floats, [NaN], escapes,
      repeated keys); Python's [float] as IEEE binary64 ([PyFloat.v]), for
      [float()], [int()] of a float, the arithmetic of the LinkedIn chunk
      sizes and the comparison of the TikTok durations; [str.strip()],
      [str[:n]] and [\s] on the UTF-8 bytes of the model's strings, with
      Python's Unicode whitespace; [requests]' [raise_for_status] with its
      message ([Http.v]).

    ** Files (in dependency order)

    - [Prelude.v] (this file): Python values, the string methods the code
      uses, exceptions and their [str], the monad [PyM] with its notation in
      [py_scope], statements with early return, [transaction], the tactics
      [py_unfold], [solve_stateless], [zbool], the hint databases [py],
      [pyrun] and [py_stateless], and the decimal-rendering lemmas
      ([Z_to_string_inj], [split_first_dot]).
    - [PyFloat.v]: binary64 floats on [Z] (a sign, a 53-bit mantissa and
      an exponent, infinities, NaN), correctly rounded conversion of
      decimal text and of integers, CPython's shortest [repr], [float()] of
      a string, [int()] of a float, addition and comparison with an int.
    - [Base64.v]: [base64.b64decode].  [Json.v]: JSON values, [dict.get],
      truthiness, [repr], [json.dumps] with [ensure_ascii], CPython's
      [json.loads] (the scanner's grammar, [int]/[float] numbers, [\uXXXX]
      escapes with surrogate pairs, objects as [dict]s), [float()] of a
      JSON value, and the round trip of [json.dumps]/[json.loads].
    - [JsonFuel.v]: the fuel of [json.loads] is enough: each parser's step
      with its recursive calls as arguments, the suffix lemmas of the
      scanners, and the induction on fuel.
    - [Http.v]: [requests], [raise_for_status] and the oracle [Remote].
    - [Task.v]: the task record, [tipo], the ORM [write], many2many
      commands, [_compute_social_flags], the [unlink] and [copy] guards.
    - [RedSocial.v]: [red.social._auto_init], the default networks.
    - [Text.v]: [_prepare_text] and [remove_duplicate_links].
    - [Write.v]: the [write] override (lines 204-278) with the shared
      [vals], [get_video_duration_ffprobe].
    - [Schedule.v]: [programar_post], [cancelar_post].
    - [Dates.v]: dates, ordinals, [timedelta] and [relativedelta].
    - [Contracts.v]: the [subscription.contracts] model: the actions
      ([action_get_invoice] with Odoo's [ensure_one] and the [search] its
      window runs), the computes, [action_generate_invoice] and the daily
      job [subscription_contract_state_change].
    - [Estado.v]: the phases as the code spells them, the specification's
      phase table, [_compute_post_estado_global] and its refinement.
    - [Flow.v]: what the platform flows share: the tactic [flow_run], the
      frame of a flow and the refinement lemma of the phase table.
    - [Facebook.v], [Instagram.v], [TikTok.v], [LinkedIn.v]: one Module per
      [_run_<platform>_flow] with its branches and theorems.
    - [Publish.v]: Module [Publish], the first publication on each network
      ([publish_on_facebook], [publish_on_instagram], [publish_on_tiktok],
      [publish_on_linkedin]) with the frames of their writes.
    - [Creator.v]: Module [Creator], [check_tiktok_creator_status] and the
      onchange of [red_social_ids] that runs it.
    - [Revisar.v]: [revisar_post] on a recordset and the scheduled sweep.
    - [Publicar.v]: [upload_files_to_s3] and [publicar_post]: the S3
      staging, the four network blocks, the final notification or raise,
      and the button's transaction.
    - [Witnesses.v], [ContractWitnesses.v], [PublishWitnesses.v]: the
      theorems applied to concrete records and oracle answers.

    ** What is proved

    - functional behaviour of every branch of each platform flow, errors
      included, and of the [write] checks; field scoping of each flow;
    - refinement: the code's aggregation computes the specification's
      aggregation on encoded phases, and every flow step is a path of the
      specification's phase table;
    - sweep-level liveness failures: one Instagram container in error or one
      raising record blocks the scheduled sweep for good;
    - the first publication: a failure of every network is raised and so
      rolled back with the Error phases the code writes; a task of type
      [otro] is reported started on Facebook and then parked in
      "Revisando"; [publish_on_linkedin] never writes [li_estado]; the
      feed's photo ids round-trip from [publish_on_facebook] to the review
      flow; every Instagram failure is recorded; LinkedIn's HTTP errors are
      reported with their detail; the S3 keys of a call are distinct; an
      item of no supported type makes the S3 handler raise
      [UnboundLocalError] or name the previous file; the TikTok creator
      check's verdict; [_auto_init] is idempotent and its
      case-insensitive test hides a network from the exact-name tests;
    - the JSON round trip of photo ids, and the two round trips of the date
      ordinals ([ord2ymd_ymd2ord], [ymd2ord_ord2ymd]);
    - for the contracts: the direction and the month clamping of the next invoice date, the
      equivalence of the compute and the button on the first date, the
      invariant of [invoice_count] under the daily job, the invoices the
      window of [action_get_invoice] lists, the unreachable
      stages (rule induction on [contract_step]), the [TypeError] of
      [_compute_sale_order_lines], and the liveness failure of the daily job
      once a next date has passed.

    ** Fuel and bounds

    [json_loads], [dedup_links] and [strip_markers] recurse on fuel: one
    unit per character of their input plus one.  That this is enough is
    proved, not assumed: a scanner step consumes a character
    ([Text.dedup_links_scan], [Text.strip_markers_scan]; the scans then
    give the one result of the fuel-free descriptions [links_scan] and
    [markers_scan]), and a parser that succeeds with some fuel succeeds
    alike with any fuel above the number of characters it consumes
    ([JsonFuel.parse_fuel], [JsonFuel.json_loads_complete]).  The float
    conversions are exact rational arithmetic on [Z] with one rounding:
    a decimal [c * 10^p] with [p >= 309] is infinite and one below
    [10^-324] is zero, both as the correctly rounded result (the largest
    float is below [1.8 * 10^308], half the least subnormal above
    [2.4 * 10^-324]), so the exponent of the text never makes a power of
    ten larger than [10^(309 + digits)]; [repr] tries at most 17
    significant digits, which always round-trip.  [remove_all]
    ([str.replace]) has the same fuel, and more fuel changes nothing
    ([Text.remove_all_fuel_enough]).  The date conversions are checked by evaluation
    on one period of the Gregorian calendar (146097 days, 400 years) and
    extended to every integer by the periodicity lemmas; [_check_date_fields]
    bounds years to [1 .. 9999] as CPython does.  Integers are Python's,
    unbounded, except where Odoo's Integer columns would overflow, which no
    theorem reaches.

    ** Not modelled

    The [print] calls, e-mail delivery ([mail.mail] create and send on the
    error paths of [publicar_post] and [programar_post]) and logging, which
    change no state of the records; the nested [upload_images_to_facebook]
    of [publicar_post], which is never called; the second [except] of
    [_run_facebook_flow] (lines 565-583), unreachable behind
    [except Exception: raise]; the constant [CHUNK_SIZE], which nothing
    reads; [super()._auto_init] (Odoo's table creation).
    [upload_files_to_s3] takes a list of items: the normalisation of a
    single record or value into a list (lines 1678-1686) is the caller's
    list.  The objects [upload_files_to_s3] puts on S3 are effects of the
    oracle, not state of the model.  The platforms' API is a function from
    a request to its answer: the model does not record the sequence of
    requests sent, so the order of the LinkedIn chunk uploads is seen only
    through the list of ETags it returns.  Of Python's runtime: the
    recursion limit on a deeply nested JSON document; [str.lower()] and
    the regular expression [\d] on non-ASCII letters and digits (the model
    keeps them unchanged and refuses them); the non-ASCII digits that
    [float()] accepts; the escaping of non-printable characters in [repr]
    of a string.  [requests]' response body is the JSON the oracle gives
    for [resp.json()] ([rs_body]), next to its text ([rs_text]), which
    [json.loads] reads where the code calls it on the text. *)

From Stdlib Require Import String Ascii ZArith List Bool DecimalString DecimalZ.
From stdpp Require Import base gmap strings list.

Declare Scope py_scope.
Delimit Scope py_scope with py.
Open Scope string_scope.

Create HintDb py discriminated.
Create Rewrite HintDb pyrun.
(** The computations of the library that do not touch the state. *)
Create HintDb py_stateless discriminated.

(** ** Python values of Odoo fields *)

(** A Char, Text or Integer field of an Odoo record.  [VFalse] is Odoo's
    [False] and Python's [None] (Odoo stores [None] as [False]). *)
Inductive val : Type :=
| VFalse
| VStr (s : string)
| VInt (z : Z).

#[export] Instance val_eq_dec : EqDecision val.
Proof. solve_decision. Defined.

(** Python truthiness of a field value ([if x:], [not x]). *)
Definition truthy (v : val) : bool :=
  match v with
  | VFalse => false
  | VStr s => negb (String.eqb s EmptyString)
  | VInt z => negb (Z.eqb z 0)
  end.

(** [x or (empty string)] for a Char field. *)
Definition str_or_empty (v : val) : string :=
  match v with
  | VStr s => s
  | _ => EmptyString
  end.

(** Python's decimal rendering of an integer, as used in f-strings. *)
Definition Z_to_string (z : Z) : string :=
  NilZero.string_of_int (Z.to_int z).

(** ** The string methods the code calls *)

(** The whitespace of Python's [str.isspace()], which [str.strip()] removes
    and the regular expression [\s] matches, in the UTF-8 bytes of the
    model's strings: the ASCII characters 9-13 and 28-32, the two-byte
    U+0085 and U+00A0, and the three-byte U+1680, U+2000-U+200A, U+2028,
    U+2029, U+202F, U+205F and U+3000. *)
Definition is_py_space (c : ascii) : bool :=
  match nat_of_ascii c with
  | 32 | 9 | 10 | 11 | 12 | 13 | 28 | 29 | 30 | 31 => true
  | _ => false
  end.

Definition is_space2 (c d : ascii) : bool :=
  (nat_of_ascii c =? 194)%nat && ((nat_of_ascii d =? 133)%nat || (nat_of_ascii d =? 160)%nat).

Definition is_space3 (c d e : ascii) : bool :=
  let a := nat_of_ascii c in let b := nat_of_ascii d in let x := nat_of_ascii e in
  (((a =? 225) && (b =? 154) && (x =? 128))
   || ((a =? 226) && (b =? 128) && (((128 <=? x) && (x <=? 138)) || (x =? 168) || (x =? 169) || (x =? 175)))
   || ((a =? 226) && (b =? 129) && (x =? 159))
   || ((a =? 227) && (b =? 128) && (x =? 128)))%nat.

(** [s] starts with a whitespace character. *)
Definition starts_space (s : string) : bool :=
  match s with
  | String c s1 =>
      is_py_space c ||
      match s1 with
      | String d s2 => is_space2 c d || match s2 with String e _ => is_space3 c d e | EmptyString => false end
      | EmptyString => false
      end
  | EmptyString => false
  end.

(** [s.lstrip()]: the whitespace characters at the start dropped. *)
Fixpoint lstrip (s : string) : string :=
  match s with
  | EmptyString => EmptyString
  | String c s1 =>
      if is_py_space c then lstrip s1 else
      match s1 with
      | String d s2 =>
          if is_space2 c d then lstrip s2 else
          match s2 with
          | String e s3 => if is_space3 c d e then lstrip s3 else s
          | EmptyString => s
          end
      | EmptyString => s
      end
  end.

(** [lstrip] on the reversed bytes of a string: a character is read from
    its last byte. *)
Fixpoint lstrip_rev (s : string) : string :=
  match s with
  | EmptyString => EmptyString
  | String e s1 =>
      if is_py_space e then lstrip_rev s1 else
      match s1 with
      | String d s2 =>
          if is_space2 d e then lstrip_rev s2 else
          match s2 with
          | String c s3 => if is_space3 c d e then lstrip_rev s3 else s
          | EmptyString => s
          end
      | EmptyString => s
      end
  end.

Definition string_rev (s : string) : string :=
  string_of_list_ascii (List.rev (list_ascii_of_string s)).

(** [s.rstrip()] *)
Definition rstrip (s : string) : string := string_rev (lstrip_rev (string_rev s)).

(** [s.strip()] *)
Definition strip (s : string) : string := rstrip (lstrip s).

Definition ascii_lower (c : ascii) : ascii :=
  let n := nat_of_ascii c in
  if (65 <=? n)%nat && (n <=? 90)%nat then ascii_of_nat (n + 32) else c.

(** [s.lower()] *)
Fixpoint lower (s : string) : string :=
  match s with
  | EmptyString => EmptyString
  | String c s' => String (ascii_lower c) (lower s')
  end.

(** [s.startswith(p)] *)
Fixpoint startswith (p s : string) : bool :=
  match p, s with
  | EmptyString, _ => true
  | String a p', String b s' => Ascii.eqb a b && startswith p' s'
  | String _ _, EmptyString => false
  end.

(** [x in (a, b, ...)] on strings. *)
Definition str_in (x : string) (l : list string) : bool :=
  existsb (String.eqb x) l.

(** [", ".join(l)] and ["\n".join(l)]. *)
Fixpoint join (sep : string) (l : list string) : string :=
  match l with
  | [] => EmptyString
  | [x] => x
  | x :: l' => x ++ sep ++ join sep l'
  end.

(** ** Exceptions *)

(** The exceptions the modelled code raises or lets through. *)
Inductive exc : Type :=
| ValidationError (msg : string)          (** [odoo.exceptions.ValidationError] *)
| HTTPError (status : Z) (reason url text : string)
                                          (** [raise_for_status()]: the status, reason, URL and text of the response *)
| RequestException (msg : string)         (** connection error or timeout of [requests] *)
| JSONDecodeError                         (** [resp.json()] / [json.loads] on a non-JSON text *)
| AttributeError (msg : string)           (** [.get] on a JSON value that is not an object *)
| KeyError (key : string)                 (** [d["k"]] on a missing key *)
| IndexError                              (** [l[0]] on an empty list *)
| MissingError                            (** a field read on a browsed record that does not exist *)
| BinasciiError (msg : string)            (** [base64.b64decode] on malformed data *)
| ValueError (msg : string)               (** [datetime.date] out of its range *)
| OverflowError (msg : string)            (** [date + timedelta] out of range *)
| TypeError (msg : string)                (** an operator applied to values it does not support *)
| UnboundLocalError (name : string).      (** a local variable read before its first assignment *)

(** [str(e)] *)
Definition exc_str (e : exc) : string :=
  match e with
  | ValidationError m => m
  | HTTPError st reason url _ =>
      Z_to_string st ++ (if (st <? 500)%Z then " Client Error: " else " Server Error: ")
        ++ reason ++ " for url: " ++ url
  | RequestException m => m
  | JSONDecodeError => "Expecting value: line 1 column 1 (char 0)"
  | AttributeError m => m
  | KeyError k => "'" ++ k ++ "'"
  | IndexError => "list index out of range"
  | MissingError => "Record does not exist or has been deleted."
  | BinasciiError m => m
  | ValueError m => m
  | OverflowError m => m
  | TypeError m => m
  | UnboundLocalError x => "cannot access local variable '" ++ x ++ "' where it is not associated with a value"
  end.

(** ** The state and exception monad *)

(** The outcome of a Python computation: a returned value or a raised
    exception. *)
Inductive outcome (A : Type) : Type :=
| Ret (a : A)
| Raise (e : exc).
Arguments Ret {A} a.
Arguments Raise {A} e.

(** A computation on a state [S]: the state survives an exception, as the
    in-memory record does in Python. *)
Definition PyM (S A : Type) : Type := S -> outcome A * S.

Definition ret {S A} (a : A) : PyM S A := fun s => (Ret a, s).

Definition bind {S A B} (m : PyM S A) (k : A -> PyM S B) : PyM S B :=
  fun s => match m s with
           | (Ret a, s') => k a s'
           | (Raise e, s') => (Raise e, s')
           end.

Definition raise {S A} (e : exc) : PyM S A := fun s => (Raise e, s).

(** A pure operation that may raise ([float(x)], [a - b], ...), as a
    computation. *)
Definition of_outcome {S A} (o : outcome A) : PyM S A :=
  match o with Ret a => ret a | Raise e => raise e end.

Definition get {S} : PyM S S := fun s => (Ret s, s).

Definition modify {S} (f : S -> S) : PyM S unit := fun s => (Ret tt, f s).

(** [try: m except Exception as e: h(e)] *)
Definition try_except {S A} (m : PyM S A) (h : exc -> PyM S A) : PyM S A :=
  fun s => match m s with
           | (Raise e, s') => h e s'
           | r => r
           end.

(** Odoo's transaction around a request or a scheduled job: its writes
    are rolled back when it raises. *)
Definition transaction {S A} (m : PyM S A) : PyM S A :=
  fun s => match m s with
           | (Ret a, s') => (Ret a, s')
           | (Raise e, _) => (Raise e, s)
           end.

(** Lift a computation on a component of the state (one record of a
    recordset, for instance). *)
Definition focus {S T A} (read : S -> T) (write : T -> S -> S) (m : PyM T A) : PyM S A :=
  fun s => let '(o, t) := m (read s) in (o, write t s).

Notation "x <- m ;; k" := (bind m (fun x => k))
  (at level 100, m at next level, right associativity) : py_scope.
Notation "m ;; k" := (bind m (fun _ => k))
  (at level 100, right associativity) : py_scope.
Open Scope py_scope.

(** ** Statements with early [return]

    A block of Python statements either falls through ([None]) or executes a
    [return] ([Some r]); [s1 ;;; s2] runs [s2] only when [s1] fell through. *)

Definition stmt (S R : Type) : Type := PyM S (option R).

Definition skip {S R} : stmt S R := ret None.
Definition return_ {S R} (r : R) : stmt S R := ret (Some r).

Definition seq {S R} (s1 s2 : stmt S R) : stmt S R :=
  bind s1 (fun o => match o with Some r => ret (Some r) | None => s2 end).

(** [if c: s] *)
Definition when {S R} (c : bool) (s : stmt S R) : stmt S R := if c then s else skip.

(** Run a statement as a computation: [s1] then a side effect [m] that does
    not return. *)
Definition exec {S R} (m : PyM S unit) : stmt S R := bind m (fun _ => skip).

Notation "s1 ;;; s2" := (seq s1 s2) (at level 100, right associativity) : py_scope.

(** ** Monad laws and the rewriting lemmas of [pyrun]

    The laws hold pointwise (at every start state), which is how the proofs
    use them; no functional extensionality is needed. *)

Section MonadLaws.
Context {S : Type}.

Lemma bind_ret_l {A B} (a : A) (k : A -> PyM S B) s : bind (ret a) k s = k a s.
Proof. reflexivity. Qed.

Lemma bind_ret_r {A} (m : PyM S A) s : bind m ret s = m s.
Proof. unfold bind, ret. by destruct (m s) as [[a|e] s']. Qed.

Lemma bind_assoc {A B C} (m : PyM S A) (f : A -> PyM S B) (g : B -> PyM S C) s :
  bind (bind m f) g s = bind m (fun a => bind (f a) g) s.
Proof. unfold bind. by destruct (m s) as [[a|e] s']. Qed.

Lemma bind_run_ret {A B} (m : PyM S A) (k : A -> PyM S B) s a s' :
  m s = (Ret a, s') -> bind m k s = k a s'.
Proof. unfold bind. by intros ->. Qed.

Lemma bind_run_raise {A B} (m : PyM S A) (k : A -> PyM S B) s e s' :
  m s = (Raise e, s') -> bind m k s = (Raise e, s').
Proof. unfold bind. by intros ->. Qed.

Lemma seq_fall {R} (s1 s2 : stmt S R) s s' :
  s1 s = (Ret None, s') -> seq s1 s2 s = s2 s'.
Proof. unfold seq, bind. by intros ->. Qed.

Lemma seq_return {R} (s1 s2 : stmt S R) s r s' :
  s1 s = (Ret (Some r), s') -> seq s1 s2 s = (Ret (Some r), s').
Proof. unfold seq, bind. by intros ->. Qed.

Lemma seq_raise {R} (s1 s2 : stmt S R) s e s' :
  s1 s = (Raise e, s') -> seq s1 s2 s = (Raise e, s').
Proof. unfold seq, bind. by intros ->. Qed.

Lemma try_except_ok {A} (m : PyM S A) h s a s' :
  m s = (Ret a, s') -> try_except m h s = (Ret a, s').
Proof. unfold try_except. by intros ->. Qed.

Lemma try_except_raise {A} (m : PyM S A) h s e s' :
  m s = (Raise e, s') -> try_except m h s = h e s'.
Proof. unfold try_except. by intros ->. Qed.
End MonadLaws.

#[export] Hint Rewrite @bind_ret_l @bind_ret_r @bind_assoc : pyrun.

(** ** Computations that do not touch the state

    Parsing a response body, computing a message: most of what happens
    between two writes neither reads nor changes the record. *)

Definition stateless {S A} (m : PyM S A) : Prop := exists o, forall s, m s = (o, s).

Section Stateless.
Context {S : Type}.

Lemma stateless_ret {A} (a : A) : stateless (S := S) (ret a).
Proof. by exists (Ret a). Qed.

Lemma stateless_raise {A} e : stateless (S := S) (A := A) (raise e).
Proof. by exists (Raise e). Qed.

Lemma stateless_of_outcome {A} (o : outcome A) : stateless (S := S) (of_outcome o).
Proof. destruct o; by eexists. Qed.

Lemma stateless_bind {A B} (m : PyM S A) (k : A -> PyM S B) :
  stateless m -> (forall a, stateless (k a)) -> stateless (bind m k).
Proof.
  intros [o Hm] Hk. destruct o as [a|e].
  - destruct (Hk a) as [o' Ho']. exists o'. intros s. unfold bind. by rewrite Hm, Ho'.
  - exists (Raise e). intros s. unfold bind. by rewrite Hm.
Qed.

Lemma stateless_try_except {A} (m : PyM S A) h :
  stateless m -> (forall e, stateless (h e)) -> stateless (try_except m h).
Proof.
  intros [o Hm] Hh. destruct o as [a|e].
  - exists (Ret a). intros s. unfold try_except. by rewrite Hm.
  - destruct (Hh e) as [o' Ho']. exists o'. intros s. unfold try_except. by rewrite Hm, Ho'.
Qed.
End Stateless.

#[export] Hint Resolve stateless_ret stateless_raise stateless_of_outcome : py.

(** Close [stateless m] for [m] built from [ret], [raise], [bind],
    [try_except] and case analyses on values. *)
Ltac solve_stateless :=
  repeat first
    [ solve [eauto with py_stateless]
    | apply stateless_ret
    | apply stateless_raise
    | apply stateless_of_outcome
    | apply stateless_bind; intros
    | apply stateless_try_except; intros
    | match goal with |- stateless (match ?x with _ => _ end) => destruct x end
    | match goal with |- stateless (if ?x then _ else _) => destruct x end ].

(** Unfold the monad's plumbing on a concrete computation. *)
Ltac py_unfold :=
  cbv beta iota delta [bind ret raise of_outcome get modify try_except seq skip return_ when exec focus].

(** Turn the integer comparisons of the hypotheses into propositions for [lia]. *)
Ltac zbool :=
  repeat match goal with
  | H : (_ =? _)%Z = true |- _ => apply Z.eqb_eq in H
  | H : (_ =? _)%Z = false |- _ => apply Z.eqb_neq in H
  | H : (_ <? _)%Z = true |- _ => apply Z.ltb_lt in H
  | H : (_ <? _)%Z = false |- _ => apply Z.ltb_ge in H
  | H : (_ <=? _)%Z = true |- _ => apply Z.leb_le in H
  | H : (_ <=? _)%Z = false |- _ => apply Z.leb_gt in H
  end.

(** ** Facts about the string functions *)

Lemma truthy_VStr s : truthy (VStr s) = true <-> s <> EmptyString.
Proof.
  simpl. destruct (String.eqb_spec s EmptyString); simpl; split; congruence.
Qed.

Lemma str_in_spec x l : str_in x l = true <-> In x l.
Proof.
  unfold str_in. rewrite existsb_exists. split.
  - intros (y & Hy & E). apply String.eqb_eq in E. by subst.
  - intros H. exists x. split; [done | apply String.eqb_refl].
Qed.

#[export] Hint Resolve String.eqb_refl : py.

(** ** Boolean list tests *)

Lemma existsb_map_eq {A B} (f : A -> B) (p : B -> bool) l :
  existsb p (map f l) = existsb (fun x => p (f x)) l.
Proof. induction l as [|x l IH]; simpl; [done|]. by rewrite IH. Qed.

Lemma forallb_map_eq {A B} (f : A -> B) (p : B -> bool) l :
  forallb p (map f l) = forallb (fun x => p (f x)) l.
Proof. induction l as [|x l IH]; simpl; [done|]. by rewrite IH. Qed.

Lemma existsb_ext_eq {A} (p q : A -> bool) l :
  (forall x, p x = q x) -> existsb p l = existsb q l.
Proof. intros H. induction l as [|x l IH]; simpl; [done|]. by rewrite H, IH. Qed.

Lemma forallb_ext_eq {A} (p q : A -> bool) l :
  (forall x, p x = q x) -> forallb p l = forallb q l.
Proof. intros H. induction l as [|x l IH]; simpl; [done|]. by rewrite H, IH. Qed.

(** ** [strip] on a text framed by non-blank characters *)

Lemma list_ascii_of_string_append s t :
  list_ascii_of_string (s ++ t) = (list_ascii_of_string s ++ list_ascii_of_string t)%list.
Proof. induction s as [|c s IH]; [done|]. exact (f_equal (cons c) IH). Qed.

Lemma string_of_list_ascii_app l1 l2 :
  string_of_list_ascii (l1 ++ l2)%list = (string_of_list_ascii l1 ++ string_of_list_ascii l2)%string.
Proof. induction l1 as [|c l1 IH]; [done|]. exact (f_equal (String c) IH). Qed.

Lemma string_app_assoc s t u : ((s ++ t) ++ u)%string = (s ++ (t ++ u))%string.
Proof. induction s as [|c s IH]; [done|]. exact (f_equal (String c) IH). Qed.

Lemma string_rev_cons c s : string_rev (String c s) = (string_rev s ++ String c EmptyString)%string.
Proof. unfold string_rev. cbn [list_ascii_of_string List.rev]. by rewrite string_of_list_ascii_app. Qed.

Lemma string_rev_snoc s d : string_rev (s ++ String d EmptyString) = String d (string_rev s).
Proof.
  unfold string_rev. rewrite list_ascii_of_string_append. cbn [list_ascii_of_string].
  by rewrite rev_app_distr.
Qed.

Lemma string_rev_involutive s : string_rev (string_rev s) = s.
Proof.
  unfold string_rev. rewrite list_ascii_of_string_of_list_ascii, rev_involutive.
  apply string_of_list_ascii_of_string.
Qed.

(** An ASCII character that is not blank stops [lstrip], read from
    either end. *)
Lemma lstrip_nonspace c s : is_py_space c = false -> (nat_of_ascii c < 128)%nat ->
  lstrip (String c s) = String c s.
Proof.
  intros H Hc. cbn [lstrip]. rewrite H.
  assert (Hn : forall k, (128 <= k)%nat -> (nat_of_ascii c =? k)%nat = false) by (intros; apply Nat.eqb_neq; lia).
  destruct s as [|d [|e s]]; [done| |]; unfold is_space2, is_space3; rewrite !Hn by lia; done.
Qed.

Lemma lstrip_rev_nonspace d s : is_py_space d = false -> (nat_of_ascii d < 128)%nat ->
  lstrip_rev (String d s) = String d s.
Proof.
  intros H Hd. cbn [lstrip_rev]. rewrite H.
  assert (Hn : forall k, (128 <= k)%nat -> (nat_of_ascii d =? k)%nat = false) by (intros; apply Nat.eqb_neq; lia).
  assert (Hl : (128 <=? nat_of_ascii d)%nat = false) by (apply Nat.leb_gt; lia).
  destruct s as [|b [|a s]]; [done| |]; unfold is_space2, is_space3; rewrite ?Hn, ?Hl by lia;
    rewrite ?andb_false_r; done.
Qed.

(** A text that starts and ends with a non-blank ASCII character is its
    own [strip()]. *)
Lemma strip_framed c s d : is_py_space c = false -> is_py_space d = false ->
  (nat_of_ascii c < 128)%nat -> (nat_of_ascii d < 128)%nat ->
  strip (String c (s ++ String d EmptyString)) = String c (s ++ String d EmptyString).
Proof.
  intros Hc Hd Hc' Hd'. unfold strip, rstrip. rewrite lstrip_nonspace by done.
  rewrite string_rev_cons, string_rev_snoc.
  change (String d (string_rev s) ++ String c EmptyString)%string
    with (String d (string_rev s ++ String c EmptyString)).
  rewrite lstrip_rev_nonspace, string_rev_cons, <- (string_rev_cons c s), string_rev_involutive by done.
  reflexivity.
Qed.

(** ** Decimal renderings and keys built from them *)

Lemma string_app_inv_head p a b : (p ++ a)%string = (p ++ b)%string -> a = b.
Proof. induction p as [|c p IH]; [done|]. intros E. injection E. apply IH. Qed.

(** [str(n)] determines [n]. *)
Lemma Z_to_string_inj a b : Z_to_string a = Z_to_string b -> a = b.
Proof.
  assert (Hn : forall z, Z.to_int z <> Decimal.Pos Decimal.Nil /\ Z.to_int z <> Decimal.Neg Decimal.Nil).
  { intros z. split; intros Hz; destruct (Z.eq_dec z 0%Z) as [->|Hz0]; try discriminate;
      apply Hz0; rewrite <- (DecimalZ.of_to z), Hz; reflexivity. }
  unfold Z_to_string. intros E. destruct (Hn a), (Hn b).
  apply (f_equal NilZero.int_of_string) in E. rewrite !NilZero.isi in E by assumption.
  injection E as E. rewrite <- (DecimalZ.of_to a), <- (DecimalZ.of_to b), E. reflexivity.
Qed.

Lemma string_of_uint_no_dot d : ~ In "."%char (list_ascii_of_string (NilEmpty.string_of_uint d)).
Proof. induction d; simpl; intuition discriminate. Qed.

(** The decimal rendering of an integer has no dot. *)
Lemma Z_to_string_no_dot z : ~ In "."%char (list_ascii_of_string (Z_to_string z)).
Proof.
  unfold Z_to_string, NilZero.string_of_int, NilZero.string_of_uint.
  destruct (Z.to_int z) as [d|d]; destruct d; simpl; intuition (try discriminate);
    eapply string_of_uint_no_dot; eassumption.
Qed.

(** A text split at its first dot. *)
Lemma split_first_dot a b c d :
  ~ In "."%char (list_ascii_of_string a) -> ~ In "."%char (list_ascii_of_string c) ->
  (a ++ String "." b)%string = (c ++ String "." d)%string -> a = c /\ b = d.
Proof.
  revert c. induction a as [|x a IH]; intros [|y c] Ha Hc E; simpl in *.
  - by injection E.
  - injection E as <- _. tauto.
  - injection E as -> _. tauto.
  - injection E as <- E. destruct (IH c) as [-> ->]; tauto.
Qed.
