(* ===== verification/PyFloat.v ===== *)
(** * Python's [float]: IEEE 754 binary64

    The JSON bodies the platforms answer may hold numbers with a fraction
    or an exponent, which [json.loads] turns into [float]s; [float()] reads
    the duration ffprobe prints; [int - float] and [int > float] mix them
    with integers.  A float is a binary64 value: a sign, a significand [m]
    and an exponent [e] (the value [m * 2^e]), an infinity or a NaN.  The
    conversions round to nearest, ties to even, as CPython's
    [_Py_dg_strtod] does; [float_repr] is CPython's [repr] ([float_repr_style
    'short']): the shortest decimal that reads back as the same float,
    printed in fixed notation when its decimal point falls within
    [-4 < decpt <= 16] and in exponent notation otherwise.  All of it is
    computed on [Z], so that [vm_compute] evaluates it. *)

From Stdlib Require Import String Ascii ZArith List Bool Lia.
From S2P Require Import Prelude.
Import ListNotations.

Local Open Scope string_scope.
Local Open Scope Z_scope.

Inductive pyfloat : Type :=
| Finite (neg : bool) (m e : Z)   (** [(-1)^neg * m * 2^e] *)
| Inf (neg : bool)
| NaN.

(** A finite float is [m * 2^e] with [m < 2^53]; [m >= 2^52] unless [e]
    is the least exponent [-1074] (the subnormals and zero). *)
Definition emin : Z := -1074.
Definition emax : Z := 971.

Definition fzero (neg : bool) : pyfloat := Finite neg 0 emin.

(** ** Rounding a positive ratio [n / d] to binary64 *)

(** [2^a <= n / d] *)
Definition pow2_le (n d a : Z) : bool :=
  if a <? 0 then d <=? n * 2 ^ (- a) else d * 2 ^ a <=? n.

(** [n / (d * 2^e)]: its integer part, and how the rest compares with one
    half. *)
Definition scaled (n d e : Z) : Z * comparison :=
  let '(num, den) := if e <? 0 then (n * 2 ^ (- e), d) else (n, d * 2 ^ e) in
  (num / den, Z.compare (2 * (num mod den)) den).

(** The significand and exponent of the nearest binary64 (ties to even),
    or [None] when it overflows. *)
Definition round_pos (n d : Z) : option (Z * Z) :=
  let a := Z.log2 n - Z.log2 d in
  let l := if pow2_le n d a then a else a - 1 in
  let e := Z.max emin (l - 52) in
  let '(q, c) := scaled n d e in
  let m := match c with
           | Gt => q + 1
           | Eq => if Z.odd q then q + 1 else q
           | Lt => q
           end in
  let '(m, e) := if m =? 2 ^ 53 then (2 ^ 52, e + 1) else (m, e) in
  if emax <? e then None else Some (m, e).

(** [(-1)^neg * n / d] rounded. *)
Definition float_of_ratio (neg : bool) (n d : Z) : pyfloat :=
  if n =? 0 then fzero neg
  else match round_pos n d with
       | Some (m, e) => Finite neg m e
       | None => Inf neg
       end.

(** The number of decimal digits of [n > 0]. *)
Fixpoint ndigits_fuel (fuel : nat) (n : Z) : Z :=
  match fuel with
  | O => 1
  | S f => if n <? 10 then 1 else 1 + ndigits_fuel f (n / 10)
  end.

Definition ndigits (n : Z) : Z := ndigits_fuel (Z.to_nat (Z.log2 n + 1)) n.

(** [(-1)^neg * c * 10^p] rounded: beyond [10^309] every value overflows,
    below [10^-324] every value rounds to zero. *)
Definition float_of_decimal (neg : bool) (c p : Z) : pyfloat :=
  if c =? 0 then fzero neg
  else if 309 <=? p then Inf neg
  else if p + ndigits c <=? -324 then fzero neg
  else if 0 <=? p then float_of_ratio neg (c * 10 ^ p) 1
  else float_of_ratio neg c (10 ^ (- p)).

(** [float(z)]: [OverflowError] when [z] is beyond the largest float. *)
Definition float_of_int (z : Z) : outcome pyfloat :=
  match float_of_ratio (z <? 0) (Z.abs z) 1 with
  | Inf _ => Raise (OverflowError "int too large to convert to float")
  | f => Ret f
  end.

(** ** CPython's [repr] *)

(** [10^a <= n / d] *)
Definition pow10_le (n d a : Z) : bool :=
  if a <? 0 then d <=? n * 10 ^ (- a) else d * 10 ^ a <=? n.

(** The decimal point of [n / d > 0]: [10^(decpt-1) <= n / d < 10^decpt]. *)
Definition decpt_of (n d : Z) : Z :=
  let a := ndigits n - ndigits d in
  (if pow10_le n d a then a else a - 1) + 1.

(** The [k]-digit decimals on each side of [n / d], with the rest of the
    lower one against one half: [c * 10^(decpt - k)]. *)
Definition digits_at (n d decpt k : Z) : Z * Z * comparison :=
  let s := k - decpt in
  let '(num, den) := if s <? 0 then (n, d * 10 ^ (- s)) else (n * 10 ^ s, d) in
  let q := num / den in
  (q, q + 1, if num mod den =? 0 then Lt else Z.compare (2 * (num mod den)) den).

(** The shortest [c * 10^p] that reads back as [Finite false m e]: the
    first [k] with a [k]-digit neighbour that rounds back; of two such, the
    nearer one. *)
Fixpoint shortest_from (fuel : nat) (k : Z) (m e n d decpt : Z) : Z * Z :=
  let '(lo, hi, c) := digits_at n d decpt k in
  let back x := match float_of_decimal false x (decpt - k) with
                | Finite _ m' e' => (m' =? m) && (e' =? e)
                | _ => false
                end in
  match fuel with
  | O => (if match c with Gt => true | Eq => Z.odd lo | Lt => false end then hi else lo, decpt - k)
  | S f =>
      match back lo, back hi with
      | true, true =>
          ((match c with Gt => hi | Eq => if Z.odd lo then hi else lo | Lt => lo end), decpt - k)
      | true, false => (lo, decpt - k)
      | false, true => (hi, decpt - k)
      | false, false => shortest_from f (k + 1) m e n d decpt
      end
  end.

(** Trailing zeros of the digits go to the exponent. *)
Fixpoint strip_zeros (fuel : nat) (c p : Z) : Z * Z :=
  match fuel with
  | O => (c, p)
  | S f => if (c mod 10 =? 0) && negb (c =? 0) then strip_zeros f (c / 10) (p + 1) else (c, p)
  end.

Fixpoint zeros (n : nat) : string :=
  match n with O => EmptyString | S n' => String "0" (zeros n') end.

(** The exponent of the exponent notation: a sign and at least two digits. *)
Definition exp_str (x : Z) : string :=
  (if x <? 0 then "-" else "+") ++ (if Z.abs x <? 10 then "0" else "") ++ Z_to_string (Z.abs x).

(** [repr] of [c * 10^p] with [c > 0]. *)
Definition format_decimal (c p : Z) : string :=
  let D := Z_to_string c in
  let L := Z.of_nat (String.length D) in
  let decpt := L + p in
  if (-4 <? decpt) && (decpt <=? 16) then
    if decpt <=? 0 then "0." ++ zeros (Z.to_nat (- decpt)) ++ D
    else if L <=? decpt then D ++ zeros (Z.to_nat (decpt - L)) ++ ".0"
    else substring 0 (Z.to_nat decpt) D ++ "." ++ substring (Z.to_nat decpt) (String.length D) D
  else
    substring 0 1 D ++ (if L =? 1 then "" else "." ++ substring 1 (String.length D) D)
      ++ "e" ++ exp_str (decpt - 1).

(** [repr(x)] *)
Definition float_repr (x : pyfloat) : string :=
  match x with
  | NaN => "nan"
  | Inf neg => if neg then "-inf" else "inf"
  | Finite neg m e =>
      (if neg then "-" else "") ++
      (if m =? 0 then "0.0"
       else let n := m * 2 ^ Z.max e 0 in
            let d := 2 ^ Z.max (- e) 0 in
            let decpt := decpt_of n d in
            let '(c, p) := shortest_from 17 1 m e n d decpt in
            let '(c, p) := strip_zeros 20 c p in
            format_decimal c p)
  end.

(** [json.dumps] of a float: its [repr], and [NaN], [Infinity],
    [-Infinity] for the others. *)
Definition float_json (x : pyfloat) : string :=
  match x with
  | NaN => "NaN"
  | Inf neg => if neg then "-Infinity" else "Infinity"
  | _ => float_repr x
  end.

(** ** Arithmetic and comparisons *)

(** A finite float as an integer number of [2^emin]. *)
Definition units (neg : bool) (m e : Z) : Z := (if neg then -1 else 1) * m * 2 ^ (e - emin).

(** [x + y], rounded to nearest. *)
Definition float_add (x y : pyfloat) : pyfloat :=
  match x, y with
  | NaN, _ | _, NaN => NaN
  | Inf a, Inf b => if Bool.eqb a b then Inf a else NaN
  | Inf a, _ | _, Inf a => Inf a
  | Finite a mx ex, Finite b my ey =>
      let s := units a mx ex + units b my ey in
      if s =? 0 then fzero (a && b && (mx =? 0) && (my =? 0))
      else float_of_ratio (s <? 0) (Z.abs s) (2 ^ (- emin))
  end.

Definition float_neg (x : pyfloat) : pyfloat :=
  match x with
  | NaN => NaN
  | Inf a => Inf (negb a)
  | Finite a m e => Finite (negb a) m e
  end.

(** [float(x) != 0], [bool(x)] *)
Definition float_truthy (x : pyfloat) : bool :=
  match x with Finite _ m _ => negb (m =? 0) | _ => true end.

(** Python compares an int with a float exactly: [Some c] is [x ? z],
    [None] when [x] is NaN. *)
Definition float_cmp_int (x : pyfloat) (z : Z) : option comparison :=
  match x with
  | NaN => None
  | Inf neg => Some (if neg then Lt else Gt)
  | Finite neg m e => Some (Z.compare (units neg m e) (z * 2 ^ (- emin)))
  end.

(** [int(x)]: toward zero. *)
Definition float_trunc (x : pyfloat) : outcome Z :=
  match x with
  | NaN => Raise (ValueError "cannot convert float NaN to integer")
  | Inf _ => Raise (OverflowError "cannot convert float infinity to integer")
  | Finite neg m e =>
      let a := if e <? 0 then m / 2 ^ (- e) else m * 2 ^ e in
      Ret (if neg then - a else a)
  end.

(** ** [float(s)] of a string *)

Definition digit_of (c : ascii) : option Z :=
  let n := nat_of_ascii c in
  if (48 <=? n)%nat && (n <=? 57)%nat then Some (Z.of_nat (n - 48)) else None.

(** The digits at the start of [s], with single underscores between two
    digits ([1_000]): their value, their number and the rest. *)
Fixpoint scan_digits (acc n : Z) (s : string) : Z * Z * string :=
  match s with
  | String c r =>
      match digit_of c with
      | Some d => scan_digits (10 * acc + d) (n + 1) r
      | None =>
          if (nat_of_ascii c =? 95)%nat && (0 <? n) then
            match r with
            | String c2 r2 =>
                match digit_of c2 with
                | Some d => scan_digits (10 * acc + d) (n + 1) r2
                | None => (acc, n, s)
                end
            | EmptyString => (acc, n, s)
            end
          else (acc, n, s)
      end
  | EmptyString => (acc, n, EmptyString)
  end.

(** [[eE][+-]?digits] at the start of [s], if any: the exponent and the rest. *)
Definition scan_exponent (s : string) : option (Z * string) :=
  match s with
  | String c r =>
      if (nat_of_ascii c =? 101)%nat || (nat_of_ascii c =? 69)%nat then
        let '(neg, r) := match r with
                         | String "-" r' => (true, r')
                         | String "+" r' => (false, r')
                         | _ => (false, r)
                         end in
        let '(v, n, r) := scan_digits 0 0 r in
        if n =? 0 then None else Some (if neg then - v else v, r)
      else None
  | EmptyString => None
  end.

(** The unsigned decimal [digits[.digits][e[+-]digits]] that makes all of
    [s], with a digit before or after the point. *)
Definition decimal_of_string (neg : bool) (s : string) : option pyfloat :=
  let '(ip, ni, r) := scan_digits 0 0 s in
  let '(fp, nf, r) := match r with
                      | String "." r' => scan_digits 0 0 r'
                      | _ => (0, 0, r)
                      end in
  let '(x, r) := match scan_exponent r with Some (x, r') => (x, r') | None => (0, r) end in
  match r with
  | EmptyString => if ni + nf =? 0 then None else Some (float_of_decimal neg (ip * 10 ^ nf + fp) (x - nf))
  | _ => None
  end.

(** [float(s)]: white space around, a sign, then [inf], [infinity], [nan]
    in any case or a decimal; [None] is the [ValueError]. *)
Definition float_of_string (s : string) : option pyfloat :=
  let t := strip s in
  let '(neg, u) := match t with
                   | String "-" r => (true, r)
                   | String "+" r => (false, r)
                   | _ => (false, t)
                   end in
  let w := lower u in
  if String.eqb w "inf" || String.eqb w "infinity" then Some (Inf neg)
  else if String.eqb w "nan" then Some NaN
  else decimal_of_string neg u.

(** ** Checks against CPython *)

Example float_repr_examples :
  [float_repr (float_of_decimal false 1 (-1)); float_repr (float_of_decimal false 1 16);
   float_repr (float_of_decimal false 1 15); float_repr (float_of_decimal false 1 (-5));
   float_repr (float_of_decimal false 123456789012345678 0); float_repr (float_of_decimal false 3 (-324));
   float_repr (float_of_decimal false 9007199254740993 0);
   float_repr (float_add (float_of_decimal false 1 (-1)) (float_of_decimal false 2 (-1)))]
  = ["0.1"; "1e+16"; "1000000000000000.0"; "1e-05"; "1.2345678901234568e+17"; "5e-324";
     "9007199254740992.0"; "0.30000000000000004"].
Proof. vm_compute. reflexivity. Qed.

Example float_of_string_examples :
  map (option_map float_repr)
    [float_of_string " 12.345000 "; float_of_string "1e3"; float_of_string ".5"; float_of_string "-Infinity";
     float_of_string "1_0.2_5"; float_of_string "1__0"; float_of_string "1e"; float_of_string "."]
  = [Some "12.345"; Some "1000.0"; Some "0.5"; Some "-inf"; Some "10.25"; None; None; None].
Proof. vm_compute. reflexivity. Qed.

Lemma append_nonempty_r a b : b <> EmptyString -> (a ++ b)%string <> EmptyString.
Proof. intros H. destruct a; [exact H | discriminate]. Qed.

Lemma format_decimal_nonempty c p : format_decimal c p <> EmptyString.
Proof.
  unfold format_decimal.
  repeat match goal with |- context [if ?b then _ else _] => destruct b end;
    repeat first [discriminate | apply append_nonempty_r].
Qed.

(** [str(x)] of a float is never empty. *)
Lemma float_repr_nonempty x : float_repr x <> EmptyString.
Proof.
  destruct x as [[] m e|[]|]; cbn [float_repr]; try discriminate.
  destruct (m =? 0); [discriminate|].
  cbn -[format_decimal].
  repeat match goal with |- context [let '(_, _) := ?p in _] => destruct p end.
  apply format_decimal_nonempty.
Qed.
