(* ===== verification/Base64.v ===== *)
(** * [base64.b64decode]

    The code decodes base64 in three places: the attachment data sent to S3
    ([upload_files_to_s3]), the cover image sent as a Facebook thumbnail and
    the one sent to LinkedIn.  A failure raises [binascii.Error].  This is
    CPython's non-strict [binascii.a2b_base64]: characters outside the
    alphabet are skipped, a padding [=] ends the data once the quantum is
    complete, and a final incomplete quantum is an error. *)

From Stdlib Require Import String Ascii ZArith List Bool.
From S2P Require Import Prelude.
Import ListNotations.

Open Scope string_scope.

(** The value of a character of the base64 alphabet. *)
Definition b64_value (c : ascii) : option nat :=
  let n := nat_of_ascii c in
  if (65 <=? n)%nat && (n <=? 90)%nat then Some (n - 65)
  else if (97 <=? n)%nat && (n <=? 122)%nat then Some (n - 71)
  else if (48 <=? n)%nat && (n <=? 57)%nat then Some (n + 4)
  else if (n =? 43)%nat then Some 62
  else if (n =? 47)%nat then Some 63
  else None.

(** The decoder's state: position in the quantum, pending bits, padding
    characters seen, and the bytes produced (reversed). *)
Record b64_state : Type := B64 { quad_pos : nat; leftchar : nat; pads : nat; out_rev : list ascii }.

Definition b64_data (st : b64_state) (v : nat) : b64_state :=
  match quad_pos st with
  | 0 => B64 1 v 0 (out_rev st)
  | 1 => B64 2 (v mod 16) 0 (ascii_of_nat (leftchar st * 4 + v / 16) :: out_rev st)
  | 2 => B64 3 (v mod 4) 0 (ascii_of_nat ((leftchar st mod 16) * 16 + v / 4) :: out_rev st)
  | _ => B64 0 0 0 (ascii_of_nat ((leftchar st mod 4) * 64 + v) :: out_rev st)
  end.

(** The loop of [a2b_base64]; [inl] is the state at a terminating pad. *)
Fixpoint b64_loop (st : b64_state) (s : string) : b64_state + b64_state :=
  match s with
  | EmptyString => inr st
  | String c s' =>
      if (nat_of_ascii c =? 61)%nat then
        if (2 <=? quad_pos st)%nat && (4 <=? quad_pos st + S (pads st))%nat then inl st
        else b64_loop (B64 (quad_pos st) (leftchar st) (S (pads st)) (out_rev st)) s'
      else match b64_value c with
           | Some v => b64_loop (b64_data st v) s'
           | None => b64_loop st s'
           end
  end.

Definition b64_count_data (s : string) : nat :=
  length (filter (fun c => match b64_value c with Some _ => true | None => false end)
                 (list_ascii_of_string s)).

(** [base64.b64decode(s)]: the decoded bytes, or the [binascii.Error]. *)
Definition b64decode (s : string) : string + exc :=
  match b64_loop (B64 0 0 0 []) s with
  | inl st => inl (string_of_list_ascii (rev (out_rev st)))
  | inr st =>
      match quad_pos st with
      | 0 => inl (string_of_list_ascii (rev (out_rev st)))
      | 1 => inr (BinasciiError ("Invalid base64-encoded string: number of data characters ("
                                   ++ Z_to_string (Z.of_nat (b64_count_data s))
                                   ++ ") cannot be 1 more than a multiple of 4"))
      | _ => inr (BinasciiError "Incorrect padding")
      end
  end.
