(* ===== verification/Json.v ===== *)
(** * JSON values as the code sees them

    The response bodies of the platform APIs and the list of photo ids the
    Facebook feed flow keeps in [fb_post_id] are JSON.  This file holds the
    JSON values, Python's [dict.get] / [d[k]] on a parsed body, the
    truthiness of a JSON value, Python's [repr] (used by the f-strings of the
    error messages), and [json.dumps] / [json.loads] with their round trip. *)

From Stdlib Require Import String Ascii ZArith List Bool Lia.
From stdpp Require Import base list.
From S2P Require Import Prelude PyFloat.

Open Scope string_scope.

(** A parsed JSON document: a number without fraction or exponent is an
    [int], another a [float]. *)
#[warnings="-register-all"]
Inductive json : Type :=
| JNull
| JBool (b : bool)
| JNum (z : Z)
| JFloat (f : pyfloat)
| JStr (s : string)
| JArr (l : list json)
| JObj (kv : list (string * json)).

(** ** [dict.get] and [d[k]] *)

(** Python's [dict] built by [json.loads] keeps the last binding of a
    duplicated key. *)
Fixpoint obj_lookup (k : string) (kv : list (string * json)) : option json :=
  match kv with
  | [] => None
  | (k', v) :: kv' =>
      match obj_lookup k kv' with
      | Some w => Some w
      | None => if String.eqb k k' then Some v else None
      end
  end.

Definition type_name (j : json) : string :=
  match j with
  | JNull => "NoneType"
  | JBool _ => "bool"
  | JNum _ => "int"
  | JFloat _ => "float"
  | JStr _ => "str"
  | JArr _ => "list"
  | JObj _ => "dict"
  end.

(** [d.get(k)]: [None] when the key is absent; an [AttributeError] when
    [d] is not a dict. *)
Definition dict_get {S} (d : json) (k : string) : PyM S (option json) :=
  match d with
  | JObj kv => ret (obj_lookup k kv)
  | _ => raise (AttributeError ("'" ++ type_name d ++ "' object has no attribute 'get'"))
  end.

(** [d.get(k, default)] *)
Definition dict_get_or {S} (d : json) (k : string) (default : json) : PyM S json :=
  x <- dict_get d k ;; ret (match x with Some v => v | None => default end).

(** [d[k]] with a string key: a [KeyError] when the key is absent, a
    [TypeError] when [d] is a list, a string or a scalar. *)
Definition dict_index {S} (d : json) (k : string) : PyM S json :=
  match d with
  | JObj kv => match obj_lookup k kv with Some v => ret v | None => raise (KeyError k) end
  | JArr _ => raise (TypeError "list indices must be integers or slices, not str")
  | JStr _ => raise (TypeError "string indices must be integers, not 'str'")
  | _ => raise (TypeError ("'" ++ type_name d ++ "' object is not subscriptable"))
  end.

(** [p in s] on strings. *)
Fixpoint str_contains (p s : string) : bool :=
  startswith p s || match s with EmptyString => false | String _ s' => str_contains p s' end.

(** [k in d] for a string [k]: a key of a dict, an element of a list, a
    substring of a string; a [TypeError] for a scalar. *)
Definition py_in {S} (k : string) (d : json) : PyM S bool :=
  match d with
  | JObj kv => ret (match obj_lookup k kv with Some _ => true | None => false end)
  | JArr l => ret (existsb (fun j => match j with JStr s => String.eqb s k | _ => false end) l)
  | JStr s => ret (str_contains k s)
  | _ => raise (TypeError ("argument of type '" ++ type_name d ++ "' is not iterable"))
  end.

(** [(x or {}).get(k)] where [x] is an optional JSON value. *)
Definition opt_obj (o : option json) : json :=
  match o with Some v => v | None => JObj [] end.

(** Python truthiness of a value returned by [.get] ([None] is falsy). *)
Definition jtruthy (o : option json) : bool :=
  match o with
  | None | Some JNull => false
  | Some (JBool b) => b
  | Some (JNum z) => negb (Z.eqb z 0)
  | Some (JFloat f) => float_truthy f
  | Some (JStr s) => negb (String.eqb s EmptyString)
  | Some (JArr l) => negb (Nat.eqb (length l) 0)
  | Some (JObj kv) => negb (Nat.eqb (length kv) 0)
  end.

(** [x == "s"] for a value returned by [.get]. *)
Definition jis_str (o : option json) (s : string) : bool :=
  match o with Some (JStr s') => String.eqb s' s | _ => false end.

(** [x in ("a", "b", ...)] for a value returned by [.get]. *)
Definition jin_strs (o : option json) (l : list string) : bool :=
  match o with Some (JStr s') => str_in s' l | _ => false end.

(** A Python number: an [int] ([bool] is one) or a [float]. *)
Inductive pynum : Type :=
| NInt (z : Z)
| NFloat (f : pyfloat).

Definition json_num (j : json) : option pynum :=
  match j with
  | JNum z => Some (NInt z)
  | JBool b => Some (NInt (if b then 1 else 0)%Z)
  | JFloat f => Some (NFloat f)
  | _ => None
  end.

Definition num_json (n : pynum) : json :=
  match n with NInt z => JNum z | NFloat f => JFloat f end.

(** [n == z] *)
Definition num_eq_int (n : pynum) (z : Z) : bool :=
  match n with
  | NInt x => Z.eqb x z
  | NFloat f => match float_cmp_int f z with Some Eq => true | _ => false end
  end.

(** [x in (n1, n2, ...)] for integers [ni]. *)
Definition jin_nums (o : option json) (l : list Z) : bool :=
  match o with
  | Some j => match json_num j with Some n => existsb (num_eq_int n) l | None => false end
  | None => false
  end.

(** [float(n)] *)
Definition num_float (n : pynum) : outcome pyfloat :=
  match n with NInt z => float_of_int z | NFloat f => Ret f end.

(** [a + b]: exact on [int]s; with a [float], the [int] is converted
    first. *)
Definition num_add (a b : pynum) : outcome pynum :=
  match a, b with
  | NInt x, NInt y => Ret (NInt (x + y)%Z)
  | _, _ => match num_float a, num_float b with
            | Ret x, Ret y => Ret (NFloat (float_add x y))
            | Raise e, _ | _, Raise e => Raise e
            end
  end.

Definition num_neg (a : pynum) : pynum :=
  match a with NInt x => NInt (- x)%Z | NFloat f => NFloat (float_neg f) end.

(** [a - b] *)
Definition num_sub (a b : pynum) : outcome pynum := num_add a (num_neg b).

(** [z > n] for an [int] [z]: [False] against a NaN. *)
Definition int_gt_num (z : Z) (n : pynum) : bool :=
  match n with
  | NInt x => Z.ltb x z
  | NFloat f => match float_cmp_int f z with Some Lt => true | _ => false end
  end.


Section JsonStateless.
Context {S : Type}.

Lemma stateless_dict_get d k : stateless (S := S) (dict_get d k).
Proof. destruct d; simpl; eauto with py. Qed.

Lemma stateless_dict_get_or d k def : stateless (S := S) (dict_get_or d k def).
Proof. unfold dict_get_or. apply stateless_bind; [apply stateless_dict_get | eauto with py]. Qed.

Lemma stateless_dict_index d k : stateless (S := S) (dict_index d k).
Proof. destruct d; simpl; try destruct (obj_lookup k _); eauto with py. Qed.

Lemma stateless_py_in k d : stateless (S := S) (py_in k d).
Proof. destruct d; simpl; eauto with py. Qed.
End JsonStateless.

#[export] Hint Resolve stateless_dict_get stateless_dict_get_or stateless_dict_index stateless_py_in
  : py_stateless.


(** ** Characters *)

Definition chr (n : nat) : string := String (ascii_of_nat n) EmptyString.
Definition dquote : string := chr 34.
Definition backslash : string := chr 92.

Definition hex_digit (n : nat) : ascii :=
  if (n <? 10)%nat then ascii_of_nat (48 + n) else ascii_of_nat (87 + n).

(** The four lowercase hexadecimal digits of a code unit below [65536]. *)
Definition hex4 (n : Z) : string :=
  let d k := hex_digit (Z.to_nat ((n / 16 ^ k) mod 16)) in
  String (d 3%Z) (String (d 2%Z) (String (d 1%Z) (String (d 0%Z) EmptyString))).

(** A continuation byte of UTF-8: its six bits. *)
Definition cont_byte (c : ascii) : option Z :=
  let n := Z.of_nat (nat_of_ascii c) in
  if (128 <=? n)%Z && (n <? 192)%Z then Some (n - 128)%Z else None.

(** The code points of the model's UTF-8 strings; a byte that starts no
    sequence stands for itself. *)
Fixpoint utf8_decode (s : string) : list Z :=
  match s with
  | EmptyString => []
  | String c r =>
      let b := Z.of_nat (nat_of_ascii c) in
      if (b <? 192)%Z then b :: utf8_decode r
      else if (b <? 224)%Z then
        match r with
        | String c2 r2 =>
            match cont_byte c2 with
            | Some x => (64 * (b - 192) + x)%Z :: utf8_decode r2
            | None => b :: utf8_decode r
            end
        | EmptyString => [b]
        end
      else if (b <? 240)%Z then
        match r with
        | String c2 (String c3 r3) =>
            match cont_byte c2, cont_byte c3 with
            | Some x, Some y => (4096 * (b - 224) + 64 * x + y)%Z :: utf8_decode r3
            | _, _ => b :: utf8_decode r
            end
        | _ => b :: utf8_decode r
        end
      else
        match r with
        | String c2 (String c3 (String c4 r4)) =>
            match cont_byte c2, cont_byte c3, cont_byte c4 with
            | Some x, Some y, Some z => (262144 * (b - 240) + 4096 * x + 64 * y + z)%Z :: utf8_decode r4
            | _, _, _ => b :: utf8_decode r
            end
        | _ => b :: utf8_decode r
        end
  end.

(** ** [json.dumps] with Python's defaults ([ensure_ascii=True],
    separators [", "] and [": "]) *)

(** One code point: the escapes of [ESCAPE_DCT], and [\uXXXX] (a surrogate
    pair above [U+FFFF]) for every code point outside [' ' .. '~']. *)
Definition dumps_cp (cp : Z) : string :=
  match Z.to_nat cp with
  | 34 => backslash ++ dquote
  | 92 => backslash ++ backslash
  | 8 => backslash ++ "b"
  | 12 => backslash ++ "f"
  | 10 => backslash ++ "n"
  | 13 => backslash ++ "r"
  | 9 => backslash ++ "t"
  | _ =>
      if (cp <? 32)%Z || (126 <? cp)%Z then
        if (65536 <=? cp)%Z then
          let v := (cp - 65536)%Z in
          backslash ++ "u" ++ hex4 (55296 + v / 1024) ++ backslash ++ "u" ++ hex4 (56320 + v mod 1024)
        else backslash ++ "u" ++ hex4 cp
      else String (ascii_of_nat (Z.to_nat cp)) EmptyString
  end.

Fixpoint dumps_cps (l : list Z) : string :=
  match l with [] => EmptyString | cp :: l' => dumps_cp cp ++ dumps_cps l' end.

Definition dumps_chars (s : string) : string := dumps_cps (utf8_decode s).

Definition dumps_string (s : string) : string := dquote ++ dumps_chars s ++ dquote.

Fixpoint json_dumps (j : json) : string :=
  match j with
  | JNull => "null"
  | JBool true => "true"
  | JBool false => "false"
  | JNum z => Z_to_string z
  | JFloat f => float_json f
  | JStr s => dumps_string s
  | JArr l => "[" ++ join ", " (map json_dumps l) ++ "]"
  | JObj kv => "{" ++ join ", " (map (fun '(k, v) => dumps_string k ++ ": " ++ json_dumps v) kv)
                ++ "}"
  end.

(** ** Python's [repr] of a parsed body, as printed by [f"{data}"] *)

Definition squote : string := chr 39.

Definition repr_char (q : nat) (c : ascii) : string :=
  let n := nat_of_ascii c in
  if (n =? q)%nat then backslash ++ String c EmptyString
  else match n with
  | 92 => backslash ++ backslash
  | 10 => backslash ++ "n"
  | 13 => backslash ++ "r"
  | 9 => backslash ++ "t"
  | _ => if (n <? 32)%nat || (n =? 127)%nat
         then backslash ++ "x" ++ String (hex_digit (n / 16)) (String (hex_digit (n mod 16)) EmptyString)
         else String c EmptyString
  end.

Fixpoint repr_chars (q : nat) (s : string) : string :=
  match s with
  | EmptyString => EmptyString
  | String c s' => repr_char q c ++ repr_chars q s'
  end.

Fixpoint has_char (n : nat) (s : string) : bool :=
  match s with
  | EmptyString => false
  | String c s' => (nat_of_ascii c =? n)%nat || has_char n s'
  end.

(** [repr(s)]: single quotes, unless the text has a single quote and no
    double quote. *)
Definition repr_string (s : string) : string :=
  if has_char 39 s && negb (has_char 34 s)
  then dquote ++ repr_chars 34 s ++ dquote
  else squote ++ repr_chars 39 s ++ squote.

Fixpoint py_repr (j : json) : string :=
  match j with
  | JNull => "None"
  | JBool true => "True"
  | JBool false => "False"
  | JNum z => Z_to_string z
  | JFloat f => float_repr f
  | JStr s => repr_string s
  | JArr l => "[" ++ join ", " (map py_repr l) ++ "]"
  | JObj kv => "{" ++ join ", " (map (fun '(k, v) => repr_string k ++ ": " ++ py_repr v) kv) ++ "}"
  end.

(** [float(x)] of a JSON value: a number, or the text of a string. *)
Definition py_float (j : json) : outcome pyfloat :=
  match json_num j with
  | Some n => num_float n
  | None =>
      match j with
      | JStr s =>
          match float_of_string s with
          | Some f => Ret f
          | None => Raise (ValueError ("could not convert string to float: " ++ repr_string s))
          end
      | _ => Raise (TypeError ("float() argument must be a string or a real number, not '"
                               ++ type_name j ++ "'"))
      end
  end.

(** ** [json.loads]

    The parser of CPython's [json] module ([json.scanner] and
    [json.decoder]): the literals [null], [true], [false], [NaN],
    [Infinity] and [-Infinity]; numbers by [NUMBER_RE], an [int] when there
    is neither fraction nor exponent and the [float] of the text otherwise;
    strings with every escape, [\uXXXX] as the UTF-8 bytes of its code
    point and a surrogate pair joined; arrays; objects as [dict]s.  The
    parser of values, arrays and members recurses on [fuel]; [json_loads]
    gives it one unit per character, which is enough because every nested
    call consumes at least one character ([JsonFuel.v]).  Python's
    recursion limit on deeply nested documents is not modelled. *)

Definition is_json_ws (c : ascii) : bool :=
  match nat_of_ascii c with 32 | 9 | 10 | 13 => true | _ => false end.

Fixpoint skip_ws (s : string) : string :=
  match s with
  | String c s' => if is_json_ws c then skip_ws s' else s
  | EmptyString => EmptyString
  end.

Definition hex_val (c : ascii) : option nat :=
  let n := nat_of_ascii c in
  if (48 <=? n)%nat && (n <=? 57)%nat then Some (n - 48)
  else if (97 <=? n)%nat && (n <=? 102)%nat then Some (n - 87)
  else if (65 <=? n)%nat && (n <=? 70)%nat then Some (n - 55)
  else None.

Definition unescape (e : ascii) : option ascii :=
  match nat_of_ascii e with
  | 34 => Some (ascii_of_nat 34)
  | 92 => Some (ascii_of_nat 92)
  | 47 => Some (ascii_of_nat 47)
  | 98 => Some (ascii_of_nat 8)
  | 102 => Some (ascii_of_nat 12)
  | 110 => Some (ascii_of_nat 10)
  | 114 => Some (ascii_of_nat 13)
  | 116 => Some (ascii_of_nat 9)
  | _ => None
  end.

(** [\uXXXX]: the code point of four hexadecimal digits. *)
Definition hex4_val (h1 h2 h3 h4 : ascii) : option Z :=
  match hex_val h1, hex_val h2, hex_val h3, hex_val h4 with
  | Some a, Some b, Some c, Some d => Some (Z.of_nat (((a * 16 + b) * 16 + c) * 16 + d))
  | _, _, _, _ => None
  end.

Definition is_high_surrogate (cp : Z) : bool := (55296 <=? cp)%Z && (cp <=? 56319)%Z.
Definition is_low_surrogate (cp : Z) : bool := (56320 <=? cp)%Z && (cp <=? 57343)%Z.

(** The code point of a surrogate pair. *)
Definition join_surrogates (hi lo : Z) : Z := (65536 + (hi - 55296) * 1024 + (lo - 56320))%Z.

Definition byte (n : Z) : string := String (ascii_of_nat (Z.to_nat n)) EmptyString.

(** A code point as the UTF-8 bytes of the model's strings; a lone
    surrogate, which a Python [str] may hold, as its three bytes. *)
Definition utf8_encode (cp : Z) : string :=
  if (cp <? 128)%Z then byte cp
  else if (cp <? 2048)%Z then byte (192 + cp / 64) ++ byte (128 + cp mod 64)
  else if (cp <? 65536)%Z then
    byte (224 + cp / 4096) ++ byte (128 + (cp / 64) mod 64) ++ byte (128 + cp mod 64)
  else byte (240 + cp / 262144) ++ byte (128 + (cp / 4096) mod 64)
       ++ byte (128 + (cp / 64) mod 64) ++ byte (128 + cp mod 64).

(** [s[:n]] of a Python [str]: its first [n] characters, kept as UTF-8. *)
Definition str_prefix (n : nat) (s : string) : string :=
  fold_right (fun cp acc => utf8_encode cp ++ acc) EmptyString (firstn n (utf8_decode s)).

Definition prepend (u : string) (o : option (string * string)) : option (string * string) :=
  match o with Some (t, r') => Some (u ++ t, r') | None => None end.

(** The body of a string literal after its opening quote: the characters
    up to the closing quote, and the text after it.  [\uXXXX] is a code
    point, and a high surrogate followed by the escape of a low one is the
    character of the pair, as in CPython's [scanstring]. *)
Fixpoint parse_chars (s : string) : option (string * string) :=
  match s with
  | EmptyString => None
  | String c s' =>
      if (nat_of_ascii c =? 34)%nat then Some (EmptyString, s')
      else if (nat_of_ascii c =? 92)%nat then
        match s' with
        | String "u" (String h1 (String h2 (String h3 (String h4 r)))) =>
            match hex4_val h1 h2 h3 h4 with
            | None => None
            | Some cp =>
                match r with
                | String b (String "u" (String k1 (String k2 (String k3 (String k4 r2))))) =>
                    if (nat_of_ascii b =? 92)%nat then
                      match hex4_val k1 k2 k3 k4 with
                      | None => None
                      | Some lo =>
                          if is_high_surrogate cp && is_low_surrogate lo
                          then prepend (utf8_encode (join_surrogates cp lo)) (parse_chars r2)
                          else prepend (utf8_encode cp) (parse_chars r)
                      end
                    else prepend (utf8_encode cp) (parse_chars r)
                | _ => prepend (utf8_encode cp) (parse_chars r)
                end
            end
        | String e r =>
            match unescape e with
            | Some c' => prepend (String c' EmptyString) (parse_chars r)
            | None => None
            end
        | EmptyString => None
        end
      else if (nat_of_ascii c <? 32)%nat then None
      else prepend (String c EmptyString) (parse_chars s')
  end.

Definition digit_val (c : ascii) : option Z :=
  let n := nat_of_ascii c in
  if (48 <=? n)%nat && (n <=? 57)%nat then Some (Z.of_nat (n - 48)) else None.

(** The digits at the start of [s]: their value after [acc], their number
    after [n], and the rest. *)
Fixpoint json_digits (acc n : Z) (s : string) : Z * Z * string :=
  match s with
  | String c s' =>
      match digit_val c with
      | Some d => json_digits (10 * acc + d) (n + 1) s'
      | None => (acc, n, s)
      end
  | EmptyString => (acc, n, s)
  end.

(** [int(s)] refuses a text of more than [sys.get_int_max_str_digits()]
    digits. *)
Definition int_max_str_digits : Z := 4300.

(** [(\.\d+)?] after the integer part. *)
Definition number_frac (r : string) : Z * Z * string :=
  match r with
  | String "." (String c r') =>
      match digit_val c with Some d => json_digits d 1 r' | None => (0, 0, r)%Z end
  | _ => (0, 0, r)%Z
  end.

(** [([eE][-+]?\d+)?]: the exponent, whether there is one, and the rest. *)
Definition number_exp (r : string) : Z * bool * string :=
  match r with
  | String e r' =>
      if (nat_of_ascii e =? 101)%nat || (nat_of_ascii e =? 69)%nat then
        let '(eneg, r'') := match r' with
                            | String "-" x => (true, x)
                            | String "+" x => (false, x)
                            | _ => (false, r')
                            end in
        match r'' with
        | String c x =>
            match digit_val c with
            | Some d => let '(v, _, x') := json_digits d 1 x in ((if eneg then - v else v)%Z, true, x')
            | None => (0%Z, false, r)
            end
        | EmptyString => (0%Z, false, r)
        end
      else (0%Z, false, r)
  | EmptyString => (0%Z, false, r)
  end.

(** The integer part: [0], or a nonzero digit and more digits; its value,
    its number of digits, and the rest. *)
Definition number_int (s1 : string) : option (Z * Z * string) :=
  match s1 with
  | String "0" r => Some (0, 1, r)%Z
  | String c r => match digit_val c with
                  | Some d => Some (json_digits d 1 r)
                  | None => None
                  end
  | EmptyString => None
  end.

(** A number as the [NUMBER_RE] of [json.scanner] reads it: an optional
    minus, [0] or a nonzero digit and more digits, an optional fraction, an
    optional exponent; an [int] without fraction or exponent, else the
    [float] of its text. *)
Definition parse_number (s : string) : option (json * string) :=
  let '(neg, s1) := match s with
                    | String "-" r => (true, r)
                    | _ => (false, s)
                    end in
  match number_int s1 with
  | None => None
  | Some (ip, ni, r) =>
      let '(fp, nf, r) := number_frac r in
      let '(ex, has_exp, r) := number_exp r in
      if (nf =? 0)%Z && negb has_exp then
        if (int_max_str_digits <? ni)%Z then None else Some (JNum (if neg then - ip else ip)%Z, r)
      else Some (JFloat (float_of_decimal neg (ip * 10 ^ nf + fp) (ex - nf)), r)
  end.

(** [d[k] = v] while an object is read: a repeated key keeps its first
    place and takes the last value, as a [dict] does. *)
Fixpoint obj_set (kv : list (string * json)) (k : string) (v : json) : list (string * json) :=
  match kv with
  | [] => [(k, v)]
  | (k', v') :: kv' => if String.eqb k k' then (k, v) :: kv' else (k', v') :: obj_set kv' k v
  end.

Definition dict_of_pairs (kv : list (string * json)) : list (string * json) :=
  fold_left (fun acc kv => obj_set acc (fst kv) (snd kv)) kv [].

Fixpoint parse_value (fuel : nat) (s : string) : option (json * string) :=
  match fuel with
  | O => None
  | S f =>
      match skip_ws s with
      | String "n" (String "u" (String "l" (String "l" r))) => Some (JNull, r)
      | String "t" (String "r" (String "u" (String "e" r))) => Some (JBool true, r)
      | String "f" (String "a" (String "l" (String "s" (String "e" r)))) => Some (JBool false, r)
      | String "N" (String "a" (String "N" r)) => Some (JFloat NaN, r)
      | String "I" (String "n" (String "f" (String "i" (String "n" (String "i" (String "t" (String "y" r))))))) =>
          Some (JFloat (Inf false), r)
      | String "-" (String "I" (String "n" (String "f" (String "i" (String "n" (String "i" (String "t" (String "y" r)))))))) =>
          Some (JFloat (Inf true), r)
      | String "[" r =>
          match skip_ws r with
          | String "]" r' => Some (JArr [], r')
          | _ => match parse_elems f r with
                 | Some (l, r') => Some (JArr l, r')
                 | None => None
                 end
          end
      | String "{" r =>
          match skip_ws r with
          | String "}" r' => Some (JObj [], r')
          | _ => match parse_members f r with
                 | Some (kv, r') => Some (JObj (dict_of_pairs kv), r')
                 | None => None
                 end
          end
      | String c r =>
          if (nat_of_ascii c =? 34)%nat
          then match parse_chars r with
               | Some (t, r') => Some (JStr t, r')
               | None => None
               end
          else parse_number (String c r)
      | EmptyString => None
      end
  end
(** The elements of an array after its [[], up to and including its []]. *)
with parse_elems (fuel : nat) (s : string) : option (list json * string) :=
  match fuel with
  | O => None
  | S f =>
      match parse_value f s with
      | Some (v, r) =>
          match skip_ws r with
          | String "," r' =>
              match parse_elems f r' with
              | Some (l, r'') => Some (v :: l, r'')
              | None => None
              end
          | String "]" r' => Some ([v], r')
          | _ => None
          end
      | None => None
      end
  end
(** The members of an object after its [{], up to and including its [}]. *)
with parse_members (fuel : nat) (s : string) : option (list (string * json) * string) :=
  match fuel with
  | O => None
  | S f =>
      match skip_ws s with
      | String q r =>
          if (nat_of_ascii q =? 34)%nat then
            match parse_chars r with
            | Some (k, r1) =>
                match skip_ws r1 with
                | String ":" r2 =>
                    match parse_value f r2 with
                    | Some (v, r3) =>
                        match skip_ws r3 with
                        | String "," r4 =>
                            match parse_members f r4 with
                            | Some (kv, r5) => Some ((k, v) :: kv, r5)
                            | None => None
                            end
                        | String "}" r4 => Some ([(k, v)], r4)
                        | _ => None
                        end
                    | None => None
                    end
                | _ => None
                end
            | None => None
            end
          else None
      | EmptyString => None
      end
  end.

(** [json.loads(s)]: [None] stands for the [JSONDecodeError] it raises
    (trailing text other than white space included). *)
Definition json_loads (s : string) : option json :=
  match parse_value (S (String.length s)) s with
  | Some (v, r) => match skip_ws r with EmptyString => Some v | _ => None end
  | None => None
  end.

(** [str(x)] / [f"{x}"] of a parsed JSON value. *)
Definition json_str (j : json) : string :=
  match j with
  | JStr s => s
  | _ => py_repr j
  end.

(** The value a Char field stores when the code assigns a JSON value to it
    ([self.f = data["id"]]): [None] and [False] are [False], anything else
    its [str]. *)
Definition json_to_val (j : json) : val :=
  match j with
  | JNull | JBool false => VFalse
  | _ => VStr (json_str j)
  end.

Lemma Z_to_string_nonempty z : Z_to_string z <> EmptyString.
Proof.
  unfold Z_to_string, DecimalString.NilZero.string_of_int.
  destruct (Z.to_int z) as [d|d]; [destruct d|]; discriminate.
Qed.

(** A truthy JSON value stored in a Char field is a truthy field value. *)
Lemma truthy_json_to_val j : jtruthy (Some j) = true -> truthy (json_to_val j) = true.
Proof.
  destruct j as [|[]|z|f|s|l|kv]; simpl; try done.
  - intros _. by apply truthy_VStr, Z_to_string_nonempty.
  - intros _. by apply truthy_VStr, float_repr_nonempty.
Qed.

(** ** The round trip of a list of plain texts *)

(** A character [json.dumps] copies as is: printable ASCII other than the
    double quote and the backslash, as the digits of a Graph API id. *)
Definition plain_char (c : ascii) : bool :=
  let n := nat_of_ascii c in
  (32 <=? n)%nat && (n <=? 126)%nat && negb (n =? 34)%nat && negb (n =? 92)%nat.

Fixpoint plain (s : string) : bool :=
  match s with
  | EmptyString => true
  | String c s' => plain_char c && plain s'
  end.

Lemma dumps_cp_plain c : plain_char c = true -> dumps_cp (Z.of_nat (nat_of_ascii c)) = String c EmptyString.
Proof. destruct c as [[] [] [] [] [] [] [] []]; vm_compute; intros H; first [reflexivity | discriminate]. Qed.

Lemma utf8_decode_plain c s : plain_char c = true ->
  utf8_decode (String c s) = Z.of_nat (nat_of_ascii c) :: utf8_decode s.
Proof. destruct c as [[] [] [] [] [] [] [] []]; intros H; cbv in H; first [discriminate H | reflexivity]. Qed.

Lemma parse_chars_plain_char c t : plain_char c = true ->
  parse_chars (String c t) = match parse_chars t with Some (u, r') => Some (String c u, r') | None => None end.
Proof. destruct c as [[] [] [] [] [] [] [] []]; intros H; cbv in H; first [discriminate H | reflexivity]. Qed.

Lemma dumps_chars_plain s : plain s = true -> dumps_chars s = s.
Proof.
  unfold dumps_chars. induction s as [|c s IH]; [done|]. cbn [plain]. intros [Hc Hs]%andb_prop.
  rewrite utf8_decode_plain by done. cbn [dumps_cps]. rewrite dumps_cp_plain, IH by done. reflexivity.
Qed.

Lemma parse_chars_plain s r : plain s = true -> parse_chars (s ++ dquote ++ r) = Some (s, r).
Proof.
  induction s as [|c s IH]; [done|]. cbn [plain]. intros [Hc Hs]%andb_prop.
  change ((String c s ++ dquote ++ r)%string) with (String c (s ++ dquote ++ r)).
  by rewrite parse_chars_plain_char, IH.
Qed.

Lemma parse_value_space f X : parse_value f (String " " X) = parse_value f X.
Proof. by destruct f. Qed.

Lemma parse_elems_space f X : parse_elems f (String " " X) = parse_elems f X.
Proof. destruct f as [|f]; [done|]. cbn [parse_elems]. by rewrite parse_value_space. Qed.

Lemma skip_ws_comma X : skip_ws (", " ++ X) = String "," (String " " X).
Proof. reflexivity. Qed.

Lemma skip_ws_close X : skip_ws ("]" ++ X) = String "]" X.
Proof. reflexivity. Qed.

Lemma parse_value_string f X :
  parse_value (S f) (dquote ++ X) = match parse_chars X with Some (t, r') => Some (JStr t, r') | None => None end.
Proof. reflexivity. Qed.

Lemma parse_value_plain f s r : plain s = true ->
  parse_value (S f) (dumps_string s ++ r) = Some (JStr s, r).
Proof.
  intros Hs. unfold dumps_string. rewrite dumps_chars_plain, !string_app_assoc by done.
  by rewrite parse_value_string, parse_chars_plain.
Qed.

Lemma parse_elems_step f X :
  parse_elems (S f) X =
    match parse_value f X with
    | Some (v, r) =>
        match skip_ws r with
        | String "," r' => match parse_elems f r' with Some (l, r'') => Some (v :: l, r'') | None => None end
        | String "]" r' => Some ([v], r')
        | _ => None
        end
    | None => None
    end.
Proof. reflexivity. Qed.

(** The elements after the [[] of [json.dumps] of a nonempty list of plain
    texts, given more fuel than elements. *)
Lemma parse_elems_plain l f r : Forall (fun s => plain s = true) l -> l <> [] -> (length l < f)%nat ->
  parse_elems f (join ", " (map dumps_string l) ++ "]" ++ r) = Some (map JStr l, r).
Proof.
  revert f. induction l as [|s l IH]; intros f Hl Hne Hf; [done|]. inversion Hl as [|? ? Hs Hls]; subst.
  destruct f as [|[|f]]; [cbn in Hf; lia | cbn in Hf; lia |].
  destruct l as [|s2 l].
  - cbn [map join]. rewrite parse_elems_step, parse_value_plain, skip_ws_close by done. reflexivity.
  - change (join ", " (map dumps_string (s :: s2 :: l)))
      with (dumps_string s ++ ", " ++ join ", " (map dumps_string (s2 :: l)))%string.
    rewrite !string_app_assoc, parse_elems_step, parse_value_plain, skip_ws_comma by done.
    cbn -[parse_elems parse_value]. rewrite parse_elems_space, IH by (cbn in *; done || lia). reflexivity.
Qed.

Lemma string_length_app a b : String.length (a ++ b) = (String.length a + String.length b)%nat.
Proof. induction a as [|c a IH]; [done|]. exact (f_equal S IH). Qed.

Lemma length_join_dumps l : (length l <= String.length (join ", " (map dumps_string l)))%nat.
Proof.
  induction l as [|s l IH]; [cbn; lia|]. destruct l as [|s2 l]; cbn [map join] in *.
  - unfold dumps_string. rewrite !string_length_app. cbn. lia.
  - rewrite !string_length_app. unfold dumps_string at 1. rewrite !string_length_app. cbn [String.length length] in *. lia.
Qed.

Lemma join_dumps_head s l : exists Z, join ", " (map dumps_string (s :: l)) = (dquote ++ Z)%string.
Proof.
  destruct l; cbn [map join]; unfold dumps_string; eexists; [reflexivity|].
  rewrite !string_app_assoc. reflexivity.
Qed.

Lemma parse_value_array_string f W :
  parse_value (S f) ("[" ++ dquote ++ W) =
    match parse_elems f (dquote ++ W) with Some (l, r') => Some (JArr l, r') | None => None end.
Proof. reflexivity. Qed.

(** [json.dumps] then [json.loads] gives back a list of plain texts. *)
Lemma json_loads_dumps_plain l :
  Forall (fun s => plain s = true) l -> json_loads (json_dumps (JArr (map JStr l))) = Some (JArr (map JStr l)).
Proof.
  intros Hl. assert (Hd : json_dumps (JArr (map JStr l)) = ("[" ++ join ", " (map dumps_string l) ++ "]")%string)
    by (cbn [json_dumps]; by rewrite map_map).
  unfold json_loads. rewrite Hd. destruct l as [|s l]; [reflexivity|].
  pose proof (length_join_dumps (s :: l)) as Hlen.
  destruct (join_dumps_head s l) as [Z HZ].
  set (n := String.length _).
  assert (Hn : (length (s :: l) < n)%nat) by (unfold n; rewrite !string_length_app; cbn [String.length]; lia).
  rewrite HZ, string_app_assoc, parse_value_array_string, <- string_app_assoc, <- HZ.
  replace (join ", " (map dumps_string (s :: l)) ++ "]")%string
    with (join ", " (map dumps_string (s :: l)) ++ "]" ++ "")%string by reflexivity.
  rewrite parse_elems_plain by done. reflexivity.
Qed.

(** [json.dumps] of a list is its own [strip()] and starts with [[]. *)
Lemma strip_json_dumps_arr l : strip (json_dumps (JArr l)) = json_dumps (JArr l).
Proof.
  change (json_dumps (JArr l)) with (String "[" (join ", " (map json_dumps l) ++ String "]" EmptyString)).
  apply strip_framed; try reflexivity; apply Nat.ltb_lt; reflexivity.
Qed.

Lemma startswith_json_dumps_arr l : startswith "[" (json_dumps (JArr l)) = true.
Proof. reflexivity. Qed.

(** ** Checks against CPython's [json] *)

(** [json.loads('{"message": "Quota", "retryAfter": 1.5}')]: a float
    member does not stop the parse. *)
Example json_loads_float_member :
  option_map (fun j => match j with JObj kv => map (fun '(k, v) => (k, json_str v)) kv | _ => [] end)
    (json_loads ("{" ++ dquote ++ "message" ++ dquote ++ ": " ++ dquote ++ "Quota" ++ dquote ++ ", "
                 ++ dquote ++ "retryAfter" ++ dquote ++ ": 1.5}"))
  = Some [("message", "Quota"); ("retryAfter", "1.5")].
Proof. vm_compute. reflexivity. Qed.

(** Numbers: [01] is refused, [1e400] is [inf], [-0.0], [NaN] and
    [-Infinity] are floats. *)
Example json_loads_numbers :
  (json_loads "01", option_map py_repr (json_loads "[1e400, -0.0, NaN, -Infinity, 1E-2, 10]"))
  = (None, Some "[inf, -0.0, nan, -inf, 0.01, 10]").
Proof. vm_compute. reflexivity. Qed.

(** The escapes [\u00e9] and the surrogate pair [\ud83d\ude00] are UTF-8
    characters; a repeated key keeps the last value. *)
Example json_loads_escapes_and_keys :
  (json_loads (dquote ++ backslash ++ "u00e9" ++ backslash ++ "ud83d" ++ backslash ++ "ude00" ++ dquote),
   json_loads ("{" ++ dquote ++ "a" ++ dquote ++ ": 1, " ++ dquote ++ "a" ++ dquote ++ ": 2}"))
  = (Some (JStr (utf8_encode 233 ++ utf8_encode 128512)), Some (JObj [("a", JNum 2)])).
Proof. vm_compute. reflexivity. Qed.

(** [json.dumps] escapes the non-ASCII characters and DEL. *)
Example json_dumps_escapes :
  json_dumps (JStr (utf8_encode 233 ++ utf8_encode 128512 ++ chr 127))
  = dquote ++ backslash ++ "u00e9" ++ backslash ++ "ud83d" ++ backslash ++ "ude00" ++ backslash ++ "u007f" ++ dquote.
Proof. vm_compute. reflexivity. Qed.
