(* ===== verification/JsonFuel.v ===== *)
(** * The fuel of [json.loads]

    [json_loads] of [Json.v] runs the mutually recursive parsers
    [parse_value], [parse_elems] and [parse_members] with one unit of fuel
    per character of the document.  This file shows that this is enough:
    every scanner returns a suffix of its input, a parser that succeeds with
    some fuel succeeds, with the same value and rest, with any fuel larger
    than the number of characters it consumes ([parse_fuel]), so
    [json_loads] returns what the parser returns with unbounded fuel
    ([json_loads_complete]). *)

From Stdlib Require Import String Ascii ZArith List Bool Lia.
From stdpp Require Import base list.
From S2P Require Import Prelude PyFloat Json.
Import ListNotations.

Open Scope string_scope.

(** ** One step of each parser, with its recursive calls as arguments *)

Definition value_body (E : string -> option (list json * string))
    (M : string -> option (list (string * json) * string)) (t : string) : option (json * string) :=
  match t with
  | String "n" (String "u" (String "l" (String "l" r))) => Some (JNull, r)
  | String "t" (String "r" (String "u" (String "e" r))) => Some (JBool true, r)
  | String "f" (String "a" (String "l" (String "s" (String "e" r)))) => Some (JBool false, r)
  | String "N" (String "a" (String "N" r)) => Some (JFloat NaN, r)
  | String "I" (String "n" (String "f" (String "i" (String "n" (String "i" (String "t" (String "y" r))))))) =>
      Some (JFloat (Inf false), r)
  | String "-" (String "I" (String "n" (String "f" (String "i" (String "n" (String "i" (String "t" (String "y" r)))))))) =>
      Some (JFloat (Inf true), r)
  | String "[" r =>
      match skip_ws r with
      | String "]" r' => Some (JArr [], r')
      | _ => match E r with
             | Some (l, r') => Some (JArr l, r')
             | None => None
             end
      end
  | String "{" r =>
      match skip_ws r with
      | String "}" r' => Some (JObj [], r')
      | _ => match M r with
             | Some (kv, r') => Some (JObj (dict_of_pairs kv), r')
             | None => None
             end
      end
  | String c r =>
      if (nat_of_ascii c =? 34)%nat
      then match parse_chars r with
           | Some (t, r') => Some (JStr t, r')
           | None => None
           end
      else parse_number (String c r)
  | EmptyString => None
  end.

Lemma parse_value_unfold f s :
  parse_value (S f) s = value_body (parse_elems f) (parse_members f) (skip_ws s).
Proof. reflexivity. Qed.

Definition elems_tail (E : string -> option (list json * string)) (v : json) (r : string)
    : option (list json * string) :=
  match skip_ws r with
  | String "," r' =>
      match E r' with
      | Some (l, r'') => Some (v :: l, r'')
      | None => None
      end
  | String "]" r' => Some ([v], r')
  | _ => None
  end.

Lemma parse_elems_unfold f s :
  parse_elems (S f) s =
    match parse_value f s with Some (v, r) => elems_tail (parse_elems f) v r | None => None end.
Proof. reflexivity. Qed.

Definition members_tail (M : string -> option (list (string * json) * string))
    (k : string) (v : json) (r3 : string) : option (list (string * json) * string) :=
  match skip_ws r3 with
  | String "," r4 =>
      match M r4 with
      | Some (kv, r5) => Some ((k, v) :: kv, r5)
      | None => None
      end
  | String "}" r4 => Some ([(k, v)], r4)
  | _ => None
  end.

Definition members_body (V : string -> option (json * string))
    (M : string -> option (list (string * json) * string)) (s : string)
    : option (list (string * json) * string) :=
  match skip_ws s with
  | String q r =>
      if (nat_of_ascii q =? 34)%nat then
        match parse_chars r with
        | Some (k, r1) =>
            match skip_ws r1 with
            | String ":" r2 =>
                match V r2 with
                | Some (v, r3) => members_tail M k v r3
                | None => None
                end
            | _ => None
            end
        | None => None
        end
      else None
  | EmptyString => None
  end.

Lemma parse_members_unfold f s :
  parse_members (S f) s = members_body (parse_value f) (parse_members f) s.
Proof. reflexivity. Qed.

(** ** Every scanner returns a suffix of its input *)

Lemma skip_ws_le s : String.length (skip_ws s) <= String.length s.
Proof. induction s as [|c s IH]; cbn; [lia|]. destruct (is_json_ws c); cbn; lia. Qed.

Lemma json_digits_le acc n s : String.length (snd (json_digits acc n s)) <= String.length s.
Proof.
  revert acc n. induction s as [|c s IH]; intros acc n; cbn; [lia|].
  destruct (digit_val c); cbn; [specialize (IH (10 * acc + z)%Z (n + 1)%Z); lia | lia].
Qed.

(** The length bound of a [json_digits] call among the hypotheses. *)
Ltac digits_len :=
  match goal with
  | H : json_digits ?a ?b ?c = _ |- _ =>
      let L := fresh "L" in pose proof (json_digits_le a b c) as L; rewrite H in L; clear H
  | |- context [json_digits ?a ?b ?c] => pose proof (json_digits_le a b c)
  end.

Lemma prepend_some u o t r : prepend u o = Some (t, r) -> exists t', o = Some (t', r).
Proof. destruct o as [[t' r']|]; cbn; [intros [= _ <-]; eauto | discriminate]. Qed.

Lemma parse_chars_lt s t r : parse_chars s = Some (t, r) -> String.length r < String.length s.
Proof.
  remember (String.length s) as n eqn:Hn. revert s t r Hn.
  induction n as [n IH] using lt_wf_ind. intros s t r Hn.
  destruct s as [|c s']; [discriminate|]. cbn in Hn. cbn [parse_chars].
  assert (Hrec : forall x t' r', String.length x < n -> parse_chars x = Some (t', r') ->
                 String.length r' < String.length x) by (intros; eapply IH; eauto).
  intros H. repeat (case_match; simplify_eq; try discriminate);
    repeat match goal with
    | H : prepend _ _ = Some _ |- _ => apply prepend_some in H as [? H]
    | H : parse_chars _ = Some _ |- _ => apply Hrec in H; [|cbn in *; lia]
    end; cbn in *; lia.
Qed.

Lemma number_int_lt s ip ni r : number_int s = Some (ip, ni, r) -> String.length r < String.length s.
Proof.
  unfold number_int. intros H.
  repeat (case_match; simplify_eq; try discriminate); cbn; try lia; digits_len; cbn in *; lia.
Qed.

Lemma number_frac_le r : String.length (snd (number_frac r)) <= String.length r.
Proof.
  unfold number_frac. repeat case_match; cbn; try lia. digits_len. cbn in *; lia.
Qed.

Lemma number_exp_le r : String.length (snd (number_exp r)) <= String.length r.
Proof.
  unfold number_exp. repeat case_match; simplify_eq; cbn; try lia; digits_len; cbn in *; lia.
Qed.

Lemma parse_number_lt s j r : parse_number s = Some (j, r) -> String.length r < String.length s.
Proof.
  unfold parse_number. intros H.
  assert (Hs1 : forall neg s1, (neg, s1) = match s with String "-" r => (true, r) | _ => (false, s) end ->
                String.length s1 <= String.length s).
  { intros neg s1. repeat case_match; intros; simplify_eq; cbn; lia. }
  destruct (match s with String "-" r => (true, r) | _ => (false, s) end) as [neg s1] eqn:E.
  specialize (Hs1 neg s1 eq_refl).
  destruct (number_int s1) as [[[ip ni] r1]|] eqn:Hi; [|discriminate]. apply number_int_lt in Hi.
  pose proof (number_frac_le r1) as Hf. destruct (number_frac r1) as [[fp nf] r2].
  pose proof (number_exp_le r2) as Hx. destruct (number_exp r2) as [[ex he] r3].
  cbn in *. repeat case_match; simplify_eq; cbn in *; lia.
Qed.

(** ** The cases of one parsing step *)

(** A value that is not an array or an object does not call the other
    parsers: a literal, a string or a number. *)
Lemma value_body_leaf E M E' M' a r :
  a <> "["%char -> a <> "{"%char -> value_body E M (String a r) = value_body E' M' (String a r).
Proof. intros H1 H2. destruct a as [[] [] [] [] [] [] [] []]; reflexivity || congruence. Qed.

Lemma value_body_leaf_le a r x :
  value_body (fun _ => None) (fun _ => None) (String a r) = Some x ->
  String.length (snd x) < String.length (String a r).
Proof.
  destruct x as [j r']. unfold value_body. intros H.
  repeat (case_match; simplify_eq; try discriminate);
    repeat match goal with
    | H : parse_chars _ = Some _ |- _ => apply parse_chars_lt in H
    | H : parse_number _ = Some (_, _) |- _ => apply parse_number_lt in H
    | H : skip_ws ?y = _ |- _ => let L := fresh in pose proof (skip_ws_le y) as L; rewrite H in L; clear H
    end; cbn in *; lia.
Qed.

Lemma skip_ws_le_eq s c r : skip_ws s = String c r -> S (String.length r) <= String.length s.
Proof. intros H. pose proof (skip_ws_le s) as L. by rewrite H in L. Qed.

(** An array: [[]] after white space, or the elements. *)
Lemma value_body_arr E M r x : value_body E M (String "[" r) = Some x ->
  (String.length (snd x) < String.length r /\ forall E' M', value_body E' M' (String "[" r) = Some x) \/
  (exists l r', E r = Some (l, r') /\ x = (JArr l, r') /\
     forall E' M', E' r = E r -> value_body E' M' (String "[" r) = Some x).
Proof.
  intros H0. pose proof H0 as H. unfold value_body in H. cbn in H.
  assert (Hc : forall E' M', E' r = E r -> value_body E' M' (String "[" r) = Some x).
  { intros E' M' HE. rewrite <- H0. unfold value_body. cbn. by rewrite HE. }
  destruct (skip_ws r) as [|b r0] eqn:Hr.
  - right. destruct (E r) as [[l r']|]; [|discriminate]. injection H as <-. eauto.
  - pose proof (skip_ws_le_eq _ _ _ Hr).
    destruct b as [[] [] [] [] [] [] [] []];
      try (destruct (E r) as [[l r']|]; [|discriminate]; injection H as <-; right; by eauto).
    left. injection H as <-. split; [cbn; lia|]. intros E' M'. unfold value_body. cbn. by rewrite Hr.
Qed.

(** An object: [{}] after white space, or the members. *)
Lemma value_body_obj E M r x : value_body E M (String "{" r) = Some x ->
  (String.length (snd x) < String.length r /\ forall E' M', value_body E' M' (String "{" r) = Some x) \/
  (exists kv r', M r = Some (kv, r') /\ x = (JObj (dict_of_pairs kv), r') /\
     forall E' M', M' r = M r -> value_body E' M' (String "{" r) = Some x).
Proof.
  intros H0. pose proof H0 as H. unfold value_body in H. cbn in H.
  assert (Hc : forall E' M', M' r = M r -> value_body E' M' (String "{" r) = Some x).
  { intros E' M' HM. rewrite <- H0. unfold value_body. cbn. by rewrite HM. }
  destruct (skip_ws r) as [|b r0] eqn:Hr.
  - right. destruct (M r) as [[kv r']|]; [|discriminate]. injection H as <-. eauto.
  - pose proof (skip_ws_le_eq _ _ _ Hr).
    destruct b as [[] [] [] [] [] [] [] []];
      try (destruct (M r) as [[kv r']|]; [|discriminate]; injection H as <-; right; by eauto).
    left. injection H as <-. split; [cbn; lia|]. intros E' M'. unfold value_body. cbn. by rewrite Hr.
Qed.

(** After an element: [,] and more elements, or the closing []]. *)
Lemma elems_tail_cases E v r x : elems_tail E v r = Some x ->
  (exists r', skip_ws r = String "]" r' /\ x = ([v], r')) \/
  (exists r' l r'', skip_ws r = String "," r' /\ E r' = Some (l, r'') /\ x = (v :: l, r'')).
Proof.
  unfold elems_tail. destruct (skip_ws r) as [|b r'] eqn:Hr; [discriminate|].
  destruct b as [[] [] [] [] [] [] [] []]; try discriminate;
    first [intros [= <-]; left; by eauto
          | destruct (E r') as [[l r'']|] eqn:HE; [|discriminate]; intros [= <-]; right; by eauto 7].
Qed.

Lemma elems_tail_close E v r r' : skip_ws r = String "]" r' -> elems_tail E v r = Some ([v], r').
Proof. intros Hr. unfold elems_tail. by rewrite Hr. Qed.

Lemma elems_tail_comma E v r r' : skip_ws r = String "," r' ->
  elems_tail E v r = match E r' with Some (l, r'') => Some (v :: l, r'') | None => None end.
Proof. intros Hr. unfold elems_tail. by rewrite Hr. Qed.

(** After a member: [,] and more members, or the closing [}]. *)
Lemma members_tail_cases M k v r x : members_tail M k v r = Some x ->
  (exists r', skip_ws r = String "}" r' /\ x = ([(k, v)], r')) \/
  (exists r' kv r'', skip_ws r = String "," r' /\ M r' = Some (kv, r'') /\ x = ((k, v) :: kv, r'')).
Proof.
  unfold members_tail. destruct (skip_ws r) as [|b r'] eqn:Hr; [discriminate|].
  destruct b as [[] [] [] [] [] [] [] []]; try discriminate;
    first [intros [= <-]; left; by eauto
          | destruct (M r') as [[kv r'']|] eqn:HM; [|discriminate]; intros [= <-]; right; by eauto 7].
Qed.

Lemma members_tail_close M k v r r' : skip_ws r = String "}" r' -> members_tail M k v r = Some ([(k, v)], r').
Proof. intros Hr. unfold members_tail. by rewrite Hr. Qed.

Lemma members_tail_comma M k v r r' : skip_ws r = String "," r' ->
  members_tail M k v r = match M r' with Some (kv, r'') => Some ((k, v) :: kv, r'') | None => None end.
Proof. intros Hr. unfold members_tail. by rewrite Hr. Qed.

(** A member: its key, [:] and its value. *)
Lemma members_body_cases V M s x : members_body V M s = Some x ->
  exists q r k r1 r2 v r3, skip_ws s = String q r /\ (nat_of_ascii q =? 34)%nat = true /\
    parse_chars r = Some (k, r1) /\ skip_ws r1 = String ":" r2 /\ V r2 = Some (v, r3) /\
    members_tail M k v r3 = Some x.
Proof.
  unfold members_body. destruct (skip_ws s) as [|q r] eqn:Hs; [discriminate|].
  destruct (_ =? 34)%nat eqn:Hq; [|discriminate].
  destruct (parse_chars r) as [[k r1]|] eqn:Hk; [|discriminate].
  destruct (skip_ws r1) as [|b r2] eqn:Hr1; [discriminate|].
  destruct b as [[] [] [] [] [] [] [] []]; try discriminate.
  destruct (V r2) as [[v r3]|] eqn:HV; [|discriminate]. intros H. eauto 15.
Qed.

Lemma members_body_eq V M s q r k r1 r2 :
  skip_ws s = String q r -> (nat_of_ascii q =? 34)%nat = true ->
  parse_chars r = Some (k, r1) -> skip_ws r1 = String ":" r2 ->
  members_body V M s = match V r2 with Some (v, r3) => members_tail M k v r3 | None => None end.
Proof. intros Hs Hq Hk Hr1. unfold members_body. by rewrite Hs, Hq, Hk, Hr1. Qed.

(** ** Fuel beyond the consumed characters changes nothing *)

(** [p n] succeeds on [s] with a suffix of [s] as rest, and any fuel larger
    than the number of characters consumed gives the same answer. *)
Definition fuel_ok {A} (p : nat -> string -> option (A * string)) (n : nat) : Prop :=
  forall s x, p n s = Some x ->
    String.length (snd x) <= String.length s /\
    forall m, String.length s - String.length (snd x) < m -> p m s = Some x.

Lemma parse_value_fuel f :
  fuel_ok parse_elems f -> fuel_ok parse_members f -> fuel_ok parse_value (S f).
Proof.
  intros IHe IHm s x H. rewrite parse_value_unfold in H.
  destruct (skip_ws s) as [|a t] eqn:Hs; [discriminate|]. pose proof (skip_ws_le_eq _ _ _ Hs) as Ls.
  destruct (ascii_dec a "[") as [->|Ha1]; [|destruct (ascii_dec a "{") as [->|Ha2]].
  - apply value_body_arr in H as [[Hl Hall] | (l & r' & HE & -> & Hc)].
    + split; [lia|]. intros [|m] Hm; [lia|]. by rewrite parse_value_unfold, Hs.
    + destruct (IHe _ _ HE) as [Hl Hm']. cbn [snd String.length] in *. split; [lia|].
      intros [|m] Hm; [lia|]. rewrite parse_value_unfold, Hs. apply Hc. rewrite HE. apply Hm'. lia.
  - apply value_body_obj in H as [[Hl Hall] | (kv & r' & HM & -> & Hc)].
    + split; [lia|]. intros [|m] Hm; [lia|]. by rewrite parse_value_unfold, Hs.
    + destruct (IHm _ _ HM) as [Hl Hm']. cbn [snd String.length] in *. split; [lia|].
      intros [|m] Hm; [lia|]. rewrite parse_value_unfold, Hs. apply Hc. rewrite HM. apply Hm'. lia.
  - rewrite (value_body_leaf _ _ (fun _ => None) (fun _ => None)) in H by done.
    pose proof (value_body_leaf_le _ _ _ H) as Hl. cbn in Hl. split; [lia|].
    intros [|m] Hm; [lia|].
    by rewrite parse_value_unfold, Hs, (value_body_leaf _ _ (fun _ => None) (fun _ => None)).
Qed.

Lemma parse_elems_fuel f :
  fuel_ok parse_value f -> fuel_ok parse_elems f -> fuel_ok parse_elems (S f).
Proof.
  intros IHv IHe s x H. rewrite parse_elems_unfold in H.
  destruct (parse_value f s) as [[v r]|] eqn:Hv; [|discriminate].
  destruct (IHv _ _ Hv) as [Lv Mv]; cbn in Lv.
  apply elems_tail_cases in H as [(r' & Hr & ->) | (r' & l & r'' & Hr & HE & ->)];
    pose proof (skip_ws_le_eq _ _ _ Hr) as Lr.
  - split; [cbn; lia|]. intros [|m] Hm; [cbn in Hm; lia|].
    rewrite parse_elems_unfold, Mv by (cbn in *; lia). by apply elems_tail_close.
  - destruct (IHe _ _ HE) as [Le Me]; cbn in Le. split; [cbn; lia|]. intros [|m] Hm; [lia|].
    rewrite parse_elems_unfold, Mv by (cbn in *; lia).
    rewrite (elems_tail_comma _ _ _ _ Hr), Me by (cbn in *; lia). reflexivity.
Qed.

Lemma parse_members_fuel f :
  fuel_ok parse_value f -> fuel_ok parse_members f -> fuel_ok parse_members (S f).
Proof.
  intros IHv IHm s x H. rewrite parse_members_unfold in H.
  apply members_body_cases in H as (q & r & k & r1 & r2 & v & r3 & Hs & Hq & Hk & Hr1 & HV & Ht).
  pose proof (skip_ws_le_eq _ _ _ Hs). pose proof (parse_chars_lt _ _ _ Hk).
  pose proof (skip_ws_le_eq _ _ _ Hr1).
  destruct (IHv _ _ HV) as [LV MV]; cbn in LV.
  apply members_tail_cases in Ht as [(r' & Hr & ->) | (r' & kv & r'' & Hr & HM & ->)];
    pose proof (skip_ws_le_eq _ _ _ Hr) as Lr.
  - split; [cbn; lia|]. intros [|m] Hm; [cbn in Hm; lia|].
    rewrite parse_members_unfold, (members_body_eq _ _ _ _ _ _ _ _ Hs Hq Hk Hr1), MV by (cbn in *; lia).
    by apply members_tail_close.
  - destruct (IHm _ _ HM) as [Lm Mm]; cbn in Lm. split; [cbn; lia|]. intros [|m] Hm; [lia|].
    rewrite parse_members_unfold, (members_body_eq _ _ _ _ _ _ _ _ Hs Hq Hk Hr1), MV by (cbn in *; lia).
    rewrite (members_tail_comma _ _ _ _ _ Hr), Mm by (cbn in *; lia). reflexivity.
Qed.

Lemma parse_fuel n : fuel_ok parse_value n /\ fuel_ok parse_elems n /\ fuel_ok parse_members n.
Proof.
  induction n as [|f (IHv & IHe & IHm)].
  - split; [|split]; intros s x H; discriminate H.
  - split; [|split]; auto using parse_value_fuel, parse_elems_fuel, parse_members_fuel.
Qed.

(** The fuel [json_loads] gives is enough for any parse. *)
Lemma parse_value_enough n s x : parse_value n s = Some x -> parse_value (S (String.length s)) s = Some x.
Proof. intros H. apply (proj1 (parse_fuel n) s x H). lia. Qed.

(** [json.loads] has one answer: two parses of a text agree whatever
    their fuel. *)
Lemma parse_value_fuel_det n1 n2 s x1 x2 :
  parse_value n1 s = Some x1 -> parse_value n2 s = Some x2 -> x1 = x2.
Proof. intros H1 H2. apply parse_value_enough in H1, H2. congruence. Qed.

(** [json_loads] succeeds exactly when the parser succeeds with some fuel
    and leaves only white space. *)
Lemma json_loads_complete s v :
  json_loads s = Some v <-> exists n r, parse_value n s = Some (v, r) /\ skip_ws r = EmptyString.
Proof.
  unfold json_loads. split.
  - destruct (parse_value _ s) as [[v' r]|] eqn:E; [|discriminate].
    destruct (skip_ws r) eqn:Hr; [intros [= <-]; eauto | discriminate].
  - intros (n & r & H & Hr). by rewrite (parse_value_enough n s _ H), Hr.
Qed.
