(* ===== verification/Http.v ===== *)
(** * The [requests] calls of the publication code

    Every call to a platform goes through [requests.get/post/put/head].  A
    request records its method, URL, parameters (query string, form or JSON
    body), headers and timeout; the platform's answer is given by the oracle
    [Remote], the interface between the code of the repository and the
    outside world: it returns a response or the message of the exception
    [requests] raises (connection error, timeout).  [raise_for_status],
    [.json()] and the case-insensitive [headers.get] are modelled on top. *)

From Stdlib Require Import String ZArith List Bool.
From stdpp Require Import base list.
From S2P Require Import Prelude Json.

Open Scope string_scope.

Inductive method : Type := GET | POST | PUT | HEAD.

Record request : Type := Request {
  rq_method : method;
  rq_url : string;
  rq_params : list (string * json);     (** [params=], [data=] or [json=] *)
  rq_headers : list (string * string);
  rq_timeout : option Z                 (** [timeout=] in seconds, when given *)
}.

Record response : Type := Response {
  rs_status : Z;                        (** [status_code] *)
  rs_reason : string;                   (** [reason], the phrase of the status line *)
  rs_url : string;                      (** [url]: the final URL, with its query string *)
  rs_text : string;                     (** [resp.text] *)
  rs_body : option json;                (** the body, when it is JSON *)
  rs_headers : list (string * string)
}.

(** The answer to a request: a response, or the exception of [requests]. *)
Inductive reply : Type :=
| Reply (r : response)
| NoReply (msg : string).

(** The remote platforms (and S3): one answer per request. *)
Class Remote : Type := remote : request -> reply.

(** [raise_for_status] raises for a status in [400 .. 599] only. *)
Definition is_http_error (st : Z) : bool := (400 <=? st)%Z && (st <? 600)%Z.

(** The [HTTPError] of [raise_for_status]: [str] gives
    ["<status> Client Error: <reason> for url: <url>"]. *)
Definition http_error_of (r : response) : exc := HTTPError (rs_status r) (rs_reason r) (rs_url r) (rs_text r).

Section Requests.
Context `{Remote} {S : Type}.

(** [requests.<method>(url, ...)] *)
Definition send (rq : request) : PyM S response :=
  match remote rq with
  | Reply r => ret r
  | NoReply m => raise (RequestException m)
  end.

(** [resp.raise_for_status()]: a client (4xx) or server (5xx) error. *)
Definition raise_for_status (r : response) : PyM S unit :=
  if is_http_error (rs_status r) then raise (http_error_of r) else ret tt.

(** [resp.json()] *)
Definition resp_json (r : response) : PyM S json :=
  match rs_body r with
  | Some j => ret j
  | None => raise JSONDecodeError
  end.

(** [resp = requests.x(...); resp.raise_for_status(); data = resp.json()] *)
Definition send_checked_json (rq : request) : PyM S json :=
  r <- send rq ;; raise_for_status r ;; resp_json r.
End Requests.

(** The requests and their answers do not touch the record. *)
Section RequestsStateless.
Context `{Remote} {S : Type}.

Lemma stateless_send rq : stateless (S := S) (send rq).
Proof. unfold send. destruct (remote rq); eauto with py. Qed.

Lemma stateless_raise_for_status r : stateless (S := S) (raise_for_status r).
Proof. unfold raise_for_status. destruct (is_http_error _); eauto with py. Qed.

Lemma stateless_resp_json r : stateless (S := S) (resp_json r).
Proof. unfold resp_json. destruct (rs_body r); eauto with py. Qed.

Lemma stateless_send_checked_json rq : stateless (S := S) (send_checked_json rq).
Proof.
  unfold send_checked_json. apply stateless_bind; [apply stateless_send|intros r].
  apply stateless_bind; [apply stateless_raise_for_status|intros; apply stateless_resp_json].
Qed.
End RequestsStateless.

#[export] Hint Resolve stateless_send stateless_raise_for_status stateless_resp_json
  stateless_send_checked_json : py_stateless.

(** [resp.headers.get(k)]: header names are case-insensitive. *)
Definition header_get (r : response) (k : string) : option string :=
  match find (fun '(k', _) => String.eqb (lower k') (lower k)) (rs_headers r) with
  | Some (_, v) => Some v
  | None => None
  end.

(** The body returned by the three-step pattern, in each outcome. *)
Lemma send_checked_json_ok `{Remote} {S} (rq : request) (r : response) (j : json) (s : S) :
  remote rq = Reply r -> (rs_status r < 400)%Z -> rs_body r = Some j ->
  send_checked_json rq s = (Ret j, s).
Proof.
  intros Hr Hst Hb. unfold send_checked_json, send, raise_for_status, resp_json, bind, ret.
  rewrite Hr, Hb. unfold is_http_error. destruct (Z.leb_spec 400 (rs_status r)); [lia | done].
Qed.

Lemma send_checked_json_http_error `{Remote} {S} (rq : request) (r : response) (s : S) :
  remote rq = Reply r -> (400 <= rs_status r < 600)%Z ->
  send_checked_json rq s = (Raise (http_error_of r), s).
Proof.
  intros Hr Hst. unfold send_checked_json, send, raise_for_status, bind, ret, raise.
  rewrite Hr. unfold is_http_error. by rewrite (proj2 (Z.leb_le _ _)), (proj2 (Z.ltb_lt _ _)) by lia.
Qed.

Lemma send_checked_json_noreply `{Remote} {S} (rq : request) (m : string) (s : S) :
  remote rq = NoReply m ->
  send_checked_json rq s = (Raise (RequestException m), s).
Proof. intros Hr. unfold send_checked_json, send, bind, raise. by rewrite Hr. Qed.

(** The remote answers [rq] with a non-error status and the JSON body [j]. *)
Definition replies_json `{Remote} (rq : request) (j : json) : Prop :=
  exists r, remote rq = Reply r /\ (rs_status r < 400)%Z /\ rs_body r = Some j.

Lemma send_checked_json_replies `{Remote} {S} (rq : request) (j : json) (s : S) :
  replies_json rq j -> send_checked_json rq s = (Ret j, s).
Proof. intros (r & Hr & Hst & Hb). by apply (send_checked_json_ok rq r). Qed.

(** The remote answers [rq] with the JSON body [j], whatever its status. *)
Definition answers `{Remote} (rq : request) (j : json) : Prop :=
  exists r, remote rq = Reply r /\ rs_body r = Some j.

Lemma answers_send_json `{Remote} {S B} (rq : request) (j : json) (k : json -> PyM S B) s :
  answers rq j -> bind (send rq) (fun r => bind (resp_json r) k) s = k j s.
Proof. intros (r & Hr & Hb). unfold send, resp_json, bind, ret. by rewrite Hr, Hb. Qed.

(** The remote answers [rq] with the response [r] of a client or server
    error. *)
Definition replies_status `{Remote} (rq : request) (r : response) : Prop :=
  remote rq = Reply r /\ (400 <= rs_status r < 600)%Z.

Lemma send_checked_json_status `{Remote} {S} (rq : request) (r : response) (s : S) :
  replies_status rq r -> send_checked_json rq s = (Raise (http_error_of r), s).
Proof. intros [Hr Hst]. by apply send_checked_json_http_error. Qed.
