(* ===== verification/Task.v ===== *)
(** * The marketing task record ([project.task] as extended by the add-on)

    The record of [src/gl_geniolibre/models/project_task.py], lines 55-146:
    its selection [tipo], the attachments, the partner's credentials (related
    fields), and the Char/Text fields the publication code writes, kept in a
    [gmap] keyed by the field name.  Odoo's base [write] (the ORM method the
    override of [Write.v] calls through [super()]) is [orm_write]; the
    many2many commands of [adjuntos_ids] are those of the ORM.  The file also
    holds [_compute_social_flags] and the [unlink] and [copy] guards. *)

From Stdlib Require Import String ZArith List Bool.
From stdpp Require Import base gmap strings list.
From S2P Require Import Prelude Json Http.

Open Scope string_scope.

(** [tipo = fields.Selection([('feed', ...), ('video_stories', ...),
    ('video_reels', ...), ('otro', ...)])] *)
Inductive tipo_sel : Type :=
| feed
| video_stories
| video_reels
| otro.

#[export] Instance tipo_sel_eq_dec : EqDecision tipo_sel.
Proof. solve_decision. Defined.

(** The stored key of a selection value, as [str.format] prints it. *)
Definition tipo_key (t : tipo_sel) : string :=
  match t with
  | feed => "feed"
  | video_stories => "video_stories"
  | video_reels => "video_reels"
  | otro => "otro"
  end.

(** An [ir.attachment] record. *)
Record attachment : Type := Attachment {
  att_id : Z;
  att_name : string;
  att_mimetype : val;
  att_datas : string          (** base64 content *)
}.

(** The fields of a task the publication code reads; [fields] holds the
    Char, Text and Integer fields it writes ([post_estado], [fb_estado],
    [fb_error], [fb_post_id], [tiktok_video_duration], ...). *)
Record task : Type := Task {
  task_id : Z;
  state : string;                       (** "03_approved" once approved *)
  tipo : tipo_sel;
  fecha_publicacion : val;
  adjuntos_ids : list attachment;
  imagen_portada : val;                 (** base64 cover image or [False] *)
  red_social_ids : list string;         (** the names of the selected [red.social] *)
  tag_names : list string;
  project_type : val;                   (** [project_id.project_type] *)
  description : val;
  hashtags : val;
  partner_page_access_token : val;
  partner_facebook_page_id : val;
  partner_instagram_page_id : val;
  partner_tiktok_access_token : val;
  partner_linkedin_page_id : val;
  fields : gmap string val
}.

(** [record.<f>] for a field of [fields]; an unset field reads [False]. *)
Definition fld (t : task) (f : string) : val :=
  match fields t !! f with Some v => v | None => VFalse end.

(** The same record with its written fields replaced. *)
Definition with_fields (t : task) (m : gmap string val) : task :=
  {| task_id := task_id t; state := state t; tipo := tipo t;
     fecha_publicacion := fecha_publicacion t; adjuntos_ids := adjuntos_ids t;
     imagen_portada := imagen_portada t; red_social_ids := red_social_ids t;
     tag_names := tag_names t; project_type := project_type t;
     description := description t; hashtags := hashtags t;
     partner_page_access_token := partner_page_access_token t;
     partner_facebook_page_id := partner_facebook_page_id t;
     partner_instagram_page_id := partner_instagram_page_id t;
     partner_tiktok_access_token := partner_tiktok_access_token t;
     partner_linkedin_page_id := partner_linkedin_page_id t;
     fields := m |}.

(** The defaults of a new task (lines 87 and 139-142). *)
Definition default_fields : gmap string val :=
  list_to_map [("post_estado", VStr "Pendiente");
               ("fb_estado", VStr "Programado"); ("ig_estado", VStr "Programado");
               ("tt_estado", VStr "Programado"); ("li_estado", VStr "Programado")].

(** ** [_compute_social_flags] (lines 181-188) *)

Definition has_network (t : task) (name : string) : bool := str_in name (red_social_ids t).

Record social_flags : Type := SocialFlags {
  has_facebook : bool; has_instagram : bool; has_tiktok : bool; has_linkedin : bool }.

Definition compute_social_flags (t : task) : social_flags :=
  {| has_facebook := has_network t "Facebook"; has_instagram := has_network t "Instagram";
     has_tiktok := has_network t "TikTok"; has_linkedin := has_network t "LinkedIn" |}.

(** ** The values of a [write] and the ORM's base [write] *)

(** A many2many command on [adjuntos_ids]. *)
Inductive m2m_cmd : Type :=
| CmdCreate (a : attachment)   (** [(0, 0, values)]: [a] is the record the ORM creates *)
| CmdUpdate (id : Z)           (** [(1, id, values)] *)
| CmdDelete (id : Z)           (** [(2, id)] *)
| CmdUnlink (id : Z)           (** [(3, id)] *)
| CmdLink (id : Z)             (** [(4, id)] *)
| CmdClear                     (** [(5,)] *)
| CmdSet (ids : list Z).       (** [(6, 0, ids)] *)

(** The [vals] dictionary of a [write]: the structural fields it may carry
    and the written Char/Text/Integer fields. *)
Record wvals : Type := WVals {
  wv_tipo : option tipo_sel;
  wv_fecha : option val;
  wv_adjuntos : option (list m2m_cmd);
  wv_fields : gmap string val
}.

(** [{"f1": v1, ...}] with only Char/Text/Integer fields. *)
Definition fields_vals (l : list (string * val)) : wvals :=
  {| wv_tipo := None; wv_fecha := None; wv_adjuntos := None; wv_fields := list_to_map l |}.

(** [vals[k] = v] *)
Definition vals_set (k : string) (v : val) (vals : wvals) : wvals :=
  {| wv_tipo := wv_tipo vals; wv_fecha := wv_fecha vals; wv_adjuntos := wv_adjuntos vals;
     wv_fields := <[k := v]> (wv_fields vals) |}.

(** The attachment table [ir.attachment], read by [browse]. *)
Class AttachmentTable : Type := ir_attachment : gmap Z attachment.

Section Orm.
Context `{AttachmentTable}.

(** The ORM's application of many2many commands to the linked records. *)
Definition orm_m2m_cmd (l : list attachment) (c : m2m_cmd) : list attachment :=
  match c with
  | CmdCreate a => l ++ [a]
  | CmdUpdate _ => l
  | CmdDelete i | CmdUnlink i => filter (fun a => att_id a <> i) l
  | CmdLink i =>
      if existsb (fun a => Z.eqb (att_id a) i) l then l
      else match ir_attachment !! i with Some a => l ++ [a] | None => l end
  | CmdClear => []
  | CmdSet ids => omap (fun i => ir_attachment !! i) ids
  end.

(** [models.Model.write(vals)] on one record. *)
Definition orm_write (vals : wvals) (t : task) : task :=
  {| task_id := task_id t; state := state t;
     tipo := match wv_tipo vals with Some x => x | None => tipo t end;
     fecha_publicacion := match wv_fecha vals with Some x => x | None => fecha_publicacion t end;
     adjuntos_ids := match wv_adjuntos vals with
                     | Some cs => fold_left orm_m2m_cmd cs (adjuntos_ids t)
                     | None => adjuntos_ids t
                     end;
     imagen_portada := imagen_portada t; red_social_ids := red_social_ids t;
     tag_names := tag_names t; project_type := project_type t;
     description := description t; hashtags := hashtags t;
     partner_page_access_token := partner_page_access_token t;
     partner_facebook_page_id := partner_facebook_page_id t;
     partner_instagram_page_id := partner_instagram_page_id t;
     partner_tiktok_access_token := partner_tiktok_access_token t;
     partner_linkedin_page_id := partner_linkedin_page_id t;
     fields := wv_fields vals ∪ fields t |}.
End Orm.

(** ** [unlink] and [copy] (lines 190-202) *)

(** [unlink]: refused when a task carries the tag "Plantilla" (any case). *)
Definition unlink (ts : list task) : outcome unit :=
  if existsb (fun t => existsb (fun n => String.eqb (lower n) "plantilla") (tag_names t)) ts
  then Raise (ValidationError ("No puedes eliminar tareas con la etiqueta " ++ dquote ++ "Plantilla"
                               ++ dquote ++ "."))
  else Ret tt.

(** [copy]: refused for a task of a project of type "marketing". *)
Definition copy (t : task) : outcome unit :=
  if decide (project_type t = VStr "marketing")
  then Raise (ValidationError "No se puede duplicar tareas de proyectos de tipo Marketing.")
  else Ret tt.
