(* ===== verification/RedSocial.v ===== *)
(** * RedSocial: the default networks of [red.social] (lines 23-52)

    [_auto_init] creates the four networks the publication code knows
    ([Facebook], [Instagram], [LinkedIn], [TikTok]) when no record has the
    same name up to [strip().lower()].  The table is the list of the names
    of the [red.social] records, in creation order; a task's
    [red_social_ids] are names of that table. *)

From Stdlib Require Import String ZArith List Bool.
From stdpp Require Import base list.
From S2P Require Import Prelude Task.

Open Scope string_scope.

Definition redes_por_defecto : list string := ["Facebook"; "Instagram"; "LinkedIn"; "TikTok"].

(** [existentes = [nombre.strip().lower() for nombre in existentes]] *)
Definition existentes (table : list string) : list string := map (fun n => lower (strip n)) table.

(** [redes_a_crear]: the default names missing from the table. *)
Definition redes_a_crear (table : list string) : list string :=
  List.filter (fun n => negb (str_in (lower n) (existentes table))) redes_por_defecto.

(** [red_social._auto_init()]: the table after the creation. *)
Definition auto_init (table : list string) : list string := (table ++ redes_a_crear table)%list.

(** ** What [_auto_init] guarantees *)

Lemma existentes_app a b : existentes (a ++ b) = (existentes a ++ existentes b)%list.
Proof. apply map_app. Qed.

Lemma str_in_app x a b : str_in x (a ++ b)%list = str_in x a || str_in x b.
Proof. apply existsb_app. Qed.

Lemma list_filter_none {A} (f : A -> bool) l : (forall x, In x l -> f x = false) -> List.filter f l = [].
Proof. induction l as [|x l IH]; intros Hf; simpl; [done|]. rewrite Hf by (by left). apply IH. intros y Hy. apply Hf. by right. Qed.

Lemma lower_strip_default n : In n redes_por_defecto -> lower (strip n) = lower n.
Proof. intros [<-|[<-|[<-|[<-|[]]]]]; reflexivity. Qed.

Lemma redes_a_crear_spec table n :
  In n (redes_a_crear table) <-> In n redes_por_defecto /\ str_in (lower n) (existentes table) = false.
Proof. unfold redes_a_crear. rewrite filter_In. by rewrite negb_true_iff. Qed.

(** After [_auto_init], every default network has a record with its name
    up to [strip().lower()]. *)
Lemma auto_init_covers table n :
  In n redes_por_defecto -> str_in (lower n) (existentes (auto_init table)) = true.
Proof.
  intros Hn. unfold auto_init. rewrite existentes_app, str_in_app.
  destruct (str_in (lower n) (existentes table)) eqn:E; [done|]. simpl.
  apply str_in_spec, in_map_iff. exists n. split; [by apply lower_strip_default|].
  by apply redes_a_crear_spec.
Qed.

Lemma redes_a_crear_auto_init table : redes_a_crear (auto_init table) = [].
Proof.
  unfold redes_a_crear. apply list_filter_none. intros n Hn.
  by rewrite auto_init_covers.
Qed.

Lemma not_in_auto_init table n m :
  In m table -> lower (strip m) = lower n -> ~ In n table -> ~ In n (auto_init table).
Proof.
  intros Hm Hl Hn Hin. apply in_app_or in Hin as [Hin|Hin]; [done|].
  apply redes_a_crear_spec in Hin as [_ E].
  assert (str_in (lower n) (existentes table) = true) as E'
    by (apply str_in_spec, in_map_iff; eauto).
  congruence.
Qed.

(** [_auto_init] is idempotent, and after it every default network
    has a record whose name matches up to [strip().lower()]. *)
Theorem auto_init_idempotent table :
  auto_init (auto_init table) = auto_init table /\
  forall n, In n redes_por_defecto -> exists m, In m (auto_init table) /\ lower (strip m) = lower n.
Proof.
  split.
  - unfold auto_init at 1. rewrite redes_a_crear_auto_init. apply app_nil_r.
  - intros n Hn. apply (auto_init_covers table), str_in_spec, in_map_iff in Hn as (m & Hm & Hin).
    eauto.
Qed.

(** C14: a record whose name differs from a default network's only by
    case or blanks (["facebook"]) stops [_auto_init] from creating the
    network, while the publication code tests the exact name: a task
    whose networks come from that table never selects it. *)
Theorem auto_init_case_blocks_network table t n m :
  In m table -> lower (strip m) = lower n -> ~ In n table ->
  incl (red_social_ids t) (auto_init table) -> has_network t n = false.
Proof.
  intros Hm Hl Hn Hincl. unfold has_network.
  destruct (str_in n (red_social_ids t)) eqn:E; [|done].
  exfalso. apply str_in_spec in E. apply (not_in_auto_init table n m Hm Hl Hn). by apply Hincl.
Qed.
