(* ===== verification/Text.v ===== *)
(** * The text of a post: [_prepare_text] and [remove_duplicate_links]

    [_prepare_text] (lines 349-356) turns the task's HTML description and
    hashtags into the caption sent to the platforms: it keeps the non-blank
    lines of the description, separated by blank lines, drops every repeated
    link and every [[n]] footnote marker ([remove_duplicate_links], lines
    1779-1792), appends the hashtags, and removes zero-width spaces and
    tabs.  The two regular expressions of [remove_duplicate_links] are
    scanners on the text: [https?://\S+] matches a scheme and the maximal run
    of non-blank characters after it (blank in the sense of [str.isspace()],
    non-ASCII whitespace included), [\[\d+\]] a bracketed number.  Odoo's
    [html2plaintext] is a library function: the class [Html2Text].  The
    scanners run on fuel; [links_scan] and [markers_scan] describe the
    finished scans of [re.sub] without fuel, and the lemmas at the end
    show that the fuel given is always enough. *)

From Stdlib Require Import String Ascii ZArith List Bool.
From stdpp Require Import base list.
From S2P Require Import Prelude Task.

Open Scope string_scope.

Class Html2Text : Type := html2plaintext : string -> string.

(** The maximal run of non-blank characters at the start of [s], and the
    rest: [\S+] stops before the first character [\s] matches, the
    whitespace of [str.isspace()]. *)
Fixpoint nonspace_run (s : string) : string * string :=
  match s with
  | String c s' =>
      if starts_space s then (EmptyString, s)
      else let '(r, rest) := nonspace_run s' in (String c r, rest)
  | EmptyString => (EmptyString, EmptyString)
  end.

(** The scheme [http://] or [https://] at the start of [s], and the rest. *)
Definition scheme_prefix (s : string) : option (string * string) :=
  match s with
  | String "h" (String "t" (String "t" (String "p" (String ":" (String "/" (String "/" r)))))) =>
      Some ("http://", r)
  | String "h" (String "t" (String "t" (String "p" (String "s" (String ":" (String "/" (String "/" r))))))) =>
      Some ("https://", r)
  | _ => None
  end.

(** A match of [https?://\S+] at the start of [s]: the URL and the rest. *)
Definition match_url (s : string) : option (string * string) :=
  match scheme_prefix s with
  | Some (sch, r) =>
      let '(run, rest) := nonspace_run r in
      match run with
      | EmptyString => None
      | _ => Some (sch ++ run, rest)
      end
  | None => None
  end.

Lemma match_url_shorter s u r : match_url s = Some (u, r) -> String.length r < String.length s.
Proof.
  unfold match_url, scheme_prefix.
  assert (Hrun : forall x, String.length (snd (nonspace_run x)) <= String.length x).
  { induction x as [|c x IH]; [simpl; lia|]. cbn [nonspace_run].
    destruct (starts_space (String c x)); simpl; [lia|]. destruct (nonspace_run x); simpl in *; lia. }
  repeat case_match; intros E; simplify_eq; try discriminate;
    repeat match goal with H : nonspace_run ?x = _ |- _ => pose proof (Hrun x); rewrite H in *; clear H end;
    simpl in *; lia.
Qed.

(** [re.sub(r'https?://\S+', replace_link, text)] with the set [seen] of
    the links already kept; the recursion is on the length of the text. *)
Fixpoint dedup_links (fuel : nat) (seen : list string) (s : string) : string :=
  match fuel with
  | O => s
  | S f =>
      match match_url s with
      | Some (u, rest) =>
          if str_in u seen then dedup_links f seen rest
          else u ++ dedup_links f (u :: seen) rest
      | None =>
          match s with
          | String c s' => String c (dedup_links f seen s')
          | EmptyString => EmptyString
          end
      end
  end.

Definition is_digit (c : ascii) : bool := (48 <=? nat_of_ascii c)%nat && (nat_of_ascii c <=? 57)%nat.

(** The text after the maximal run of digits at the start of [s]. *)
Fixpoint skip_digits (s : string) : string :=
  match s with
  | String d s' => if is_digit d then skip_digits s' else s
  | EmptyString => EmptyString
  end.

(** A match of [\[\d+\]] at the start of [s]: the text after it. *)
Definition match_marker (s : string) : option string :=
  match s with
  | String "[" (String d r) =>
      if is_digit d then
        match skip_digits r with String "]" rest => Some rest | _ => None end
      else None
  | _ => None
  end.

Lemma skip_digits_shorter s : String.length (skip_digits s) <= String.length s.
Proof. induction s as [|c s IH]; simpl; [lia|]. destruct (is_digit c); simpl; lia. Qed.

(** [re.sub(r'\[\d+\]', '', text)] *)
Fixpoint strip_markers (fuel : nat) (s : string) : string :=
  match fuel with
  | O => s
  | S f =>
      match match_marker s with
      | Some rest => strip_markers f rest
      | None => match s with
                | String c s' => String c (strip_markers f s')
                | EmptyString => EmptyString
                end
      end
  end.

(** [remove_duplicate_links(text)]: each scanner gets one unit of fuel per
    character, which is enough since every step consumes one. *)
Definition remove_duplicate_links (text : string) : string :=
  let text_without_duplicates := dedup_links (S (String.length text)) [] text in
  strip_markers (S (String.length text_without_duplicates)) text_without_duplicates.

(** ** [_prepare_text] *)

(** [s.split(sep)] for a one-character separator. *)
Fixpoint split_on (sep : ascii) (s : string) : list string :=
  match s with
  | EmptyString => [EmptyString]
  | String c s' =>
      if Ascii.eqb c sep then EmptyString :: split_on sep s'
      else match split_on sep s' with
           | p :: ps => String c p :: ps
           | [] => [String c EmptyString]
           end
  end.

(** [s.replace(old, '')] *)
Fixpoint remove_all_fuel (fuel : nat) (old s : string) : string :=
  match fuel with
  | O => s
  | S f =>
      match s with
      | EmptyString => EmptyString
      | String c s' =>
          if startswith old s && negb (String.eqb old EmptyString)
          then remove_all_fuel f old (substring (String.length old) (String.length s) s)
          else String c (remove_all_fuel f old s')
      end
  end.

Definition remove_all (old s : string) : string := remove_all_fuel (S (String.length s)) old s.

Definition newline : string := String (ascii_of_nat 10) EmptyString.
Definition tab : string := String (ascii_of_nat 9) EmptyString.
(** U+200B ZERO WIDTH SPACE, in UTF-8. *)
Definition zwsp : string :=
  String (ascii_of_nat 226) (String (ascii_of_nat 128) (String (ascii_of_nat 139) EmptyString)).

Section PrepareText.
Context `{Html2Text}.

(** [self._prepare_text()] *)
Definition prepare_text (t : task) : string :=
  let plain_description := html2plaintext (str_or_empty (description t)) in
  let plain_hashtags := html2plaintext (str_or_empty (hashtags t)) in
  let paragraphs := omap (fun p => if String.eqb (strip p) EmptyString then None else Some (strip p))
                         (split_on (ascii_of_nat 10) plain_description) in
  let formatted_description := join (newline ++ newline) paragraphs in
  let formatted_description := rstrip (remove_duplicate_links formatted_description) in
  let combined_text := formatted_description ++ newline ++ newline ++ plain_hashtags in
  strip (remove_all tab (remove_all zwsp combined_text)).
End PrepareText.

(** ** The scans of [re.sub], and the fuel they need

    [re.sub(pattern, repl, s)] scans [s] from the left: where the pattern
    matches, the match is replaced and the scan resumes after it; elsewhere
    one character is copied.  [links_scan seen s out] and [markers_scan s out]
    are the finished scans of the two substitutions of
    [remove_duplicate_links], as relations with no fuel.  The theorems below
    show that the fuel [remove_duplicate_links] gives is enough: the fuelled
    scanners always end, on the one result of the scan. *)

Inductive links_scan : list string -> string -> string -> Prop :=
| links_end seen : links_scan seen EmptyString EmptyString
| links_seen seen s u rest out :
    match_url s = Some (u, rest) -> str_in u seen = true ->
    links_scan seen rest out -> links_scan seen s out
| links_new seen s u rest out :
    match_url s = Some (u, rest) -> str_in u seen = false ->
    links_scan (u :: seen) rest out -> links_scan seen s (u ++ out)
| links_char seen c s out :
    match_url (String c s) = None -> links_scan seen s out ->
    links_scan seen (String c s) (String c out).

Inductive markers_scan : string -> string -> Prop :=
| markers_end : markers_scan EmptyString EmptyString
| markers_drop s rest out :
    match_marker s = Some rest -> markers_scan rest out -> markers_scan s out
| markers_char c s out :
    match_marker (String c s) = None -> markers_scan s out ->
    markers_scan (String c s) (String c out).

#[export] Hint Constructors links_scan markers_scan : core.

Lemma match_marker_shorter s r : match_marker s = Some r -> String.length r < String.length s.
Proof.
  destruct s as [|b s]; [discriminate|]. destruct s as [|d s']; unfold match_marker.
  { destruct b as [[] [] [] [] [] [] [] []]; discriminate. }
  pose proof (skip_digits_shorter s') as Hs.
  destruct b as [[] [] [] [] [] [] [] []]; try discriminate.
  destruct (is_digit d); [|discriminate].
  destruct (skip_digits s') as [|e rest]; [discriminate|].
  destruct e as [[] [] [] [] [] [] [] []]; try discriminate.
  intros [= <-]. cbn in *. lia.
Qed.

Lemma match_url_empty : match_url EmptyString = None.
Proof. reflexivity. Qed.

Lemma match_marker_empty : match_marker EmptyString = None.
Proof. reflexivity. Qed.

(** One unit of fuel per character is enough for [dedup_links]. *)
Lemma dedup_links_scan n seen s :
  String.length s < n -> links_scan seen s (dedup_links n seen s).
Proof.
  revert seen s. induction n as [|f IH]; intros seen s Hn; [lia|]. cbn [dedup_links].
  destruct (match_url s) as [[u rest]|] eqn:Hm.
  - pose proof (match_url_shorter _ _ _ Hm).
    destruct (str_in u seen) eqn:Hin; eauto with lia.
  - destruct s as [|c s']; simpl in Hn; eauto with lia.
Qed.

Lemma strip_markers_scan n s :
  String.length s < n -> markers_scan s (strip_markers n s).
Proof.
  revert s. induction n as [|f IH]; intros s Hn; [lia|]. cbn [strip_markers].
  destruct (match_marker s) as [rest|] eqn:Hm.
  - pose proof (match_marker_shorter _ _ Hm). eauto with lia.
  - destruct s as [|c s']; simpl in Hn; eauto with lia.
Qed.

(** Each scan has one result. *)
Lemma links_scan_det seen s o1 o2 : links_scan seen s o1 -> links_scan seen s o2 -> o1 = o2.
Proof.
  intros H1. revert o2. induction H1 as [seen|seen s u rest out Hm Hin _ IH|seen s u rest out Hm Hin _ IH|seen c s out Hm _ IH];
    intros o2 H2; inversion H2; subst; simplify_eq; try congruence;
    rewrite ?match_url_empty in *; try discriminate; f_equal; auto.
Qed.

Lemma markers_scan_det s o1 o2 : markers_scan s o1 -> markers_scan s o2 -> o1 = o2.
Proof.
  intros H1. revert o2. induction H1 as [|s rest out Hm _ IH|c s out Hm _ IH];
    intros o2 H2; inversion H2; subst; simplify_eq; try congruence;
    rewrite ?match_marker_empty in *; try discriminate; f_equal; auto.
Qed.

(** [str.replace] in [remove_all]: one unit of fuel per character is
    enough, since every step consumes at least one; more fuel changes
    nothing. *)
Lemma substring_length_le n m s : String.length (substring n m s) <= String.length s - n.
Proof.
  revert n m. induction s as [|c s IH]; intros [|n] [|m]; cbn; try lia.
  - specialize (IH 0 m). lia.
  - specialize (IH n 0). lia.
  - specialize (IH n (S m)). lia.
Qed.

Lemma remove_all_fuel_enough n m old s :
  String.length s < n -> String.length s < m -> remove_all_fuel n old s = remove_all_fuel m old s.
Proof.
  revert m s. induction n as [|f IH]; intros [|g] s Hn Hm; try lia. cbn [remove_all_fuel].
  destruct s as [|c s']; [done|].
  destruct (startswith old (String c s') && negb (String.eqb old EmptyString)) eqn:E.
  - apply andb_prop in E as [_ Ho]. apply negb_true_iff, String.eqb_neq in Ho.
    destruct old as [|o old']; [done|].
    pose proof (substring_length_le (String.length (String o old')) (String.length (String c s')) (String c s')).
    apply IH; cbn in *; lia.
  - f_equal. apply IH; cbn in *; lia.
Qed.

(** [strip()] and [\s] on non-ASCII whitespace, as CPython:
    ['\xa0hola　'.strip() == 'hola'], and [re.match(r'https?://\S+',
    'http://a\xa0b')] stops before the no-break space. *)
Example unicode_space_checks :
  let nbsp := String (ascii_of_nat 194) (String (ascii_of_nat 160) EmptyString) in
  let ideo := String (ascii_of_nat 227) (String (ascii_of_nat 128) (String (ascii_of_nat 128) EmptyString)) in
  (strip (nbsp ++ "hola" ++ ideo), match_url ("http://a" ++ nbsp ++ "b"))
  = ("hola", Some ("http://a", nbsp ++ "b")).
Proof. vm_compute. reflexivity. Qed.
