(* ===== verification/Write.v ===== *)
(** * The [write] override of [project.task] (lines 204-278)

    Every assignment [self.f = v] of the publication code is an Odoo
    [write({'f': v})], and the add-on overrides [write]: before calling the
    ORM it checks, record by record, the publication date and, for an
    approved task, the attachments (at least one; exactly one MP4 video for
    stories and reels, whose duration it measures with ffprobe and stores in
    [vals['tiktok_video_duration']]; no MP4 in a feed).  The [vals]
    dictionary is shared by all the records of the recordset and mutated by
    the loop, and then written to every record: the loop is a computation in
    [PyM wvals], and [write] a computation on the recordset.

    ffprobe is an external program: the class [Ffprobe] gives, for the base64
    content of a video, what [subprocess.check_output] returns.  The file
    ends with the lemmas that the platform flows use: a write of fields only
    succeeds exactly when [write_ok] holds, stores its values, and keeps
    [write_ok]. *)

From Stdlib Require Import String Ascii ZArith List Bool.
From stdpp Require Import base gmap strings list.
From S2P Require Import Prelude PyFloat Json Http Task.

Open Scope string_scope.

(** ** [get_video_duration_ffprobe] (lines 1743-1776) *)

(** What running ffprobe on the decoded content gives. *)
Inductive proc_result : Type :=
| ProcOut (stdout : string)          (** the JSON printed by [-of json] *)
| ProcTimeout                        (** [subprocess.TimeoutExpired] (3 s) *)
| ProcFailed (msg : string).         (** base64 or process error, with its [str] *)

Class Ffprobe : Type := ffprobe_exec : string -> proc_result.

Section Ffprobe.
Context `{Ffprobe} {S : Type}.

Definition ffprobe_error (e : exc) : exc :=
  ValidationError ("No se pudo obtener la duración del video usando ffprobe: " ++ exc_str e).

(** [duration = float(info["format"]["duration"]); return int(duration)] *)
Definition duration_of_info (info : json) : PyM S Z :=
  fmt <- dict_index info "format" ;;
  d <- dict_index fmt "duration" ;;
  duration <- of_outcome (py_float d) ;;
  of_outcome (float_trunc duration).

Definition get_video_duration_ffprobe (datas : string) : PyM S Z :=
  match ffprobe_exec datas with
  | ProcTimeout =>
      raise (ValidationError "ffprobe demoró demasiado y fue detenido. El archivo puede estar corrupto.")
  | ProcFailed m => raise (ffprobe_error (ValidationError m))
  | ProcOut out =>
      match json_loads out with
      | None => raise (ffprobe_error JSONDecodeError)
      | Some info => try_except (duration_of_info info) (fun e => raise (ffprobe_error e))
      end
  end.
End Ffprobe.

(** ** The attachment checks of the override *)

(** The ids the override believes linked after [vals['adjuntos_ids']]
    (lines 222-241): commands 0 and 1 are ignored, 2 and 3 discard, 4 adds,
    5 clears, 6 replaces; a command on id [0] ([False]) does nothing. *)
Definition set_add (x : Z) (l : list Z) : list Z := if existsb (Z.eqb x) l then l else l ++ [x].
Definition set_discard (x : Z) (l : list Z) : list Z := filter (fun y => y <> x) l.

Definition check_cmd (cur : list Z) (c : m2m_cmd) : list Z :=
  match c with
  | CmdCreate _ | CmdUpdate _ => cur
  | CmdDelete i | CmdUnlink i => if Z.eqb i 0 then cur else set_discard i cur
  | CmdLink i => if Z.eqb i 0 then cur else set_add i cur
  | CmdClear => []
  | CmdSet ids => fold_left (fun acc i => set_add i acc) ids []
  end.

Section WriteOverride.
Context `{AttachmentTable} `{Ffprobe}.

(** [record.env['ir.attachment'].browse(ids)]: a missing id gives a record
    whose fields cannot be read. *)
Definition browse (ids : list Z) : list (option attachment) :=
  map (fun i => ir_attachment !! i) ids.

(** The MP4 check of stories and reels, with the duration measurement
    (lines 259-271). *)
Definition check_video (current_tipo : tipo_sel) (a : option attachment) : PyM wvals unit :=
  match a with
  | None => raise MissingError
  | Some a =>
      if decide (att_mimetype a <> VStr "video/mp4") then
        raise (ValidationError ("Solo se aceptan videos en formato MP4 para el tipo de publicación '"
                                ++ tipo_key current_tipo ++ "'."))
      else
        try_except
          (d <- get_video_duration_ffprobe (att_datas a) ;;
           modify (vals_set "tiktok_video_duration" (VInt d)))
          (fun e => raise (ValidationError ("No se pudo analizar el video MP4: " ++ exc_str e)))
  end.

(** The no-video check of a feed (lines 274-277). *)
Definition check_image (a : option attachment) : PyM wvals unit :=
  match a with
  | None => raise MissingError
  | Some a =>
      if decide (att_mimetype a = VStr "video/mp4") then
        raise (ValidationError "Solo se aceptan imágenes para publicaciones de tipo 'Feed'. No se permiten videos MP4.")
      else ret tt
  end.

Fixpoint for_each {S A} (f : A -> PyM S unit) (l : list A) : PyM S unit :=
  match l with
  | [] => ret tt
  | x :: l' => f x ;; for_each f l'
  end.

(** The body of [for record in self:] (lines 207-277). *)
Definition check_record (record : task) : PyM wvals unit :=
  vals <- get ;;
  let current_tipo := match wv_tipo vals with Some x => x | None => tipo record end in
  (if decide (current_tipo <> otro) then
     let fecha := match wv_fecha vals with Some x => x | None => fecha_publicacion record end in
     if truthy fecha then ret tt
     else raise (ValidationError "La 'Fecha y hora de Publicación' es obligatoria cuando el tipo no es 'Otro'.")
   else ret tt) ;;
  if String.eqb (state record) "03_approved" then
    if decide (current_tipo = otro) then ret tt
    else
      let current_attachments :=
        match wv_adjuntos vals with
        | Some cmds => browse (fold_left check_cmd cmds (map att_id (adjuntos_ids record)))
        | None => map Some (adjuntos_ids record)
        end in
      match current_attachments with
      | [] => raise (ValidationError ("Debe seleccionar al menos un archivo para publicar para el tipo '"
                                      ++ tipo_key current_tipo ++ "'."))
      | _ =>
          if decide (current_tipo <> feed) then
            if (1 <? length current_attachments)%nat then
              raise (ValidationError ("Solo se acepta 1 archivo para el tipo de publicación '"
                                      ++ tipo_key current_tipo ++ "'."))
            else if decide (current_tipo = video_stories \/ current_tipo = video_reels) then
              for_each (check_video current_tipo) current_attachments
            else ret tt
          else for_each check_image current_attachments
      end
  else ret tt.

(** [write(self, vals)] on a recordset: the checks of every record thread
    the one [vals], then [super().write(vals)] writes it to every record. *)
Definition write (vals : wvals) : PyM (list task) unit :=
  fun ts => match for_each check_record ts vals with
            | (Ret _, vals') => (Ret tt, map (orm_write vals') ts)
            | (Raise e, _) => (Raise e, ts)
            end.

(** [self.write(vals)] and [self.f = v] on a single record. *)
Definition task_write (vals : wvals) : PyM task unit :=
  fun t => match write vals [t] with
           | (o, [t']) => (o, t')
           | (o, _) => (o, t)
           end.

Definition set_fields (l : list (string * val)) : PyM task unit := task_write (fields_vals l).
End WriteOverride.

(** ** A write of fields only

    The checks read the record's static part and, through [vals], only the
    structural keys, which a write of fields only does not carry; their one
    effect on [vals] is to set ["tiktok_video_duration"].  So such a write
    either raises ([write_guard] is an exception) without touching the
    record, or stores its values and, for an approved story or reel, the
    measured duration ([write_extra]). *)

Definition dur_key : string := "tiktok_video_duration".

(** The duration the checks add to [vals], if any. *)
Definition with_extra (e : option val) (m : gmap string val) : gmap string val :=
  match e with Some x => <[dur_key := x]> m | None => m end.

Definition vals_extra (e : option val) (v : wvals) : wvals :=
  {| wv_tipo := wv_tipo v; wv_fecha := wv_fecha v; wv_adjuntos := wv_adjuntos v;
     wv_fields := with_extra e (wv_fields v) |}.

(** A check that behaves the same on every [vals] of fields only. *)
Definition vals_transparent (m : PyM wvals unit) (o : outcome unit) (e : option val) : Prop :=
  forall v, wv_tipo v = None -> wv_fecha v = None -> wv_adjuntos v = None ->
            m v = (o, vals_extra e v).

Lemma vals_extra_none v : vals_extra None v = v.
Proof. by destruct v. Qed.

Lemma vals_extra_twice e1 e2 v :
  vals_extra e2 (vals_extra e1 v) = vals_extra (match e2 with Some x => Some x | None => e1 end) v.
Proof.
  destruct v, e1, e2; unfold vals_extra, with_extra; simpl; try done.
  by rewrite insert_insert_eq.
Qed.

Lemma transparent_ret o : o = Ret tt -> vals_transparent (ret tt) o None.
Proof. intros -> v _ _ _. by rewrite vals_extra_none. Qed.

Lemma transparent_raise e : vals_transparent (raise e) (Raise e) None.
Proof. intros v _ _ _. by rewrite vals_extra_none. Qed.

Lemma transparent_bind m k o1 e1 o2 e2 :
  vals_transparent m o1 e1 -> vals_transparent k o2 e2 ->
  exists o e, vals_transparent (m ;; k) o e.
Proof.
  intros Hm Hk. destruct o1 as [[]|ex].
  - exists o2, (match e2 with Some x => Some x | None => e1 end).
    intros v ??? . unfold bind. rewrite Hm by done.
    rewrite Hk by (destruct e1; done). by rewrite vals_extra_twice.
  - exists (Raise ex), e1. intros v ??? . unfold bind. by rewrite Hm.
Qed.

Section WriteFields.
Context `{AttachmentTable} `{Ffprobe}.

Lemma get_video_duration_stateless {S} d : stateless (S := S) (get_video_duration_ffprobe d).
Proof.
  unfold get_video_duration_ffprobe, duration_of_info, dict_index, dict_get.
  solve_stateless.
Qed.

Lemma check_video_transparent ct a : exists o e, vals_transparent (check_video ct a) o e.
Proof.
  destruct a as [a|]; simpl; [|eexists _, None; apply transparent_raise].
  case_decide; [eexists _, None; apply transparent_raise|].
  destruct (get_video_duration_stateless (S := wvals) (att_datas a)) as [[dur|ex] Hd].
  - exists (Ret tt), (Some (VInt dur)). intros v ???.
    unfold try_except, bind, modify. by rewrite Hd.
  - exists (Raise (ValidationError ("No se pudo analizar el video MP4: " ++ exc_str ex))), None.
    intros v ???. unfold try_except, bind, raise. rewrite Hd. by rewrite vals_extra_none.
Qed.

Lemma for_each_transparent {A} (f : A -> PyM wvals unit) l :
  (forall x, exists o e, vals_transparent (f x) o e) ->
  exists o e, vals_transparent (for_each f l) o e.
Proof.
  intros Hf. induction l as [|x l IH]; simpl.
  - exists (Ret tt), None. by apply transparent_ret.
  - destruct (Hf x) as (o1 & e1 & H1). destruct IH as (o2 & e2 & H2).
    eapply transparent_bind; eauto.
Qed.
Lemma check_image_transparent a : exists o e, vals_transparent (check_image a) o e.
Proof.
  destruct a as [a|]; simpl; [case_decide|].
  - eexists _, None. apply transparent_raise.
  - exists (Ret tt), None. by apply transparent_ret.
  - eexists _, None. apply transparent_raise.
Qed.

(** What the checks of a record give on a write of fields only. *)
Definition write_guard (t : task) : outcome unit := fst (check_record t (fields_vals [])).
Definition write_extra (t : task) : option val :=
  wv_fields (snd (check_record t (fields_vals []))) !! dur_key.

Lemma with_extra_empty e : with_extra e ∅ !! dur_key = e.
Proof. destruct e; simpl; [apply lookup_insert_eq | apply lookup_empty]. Qed.

Lemma vals_extra_fields_nil e : wv_fields (vals_extra e (fields_vals [])) !! dur_key = e.
Proof. apply with_extra_empty. Qed.

Lemma check_record_fields t v :
  wv_tipo v = None -> wv_fecha v = None -> wv_adjuntos v = None ->
  check_record t v = (write_guard t, vals_extra (write_extra t) v).
Proof.
  destruct (for_each_transparent _ (map Some (adjuntos_ids t))
              (check_video_transparent (tipo t))) as (ov & ev & Hv).
  destruct (for_each_transparent _ (map Some (adjuntos_ids t)) check_image_transparent)
    as (oi & ei & Hi).
  intros Ht Hf Hd. unfold write_guard, write_extra, check_record, bind, get.
  cbv beta. rewrite Ht, Hf, Hd. simpl.
  destruct (decide (tipo t <> otro)); [destruct (truthy (fecha_publicacion t))|]; simpl;
    destruct (state t =? "03_approved")%string; simpl;
    try (destruct (decide (tipo t = otro)); simpl);
    try (destruct (map Some (adjuntos_ids t)) as [|a0 l0] eqn:Em; simpl);
    rewrite ?vals_extra_fields_nil, ?vals_extra_none; try done.
  destruct (decide (tipo t <> feed));
    [destruct (1 <? S (length l0))%nat;
     [|destruct (decide (tipo t = video_stories \/ tipo t = video_reels))]|];
    simpl; rewrite ?vals_extra_fields_nil, ?vals_extra_none; try done.
  - change (check_video (tipo t) a0 ;; for_each (check_video (tipo t)) l0)
      with (for_each (check_video (tipo t)) (a0 :: l0)).
    rewrite !Hv by done. simpl. by rewrite with_extra_empty.
  - change (check_image a0 ;; for_each check_image l0) with (for_each check_image (a0 :: l0)).
    rewrite !Hi by done. simpl. by rewrite with_extra_empty.
Qed.

(** The record accepts a write of fields. *)
Definition write_ok (t : task) : bool :=
  match write_guard t with Ret _ => true | Raise _ => false end.

(** [self.write({...})] with fields only. *)
Lemma set_fields_spec l t :
  set_fields l t =
    match write_guard t with
    | Ret _ => (Ret tt, with_fields t (with_extra (write_extra t) (list_to_map l) ∪ fields t))
    | Raise e => (Raise e, t)
    end.
Proof.
  unfold set_fields, task_write, write. simpl for_each. unfold bind at 1.
  rewrite check_record_fields by done. destruct (write_guard t); reflexivity.
Qed.

Lemma set_fields_ok l t :
  write_ok t = true ->
  set_fields l t = (Ret tt, with_fields t (with_extra (write_extra t) (list_to_map l) ∪ fields t)).
Proof. unfold write_ok. rewrite set_fields_spec. by destruct (write_guard t). Qed.

Lemma set_fields_fail l t e :
  write_guard t = Raise e -> set_fields l t = (Raise e, t).
Proof. intros He. by rewrite set_fields_spec, He. Qed.

(** The checks only read the static part of the record. *)
Lemma write_guard_with_fields t m : write_guard (with_fields t m) = write_guard t.
Proof. reflexivity. Qed.

Lemma write_extra_with_fields t m : write_extra (with_fields t m) = write_extra t.
Proof. reflexivity. Qed.

Lemma write_ok_with_fields t m : write_ok (with_fields t m) = write_ok t.
Proof. reflexivity. Qed.
End WriteFields.

(** ** Reading the fields after a write *)

Lemma with_fields_fields t m : fields (with_fields t m) = m.
Proof. reflexivity. Qed.

Lemma with_fields_twice t m1 m2 : with_fields (with_fields t m1) m2 = with_fields t m2.
Proof. reflexivity. Qed.

Lemma with_fields_id t : with_fields t (fields t) = t.
Proof. by destruct t. Qed.

Lemma fld_after_write t e l k :
  k <> dur_key ->
  fld (with_fields t (with_extra e (list_to_map l) ∪ fields t)) k =
    match (list_to_map l : gmap string val) !! k with Some v => v | None => fld t k end.
Proof.
  intros Hk. unfold fld. rewrite with_fields_fields, lookup_union.
  destruct e; simpl; [rewrite lookup_insert_ne by congruence|];
    destruct ((list_to_map l : gmap string val) !! k), (fields t !! k); done.
Qed.

(** ** What the checks accept and reject *)

Section Checks.
Context `{AttachmentTable} `{Ffprobe}.

Definition ffprobe_duration (datas : string) (d : Z) : Prop :=
  forall s : wvals, get_video_duration_ffprobe datas s = (Ret d, s).

(** An approved story or reel whose one attachment is an MP4 video. *)
Definition single_video (t : task) (a : attachment) : Prop :=
  state t = "03_approved" /\ (tipo t = video_reels \/ tipo t = video_stories) /\
  truthy (fecha_publicacion t) = true /\ adjuntos_ids t = [a] /\ att_mimetype a = VStr "video/mp4".

Lemma single_video_checks t a d v :
  single_video t a -> ffprobe_duration (att_datas a) d ->
  wv_tipo v = None -> wv_fecha v = None -> wv_adjuntos v = None ->
  check_record t v = (Ret tt, vals_set dur_key (VInt d) v).
Proof.
  intros (Hs & Ht & Hf & Ha & Hm) Hd Hvt Hvf Hva. unfold check_record, bind, get.
  rewrite Hvt, Hvf, Hva, Hs, Hf, Ha. cbv beta iota.
  destruct Ht as [Ht|Ht]; rewrite Ht; simpl.
  all: unfold check_video; rewrite Hm; simpl; unfold try_except, bind, modify; rewrite Hd; done.
Qed.

Lemma fld_orm_write_dur v t d :
  wv_fields v !! dur_key = Some d -> fld (orm_write v t) dur_key = d.
Proof. intros E. unfold fld. simpl. by rewrite (lookup_union_Some_l _ _ _ _ E). Qed.

(** C21: A write on several approved stories or reels threads one [vals] through the checks of
    all of them, so the duration measured on the last record's video is written to every
    record of the batch. *)
Theorem write_shares_duration t1 t2 a1 a2 d1 d2 l :
  single_video t1 a1 -> ffprobe_duration (att_datas a1) d1 ->
  single_video t2 a2 -> ffprobe_duration (att_datas a2) d2 ->
  exists t1' t2', write (fields_vals l) [t1; t2] = (Ret tt, [t1'; t2']) /\
    fld t1' dur_key = VInt d2 /\ fld t2' dur_key = VInt d2.
Proof.
  intros H1 D1 H2 D2. unfold write. simpl for_each. unfold bind.
  rewrite (single_video_checks t1 a1 d1) by done.
  rewrite (single_video_checks t2 a2 d2) by done.
  eexists _, _. split; [reflexivity|].
  split; apply fld_orm_write_dur; simpl; apply lookup_insert_eq.
Qed.
(** C22: [(0, 0, values)] creates an attachment the checks never see. *)
Theorem write_create_bypasses_check t a b d :
  single_video t a -> ffprobe_duration (att_datas a) d -> ir_attachment !! att_id a = Some a ->
  exists t', write {| wv_tipo := None; wv_fecha := None; wv_adjuntos := Some [CmdCreate b];
                      wv_fields := ∅ |} [t] = (Ret tt, [t']) /\ adjuntos_ids t' = [a; b].
Proof.
  intros (Hs & Ht & Hf & Ha & Hm) Hd Htab. unfold write. simpl for_each.
  unfold check_record, bind, get. cbn [wv_tipo wv_fecha wv_adjuntos]. rewrite Hs, Hf, Ha.
  unfold browse. cbv beta iota.
  destruct Ht as [Ht|Ht]; rewrite Ht; simpl; rewrite Htab;
    unfold check_video; rewrite Hm; simpl; unfold try_except, bind, modify; rewrite Hd;
    eexists; (split; [reflexivity|]); simpl; by rewrite Ha.
Qed.

Lemma check_images_video pre a post v :
  Forall (fun x => att_mimetype x <> VStr "video/mp4") pre -> att_mimetype a = VStr "video/mp4" ->
  for_each check_image (map Some (pre ++ a :: post)) v =
    (Raise (ValidationError "Solo se aceptan imágenes para publicaciones de tipo 'Feed'. No se permiten videos MP4."), v).
Proof.
  intros Hpre Ha. induction Hpre as [|x pre Hx Hpre IH]; simpl; unfold bind, check_image.
  - by rewrite decide_True.
  - rewrite decide_False by done. apply IH.
Qed.

(** C23: An approved feed whose attachments include an MP4 video refuses every write of
    fields: the write raises and changes nothing. *)
Theorem write_feed_video_rejected t pre a post l :
  state t = "03_approved" -> tipo t = feed -> truthy (fecha_publicacion t) = true ->
  adjuntos_ids t = (pre ++ a :: post)%list ->
  Forall (fun x => att_mimetype x <> VStr "video/mp4") pre -> att_mimetype a = VStr "video/mp4" ->
  write (fields_vals l) [t] =
    (Raise (ValidationError "Solo se aceptan imágenes para publicaciones de tipo 'Feed'. No se permiten videos MP4."), [t]).
Proof.
  intros Hs Ht Hf Ha Hpre Hm. unfold write. simpl for_each. unfold check_record, bind, get.
  cbn [wv_tipo wv_fecha wv_adjuntos fields_vals]. rewrite Hs, Ht, Hf. simpl.
  pose proof (check_images_video pre a post (fields_vals l) Hpre Hm) as E. rewrite <- Ha in E.
  destruct (map Some (adjuntos_ids t)) as [|x xs] eqn:Em.
  - rewrite Ha in Em. by destruct pre.
  - simpl. change (check_image x ;; for_each check_image xs) with (for_each check_image (x :: xs)).
    by rewrite E.
Qed.

(** A record that is not of type "otro" refuses a write that leaves it without
    publication date, approved or not. *)
Theorem write_requires_fecha t v :
  match wv_tipo v with Some x => x | None => tipo t end <> otro ->
  truthy (match wv_fecha v with Some x => x | None => fecha_publicacion t end) = false ->
  write v [t] =
    (Raise (ValidationError "La 'Fecha y hora de Publicación' es obligatoria cuando el tipo no es 'Otro'."), [t]).
Proof.
  intros Ht Hf. unfold write. simpl for_each. unfold check_record, bind, get. cbv beta.
  rewrite decide_True by exact Ht. by rewrite Hf.
Qed.
End Checks.
