(* ===== verification/Schedule.v ===== *)
(** * Scheduling a post: [programar_post] and [cancelar_post] (lines 280-311)

    [programar_post] sets [post_estado = "Programado"] on an approved task.
    Its [try] catches every exception, its own "must be approved" error and
    the write's validation errors alike, e-mails the administrator (not
    modelled: the mail is an outgoing message, not state of the task) and
    raises one generic [ValidationError]. *)

From Stdlib Require Import String ZArith List Bool.
From stdpp Require Import base gmap strings list.
From S2P Require Import Prelude Task Write.

Open Scope string_scope.

Section Schedule.
Context `{AttachmentTable} `{Ffprobe}.

Definition programar_error : exc :=
  ValidationError "Ocurrió un error inesperado. Revisa la notificación.".

(** [programar_post()] *)
Definition programar_post : PyM task unit :=
  try_except
    (t <- get ;;
     if negb (String.eqb (state t) "03_approved")
     then raise (ValidationError "El estado de la Tarea debe ser 'Aprobado' para poder programar el post.")
     else set_fields [("post_estado", VStr "Programado")])
    (fun _ => raise programar_error).

(** [cancelar_post()] *)
Definition cancelar_post : PyM task unit := set_fields [("post_estado", VStr "Pendiente")].
End Schedule.

Section Theorems.
Context `{AttachmentTable} `{Ffprobe}.

(** On an approved task that accepts writes, [programar_post] sets [post_estado] to
    "Programado" and changes no other field. *)
Theorem programar_post_ok t :
  state t = "03_approved" -> write_ok t = true ->
  programar_post t =
    (Ret tt, with_fields t (with_extra (write_extra t) (list_to_map [("post_estado", VStr "Programado")])
                            ∪ fields t)).
Proof.
  intros Hs Hw. unfold programar_post, try_except, bind, get. rewrite Hs. simpl.
  by rewrite set_fields_ok.
Qed.

(** On a task that is not approved, or that refuses the write, [programar_post] raises
    the generic error, not the reason, and leaves the task unchanged. *)
Theorem programar_post_error t :
  state t <> "03_approved" \/ write_ok t = false ->
  programar_post t = (Raise programar_error, t).
Proof.
  intros Hc. unfold programar_post, try_except, bind, get.
  destruct (String.eqb_spec (state t) "03_approved") as [Hs|Hs]; simpl; [|done].
  destruct Hc as [Hc|Hw]; [done|]. rewrite set_fields_spec.
  unfold write_ok in Hw. by destruct (write_guard t).
Qed.
End Theorems.
