(* ===== verification/Dates.v ===== *)
(** * Calendar dates: Python's [datetime.date] and dateutil's [relativedelta]

    The billing code of [subscription_contracts.py] moves dates with
    [date + relativedelta(days|weeks|months|years = n)].  Neither library is
    code of the repository; this file models the parts of them the code
    reaches, after CPython's [datetime] module ([_ymd2ord], [_ord2ymd],
    [date.__add__], [date.replace]) and dateutil's [relativedelta]
    ([__init__], [_fix], [__add__]).

    Dates are Python's proleptic Gregorian triples; day numbers are
    CPython's ordinals (day 1 is 0001-01-01).  The two conversions are
    inverse on every valid triple and every integer ([ord2ymd_ymd2ord],
    [ymd2ord_ord2ymd]).  Both are periodic of period 400 years, that is
    146097 days, so each proof checks one period by evaluation and shifts
    the result to the other periods. *)

From Stdlib Require Import String ZArith Lia Bool List.
From stdpp Require Import base list.
From S2P Require Import Prelude.
Import ListNotations.

Open Scope string_scope.
Open Scope Z_scope.

Record date := mk_date { year : Z; month : Z; day : Z }.

Definition MINYEAR : Z := 1.
Definition MAXYEAR : Z := 9999.
(** [date(9999, 12, 31).toordinal()] *)
Definition MAXORDINAL : Z := 3652059.

Definition DI400Y : Z := 146097.
Definition DI100Y : Z := 36524.
Definition DI4Y : Z := 1461.

(** [lst[i]] on the module's constant tables, read at an index in range. *)
Definition py_index (l : list Z) (i : Z) : Z := nth (Z.to_nat i) l 0.

Definition DAYS_IN_MONTH_TBL : list Z := [-1; 31; 28; 31; 30; 31; 30; 31; 31; 30; 31; 30; 31].
Definition DAYS_BEFORE_MONTH_TBL : list Z := [-1; 0; 31; 59; 90; 120; 151; 181; 212; 243; 273; 304; 334].

(** [_is_leap(year)], also [calendar.isleap] *)
Definition is_leap (y : Z) : bool :=
  (y mod 4 =? 0) && (negb (y mod 100 =? 0) || (y mod 400 =? 0)).

Definition b2z (b : bool) : Z := if b then 1 else 0.

(** [_days_in_month(year, month)], also [calendar.monthrange(year, month)[1]] *)
Definition days_in_month (y m : Z) : Z :=
  if (m =? 2) && is_leap y then 29 else py_index DAYS_IN_MONTH_TBL m.

(** [_days_before_month(year, month)] *)
Definition days_before_month (y m : Z) : Z :=
  py_index DAYS_BEFORE_MONTH_TBL m + b2z ((m >? 2) && is_leap y).

(** [_days_before_year(year)] *)
Definition days_before_year (y : Z) : Z :=
  let y := y - 1 in y * 365 + y / 4 - y / 100 + y / 400.

(** [_ymd2ord(year, month, day)], that is [date.toordinal()] *)
Definition ymd2ord (d : date) : Z :=
  days_before_year (year d) + days_before_month (year d) (month d) + day d.

(** [_ord2ymd(n)], the body of [date.fromordinal(n)] *)
Definition ord2ymd (n : Z) : date :=
  let n := n - 1 in
  let n400 := n / DI400Y in let n := n mod DI400Y in
  let y := n400 * 400 + 1 in
  let n100 := n / DI100Y in let n := n mod DI100Y in
  let n4 := n / DI4Y in let n := n mod DI4Y in
  let n1 := n / 365 in let n := n mod 365 in
  let y := y + n100 * 100 + n4 * 4 + n1 in
  if (n1 =? 4) || (n100 =? 4) then mk_date (y - 1) 12 31
  else
    let leapyear := (n1 =? 3) && (negb (n4 =? 24) || (n100 =? 3)) in
    let m := Z.shiftr (n + 50) 5 in
    let preceding := py_index DAYS_BEFORE_MONTH_TBL m + b2z ((m >? 2) && leapyear) in
    let '(m, preceding) :=
      if preceding >? n then
        (m - 1, preceding - (py_index DAYS_IN_MONTH_TBL (m - 1) + b2z ((m - 1 =? 2) && leapyear)))
      else (m, preceding) in
    mk_date y m (n - preceding + 1).

(** Month and day in range, whatever the year: what [_check_date_fields]
    asks of the month and the day. *)
Definition valid_md (d : date) : bool :=
  (1 <=? month d) && (month d <=? 12) && (1 <=? day d) && (day d <=? days_in_month (year d) (month d)).

(** A value of type [datetime.date]. *)
Definition valid (d : date) : bool :=
  (MINYEAR <=? year d) && (year d <=? MAXYEAR) && valid_md d.

(** Python's comparison of dates: the triples in lexicographic order. *)
Definition date_ltb (a b : date) : bool :=
  (year a <? year b) ||
  ((year a =? year b) && ((month a <? month b) || ((month a =? month b) && (day a <? day b)))).

Definition date_eqb (a b : date) : bool :=
  (year a =? year b) && (month a =? month b) && (day a =? day b).

(** ** [timedelta], [date.__add__] and [date.replace] *)

(** [timedelta(days=n)]: the constructor refuses a magnitude above
    999999999 days. *)
Definition timedelta_days (n : Z) : outcome Z :=
  if 999999999 <? Z.abs n then Raise (OverflowError ("days=" ++ Z_to_string n ++ "; must have magnitude <= 999999999")%string)
  else Ret n.

(** [date + timedelta(days=n)] *)
Definition add_days (d : date) (n : Z) : outcome date :=
  match timedelta_days n with
  | Raise e => Raise e
  | Ret n =>
      let o := ymd2ord d + n in
      if (0 <? o) && (o <=? MAXORDINAL) then Ret (ord2ymd o)
      else Raise (OverflowError "date value out of range")
  end.

(** [date.replace(year=y, month=m, day=dd)]: [_check_date_fields]. *)
Definition date_replace (y m dd : Z) : outcome date :=
  if negb ((MINYEAR <=? y) && (y <=? MAXYEAR)) then Raise (ValueError ("year " ++ Z_to_string y ++ " is out of range")%string)
  else if negb ((1 <=? m) && (m <=? 12)) then Raise (ValueError "month must be in 1..12")
  else if negb ((1 <=? dd) && (dd <=? days_in_month y m)) then Raise (ValueError "day is out of range for month")
  else Ret (mk_date y m dd).

(** ** [relativedelta] with the fields the code sets *)

Record relativedelta := mk_rd { rd_years : Z; rd_months : Z; rd_days : Z }.

(** [relativedelta(years=, months=, days=, weeks=)]: [__init__] folds the
    weeks into the days, [_fix] folds whole years out of the months. *)
Definition mk_relativedelta (years months days weeks : Z) : relativedelta :=
  let days := days + weeks * 7 in
  if 11 <? Z.abs months then
    let s := Z.sgn months in
    let dv := (months * s) / 12 in let md := (months * s) mod 12 in
    mk_rd (years + dv * s) (md * s) days
  else mk_rd years months days.

Definition rd_of_days (n : Z) := mk_relativedelta 0 0 n 0.
Definition rd_of_weeks (n : Z) := mk_relativedelta 0 0 0 n.
Definition rd_of_months (n : Z) := mk_relativedelta 0 n 0 0.
Definition rd_of_years (n : Z) := mk_relativedelta n 0 0 0.

(** [relativedelta.__add__(date)] for a delta with no absolute fields,
    no leap days and no weekday. *)
Definition rd_add (r : relativedelta) (d : date) : outcome date :=
  let y := year d + rd_years r in
  let '(y, m) :=
    if rd_months r =? 0 then (y, month d)
    else
      let m := month d + rd_months r in
      if 12 <? m then (y + 1, m - 12)
      else if m <? 1 then (y - 1, m + 12)
      else (y, m) in
  let dd := Z.min (days_in_month y m) (day d) in
  match date_replace y m dd with
  | Raise e => Raise e
  | Ret d' => add_days d' (rd_days r)
  end.

(** ** Periodicity of the calendar *)

(** Shift a date by [k] periods of 400 years. *)
Definition shift400 (k : Z) (d : date) : date := mk_date (year d + k * 400) (month d) (day d).

Lemma div_shift a k c q : 0 < c -> c * q = 400 -> (a + k * 400) / c = a / c + k * q.
Proof. intros Hc <-. replace (a + k * (c * q)) with (a + (k * q) * c) by ring. apply Z_div_plus_full. lia. Qed.

Lemma mod_shift a k c q : 0 < c -> c * q = 400 -> (a + k * 400) mod c = a mod c.
Proof. intros Hc <-. replace (a + k * (c * q)) with (a + (k * q) * c) by ring. apply Z_mod_plus_full. Qed.

Lemma is_leap_shift y k : is_leap (y + k * 400) = is_leap y.
Proof.
  unfold is_leap.
  rewrite (mod_shift y k 4 100), (mod_shift y k 100 4), (mod_shift y k 400 1) by lia. reflexivity.
Qed.

Lemma days_in_month_shift y k m : days_in_month (y + k * 400) m = days_in_month y m.
Proof. unfold days_in_month. by rewrite is_leap_shift. Qed.

Lemma days_before_month_shift y k m : days_before_month (y + k * 400) m = days_before_month y m.
Proof. unfold days_before_month. by rewrite is_leap_shift. Qed.

Lemma days_before_year_shift y k : days_before_year (y + k * 400) = days_before_year y + k * DI400Y.
Proof.
  unfold days_before_year, DI400Y. replace (y + k * 400 - 1) with (y - 1 + k * 400) by lia.
  rewrite (div_shift (y - 1) k 4 100), (div_shift (y - 1) k 100 4), (div_shift (y - 1) k 400 1) by lia.
  lia.
Qed.

Lemma ymd2ord_shift k d : ymd2ord (shift400 k d) = ymd2ord d + k * DI400Y.
Proof.
  unfold ymd2ord, shift400; cbn [year month day].
  rewrite days_before_year_shift, days_before_month_shift. lia.
Qed.

Lemma valid_md_shift k d : valid_md (shift400 k d) = valid_md d.
Proof. unfold valid_md, shift400; cbn [year month day]. by rewrite days_in_month_shift. Qed.

Lemma ord2ymd_shift n k : ord2ymd (n + k * DI400Y) = shift400 k (ord2ymd n).
Proof.
  unfold ord2ymd, shift400. replace (n + k * DI400Y - 1) with (n - 1 + k * DI400Y) by lia.
  rewrite Z_div_plus_full, Z_mod_plus_full by (unfold DI400Y; lia).
  destruct (_ || _); [cbn; f_equal; lia|].
  destruct (_ >? _); cbn; f_equal; lia.
Qed.

(** Every integer is a residue of [1 .. p] shifted by whole periods. *)
Lemma period_decomp n p : 0 < p -> n = ((n - 1) mod p + 1) + ((n - 1) / p) * p.
Proof. intros Hp. pose proof (Z_div_mod_eq_full (n - 1) p). lia. Qed.

Lemma period_residue n p : 0 < p -> 1 <= (n - 1) mod p + 1 < 1 + p.
Proof. intros Hp. pose proof (Z_mod_lt (n - 1) p). lia. Qed.

(** ** Checking one period by evaluation *)

(** [p] holds on [n], [n + 1], ..., [n + f - 1]. *)
Fixpoint all_from (f : nat) (n : Z) (p : Z -> bool) : bool :=
  match f with
  | O => true
  | S f => p n && all_from f (n + 1) p
  end.

Lemma all_from_spec f n p : all_from f n p = true -> forall k, n <= k < n + Z.of_nat f -> p k = true.
Proof.
  revert n. induction f as [|f IH]; intros n H k Hk; [lia|].
  cbn in H. apply andb_true_iff in H as [Hn Hf].
  destruct (Z.eq_dec k n) as [->|Hne]; [done|].
  apply (IH (n + 1)); [done | lia].
Qed.

Lemma all_from_Z f n p : 0 <= f -> all_from (Z.to_nat f) n p = true -> forall k, n <= k < n + f -> p k = true.
Proof. intros Hf H k Hk. apply (all_from_spec _ _ _ H). lia. Qed.

Definition ord_ok (n : Z) : bool := (ymd2ord (ord2ymd n) =? n) && valid_md (ord2ymd n).

Lemma ord_ok_spec r : ord_ok r = true -> ymd2ord (ord2ymd r) = r /\ valid_md (ord2ymd r) = true.
Proof.
  unfold ord_ok. intros Hc. apply andb_prop in Hc. destruct Hc as [Hc ->].
  split; [revert Hc; apply Z.eqb_eq | done].
Qed.

Lemma ord_ok_period : all_from (Z.to_nat DI400Y) 1 ord_ok = true.
Proof. vm_compute. reflexivity. Qed.

Lemma period_cases (p : Z) (P : Z -> Prop) :
  0 < p -> (forall r k, 1 <= r < 1 + p -> P (r + k * p)) -> forall n, P n.
Proof. intros Hp H n. rewrite (period_decomp n p Hp). apply H, period_residue, Hp. Qed.

(** [_ord2ymd] lands on a valid triple, and [_ymd2ord] takes it back. *)
Lemma ord_ok_all n : ymd2ord (ord2ymd n) = n /\ valid_md (ord2ymd n) = true.
Proof.
  revert n. apply (period_cases DI400Y); [unfold DI400Y; lia|]. intros r k Hr.
  rewrite ord2ymd_shift, ymd2ord_shift, valid_md_shift.
  pose proof (all_from_Z DI400Y 1 ord_ok ltac:(unfold DI400Y; lia) ord_ok_period r Hr) as Hc.
  apply ord_ok_spec in Hc as [-> ->]. done.
Qed.

Lemma valid_md_ord2ymd n : valid_md (ord2ymd n) = true.
Proof. apply ord_ok_all. Qed.

(** ** Years and months *)

Definition dby_succ_ok (y : Z) : bool :=
  days_before_year (y + 1) =? days_before_year y + 365 + b2z (is_leap y).

Lemma days_before_year_succ y : days_before_year (y + 1) = days_before_year y + 365 + b2z (is_leap y).
Proof.
  revert y. apply (period_cases 400); [lia|]. intros r k Hr.
  pose proof (all_from_spec 400 1 dby_succ_ok ltac:(vm_compute; reflexivity) r ltac:(lia)) as Hc.
  apply Z.eqb_eq in Hc. replace (r + k * 400 + 1) with (r + 1 + k * 400) by lia.
  rewrite !days_before_year_shift, is_leap_shift. lia.
Qed.

Lemma days_before_year_mono a b : a <= b -> days_before_year a + 365 * (b - a) <= days_before_year b.
Proof.
  intros Hab. replace b with (a + Z.of_nat (Z.to_nat (b - a))) by lia.
  generalize (Z.to_nat (b - a)) as k. intros k. induction k as [|k IH].
  - cbn [Z.of_nat]. rewrite Z.add_0_r. lia.
  - rewrite Nat2Z.inj_succ, <- Z.add_1_r, Z.add_assoc, days_before_year_succ.
    destruct (is_leap _); cbn [b2z]; lia.
Qed.

(** The month tables for an ordinary and for a leap year. *)
Definition dim_b (b : bool) (m : Z) : Z := if (m =? 2) && b then 29 else py_index DAYS_IN_MONTH_TBL m.
Definition dbm_b (b : bool) (m : Z) : Z := py_index DAYS_BEFORE_MONTH_TBL m + b2z ((m >? 2) && b).

Definition months_ok (b : bool) : bool :=
  all_from 12 1 (fun m =>
    (1 <=? dim_b b m) && (0 <=? dbm_b b m) && (dbm_b b m + dim_b b m <=? 365 + b2z b) &&
    all_from 12 1 (fun m' => implb (m <? m') (dbm_b b m + dim_b b m <=? dbm_b b m'))).

Lemma months_ok_all b : months_ok b = true.
Proof. destruct b; vm_compute; reflexivity. Qed.

Lemma month_facts y m : 1 <= m <= 12 ->
  1 <= days_in_month y m /\ 0 <= days_before_month y m /\
  days_before_month y m + days_in_month y m <= 365 + b2z (is_leap y) /\
  forall m', m < m' <= 12 -> days_before_month y m + days_in_month y m <= days_before_month y m'.
Proof.
  intros Hm. change (days_in_month y) with (dim_b (is_leap y)). change (days_before_month y) with (dbm_b (is_leap y)).
  pose proof (all_from_spec _ _ _ (months_ok_all (is_leap y)) m ltac:(simpl; lia)) as Hc. cbv beta in Hc.
  apply andb_true_iff in Hc as [Hc Hall]. repeat rewrite andb_true_iff in Hc. rewrite !Z.leb_le in Hc.
  repeat split; try lia. intros m' Hm'.
  pose proof (all_from_spec _ _ _ Hall m' ltac:(simpl; lia)) as H'. cbv beta in H'.
  rewrite (proj2 (Z.ltb_lt m m')) in H' by lia. cbn [implb] in H'. apply Z.leb_le in H'. lia.
Qed.

Lemma valid_md_iff d :
  valid_md d = true <-> 1 <= month d <= 12 /\ 1 <= day d <= days_in_month (year d) (month d).
Proof. unfold valid_md. rewrite !andb_true_iff, !Z.leb_le. tauto. Qed.

Lemma ymd2ord_year_bounds d : valid_md d = true ->
  days_before_year (year d) < ymd2ord d <= days_before_year (year d + 1).
Proof.
  intros [Hm Hd]%valid_md_iff. pose proof (month_facts (year d) (month d) Hm) as (_ & H0 & H1 & _).
  rewrite days_before_year_succ. unfold ymd2ord. lia.
Qed.

(** ** The ordinals order the dates as Python compares them *)

Lemma date_ltb_iff a b : date_ltb a b = true <->
  year a < year b \/ (year a = year b /\ (month a < month b \/ (month a = month b /\ day a < day b))).
Proof. unfold date_ltb. rewrite !orb_true_iff, !andb_true_iff, !orb_true_iff, !andb_true_iff, !Z.ltb_lt, !Z.eqb_eq. tauto. Qed.

Lemma ymd2ord_lt a b : valid_md a = true -> valid_md b = true -> date_ltb a b = true -> ymd2ord a < ymd2ord b.
Proof.
  intros Ha Hb [Hy | [Hy [Hm | [Hm Hd]]]]%date_ltb_iff.
  - pose proof (ymd2ord_year_bounds a Ha). pose proof (ymd2ord_year_bounds b Hb).
    pose proof (days_before_year_mono (year a + 1) (year b) ltac:(lia)). lia.
  - apply valid_md_iff in Ha as [Ham Had]. apply valid_md_iff in Hb as [Hbm Hbd].
    pose proof (month_facts (year a) (month a) Ham) as (_ & _ & _ & Hmono).
    specialize (Hmono (month b) ltac:(lia)). unfold ymd2ord. rewrite <- Hy. lia.
  - unfold ymd2ord. rewrite Hy, Hm. lia.
Qed.

Lemma date_trichotomy a b : date_ltb a b = true \/ a = b \/ date_ltb b a = true.
Proof.
  destruct a as [ya ma da], b as [yb mb db]. rewrite !date_ltb_iff; cbn [year month day].
  destruct (Z.lt_trichotomy ya yb) as [?|[<-|?]]; [tauto| |tauto].
  destruct (Z.lt_trichotomy ma mb) as [?|[<-|?]]; [tauto| |tauto].
  destruct (Z.lt_trichotomy da db) as [?|[<-|?]]; [tauto|auto|tauto].
Qed.

Lemma ymd2ord_inj a b : valid_md a = true -> valid_md b = true -> ymd2ord a = ymd2ord b -> a = b.
Proof.
  intros Ha Hb He. destruct (date_trichotomy a b) as [H|[H|H]]; [| done |].
  - pose proof (ymd2ord_lt a b Ha Hb H). lia.
  - pose proof (ymd2ord_lt b a Hb Ha H). lia.
Qed.

Lemma ymd2ord_lt_iff a b : valid_md a = true -> valid_md b = true ->
  date_ltb a b = true <-> ymd2ord a < ymd2ord b.
Proof.
  intros Ha Hb. split; [by apply ymd2ord_lt|]. intros Hlt.
  destruct (date_trichotomy a b) as [H|[->|H]]; [done | lia |].
  pose proof (ymd2ord_lt b a Hb Ha H). lia.
Qed.

(** [_ymd2ord] inverts [_ord2ymd] on every integer. *)
Theorem ymd2ord_ord2ymd n : ymd2ord (ord2ymd n) = n.
Proof. apply ord_ok_all. Qed.

(** [_ord2ymd] inverts [_ymd2ord] on every triple whose month and day are in range. *)
Theorem ord2ymd_ymd2ord d : valid_md d = true -> ord2ymd (ymd2ord d) = d.
Proof. intros Hd. apply ymd2ord_inj; [apply valid_md_ord2ymd | done | apply ord_ok_all]. Qed.

(** The ordinals of [date.min .. date.max] are [1 .. MAXORDINAL]. *)
Lemma ord2ymd_valid o : 1 <= o <= MAXORDINAL -> valid (ord2ymd o) = true.
Proof.
  intros Ho. pose proof (ord_ok_all o) as [Hord Hmd].
  pose proof (ymd2ord_year_bounds _ Hmd) as Hb. rewrite Hord in Hb.
  unfold valid. rewrite Hmd, andb_true_r, andb_true_iff, !Z.leb_le. unfold MINYEAR, MAXYEAR.
  assert (days_before_year 10000 = MAXORDINAL) by reflexivity.
  assert (days_before_year 1 = 0) by reflexivity.
  split.
  - destruct (Z_lt_le_dec (year (ord2ymd o)) 1); [|done].
    pose proof (days_before_year_mono (year (ord2ymd o) + 1) 1 ltac:(lia)). lia.
  - destruct (Z_lt_le_dec 9999 (year (ord2ymd o))); [|done].
    pose proof (days_before_year_mono 10000 (year (ord2ymd o)) ltac:(lia)). lia.
Qed.

(** ** [date + timedelta] and [date.replace] *)

Lemma valid_valid_md d : valid d = true -> valid_md d = true.
Proof. unfold valid. rewrite !andb_true_iff. tauto. Qed.

Lemma add_days_spec d n d' : add_days d n = Ret d' ->
  d' = ord2ymd (ymd2ord d + n) /\ 1 <= ymd2ord d + n <= MAXORDINAL.
Proof.
  unfold add_days, timedelta_days. destruct (999999999 <? Z.abs n); [discriminate|].
  destruct (0 <? ymd2ord d + n) eqn:H1, (ymd2ord d + n <=? MAXORDINAL) eqn:H2; cbn; try discriminate.
  intros [= <-]. apply Z.ltb_lt in H1. apply Z.leb_le in H2. split; [done | lia].
Qed.

Lemma add_days_valid d n d' : add_days d n = Ret d' -> valid d' = true.
Proof. intros [-> Ho]%add_days_spec. by apply ord2ymd_valid. Qed.

Lemma add_days_ord d n d' : add_days d n = Ret d' -> ymd2ord d' = ymd2ord d + n.
Proof. intros [-> _]%add_days_spec. apply ymd2ord_ord2ymd. Qed.

Lemma add_days_zero d : valid d = true -> add_days d 0 = Ret d.
Proof.
  intros Hd. pose proof (valid_valid_md d Hd) as Hmd. pose proof (ymd2ord_year_bounds d Hmd) as Hb.
  unfold valid, MINYEAR, MAXYEAR in Hd. rewrite !andb_true_iff, !Z.leb_le in Hd.
  pose proof (days_before_year_mono 1 (year d) ltac:(lia)).
  pose proof (days_before_year_mono (year d + 1) 10000 ltac:(lia)).
  assert (days_before_year 10000 = MAXORDINAL) by reflexivity.
  assert (days_before_year 1 = 0) by reflexivity.
  unfold add_days. change (timedelta_days 0) with (Ret (A:=Z) 0). cbv beta iota. rewrite Z.add_0_r.
  rewrite (proj2 (Z.ltb_lt 0 (ymd2ord d))), (proj2 (Z.leb_le (ymd2ord d) MAXORDINAL)) by lia.
  cbn. f_equal. by apply ord2ymd_ymd2ord.
Qed.

Lemma date_replace_spec y m dd d' : date_replace y m dd = Ret d' -> d' = mk_date y m dd /\ valid d' = true.
Proof.
  unfold date_replace.
  destruct ((MINYEAR <=? y) && (y <=? MAXYEAR)) eqn:Hy; [|discriminate]. cbn.
  destruct ((1 <=? m) && (m <=? 12)) eqn:Hm; [|discriminate]. cbn.
  destruct ((1 <=? dd) && (dd <=? days_in_month y m)) eqn:Hd; [|discriminate]. cbn.
  intros [= <-]. split; [done|]. unfold valid, valid_md; cbn [year month day].
  rewrite Hy, Hm. cbn. exact Hd.
Qed.

(** ** [relativedelta] arithmetic *)

(** [relativedelta(months=n)] after [_fix]: whole years and a signed
    remainder of at most eleven months, of the sign of [n]. *)
Lemma rd_of_months_spec n :
  rd_days (rd_of_months n) = 0 /\ Z.abs (rd_months (rd_of_months n)) <= 11 /\
  12 * rd_years (rd_of_months n) + rd_months (rd_of_months n) = n.
Proof.
  unfold rd_of_months, mk_relativedelta. destruct (11 <? Z.abs n) eqn:H; cbn [rd_days rd_months rd_years]; zbool.
  - destruct (Z.sgn_spec n) as [[Hn ->]|[[Hn ->]|[Hn ->]]]; [| lia |].
    + rewrite !Z.mul_1_r. pose proof (Z_div_mod_eq_full n 12). pose proof (Z.mod_pos_bound n 12 ltac:(lia)). lia.
    + remember (n * _) as m eqn:Em. assert (m = - n) by lia. clear Em.
      pose proof (Z_div_mod_eq_full m 12). pose proof (Z.mod_pos_bound m 12 ltac:(lia)). lia.
  - lia.
Qed.

Lemma date_replace_valid d : valid d = true -> date_replace (year d) (month d) (day d) = Ret d.
Proof.
  unfold valid, valid_md, date_replace. intros Hd. apply andb_prop in Hd as [Hy Hmd].
  apply andb_prop in Hmd as [Hmd Hdd]. apply andb_prop in Hmd as [Hm Hd1].
  rewrite Hy, Hm. cbn. rewrite Hd1, Hdd. cbn. by destruct d.
Qed.

(** The date [relativedelta.__add__] passes to [replace]: [years] and
    [months] counted in months, the day clamped to the length of the
    month reached. *)
Lemma rd_add_spec r d d' : valid d = true -> Z.abs (rd_months r) <= 11 -> rd_add r d = Ret d' ->
  exists d0, valid d0 = true /\ add_days d0 (rd_days r) = Ret d' /\
    12 * year d0 + month d0 = 12 * (year d + rd_years r) + month d + rd_months r /\
    day d0 = Z.min (days_in_month (year d0) (month d0)) (day d).
Proof.
  intros Hd Hm. unfold rd_add.
  destruct (rd_months r =? 0) eqn:H0;
    [| destruct (12 <? month d + rd_months r) eqn:H1; [| destruct (month d + rd_months r <? 1) eqn:H2]].
  all: cbv beta iota zeta; destruct (date_replace _ _ _) as [d0|e] eqn:Hr; [|discriminate]; intros Had.
  all: apply date_replace_spec in Hr as [-> Hv]; eexists; split; [exact Hv|]; split; [exact Had|].
  all: cbn [year month day]; split; [|reflexivity]; zbool; lia.
Qed.

Lemma month_count_lt a b : valid_md a = true -> valid_md b = true ->
  12 * year a + month a < 12 * year b + month b -> ymd2ord a < ymd2ord b.
Proof.
  intros Ha Hb Hlt. apply ymd2ord_lt; [done | done|].
  apply valid_md_iff in Ha as [Ham _]. apply valid_md_iff in Hb as [Hbm _].
  apply date_ltb_iff. lia.
Qed.

(** A delta of whole months that adds up to none gives back the date. *)
Lemma month_count_eq a d0 : valid a = true -> valid d0 = true ->
  12 * year d0 + month d0 = 12 * year a + month a ->
  day d0 = Z.min (days_in_month (year d0) (month d0)) (day a) -> d0 = a.
Proof.
  intros Ha H0 Hc Hd. apply valid_valid_md, valid_md_iff in Ha as [Ham Had].
  apply valid_valid_md, valid_md_iff in H0 as [H0m _].
  assert (year d0 = year a /\ month d0 = month a) as [Hy Hm] by lia.
  destruct d0, a; cbn in *; subst. f_equal. lia.
Qed.

Lemma mk_relativedelta_small y m dd w : Z.abs m <= 11 -> mk_relativedelta y m dd w = mk_rd y m (dd + w * 7).
Proof. intros Hm. unfold mk_relativedelta. by rewrite (proj2 (Z.ltb_ge 11 (Z.abs m))) by lia. Qed.

(** A delta with no days moves the year and month and clamps the day. *)
Lemma rd_add_no_days r d d' : valid d = true -> Z.abs (rd_months r) <= 11 -> rd_days r = 0 ->
  rd_add r d = Ret d' ->
  12 * year d' + month d' = 12 * (year d + rd_years r) + month d + rd_months r /\
  day d' = Z.min (days_in_month (year d') (month d')) (day d).
Proof.
  intros Hd Hm H0 Ha. destruct (rd_add_spec r d d' Hd Hm Ha) as (d0 & Hv0 & Had & Hc & Hday).
  rewrite H0, add_days_zero in Had by done. injection Had as <-. done.
Qed.

(** A delta that adds up to a later (earlier) point moves the date
    forward (backward). *)
Lemma rd_add_direction r d d' : valid d = true -> Z.abs (rd_months r) <= 11 -> rd_add r d = Ret d' ->
  ((0 < 12 * rd_years r + rd_months r /\ 0 <= rd_days r) \/
     (12 * rd_years r + rd_months r = 0 /\ 0 < rd_days r) -> date_ltb d d' = true) /\
  ((12 * rd_years r + rd_months r < 0 /\ rd_days r <= 0) \/
     (12 * rd_years r + rd_months r = 0 /\ rd_days r < 0) -> date_ltb d' d = true).
Proof.
  intros Hd Hm Ha. destruct (rd_add_spec r d d' Hd Hm Ha) as (d0 & Hv0 & Had & Hc & Hday).
  pose proof (add_days_ord _ _ _ Had) as Ho.
  pose proof (valid_valid_md _ (add_days_valid _ _ _ Had)) as Hmd'.
  pose proof (valid_valid_md _ Hd) as Hmd. pose proof (valid_valid_md _ Hv0) as Hmd0.
  rewrite !ymd2ord_lt_iff by assumption.
  split; intros [[Hmc Hdays]|[Hmc Hdays]].
  - pose proof (month_count_lt d d0 Hmd Hmd0 ltac:(lia)). lia.
  - rewrite (month_count_eq d d0 Hd Hv0 ltac:(lia) Hday) in Ho. lia.
  - pose proof (month_count_lt d0 d Hmd0 Hmd ltac:(lia)). lia.
  - rewrite (month_count_eq d d0 Hd Hv0 ltac:(lia) Hday) in Ho. lia.
Qed.

Lemma date_ltb_neq a b : date_ltb a b = true -> date_eqb a b = false.
Proof.
  intros H%date_ltb_iff. unfold date_eqb.
  destruct (Z.eqb_spec (year a) (year b)), (Z.eqb_spec (month a) (month b)), (Z.eqb_spec (day a) (day b));
    cbn; try done; lia.
Qed.

(** Every date [relativedelta.__add__] returns is a [datetime.date]:
    a year in [1 .. 9999], a month in [1 .. 12], a day within the month. *)
Theorem rd_add_valid r d d' : rd_add r d = Ret d' -> valid d' = true.
Proof.
  unfold rd_add. match goal with |- context [match ?X with (_, _) => _ end] => destruct X as [y m] end.
  destruct (date_replace _ _ _) as [d0|e]; [|discriminate]. apply add_days_valid.
Qed.

Lemma date_eqb_sym a b : date_eqb a b = date_eqb b a.
Proof. unfold date_eqb. by rewrite (Z.eqb_sym (year a)), (Z.eqb_sym (month a)), (Z.eqb_sym (day a)). Qed.
