(* ===== verification/Contracts.v ===== *)
(** * Subscription contracts ([subscription_contracts.py])

    The model [subscription.contracts] of the billing module: a contract's
    stage, its lock, the date of its next invoice, the invoices the daily
    job and the button create, and the computed fields.

    A contract is a [contract] record; the invoices ([account.move]) are a
    list of [move]s in creation order, searched by [contract_origin].  The
    single-record methods run in [PyM (contract * list move)], the daily job
    on the whole table, [list contract * list move], in the order of
    [search] (ids ascending), inside Odoo's [transaction].  Dates and their
    arithmetic come from [Dates].  Quantities, prices and discounts are
    copied from the contract lines to the invoice lines and summed for
    [amount_total]; they are of any type [Num] with the [0] and [+] of
    Python's [sum].  [action_get_invoice] returns a [window_action]; the
    list it opens is Odoo's [search] of its domain ([search_moves]). *)

From Stdlib Require Import String ZArith List Bool Lia.
From stdpp Require Import base list relations.
From S2P Require Import Prelude Dates.
Import ListNotations.

Open Scope string_scope.
Open Scope Z_scope.

(** [recurring_period_interval] *)
Inductive interval := Days | Weeks | Months | Years.

(** [state]: the selection of stages. *)
Inductive stage := New | Ongoing | Expire_Soon | Expired | Cancelled.

#[export] Instance stage_eq_dec : EqDecision stage.
Proof. solve_decision. Defined.

(** A term [(field, operator, value)] of a search domain on integers. *)
Definition domain_term : Type := string * string * Z.

(** The [ir.actions.act_window] dictionary of [action_get_invoice]. *)
Record window_action := {
  wa_type : string;
  wa_name : string;
  wa_view_mode : string;
  wa_res_model : string;
  wa_domain : list domain_term }.

Section Model.
Context {Num : Type} (num_zero : Num) (num_add : Num -> Num -> Num).

(** [subscription.contracts.line], the fields this model reads. *)
Record contract_line := {
  line_product_id : Z;
  line_description : string;
  line_qty_ordered : Num;
  line_price_unit : Num;
  line_discount : Num;
  line_tax_ids : list Z;
  line_sub_total : Num }.

(** An [account.move.line] created through [invoice_line_ids]. *)
Record invoice_line := {
  il_product_id : Z;
  il_name : string;
  il_quantity : Num;
  il_price_unit : Num;
  il_discount : Num;
  il_tax_ids : list Z }.

(** An [account.move] created by the contract. *)
Record move := {
  mv_move_type : string;
  mv_partner_id : Z;
  mv_invoice_date : date;
  mv_invoice_date_due : option date;
  mv_contract_origin : Z;
  mv_invoice_line_ids : list invoice_line }.

(** A [sale.order.line], with the date part of its [create_date]. *)
Record sale_order_line := {
  sol_order_partner_id : Z;
  sol_create_date : date;
  sol_product_id : Z;
  sol_contract_id : option Z }.

(** A [subscription.contracts] record; [Date] fields hold a date or [False]. *)
Record contract := {
  c_id : Z;
  partner_id : Z;
  recurring_period : Z;
  recurring_period_interval : option interval;
  next_invoice_date : option date;
  date_start : option date;
  date_end : option date;
  invoice_count : Z;
  current_reference : Z;
  lock : bool;
  state : stage;
  contract_line_ids : list contract_line;
  amount_total : Num;
  invoices_active : bool }.

(** Field assignments [rec.f = v]. *)
Definition set_state (s : stage) (c : contract) : contract :=
  {| c_id := c_id c; partner_id := partner_id c; recurring_period := recurring_period c;
     recurring_period_interval := recurring_period_interval c; next_invoice_date := next_invoice_date c;
     date_start := date_start c; date_end := date_end c; invoice_count := invoice_count c;
     current_reference := current_reference c; lock := lock c; state := s;
     contract_line_ids := contract_line_ids c; amount_total := amount_total c;
     invoices_active := invoices_active c |}.

Definition set_lock (b : bool) (c : contract) : contract :=
  {| c_id := c_id c; partner_id := partner_id c; recurring_period := recurring_period c;
     recurring_period_interval := recurring_period_interval c; next_invoice_date := next_invoice_date c;
     date_start := date_start c; date_end := date_end c; invoice_count := invoice_count c;
     current_reference := current_reference c; lock := b; state := state c;
     contract_line_ids := contract_line_ids c; amount_total := amount_total c;
     invoices_active := invoices_active c |}.

Definition set_next_invoice_date (d : option date) (c : contract) : contract :=
  {| c_id := c_id c; partner_id := partner_id c; recurring_period := recurring_period c;
     recurring_period_interval := recurring_period_interval c; next_invoice_date := d;
     date_start := date_start c; date_end := date_end c; invoice_count := invoice_count c;
     current_reference := current_reference c; lock := lock c; state := state c;
     contract_line_ids := contract_line_ids c; amount_total := amount_total c;
     invoices_active := invoices_active c |}.

Definition set_date_end (d : option date) (c : contract) : contract :=
  {| c_id := c_id c; partner_id := partner_id c; recurring_period := recurring_period c;
     recurring_period_interval := recurring_period_interval c; next_invoice_date := next_invoice_date c;
     date_start := date_start c; date_end := d; invoice_count := invoice_count c;
     current_reference := current_reference c; lock := lock c; state := state c;
     contract_line_ids := contract_line_ids c; amount_total := amount_total c;
     invoices_active := invoices_active c |}.

Definition set_invoice_count (n : Z) (c : contract) : contract :=
  {| c_id := c_id c; partner_id := partner_id c; recurring_period := recurring_period c;
     recurring_period_interval := recurring_period_interval c; next_invoice_date := next_invoice_date c;
     date_start := date_start c; date_end := date_end c; invoice_count := n;
     current_reference := current_reference c; lock := lock c; state := state c;
     contract_line_ids := contract_line_ids c; amount_total := amount_total c;
     invoices_active := invoices_active c |}.

Definition set_current_reference (n : Z) (c : contract) : contract :=
  {| c_id := c_id c; partner_id := partner_id c; recurring_period := recurring_period c;
     recurring_period_interval := recurring_period_interval c; next_invoice_date := next_invoice_date c;
     date_start := date_start c; date_end := date_end c; invoice_count := invoice_count c;
     current_reference := n; lock := lock c; state := state c;
     contract_line_ids := contract_line_ids c; amount_total := amount_total c;
     invoices_active := invoices_active c |}.

Definition set_amount_total (a : Num) (c : contract) : contract :=
  {| c_id := c_id c; partner_id := partner_id c; recurring_period := recurring_period c;
     recurring_period_interval := recurring_period_interval c; next_invoice_date := next_invoice_date c;
     date_start := date_start c; date_end := date_end c; invoice_count := invoice_count c;
     current_reference := current_reference c; lock := lock c; state := state c;
     contract_line_ids := contract_line_ids c; amount_total := a;
     invoices_active := invoices_active c |}.

Definition set_invoices_active (b : bool) (c : contract) : contract :=
  {| c_id := c_id c; partner_id := partner_id c; recurring_period := recurring_period c;
     recurring_period_interval := recurring_period_interval c; next_invoice_date := next_invoice_date c;
     date_start := date_start c; date_end := date_end c; invoice_count := invoice_count c;
     current_reference := current_reference c; lock := lock c; state := state c;
     contract_line_ids := contract_line_ids c; amount_total := amount_total c;
     invoices_active := b |}.

(** One record and the invoices: the state of the single-record methods. *)
Definition crec : Type := contract * list move.

(** [self.env['account.move'].search_count([('contract_origin', '=', id)])] *)
Definition search_count_origin (ms : list move) (id : Z) : Z :=
  Z.of_nat (length (filter (fun m => mv_contract_origin m = id) ms)).

(** [(0, 0, {'product_id': line.product_id.id, 'name': line.description, ...})] *)
Definition invoice_line_of (l : contract_line) : invoice_line :=
  {| il_product_id := line_product_id l; il_name := line_description l;
     il_quantity := line_qty_ordered l; il_price_unit := line_price_unit l;
     il_discount := line_discount l; il_tax_ids := line_tax_ids l |}.

(** The values of [self.env['account.move'].create({...})]; the button
    sets [invoice_date_due], the daily job does not. *)
Definition invoice_vals (c : contract) (d : date) (due : option date) : move :=
  {| mv_move_type := "out_invoice"; mv_partner_id := partner_id c; mv_invoice_date := d;
     mv_invoice_date_due := due; mv_contract_origin := c_id c;
     mv_invoice_line_ids := map invoice_line_of (contract_line_ids c) |}.

Definition create_move (m : move) : PyM crec unit := modify (fun s => (fst s, (snd s ++ [m])%list)).

(** [rec.invoice_count = self.env['account.move'].search_count(...)] *)
Definition update_invoice_count : PyM crec unit :=
  modify (fun s => (set_invoice_count (search_count_origin (snd s) (c_id (fst s))) (fst s), snd s)).

(** [relativedelta(days=n)], [(weeks=n)], [(months=n)], [(years=n)] *)
Definition interval_delta (k : interval) (n : Z) : relativedelta :=
  match k with
  | Days => rd_of_days n
  | Weeks => rd_of_weeks n
  | Months => rd_of_months n
  | Years => rd_of_years n
  end.

(** [interval = rec.recurring_period or 1] and the [if]/[elif] chain of
    [rec.next_invoice_date += relativedelta(...)]; no interval, no change. *)
Definition advance_next_invoice_date : PyM crec unit :=
  s <- get ;;
  let c := fst s in
  let interval := if Z.eqb (recurring_period c) 0 then 1 else recurring_period c in
  match recurring_period_interval c, next_invoice_date c with
  | None, _ => ret tt
  | Some _, None => raise (TypeError "unsupported operand type(s) for +=: 'bool' and 'relativedelta'")
  | Some k, Some nd =>
      match rd_add (interval_delta k interval) nd with
      | Raise e => raise e
      | Ret d => modify (fun s => (set_next_invoice_date (Some d) (fst s), snd s))
      end
  end.

(** [if rec.state == 'New': rec.state = 'Ongoing'] *)
Definition promote_new : PyM crec unit :=
  modify (fun s => (if decide (state (fst s) = New) then set_state Ongoing (fst s) else fst s, snd s)).

(** [action_generate_invoice()] *)
Definition action_generate_invoice : PyM crec unit :=
  s <- get ;;
  match next_invoice_date (fst s) with
  | None => ret tt
  | Some invoice_date =>
      create_move (invoice_vals (fst s) invoice_date (Some invoice_date)) ;;
      update_invoice_count ;;
      advance_next_invoice_date ;;
      promote_new
  end.

(** The body of the loop of [subscription_contract_state_change]. *)
Definition state_change_one (today : date) : PyM crec unit :=
  s <- get ;;
  match next_invoice_date (fst s) with
  | None => ret tt
  | Some nd =>
      if negb (date_eqb nd today) then ret tt
      else
        create_move (invoice_vals (fst s) nd None) ;;
        update_invoice_count ;;
        advance_next_invoice_date ;;
        promote_new
  end.

(** The contracts, in the order of [search] (ids ascending), and the invoices. *)
Definition table : Type := list contract * list move.

(** [for rec in self.search([('state', '!=', 'Cancelled')]): ...] *)
Fixpoint state_change_loop (today : date) (cs : list contract) (ms : list move) : outcome unit * table :=
  match cs with
  | [] => (Ret tt, ([], ms))
  | c :: rest =>
      if decide (state c = Cancelled) then
        let '(o, (rest', ms')) := state_change_loop today rest ms in (o, (c :: rest', ms'))
      else
        match state_change_one today (c, ms) with
        | (Ret _, (c', ms')) =>
            let '(o, (rest', ms'')) := state_change_loop today rest ms' in (o, (c' :: rest', ms''))
        | (Raise e, (c', ms')) => (Raise e, (c' :: rest, ms'))
        end
  end.

(** [subscription_contract_state_change()], the daily job, in its transaction. *)
Definition subscription_contract_state_change (today : date) : PyM table unit :=
  transaction (fun s => state_change_loop today (fst s) (snd s)).

(** [action_to_confirm()] *)
Definition action_to_confirm : PyM contract unit := modify (set_state Ongoing).

(** [action_to_cancel()] *)
Definition action_to_cancel : PyM contract unit := modify (set_state Cancelled).

(** [action_lock()] *)
Definition action_lock : PyM contract unit := modify (set_lock true).

(** [action_to_unlock()] *)
Definition action_to_unlock : PyM contract unit := modify (set_lock false).

(** [_onchange_date_start_clear_end()] *)
Definition onchange_date_start_clear_end : PyM contract unit := modify (set_date_end None).

(** [_compute_next_invoice_date()] on one record. *)
Definition compute_next_invoice_date : PyM contract unit :=
  c <- get ;;
  match date_start c, recurring_period_interval c with
  | Some start, Some k =>
      if Z.eqb (recurring_period c) 0 then modify (set_next_invoice_date (date_start c))
      else
        match rd_add (interval_delta k (recurring_period c)) start with
        | Raise e => raise e
        | Ret d => modify (set_next_invoice_date (Some d))
        end
  | _, _ => modify (set_next_invoice_date (date_start c))
  end.

(** [_compute_amount_total()]: [sum(order_lines.mapped('sub_total'))]. *)
Definition compute_amount_total : PyM contract unit :=
  modify (fun c => set_amount_total (fold_left num_add (map line_sub_total (contract_line_ids c)) num_zero) c).

(** [_compute_invoice_count()] *)
Definition compute_invoice_count : PyM crec unit := update_invoice_count.

(** [_compute_invoice_active()] *)
Definition compute_invoice_active : PyM crec unit :=
  modify (fun s => (set_invoices_active (negb (Z.eqb (search_count_origin (snd s) (c_id (fst s))) 0)) (fst s), snd s)).

(** [self.date_start <= d], Python's [<=] between a [Date] field and a date. *)
Definition start_le (a : option date) (d : date) : outcome bool :=
  match a with
  | Some x => Ret (negb (date_ltb d x))
  | None => Raise (TypeError "'<=' not supported between instances of 'bool' and 'datetime.date'")
  end.

(** [d <= self.date_end] *)
Definition le_end (d : date) (b : option date) : outcome bool :=
  match b with
  | Some y => Ret (negb (date_ltb y d))
  | None => Raise (TypeError "'<=' not supported between instances of 'datetime.date' and 'bool'")
  end.

Definition set_sol_contract (n : Z) (l : sale_order_line) : sale_order_line :=
  {| sol_order_partner_id := sol_order_partner_id l; sol_create_date := sol_create_date l;
     sol_product_id := sol_product_id l; sol_contract_id := Some n |}.

(** The loop of [_compute_sale_order_lines] over the lines of the
    customer: the chained comparison [a <= d <= b] is [a <= d and d <= b]. *)
Fixpoint link_order_lines (c : contract) (products : list Z) (ls : list sale_order_line)
    : outcome unit * list sale_order_line :=
  match ls with
  | [] => (Ret tt, [])
  | l :: rest =>
      let keep l' := let '(o, rest') := link_order_lines c products rest in (o, l' :: rest') in
      if negb (Z.eqb (sol_order_partner_id l) (partner_id c)) then keep l
      else
        match start_le (date_start c) (sol_create_date l) with
        | Raise e => (Raise e, l :: rest)
        | Ret false => keep l
        | Ret true =>
            match le_end (sol_create_date l) (date_end c) with
            | Raise e => (Raise e, l :: rest)
            | Ret false => keep l
            | Ret true => keep (if existsb (Z.eqb (sol_product_id l)) products then set_sol_contract (c_id c) l else l)
            end
        end
  end.

(** [_compute_sale_order_lines()] *)
Definition compute_sale_order_lines : PyM (contract * list sale_order_line) unit :=
  fun s =>
    let c := set_current_reference (c_id (fst s)) (fst s) in
    let '(o, ls) := link_order_lines c (map line_product_id (contract_line_ids c)) (snd s) in
    (o, (c, ls)).

(** [self.ensure_one()], Odoo's [BaseModel.ensure_one]: [ValueError("Expected
    singleton: %s" % self)] unless the recordset holds one record; the
    recordset prints as [subscription.contracts(id1, id2, ...)]. *)
Definition ensure_one {S} (self : list contract) : PyM S contract :=
  match self with
  | [c] => ret c
  | _ => raise (ValueError ("Expected singleton: subscription.contracts(" ++
                            join ", " (map (fun c => Z_to_string (c_id c)) self) ++ ")"))
  end.

(** [action_get_invoice()] (lines 122-133) *)
Definition action_get_invoice {S} (self : list contract) : PyM S window_action :=
  c <- ensure_one self ;;
  ret {| wa_type := "ir.actions.act_window"; wa_name := "Invoices"; wa_view_mode := "list,form";
         wa_res_model := "account.move"; wa_domain := [("contract_origin", "=", c_id c)] |}.

(** The integer fields of an [account.move] a domain of this module names. *)
Definition move_int_field (f : string) (m : move) : option Z :=
  if String.eqb f "contract_origin" then Some (mv_contract_origin m)
  else if String.eqb f "partner_id" then Some (mv_partner_id m)
  else None.

(** A term the ORM can evaluate: an [=] on one of those fields. *)
Definition term_ok (t : domain_term) : bool :=
  let '(f, op, _) := t in
  String.eqb op "=" && (String.eqb f "contract_origin" || String.eqb f "partner_id").

(** [record[f] == v] for a term [(f, '=', v)]. *)
Definition term_holds (m : move) (t : domain_term) : bool :=
  let '(f, _, v) := t in
  match move_int_field f m with Some x => Z.eqb x v | None => false end.

(** [self.env['account.move'].search(domain)], the list the window shows:
    the moves, in order, satisfying every term; a domain with a term the
    ORM cannot evaluate raises [ValueError]. *)
Definition search_moves (d : list domain_term) (ms : list move) : outcome (list move) :=
  if forallb term_ok d then Ret (filter (fun m => forallb (term_holds m) d) ms)
  else Raise (ValueError "Invalid domain on account.move").
End Model.

(** ** The invoicing step *)

Section Invoicing.
Context {Num : Type}.
Implicit Types (c : contract (Num:=Num)) (ms : list (move (Num:=Num))).

(** The next date the code moves to from [nd]: [recurring_period or 1]
    units of the interval, none without an interval. *)
Definition next_after c (nd : date) : outcome date :=
  match recurring_period_interval c with
  | None => Ret nd
  | Some k => rd_add (interval_delta k (if Z.eqb (recurring_period c) 0 then 1 else recurring_period c)) nd
  end.

(** [if rec.state == 'New': rec.state = 'Ongoing'] on a record. *)
Definition promoted c : contract := if decide (state c = New) then set_state Ongoing c else c.

(** The four statements shared by the button and the daily job. *)
Definition invoice_body c nd (due : option date) : PyM crec unit :=
  create_move (invoice_vals c nd due) ;; update_invoice_count ;; advance_next_invoice_date ;; promote_new.

Lemma invoice_body_spec c ms nd due : next_invoice_date c = Some nd ->
  invoice_body c nd due (c, ms) =
    let ms' := (ms ++ [invoice_vals c nd due])%list in
    let c1 := set_invoice_count (search_count_origin ms' (c_id c)) c in
    match next_after c nd with
    | Ret d => (Ret tt, (promoted (set_next_invoice_date (Some d) c1), ms'))
    | Raise e => (Raise e, (c1, ms'))
    end.
Proof.
  intros Hn. unfold invoice_body, next_after, create_move, update_invoice_count, advance_next_invoice_date,
    promote_new, promoted, bind, modify, get, ret, raise. cbn. rewrite Hn.
  destruct (recurring_period_interval c) as [k|] eqn:Hk; cbn; [by destruct (rd_add _ _)|].
  destruct c; cbn in *. by subst.
Qed.

Lemma action_generate_invoice_spec c ms :
  action_generate_invoice (c, ms) =
    match next_invoice_date c with
    | None => (Ret tt, (c, ms))
    | Some nd => invoice_body c nd (Some nd) (c, ms)
    end.
Proof. unfold action_generate_invoice, bind, get, ret. cbn. by destruct (next_invoice_date c). Qed.

Lemma state_change_one_spec today c ms :
  state_change_one today (c, ms) =
    match next_invoice_date c with
    | Some nd => if date_eqb nd today then invoice_body c nd None (c, ms) else (Ret tt, (c, ms))
    | None => (Ret tt, (c, ms))
    end.
Proof.
  unfold state_change_one, bind, get, ret. cbn.
  destruct (next_invoice_date c) as [nd|]; [|done]. by destruct (date_eqb nd today).
Qed.

(** The fields an invoicing step leaves alone. *)
Lemma promoted_id c : c_id (promoted c) = c_id c.
Proof. unfold promoted. by destruct (decide _). Qed.

Lemma promoted_next c : next_invoice_date (promoted c) = next_invoice_date c.
Proof. unfold promoted. by destruct (decide _). Qed.

Lemma promoted_count c : invoice_count (promoted c) = invoice_count c.
Proof. unfold promoted. by destruct (decide _). Qed.

Lemma promoted_state c : state (promoted c) = if decide (state c = New) then Ongoing else state c.
Proof. unfold promoted. by destruct (decide _). Qed.
End Invoicing.

(** ** The next invoice date *)

Lemma interval_delta_spec k n :
  Z.abs (rd_months (interval_delta k n)) <= 11 /\
  12 * rd_years (interval_delta k n) + rd_months (interval_delta k n) =
    match k with Months => n | Years => 12 * n | _ => 0 end /\
  rd_days (interval_delta k n) = match k with Days => n | Weeks => n * 7 | _ => 0 end.
Proof.
  destruct k; unfold interval_delta; [| | pose proof (rd_of_months_spec n); tauto |];
    unfold rd_of_days, rd_of_weeks, rd_of_years; rewrite mk_relativedelta_small by lia;
    cbn [rd_months rd_years rd_days]; lia.
Qed.

Section NextDate.
Context {Num : Type}.
Implicit Types (c : contract (Num:=Num)) (ms : list (move (Num:=Num))).

(** The date an invoicing step that returns leaves in [next_invoice_date]. *)
Lemma invoice_body_next c ms nd due c' ms' : next_invoice_date c = Some nd ->
  invoice_body c nd due (c, ms) = (Ret tt, (c', ms')) ->
  exists d, next_after c nd = Ret d /\ next_invoice_date c' = Some d.
Proof.
  intros Hn Hb. rewrite invoice_body_spec in Hb by done. cbn zeta in Hb.
  destruct (next_after c nd) as [d|]; [|discriminate]. injection Hb as <- <-.
  exists d. by rewrite promoted_next.
Qed.

(** The next date moves forward from [nd] for a positive or zero period,
    backward for a negative one. *)
Lemma next_after_moves c nd d :
  valid nd = true -> recurring_period_interval c <> None -> next_after c nd = Ret d ->
  (if recurring_period c <? 0 then date_ltb d nd else date_ltb nd d) = true.
Proof.
  intros Hv Hk Hna. unfold next_after in Hna. destruct (recurring_period_interval c) as [k|]; [|done].
  set (n := if recurring_period c =? 0 then 1 else recurring_period c) in Hna.
  assert (Hsign : (recurring_period c < 0 -> n < 0) /\ (0 <= recurring_period c -> 0 < n)).
  { unfold n. destruct (Z.eqb_spec (recurring_period c) 0); lia. }
  pose proof (interval_delta_spec k n) as (Hm & Hc & Hdays).
  destruct (rd_add_direction _ _ _ Hv Hm Hna) as [Hf Hb].
  destruct (Z.ltb_spec (recurring_period c) 0); [apply Hb | apply Hf]; destruct k; lia.
Qed.

(** C30: an invoice from the button moves [next_invoice_date] forward for a
    positive or zero [recurring_period] (zero counts as one), and backward
    for a negative one. *)
Theorem generate_next_date_direction c ms c' ms' nd :
  next_invoice_date c = Some nd -> valid nd = true -> recurring_period_interval c <> None ->
  action_generate_invoice (c, ms) = (Ret tt, (c', ms')) ->
  exists d, next_invoice_date c' = Some d /\
    (if recurring_period c <? 0 then date_ltb d nd else date_ltb nd d) = true.
Proof.
  intros Hn Hv Hk Ha. rewrite action_generate_invoice_spec, Hn in Ha.
  destruct (invoice_body_next _ _ _ _ _ _ Hn Ha) as (d & Hna & Hd). exists d.
  split; [done | by apply (next_after_moves c nd d)].
Qed.

(** C31: a monthly contract keeps the day of its next invoice only while
    the months are long enough: the button moves the date by the number of
    months and clamps the day to the month reached, so a contract billed on
    the 31st drifts to the 28th after February and stays there. *)
Theorem generate_monthly_clamps c ms c' ms' nd :
  next_invoice_date c = Some nd -> valid nd = true -> recurring_period_interval c = Some Months ->
  action_generate_invoice (c, ms) = (Ret tt, (c', ms')) ->
  exists d, next_invoice_date c' = Some d /\
    12 * year d + month d = 12 * year nd + month nd + (if recurring_period c =? 0 then 1 else recurring_period c) /\
    day d = Z.min (days_in_month (year d) (month d)) (day nd).
Proof.
  intros Hn Hv Hk Ha. rewrite action_generate_invoice_spec, Hn in Ha.
  destruct (invoice_body_next _ _ _ _ _ _ Hn Ha) as (d & Hna & Hd). exists d. split; [done|].
  unfold next_after in Hna. rewrite Hk in Hna.
  pose proof (interval_delta_spec Months (if recurring_period c =? 0 then 1 else recurring_period c)) as (Hm & Hc & Hdays).
  destruct (rd_add_no_days _ _ _ Hv Hm Hdays Hna) as [Hc' Hday]. split; [lia | done].
Qed.
End NextDate.

(** ** The daily job *)

(** The scheduler runs the job once a day; a run that raises is rolled
    back and the next day's run starts from the table as it was. *)
Fixpoint run_days {Num} (days : list date) (s : table (Num:=Num)) : table :=
  match days with
  | [] => s
  | t :: ds => run_days ds (snd (subscription_contract_state_change t s))
  end.

Section DailyJob.
Context {Num : Type}.
Implicit Types (c : contract (Num:=Num)) (ms : list (move (Num:=Num))) (cs : list (contract (Num:=Num))).

Lemma state_change_one_skip today c ms nd :
  next_invoice_date c = Some nd -> date_eqb nd today = false -> state_change_one today (c, ms) = (Ret tt, (c, ms)).
Proof. intros Hn He. by rewrite state_change_one_spec, Hn, He. Qed.

(** A contract whose next date is not today goes through the loop unchanged. *)
Lemma state_change_loop_keeps today cs ms o cs' ms' i c nd :
  state_change_loop today cs ms = (o, (cs', ms')) -> cs !! i = Some c ->
  next_invoice_date c = Some nd -> date_eqb nd today = false -> cs' !! i = Some c.
Proof.
  revert i ms o cs' ms'. induction cs as [|c0 cs IH]; intros i ms o cs' ms' Hl Hi Hn He; [done|]. cbn [state_change_loop] in Hl.
  destruct (decide (state c0 = Cancelled)).
  - destruct (state_change_loop today cs ms) as [o1 [rest' ms1]] eqn:E. injection Hl as <- <- <-.
    destruct i; cbn in *; [done | eauto].
  - destruct i as [|i]; cbn in Hi.
    + injection Hi as ->. rewrite (state_change_one_skip _ _ _ _ Hn He) in Hl.
      destruct (state_change_loop today cs ms) as [o1 [rest' ms1]]. by injection Hl as <- <- <-.
    + destruct (state_change_one today (c0, ms)) as [[u|e] [c1 ms1]].
      * destruct (state_change_loop today cs ms1) as [o2 [rest' ms2]] eqn:E. injection Hl as <- <- <-.
        cbn. eauto.
      * by injection Hl as <- <- <-.
Qed.

Lemma state_change_keeps today cs ms i c nd :
  cs !! i = Some c -> next_invoice_date c = Some nd -> date_eqb nd today = false ->
  (snd (subscription_contract_state_change today (cs, ms))).1 !! i = Some c.
Proof.
  intros Hi Hn He. unfold subscription_contract_state_change, transaction. cbn.
  destruct (state_change_loop today cs ms) as [[u|e] [cs' ms']] eqn:E; [|done].
  eapply state_change_loop_keeps; eauto.
Qed.

(** C29: the job invoices a contract only on the exact day of its next
    invoice: a contract whose [next_invoice_date] has passed (a day the job
    did not run, a date set in the past, a negative period) is never
    invoiced again, on any later day. *)
Theorem missed_invoice_date_never_invoiced days cs ms i c nd :
  cs !! i = Some c -> next_invoice_date c = Some nd -> Forall (fun t => date_ltb nd t = true) days ->
  (run_days days (cs, ms)).1 !! i = Some c.
Proof.
  intros Hi Hn Hdays. revert cs ms Hi. induction Hdays as [|t days Ht Hdays IH]; intros cs ms Hi; [done|].
  cbn. destruct (subscription_contract_state_change t (cs, ms)) as [o [cs' ms']] eqn:E.
  apply IH. pose proof (state_change_keeps t cs ms i c nd Hi Hn (date_ltb_neq _ _ Ht)) as Hk.
  by rewrite E in Hk.
Qed.
End DailyJob.

(** ** The invoice counter *)

Section Counter.
Context {Num : Type}.
Implicit Types (c : contract (Num:=Num)) (ms extra : list (move (Num:=Num))) (cs : list (contract (Num:=Num))).

(** Every contract's [invoice_count] is the number of its invoices. *)
Definition counts_consistent cs ms : Prop :=
  Forall (fun c => invoice_count c = search_count_origin ms (c_id c)) cs.

Lemma search_count_app_other ms extra id :
  Forall (fun m => mv_contract_origin m <> id) extra ->
  search_count_origin (ms ++ extra)%list id = search_count_origin ms id.
Proof.
  intros H. unfold search_count_origin. rewrite filter_app, length_app.
  enough (filter (fun m => mv_contract_origin m = id) extra = []) as -> by (cbn; lia).
  induction H as [|m extra Hm _ IH]; [done|]. rewrite filter_cons_False by done. exact IH.
Qed.

Lemma counts_app_other cs ms extra :
  Forall (fun m => ~ In (mv_contract_origin m) (map c_id cs)) extra ->
  counts_consistent cs ms -> counts_consistent cs (ms ++ extra)%list.
Proof.
  intros Hx Hc. unfold counts_consistent in *. rewrite List.Forall_forall in Hc |- *. intros c Hin.
  rewrite search_count_app_other; [by apply Hc|].
  eapply Forall_impl; [exact Hx|]. intros m Hm He. apply Hm. rewrite He. by apply in_map.
Qed.

Lemma state_change_one_shape today c ms o c' ms' :
  state_change_one today (c, ms) = (o, (c', ms')) ->
  c_id c' = c_id c /\
  ((c' = c /\ ms' = ms) \/
   (exists m, ms' = (ms ++ [m])%list /\ mv_contract_origin m = c_id c /\
              invoice_count c' = search_count_origin ms' (c_id c))).
Proof.
  rewrite state_change_one_spec. destruct (next_invoice_date c) as [nd|] eqn:Hn; [|intros [= <- <- <-]; split; [done | by left]].
  destruct (date_eqb nd today); [|intros [= <- <- <-]; split; [done | by left]].
  rewrite invoice_body_spec by done. cbn zeta.
  destruct (next_after c nd); intros [= <- <- <-];
    (split; [by rewrite ?promoted_id | right; eexists; split; [done|]; split; [done|]]);
    by rewrite ?promoted_count.
Qed.

Lemma origins_other extra ids id :
  Forall (fun m => In (mv_contract_origin m) ids) extra -> ~ In id ids ->
  Forall (fun m => mv_contract_origin m <> id) extra.
Proof. intros Hx Hn. eapply Forall_impl; [exact Hx|]. intros m Hm He. apply Hn. by rewrite <- He. Qed.

(** The loop adds invoices of its own contracts only, and keeps every
    counter in step with them. *)
Lemma state_change_loop_counts today cs ms cs' ms' :
  state_change_loop today cs ms = (Ret tt, (cs', ms')) -> NoDup (map c_id cs) ->
  map c_id cs' = map c_id cs /\
  (exists extra, ms' = (ms ++ extra)%list /\ Forall (fun m => In (mv_contract_origin m) (map c_id cs)) extra) /\
  (counts_consistent cs ms -> counts_consistent cs' ms').
Proof.
  revert ms cs' ms'. induction cs as [|c0 cs IH]; intros ms cs' ms' Hl Hnd.
  { injection Hl as <- <-. split; [done|]. split; [exists []; by rewrite app_nil_r | done]. }
  cbn [state_change_loop] in Hl. cbn [map] in Hnd |- *. apply NoDup_cons in Hnd as [Hnin Hnd]. rewrite list_elem_of_In in Hnin.
  assert (Hwiden : forall extra, Forall (fun m => In (mv_contract_origin m) (map c_id cs)) extra ->
            Forall (fun m => c_id c0 = mv_contract_origin m \/ In (mv_contract_origin m) (map c_id cs)) extra).
  { intros extra Hx. eapply Forall_impl; [exact Hx|]. by right. }
  destruct (decide (state c0 = Cancelled)).
  - destruct (state_change_loop today cs ms) as [o1 [rest' ms1]] eqn:E. injection Hl as -> <- <-.
    destruct (IH _ _ _ E Hnd) as (Hids & (extra & -> & Hx) & Hcs).
    split; [cbn [map]; by rewrite Hids|]. split; [exists extra; split; [done | by apply Hwiden]|].
    intros Hc. inversion Hc as [|? ? Hc0 Hcs0]; subst. constructor; [|by apply Hcs].
    by rewrite search_count_app_other by (eapply origins_other; eauto).
  - destruct (state_change_one today (c0, ms)) as [[u|e] [c1 ms1]] eqn:E1; [|discriminate].
    destruct (state_change_loop today cs ms1) as [o2 [rest' ms2]] eqn:E2. injection Hl as -> <- <-.
    destruct (IH _ _ _ E2 Hnd) as (Hids & (extra & -> & Hx) & Hcs).
    destruct (state_change_one_shape _ _ _ _ _ _ E1) as [Hid [[-> ->]|(m & -> & Hm & Hcnt)]].
    + split; [cbn [map]; by rewrite Hids|]. split; [exists extra; split; [done | by apply Hwiden]|].
      intros Hc. inversion Hc as [|? ? Hc0 Hcs0]; subst. constructor; [|by apply Hcs].
      by rewrite search_count_app_other by (eapply origins_other; eauto).
    + split; [cbn [map]; by rewrite Hid, Hids|]. split.
      * exists ([m] ++ extra)%list. rewrite app_assoc. split; [done|].
        apply Forall_app; split; [constructor; [by left | constructor] | by apply Hwiden].
      * intros Hc. inversion Hc as [|? ? Hc0 Hcs0]; subst. constructor.
        -- rewrite Hid, search_count_app_other by (eapply origins_other; eauto). exact Hcnt.
        -- apply Hcs, counts_app_other; [|done]. constructor; [by rewrite Hm | constructor].
Qed.

(** C32: the daily job keeps [invoice_count] equal to the number of invoices
    of each contract, when it did before and the ids are distinct. *)
Theorem state_change_counts_invariant today cs ms :
  NoDup (map c_id cs) -> counts_consistent cs ms ->
  let s' := snd (subscription_contract_state_change today (cs, ms)) in counts_consistent s'.1 s'.2.
Proof.
  intros Hnd Hc. unfold subscription_contract_state_change, transaction. cbn.
  destruct (state_change_loop today cs ms) as [[u|e] [cs' ms']] eqn:E; [|done]. destruct u.
  eapply state_change_loop_counts; eauto.
Qed.
End Counter.

(** ** The stages of a contract *)

Section Stages.
Context {Num : Type} (num_zero : Num) (num_add : Num -> Num -> Num).
Implicit Types (c : contract (Num:=Num)) (ms : list (move (Num:=Num))) (s : crec (Num:=Num)).

(** Every method of the model that can change a contract, on one record
    and the invoices. *)
Inductive contract_step : crec -> crec -> Prop :=
| step_confirm c ms : contract_step (c, ms) (snd (action_to_confirm c), ms)
| step_cancel c ms : contract_step (c, ms) (snd (action_to_cancel c), ms)
| step_lock c ms : contract_step (c, ms) (snd (action_lock c), ms)
| step_unlock c ms : contract_step (c, ms) (snd (action_to_unlock c), ms)
| step_clear_end c ms : contract_step (c, ms) (snd (onchange_date_start_clear_end c), ms)
| step_next_date c ms c' : compute_next_invoice_date c = (Ret tt, c') -> contract_step (c, ms) (c', ms)
| step_amount c ms : contract_step (c, ms) (snd (compute_amount_total num_zero num_add c), ms)
| step_count s : contract_step s (snd (compute_invoice_count s))
| step_active s : contract_step s (snd (compute_invoice_active s))
| step_generate s s' : action_generate_invoice s = (Ret tt, s') -> contract_step s s'
| step_daily today s s' : state (fst s) <> Cancelled -> state_change_one today s = (Ret tt, s') ->
    contract_step s s'.

Lemma invoice_body_state c ms nd due o s' : next_invoice_date c = Some nd ->
  invoice_body c nd due (c, ms) = (o, s') ->
  state (fst s') = state c \/ state (fst s') = Ongoing.
Proof.
  intros Hn. rewrite invoice_body_spec by done. cbn zeta.
  destruct (next_after c nd); intros [= <- <-]; cbn; [|by left].
  rewrite promoted_state. cbn. destruct (decide _); auto.
Qed.

(** Each step leaves the stage, or moves it to "Ongoing" or "Cancelled". *)
Lemma contract_step_state s s' : contract_step s s' ->
  state (fst s') = state (fst s) \/ state (fst s') = Ongoing \/ state (fst s') = Cancelled.
Proof.
  destruct 1 as [| | | | |c ms c' Hc| | [c ms] | [c ms] | [c ms] s' Hg | today [c ms] s' _ Hd]; cbn; auto.
  - left. revert Hc. unfold compute_next_invoice_date, bind, get, modify, ret, raise.
    destruct (date_start c), (recurring_period_interval c); cbn;
      [destruct (_ =? _); [|destruct (rd_add _ _)] | | |]; by intros [= <-].
  - rewrite action_generate_invoice_spec in Hg. destruct (next_invoice_date c) eqn:Hn.
    + destruct (invoice_body_state _ _ _ _ _ _ Hn Hg); auto.
    + injection Hg as <-. auto.
  - rewrite state_change_one_spec in Hd. destruct (next_invoice_date c) as [nd|] eqn:Hn; [destruct (date_eqb nd today)|].
    + destruct (invoice_body_state _ _ _ _ _ _ Hn Hd); auto.
    + injection Hd as <-. auto.
    + injection Hd as <-. auto.
Qed.

(** C34: no method of the model ever puts a contract in the stage "Expire
    Soon" or "Expired": a contract that is not there already never gets
    there, whatever the sequence of methods, and [date_end] and
    [contract_reminder] never end it. *)
Theorem stage_never_expires s s' :
  rtc contract_step s s' -> state (fst s) <> Expire_Soon -> state (fst s) <> Expired ->
  state (fst s') <> Expire_Soon /\ state (fst s') <> Expired.
Proof.
  induction 1 as [s|s1 s2 s3 Hstep _ IH]; [done|]. intros H1 H2.
  apply IH; destruct (contract_step_state _ _ Hstep) as [-> | [-> | ->]]; done.
Qed.
End Stages.

(** ** Computed fields *)

Section Computes.
Context {Num : Type}.
Implicit Types (c : contract (Num:=Num)) (ms : list (move (Num:=Num))) (ls : list sale_order_line).

Definition date_vs_bool_error : exc :=
  TypeError "'<=' not supported between instances of 'datetime.date' and 'bool'".

Lemma link_order_lines_no_end c products ls s :
  date_start c = Some s -> date_end c = None ->
  Exists (fun l => sol_order_partner_id l = partner_id c /\ date_ltb (sol_create_date l) s = false) ls ->
  fst (link_order_lines c products ls) = Raise date_vs_bool_error.
Proof.
  intros Hs He. induction 1 as [l ls [Hp Hd]|l ls _ IH]; cbn [link_order_lines].
  - rewrite Hp, Z.eqb_refl, Hs. cbn. rewrite Hd. cbn. by rewrite He.
  - destruct (negb (sol_order_partner_id l =? partner_id c)).
    + destruct (link_order_lines c products ls) as [o rest'] eqn:E. by cbn in *.
    + rewrite Hs. cbn. destruct (negb (date_ltb (sol_create_date l) s)); cbn.
      * by rewrite He.
      * destruct (link_order_lines c products ls) as [o rest'] eqn:E. by cbn in *.
Qed.

(** C35: [_compute_sale_order_lines] raises [TypeError] on a contract without
    an end date (the default, and what [_onchange_date_start_clear_end]
    leaves) as soon as one order line of its customer was created on or
    after its start: the chained comparison reaches [d <= False]. *)
Theorem sale_order_lines_without_end_date c ls s :
  date_start c = Some s -> date_end c = None ->
  Exists (fun l => sol_order_partner_id l = partner_id c /\ date_ltb (sol_create_date l) s = false) ls ->
  fst (compute_sale_order_lines (c, ls)) = Raise date_vs_bool_error.
Proof.
  intros Hs He Hx. unfold compute_sale_order_lines. cbn [fst snd].
  destruct (link_order_lines _ _ _) as [o ls'] eqn:E. cbn.
  pose proof (link_order_lines_no_end (set_current_reference (c_id c) c)
                (map line_product_id (contract_line_ids (set_current_reference (c_id c) c))) ls s Hs He Hx) as Hl.
  by rewrite E in Hl.
Qed.

(** C36: with a nonzero period, the first [next_invoice_date] that
    [_compute_next_invoice_date] derives from [date_start] is the date the
    button moves to from [date_start]: both raise the same exception or
    reach the same date. *)
Theorem compute_next_matches_generate c ms s :
  date_start c = Some s -> recurring_period c <> 0 ->
  match compute_next_invoice_date c, action_generate_invoice (set_next_invoice_date (Some s) c, ms) with
  | (Ret _, c1), (Ret _, (c2, _)) => next_invoice_date c1 = next_invoice_date c2
  | (Raise e1, _), (Raise e2, _) => e1 = e2
  | _, _ => False
  end.
Proof.
  intros Hs Hp. rewrite action_generate_invoice_spec. cbn [next_invoice_date set_next_invoice_date].
  rewrite invoice_body_spec by done. cbn zeta. unfold next_after. cbn [recurring_period_interval set_next_invoice_date recurring_period].
  unfold compute_next_invoice_date, bind, get, modify, ret, raise. rewrite Hs. cbn.
  rewrite (proj2 (Z.eqb_neq _ _) Hp).
  destruct (recurring_period_interval c) as [k|]; cbn; [|by rewrite promoted_next].
  destruct (rd_add _ _); cbn; [by rewrite promoted_next | done].
Qed.
(** The domain [action_get_invoice] builds selects the moves of the contract. *)
Lemma search_origin_filter (ms : list (move (Num:=Num))) id :
  search_moves [("contract_origin", "=", id)] ms =
    Ret (filter (fun m => mv_contract_origin m = id) ms).
Proof.
  unfold search_moves. cbn. f_equal. apply list_filter_iff. intros m.
  cbn. by rewrite andb_true_r, Is_true_true, Z.eqb_eq.
Qed.

(** C33: [action_get_invoice] on one contract opens the [account.move] list
    whose domain selects exactly the invoices created for that contract, as
    many as [_compute_invoice_count] stores in [invoice_count]; on an empty
    or larger recordset [ensure_one] raises [ValueError] and no window
    opens. *)
Theorem action_get_invoice_lists_invoices {St : Type} (self : list (contract (Num:=Num))) ms (st : St) :
  match self with
  | [c] =>
      exists w found, action_get_invoice self st = (Ret w, st) /\
        wa_res_model w = "account.move" /\ search_moves (wa_domain w) ms = Ret found /\
        (forall m, In m found <-> In m ms /\ mv_contract_origin m = c_id c) /\
        invoice_count (fst (snd (compute_invoice_count (c, ms)))) = Z.of_nat (length found)
  | _ => exists msg, action_get_invoice self st = (Raise (ValueError msg), st)
  end.
Proof.
  destruct self as [|c [|c2 rest]]; [by eexists | | by eexists].
  eexists _, _. split; [reflexivity|]. split; [reflexivity|]. split; [apply search_origin_filter|].
  split; [|reflexivity].
  intros m. rewrite <- !list_elem_of_In, list_elem_of_filter. tauto.
Qed.
End Computes.

(** ** The next dates the daily job stores *)

Section DailyJobDates.
Context {Num : Type}.
Implicit Types (c : contract (Num:=Num)) (ms : list (move (Num:=Num))) (cs : list (contract (Num:=Num))).

(** A next invoice date, when set, is a [datetime.date]. *)
Definition next_date_valid c : Prop :=
  match next_invoice_date c with Some d => valid d = true | None => True end.

Lemma state_change_one_valid today c ms o c' ms' :
  next_date_valid c -> state_change_one today (c, ms) = (o, (c', ms')) -> next_date_valid c'.
Proof.
  rewrite state_change_one_spec. unfold next_date_valid.
  destruct (next_invoice_date c) as [nd|] eqn:Hn; [|by intros _ [= <- <- <-]; rewrite Hn].
  intros Hv. destruct (date_eqb nd today); [|by intros [= <- <- <-]; rewrite Hn].
  rewrite invoice_body_spec by done. cbn zeta. unfold next_after.
  destruct (recurring_period_interval c) as [k|];
    [destruct (rd_add _ _) as [d|e] eqn:Ha | ]; intros [= <- <- <-]; rewrite ?promoted_next; cbn;
    try done; try by rewrite Hn.
  by apply rd_add_valid in Ha.
Qed.

Lemma state_change_loop_valid today cs ms o cs' ms' :
  Forall next_date_valid cs -> state_change_loop today cs ms = (o, (cs', ms')) -> Forall next_date_valid cs'.
Proof.
  revert ms o cs' ms'. induction cs as [|c0 cs IH]; intros ms o cs' ms' Hv Hl; [by injection Hl as _ <- _|].
  inversion Hv as [|? ? Hv0 Hvs]; subst. cbn [state_change_loop] in Hl.
  destruct (decide (state c0 = Cancelled)).
  - destruct (state_change_loop today cs ms) as [o1 [rest' ms1]] eqn:E. injection Hl as _ <- _.
    constructor; [done | eauto].
  - destruct (state_change_one today (c0, ms)) as [[u|e] [c1 ms1]] eqn:E1.
    + destruct (state_change_loop today cs ms1) as [o2 [rest' ms2]] eqn:E2. injection Hl as _ <- _.
      constructor; [eapply state_change_one_valid; eauto | eauto].
    + injection Hl as _ <- _. constructor; [eapply state_change_one_valid; eauto | done].
Qed.

(** With an interval set, the daily job invoices a contract at most
    once on a given day: once it has invoiced, the next date is no longer
    today and a second run that day leaves the record alone. *)
Theorem daily_job_once_a_day today c ms c' ms' :
  next_invoice_date c = Some today -> valid today = true -> recurring_period_interval c <> None ->
  state_change_one today (c, ms) = (Ret tt, (c', ms')) ->
  state_change_one today (c', ms') = (Ret tt, (c', ms')).
Proof.
  intros Hn Hv Hk Hs. rewrite state_change_one_spec, Hn in Hs.
  assert (Ht : date_eqb today today = true) by (unfold date_eqb; by rewrite !Z.eqb_refl).
  rewrite Ht in Hs. destruct (invoice_body_next _ _ _ _ _ _ Hn Hs) as (d & Hna & Hd).
  pose proof (next_after_moves c today d Hv Hk Hna) as Hm.
  apply (state_change_one_skip _ _ _ d Hd).
  destruct (recurring_period c <? 0); [by apply date_ltb_neq | rewrite date_eqb_sym; by apply date_ltb_neq].
Qed.
End DailyJobDates.
