(* ===== verification/Estado.v ===== *)
(** * Per-platform phases and their aggregation

    The code keeps each platform's phase as a string in [fb_estado],
    [ig_estado], [tt_estado], [li_estado]; the specification speaks of an
    abstract phase (Pending, Processing, Reviewing, Published, Error), of a
    transition table between phases, and of an aggregate status.  This file
    holds the abstract side ([phase], [phase_step], [aggregate]), the
    encoding of a phase as the code spells it ([phase_code]) and its
    decoding, and the code's aggregation [_compute_post_estado_global]
    (lines 148-166), with the refinement theorem relating the two. *)

From Stdlib Require Import String ZArith List Bool.
From stdpp Require Import base gmap strings list.
From S2P Require Import Prelude Json Http Task Write.

Open Scope string_scope.

(** ** The abstract phase and the transition table of the specification *)

Inductive phase : Type := Pending | Processing | Reviewing | Published | Failed.

#[export] Instance phase_eq_dec : EqDecision phase.
Proof. solve_decision. Defined.

Definition terminal (p : phase) : bool :=
  match p with Published | Failed => true | _ => false end.

(** One row of the table: initiate (asynchronous or synchronous), the
    sweep's first visit, a poll that finds the job in progress, done or
    failed, and the failure of any step. *)
Inductive phase_step : phase -> phase -> Prop :=
| step_initiate_async : phase_step Pending Processing
| step_initiate_sync : phase_step Pending Published
| step_sweep : phase_step Processing Reviewing
| step_poll_wait : phase_step Reviewing Reviewing
| step_poll_done : phase_step Reviewing Published
| step_poll_failed : phase_step Reviewing Failed
| step_exception p : terminal p = false -> phase_step p Failed.

(** Zero or more steps of the table. *)
Inductive phase_steps : phase -> phase -> Prop :=
| steps_refl p : phase_steps p p
| steps_step p q r : phase_step p q -> phase_steps q r -> phase_steps p r.

#[export] Hint Constructors phase_step phase_steps : py.

Lemma steps_one p q : phase_step p q -> phase_steps p q.
Proof. eauto with py. Qed.

Lemma steps_trans p q r : phase_steps p q -> phase_steps q r -> phase_steps p r.
Proof. induction 1; eauto with py. Qed.

(** The aggregate of the selected platforms' phases: Error dominates, then
    all-published, then reviewing, then processing.  With no platform the
    entity is Pending (nothing was published; [publicar_post] refuses an
    empty selection). *)
Definition aggregate (ps : list phase) : phase :=
  if decide (ps = []) then Pending
  else if existsb (fun p => bool_decide (p = Failed)) ps then Failed
  else if forallb (fun p => bool_decide (p = Published)) ps then Published
  else if existsb (fun p => bool_decide (p = Reviewing)) ps then Reviewing
  else if existsb (fun p => bool_decide (p = Processing)) ps then Processing
  else Pending.

(** ** The phase as the code spells it *)

Definition phase_code (p : phase) : string :=
  match p with
  | Pending => "Programado"
  | Processing => "Procesando"
  | Reviewing => "Revisando"
  | Published => "Publicado"
  | Failed => "Error"
  end.

(** The phase a field holds, when it holds one of the five spellings. *)
Definition phase_of_val (v : val) : option phase :=
  match v with
  | VStr s =>
      if String.eqb s "Programado" then Some Pending
      else if String.eqb s "Procesando" then Some Processing
      else if String.eqb s "Revisando" then Some Reviewing
      else if String.eqb s "Publicado" then Some Published
      else if String.eqb s "Error" then Some Failed
      else None
  | _ => None
  end.

(** The four phase fields, in the order of the code. *)
Definition estado_fields : list string := ["fb_estado"; "ig_estado"; "tt_estado"; "li_estado"].

(** ** [_compute_post_estado_global] (lines 148-166) *)

(** [e.strip().lower() for e in estados if e] *)
Definition estados_norm (es : list val) : list string :=
  omap (fun e => match e with
                 | VStr s => if truthy e then Some (lower (strip s)) else None
                 | _ => None
                 end) es.

Definition post_estado_global_of (es : list val) : string :=
  let estados_validos := filter (fun e => e <> "programado") (estados_norm es) in
  match estados_validos with
  | [] => "Programado"
  | _ =>
      if str_in "error" estados_validos then "Error"
      else if forallb (fun e => String.eqb e "publicado") estados_validos then "Publicado"
      else if str_in "revisando" estados_validos then "Revisando"
      else if str_in "procesando" estados_validos then "Procesando"
      else "Programado"
  end.

Definition compute_post_estado_global (t : task) : string :=
  post_estado_global_of (map (fld t) estado_fields).

(** ** Lemmas on the encoding *)

(** The spelling the aggregation compares with. *)
Definition phase_name (p : phase) : string :=
  match p with
  | Pending => "programado"
  | Processing => "procesando"
  | Reviewing => "revisando"
  | Published => "publicado"
  | Failed => "error"
  end.

Definition encode (p : phase) : val := VStr (phase_code p).

Lemma phase_of_val_encode p : phase_of_val (encode p) = Some p.
Proof. by destruct p. Qed.

Lemma norm_encode p : estados_norm [encode p] = [phase_name p].
Proof. by destruct p. Qed.

Lemma estados_norm_app l1 l2 : estados_norm (l1 ++ l2)%list = (estados_norm l1 ++ estados_norm l2)%list.
Proof. unfold estados_norm. by rewrite omap_app. Qed.

Lemma estados_norm_encode ps : estados_norm (map encode ps) = map phase_name ps.
Proof.
  induction ps as [|p ps IH]; [done|].
  change (estados_norm ([encode p] ++ map encode ps)%list = ([phase_name p] ++ map phase_name ps)%list).
  by rewrite estados_norm_app, norm_encode, IH.
Qed.

Lemma phase_name_inj p q : String.eqb (phase_name p) (phase_name q) = bool_decide (p = q).
Proof. by destruct p, q. Qed.

#[export] Hint Rewrite phase_of_val_encode estados_norm_encode phase_name_inj : pyrun.

Lemma str_in_names x qs :
  str_in (phase_name x) (map phase_name qs) = existsb (fun p => bool_decide (p = x)) qs.
Proof.
  unfold str_in. rewrite existsb_map_eq. apply existsb_ext_eq. intros p.
  rewrite phase_name_inj. apply bool_decide_ext. split; congruence.
Qed.

Lemma filter_names qs :
  filter (fun e => e <> "programado") (map phase_name qs) =
  map phase_name (filter (fun p => p <> Pending) qs).
Proof.
  induction qs as [|q qs IH]; [done|]. rewrite map_cons, !filter_cons.
  destruct q; simpl; rewrite IH; done.
Qed.

(** ** Refinement of the specification's aggregation *)

(** C15: the code's aggregation, on fields holding the encoded phases of the four platforms,
    yields the encoding of the specification's aggregate of the platforms that have left
    [Pending] ("Programado"). *)
Theorem post_estado_global_refines (ps : list phase) :
  post_estado_global_of (map encode ps) =
    phase_code (aggregate (filter (fun p => p <> Pending) ps)).
Proof.
  unfold post_estado_global_of, aggregate.
  rewrite estados_norm_encode, filter_names.
  remember (filter (fun p => p <> Pending) ps) as qs eqn:Hqs.
  assert (Hnp : Forall (fun p => p <> Pending) qs).
  { subst. apply Forall_forall. intros x Hx. apply list_elem_of_filter in Hx. tauto. }
  destruct qs as [|q qs']; [done|].
  rewrite decide_False by done.
  change (map phase_name (q :: qs')) with (phase_name q :: map phase_name qs').
  change "error" with (phase_name Failed). rewrite <- map_cons, str_in_names.
  destruct (existsb _ (q :: qs')); [done|].
  rewrite forallb_map_eq.
  replace (forallb (fun e => String.eqb (phase_name e) "publicado") (q :: qs'))
    with (forallb (fun p => bool_decide (p = Published)) (q :: qs'))
    by (apply forallb_ext_eq; intros p; by destruct p).
  destruct (forallb _ (q :: qs')); [done|].
  change "revisando" with (phase_name Reviewing). rewrite str_in_names.
  destruct (existsb _ (q :: qs')); [done|].
  change "procesando" with (phase_name Processing). rewrite str_in_names.
  destruct (existsb _ (q :: qs')); [done|].
  by destruct (map phase_name (q :: qs')).
Qed.

(** ** Dominance of Error in the code's aggregation *)

Lemma estados_validos_error es :
  str_in "error" (estados_norm es) = true ->
  str_in "error" (filter (fun e => e <> "programado") (estados_norm es)) = true.
Proof.
  rewrite !str_in_spec, <- !list_elem_of_In, list_elem_of_filter. done.
Qed.

(** C16: a phase field that reads "error" once stripped and lowered, whatever the others read,
    makes the aggregate "Error". *)
Theorem post_estado_global_error (t : task) (f s : string) :
  In f estado_fields -> fld t f = VStr s -> lower (strip s) = "error" ->
  compute_post_estado_global t = "Error".
Proof.
  intros Hf Hs Hl. unfold compute_post_estado_global, post_estado_global_of.
  assert (Hin : str_in "error" (estados_norm (map (fld t) estado_fields)) = true).
  { apply str_in_spec, list_elem_of_In. unfold estados_norm. apply list_elem_of_omap.
    exists (fld t f). split; [apply list_elem_of_In, in_map_iff; eauto|].
    rewrite Hs. simpl. destruct (String.eqb_spec s EmptyString) as [->|]; [done|]. by rewrite Hl. }
  apply estados_validos_error in Hin.
  destruct (filter _ _) as [|e l] eqn:E; [done|]. by rewrite Hin.
Qed.

(** A task selecting Facebook only, published there, with a stale Error
    left on Instagram. *)
Definition stale_error_task : task :=
  {| task_id := 1; state := "03_approved"; tipo := feed; fecha_publicacion := VStr "2026-01-01";
     adjuntos_ids := []; imagen_portada := VFalse; red_social_ids := ["Facebook"];
     tag_names := []; project_type := VFalse; description := VFalse; hashtags := VFalse;
     partner_page_access_token := VStr "tok"; partner_facebook_page_id := VStr "page";
     partner_instagram_page_id := VFalse; partner_tiktok_access_token := VFalse;
     partner_linkedin_page_id := VFalse;
     fields := <["fb_estado" := VStr "Publicado"]> (<["ig_estado" := VStr "Error"]> default_fields) |}.

(** The code aggregates the four fields whatever the selection: the
    unselected Instagram's Error makes the task "Error" although the
    specification's aggregate of its one selected platform is Published. *)
Example post_estado_global_ignores_selection :
  compute_post_estado_global stale_error_task = "Error" /\
  aggregate [Published] = Published.
Proof. split; vm_compute; reflexivity. Qed.
