(* ===== verification/Flow.v ===== *)
(** * What the platform flows share

    The four [_run_<platform>_flow] methods read the Graph API version from
    [ir.config_parameter] (the class [Config]), return [True] or a UI
    notification (the type [action]), and assign fields one at a time (each
    assignment a [write], [Write.set_fields]; [upd] is the record after
    one).  This file holds what their proofs share: the tactic [flow_run]
    that runs a flow on a record that accepts writes, the frame of a
    computation (the fields it may change, [preserves]), the values it may
    leave in a phase field ([writes_only]), and the lemma that turns the
    latter into a refinement of the phase table of [Estado.v]. *)

From Stdlib Require Import String ZArith List Bool.
From stdpp Require Import base gmap strings list.
From S2P Require Import Prelude Json Http Task Write Estado.

Open Scope string_scope.

(** [self.env['ir.config_parameter'].sudo().get_param(key)] *)
Class Config : Type := get_param : string -> val.

(** [str(v)] / [f"{v}"] of a field value. *)
Definition val_str (v : val) : string :=
  match v with
  | VFalse => "False"
  | VStr s => s
  | VInt z => Z_to_string z
  end.

(** A field value passed in [params=] or [json=]. *)
Definition val_json (v : val) : json :=
  match v with
  | VFalse => JBool false
  | VStr s => JStr s
  | VInt z => JNum z
  end.

(** [f'https://graph.facebook.com/{API_VERSION}'] *)
Definition graph_base_url `{Config} : string :=
  "https://graph.facebook.com/" ++ val_str (get_param "gl_facebook.api_version").

(** The [display_notification] client action a flow returns to the UI. *)
Record notification : Type := Notification {
  n_title : string;
  n_message : string;
  n_type : string;            (** "success", "warning" or "danger" *)
  n_sticky : option bool;
  n_reload : bool             (** [next: reload] *)
}.

(** What a flow returns: [True] or a notification ([None] of the
    statements is Python's [None]). *)
Inductive action : Type :=
| ActTrue
| ActNotify (n : notification).

(** [return True if from_cron else {... "Publicado" ...}] *)
Definition published_action (from_cron : bool) (msg : string) : action :=
  if from_cron then ActTrue
  else ActNotify {| n_title := "Publicado"; n_message := msg; n_type := "success";
                    n_sticky := None; n_reload := true |}.

(** The sticky danger notification of an error. *)
Definition error_action (title msg : string) : action :=
  ActNotify {| n_title := title; n_message := msg; n_type := "danger";
               n_sticky := Some true; n_reload := false |}.

(** [self.<f>] inside a computation on the record. *)
Definition getf (f : string) : PyM task val := t <- get ;; ret (fld t f).

(** [self.<f> == s] *)
Definition fld_is (t : task) (f s : string) : bool := bool_decide (fld t f = VStr s).

(** ** One-field writes

    [self.f = v] on a record that accepts writes: the record [upd t f v]. *)

Definition upd `{AttachmentTable} `{Ffprobe} (t : task) (k : string) (v : val) : task :=
  with_fields t (with_extra (write_extra t) (list_to_map [(k, v)]) ∪ fields t).

(** [self.write(vals)] of several fields on a record that accepts writes. *)
Definition updl `{AttachmentTable} `{Ffprobe} (t : task) (l : list (string * val)) : task :=
  with_fields t (with_extra (write_extra t) (list_to_map l) ∪ fields t).

Section Upd.
Context `{AttachmentTable} `{Ffprobe}.

Lemma set1_ok k v t : write_ok t = true -> set_fields [(k, v)] t = (Ret tt, upd t k v).
Proof. apply set_fields_ok. Qed.

Lemma set1_fail k v t e : write_guard t = Raise e -> set_fields [(k, v)] t = (Raise e, t).
Proof. apply set_fields_fail. Qed.

Lemma fld_upd t k v k' :
  k' <> dur_key -> fld (upd t k v) k' = if String.eqb k k' then v else fld t k'.
Proof.
  intros Hk. unfold upd. rewrite fld_after_write by done. simpl.
  destruct (String.eqb_spec k k') as [->|Hne].
  - by rewrite lookup_insert_eq.
  - by rewrite lookup_insert_ne, lookup_empty.
Qed.

Lemma write_ok_upd t k v : write_ok (upd t k v) = write_ok t.
Proof. reflexivity. Qed.

Lemma setl_ok l t : write_ok t = true -> set_fields l t = (Ret tt, updl t l).
Proof. apply set_fields_ok. Qed.

Lemma fld_updl t l k :
  k <> dur_key -> fld (updl t l) k = match (list_to_map l : gmap string val) !! k with Some v => v | None => fld t k end.
Proof. apply fld_after_write. Qed.

Lemma write_ok_updl t l : write_ok (updl t l) = write_ok t.
Proof. reflexivity. Qed.

Lemma write_guard_upd t k v : write_guard (upd t k v) = write_guard t.
Proof. reflexivity. Qed.

Lemma fld_is_upd t k v k' s :
  k' <> dur_key -> fld_is (upd t k v) k' s = if String.eqb k k' then bool_decide (v = VStr s)
                                             else fld_is t k' s.
Proof. intros Hk. unfold fld_is. rewrite fld_upd by done. by destruct (String.eqb k k'). Qed.

End Upd.

#[export] Hint Rewrite @write_ok_upd @write_guard_upd @write_ok_updl : pyrun.

(** A write changes no field of the record outside [fields]: the
    projections the requests read are rewritten by [updrw]. *)
Create Rewrite HintDb updrw.

Section UpdStatic.
Context `{AttachmentTable} `{Ffprobe} (t : task) (k : string) (v : val).

Lemma tipo_upd : tipo (upd t k v) = tipo t.
Proof. reflexivity. Qed.
Lemma imagen_portada_upd : imagen_portada (upd t k v) = imagen_portada t.
Proof. reflexivity. Qed.
Lemma partner_page_access_token_upd :
  partner_page_access_token (upd t k v) = partner_page_access_token t.
Proof. reflexivity. Qed.
Lemma partner_facebook_page_id_upd :
  partner_facebook_page_id (upd t k v) = partner_facebook_page_id t.
Proof. reflexivity. Qed.
End UpdStatic.

#[export] Hint Rewrite @tipo_upd @imagen_portada_upd @partner_page_access_token_upd
  @partner_facebook_page_id_upd @write_ok_upd @write_guard_upd : updrw.

Lemma bool_decide_VStr a b : bool_decide (VStr a = VStr b) = String.eqb a b.
Proof.
  destruct (String.eqb_spec a b) as [->|Hne];
    [by apply bool_decide_eq_true_2 | apply bool_decide_eq_false_2; congruence].
Qed.

Lemma bool_decide_VFalse_VStr b : bool_decide (VFalse = VStr b) = false.
Proof. by apply bool_decide_eq_false_2. Qed.

(** Run a flow on a record that accepts writes ([Hw : write_ok t = true]):
    unfold the monad, use the hypotheses on the fields read, perform the
    one-field writes and read the written fields back. *)
Ltac flow_run Hw :=
  repeat
    (cbv beta iota delta [bind ret raise get try_except getf fld_is dict_get dict_get_or];
     repeat match goal with
            | H : fld ?s ?k = _ |- context [fld ?s ?k] => rewrite H
            | H : ?f ?s = _ |- context [?f ?s] => rewrite H
            | |- context [str_in ?x ?l] =>
                lazymatch x with
                | String _ _ => let b := eval cbn in (str_in x l) in change (str_in x l) with b
                end
            | H : ?e = true |- context [?e] => rewrite H
            | H : ?e = false |- context [?e] => rewrite H
            | H : obj_lookup ?k ?kv = _ |- context [obj_lookup ?k ?kv] => rewrite H
            | H : replies_json ?rq ?j |- context [send_checked_json ?rq ?s] =>
                rewrite (send_checked_json_replies rq j s H)
            | H : replies_status ?rq ?r |- context [send_checked_json ?rq ?s] =>
                rewrite (send_checked_json_status rq r s H)
            | |- context [set_fields [(?k, ?v)] ?s] =>
                rewrite (set1_ok k v s) by (autorewrite with pyrun; exact Hw)
            | |- context [fld (upd ?s ?k ?v) ?k'] =>
                rewrite (fld_upd s k v k') by discriminate
            | |- context [bool_decide (?a = ?b)] =>
                first [ rewrite (bool_decide_eq_true_2 (a = b)) by reflexivity
                      | rewrite (bool_decide_eq_false_2 (a = b)) by discriminate ]
            | H : ¬ ?P |- context [bool_decide ?P] => rewrite (bool_decide_eq_false_2 P H)
            | H : ?P |- context [bool_decide ?P] => rewrite (bool_decide_eq_true_2 P H)
            end;
     rewrite ?andb_false_r, ?andb_true_r;
     autorewrite with updrw;
     rewrite ?bool_decide_VStr, ?bool_decide_VFalse_VStr;
     cbn [String.eqb Ascii.eqb Bool.eqb Nat.eqb length andb orb negb truthy jtruthy jis_str jin_strs jin_nums opt_obj]).

(** [flow_run], splitting on the phase tests and on the truthiness of the
    fields the hypotheses leave open. *)
Ltac flow_cases Hw :=
  repeat (flow_run Hw;
          first [ case_bool_decide
                | match goal with
                  | |- context [truthy (fld ?s ?k)] => is_var s; destruct (truthy (fld s k)) eqn:?
                  end ]);
  flow_run Hw.

(** ** Frames: the fields a computation may change *)

(** The record keeps its static part and every field outside [fp] except
    the duration the write checks store. *)
Definition frame (fp : list string) (t t' : task) : Prop :=
  t' = with_fields t (fields t') /\
  forall k, k <> dur_key -> ~ In k fp -> fld t' k = fld t k.

Lemma frame_refl fp t : frame fp t t.
Proof. split; [by rewrite with_fields_id | done]. Qed.

Lemma frame_trans fp t1 t2 t3 : frame fp t1 t2 -> frame fp t2 t3 -> frame fp t1 t3.
Proof.
  intros [E1 H1] [E2 H2]. split.
  - rewrite E2 at 1. rewrite E1 at 1. apply with_fields_twice.
  - intros k Hk Hn. rewrite H2, H1; done.
Qed.

(** A write of fields of [fp] keeps the frame. *)
Lemma frame_set_fields `{AttachmentTable} `{Ffprobe} fp l t o t' :
  Forall (fun kv => In kv.1 fp) l -> set_fields l t = (o, t') -> frame fp t t'.
Proof.
  intros Hl Hs. rewrite set_fields_spec in Hs.
  destruct (write_guard t); injection Hs as <- <-; [|apply frame_refl].
  split; [done|]. intros k Hk Hn. rewrite fld_after_write by done.
  destruct ((list_to_map l : gmap string val) !! k) eqn:E; [|done].
  exfalso. apply Hn. apply elem_of_list_to_map_2 in E.
  rewrite Forall_forall in Hl. apply (Hl (k, v)), E.
Qed.

Lemma frame_upd `{AttachmentTable} `{Ffprobe} fp t k v :
  write_ok t = true -> In k fp -> frame fp t (upd t k v).
Proof.
  intros Hw Hk. apply (frame_set_fields fp [(k, v)] t (Ret tt)); [by repeat constructor|].
  by apply set1_ok.
Qed.

Lemma frame_upd_r `{AttachmentTable} `{Ffprobe} fp t s k v :
  frame fp t s -> write_ok s = true -> In k fp -> frame fp t (upd s k v).
Proof. intros Hf Hw Hk. eapply frame_trans; [exact Hf | by apply frame_upd]. Qed.

Lemma frame_mono fp fp' t t' : frame fp t t' -> incl fp fp' -> frame fp' t t'.
Proof. intros [E Hk] Hi. split; [done|]. intros k Hd Hn. apply Hk; [done|]. intros Hin. by apply Hn, Hi. Qed.

(** What a frame keeps: the static part of the record (its type, the
    guards of [write]) and the fields outside the footprint. *)
Lemma frame_tipo fp t t' : frame fp t t' -> tipo t' = tipo t.
Proof. by intros [-> _]. Qed.

Lemma frame_write_ok `{AttachmentTable} `{Ffprobe} fp t t' : frame fp t t' -> write_ok t' = write_ok t.
Proof. intros [-> _]. apply write_ok_with_fields. Qed.

Lemma frame_fld fp t t' k : frame fp t t' -> k <> dur_key -> ~ In k fp -> fld t' k = fld t k.
Proof. intros [_ Hk]. apply Hk. Qed.

#[export] Hint Resolve frame_refl frame_trans : py.

(** [frame fp t s] for [s] a chain of writes of fields of [fp] on [t]. *)
Ltac solve_frame Hw :=
  repeat (apply frame_upd_r; [| autorewrite with pyrun; exact Hw | simpl; tauto]);
  apply frame_refl.

(** ** Computations that write only a footprint *)

Definition preserves (fp : list string) {A} (m : PyM task A) : Prop :=
  forall t o t', m t = (o, t') -> frame fp t t'.

Section Preserves.
Context (fp : list string).

Lemma preserves_stateless {A} (m : PyM task A) : stateless m -> preserves fp m.
Proof. intros [o Hm] t o' t' E. rewrite Hm in E. injection E as _ <-. apply frame_refl. Qed.

Lemma preserves_ret {A} (a : A) : preserves fp (ret a).
Proof. apply preserves_stateless, stateless_ret. Qed.

Lemma preserves_raise {A} e : preserves fp (A := A) (raise e).
Proof. apply preserves_stateless, stateless_raise. Qed.

Lemma preserves_get : preserves fp get.
Proof. intros t o t' E. injection E as _ <-. apply frame_refl. Qed.

Lemma preserves_bind {A B} (m : PyM task A) (k : A -> PyM task B) :
  preserves fp m -> (forall a, preserves fp (k a)) -> preserves fp (bind m k).
Proof.
  intros Hm Hk t o t'. unfold bind. destruct (m t) as [[a|e] t1] eqn:E1.
  - intros E2. eapply frame_trans; [eapply Hm, E1 | eapply Hk, E2].
  - intros E2. injection E2 as _ <-. eapply Hm, E1.
Qed.

Lemma preserves_try_except {A} (m : PyM task A) h :
  preserves fp m -> (forall e, preserves fp (h e)) -> preserves fp (try_except m h).
Proof.
  intros Hm Hh t o t'. unfold try_except. destruct (m t) as [[a|e] t1] eqn:E1.
  - intros E2. injection E2 as _ <-. eapply Hm, E1.
  - intros E2. eapply frame_trans; [eapply Hm, E1 | eapply Hh, E2].
Qed.

Lemma preserves_set_fields `{AttachmentTable} `{Ffprobe} l :
  Forall (fun kv => In kv.1 fp) l -> preserves fp (set_fields l).
Proof. intros Hl t o t'. by apply frame_set_fields. Qed.
End Preserves.

(** Close [preserves fp m] for a flow built from the monad's operations,
    writes of fields of [fp] and stateless computations. *)
Ltac solve_preserves :=
  repeat first
    [ apply preserves_ret
    | apply preserves_raise
    | apply preserves_get
    | apply preserves_bind; intros
    | apply preserves_try_except; intros
    | apply preserves_set_fields; repeat constructor; simpl; tauto
    | match goal with |- preserves _ (match ?x with _ => _ end) => destruct x end
    | match goal with |- preserves _ (if ?x then _ else _) => destruct x end
    | apply preserves_stateless; solve [solve_stateless] ].

(** ** The values a computation may leave in a field *)

(** After [m], the field [f] holds its first value or one of [vs]. *)
Definition writes_only (f : string) (vs : list val) {A} (m : PyM task A) : Prop :=
  forall t o t', m t = (o, t') -> fld t' f = fld t f \/ In (fld t' f) vs.

Section WritesOnly.
Context (f : string) (vs : list val).

Lemma writes_only_stateless {A} (m : PyM task A) : stateless m -> writes_only f vs m.
Proof. intros [o Hm] t o' t' E. rewrite Hm in E. injection E as _ <-. by left. Qed.

Lemma writes_only_get : writes_only f vs get.
Proof. intros t o t' E. injection E as _ <-. by left. Qed.

Lemma writes_only_bind {A B} (m : PyM task A) (k : A -> PyM task B) :
  writes_only f vs m -> (forall a, writes_only f vs (k a)) -> writes_only f vs (bind m k).
Proof.
  intros Hm Hk t o t'. unfold bind. destruct (m t) as [[a|e] t1] eqn:E1.
  - intros E2. destruct (Hk a t1 o t' E2) as [->|]; [|by right]. eapply Hm, E1.
  - intros E2. injection E2 as _ <-. eapply Hm, E1.
Qed.

Lemma writes_only_try_except {A} (m : PyM task A) h :
  writes_only f vs m -> (forall e, writes_only f vs (h e)) -> writes_only f vs (try_except m h).
Proof.
  intros Hm Hh t o t'. unfold try_except. destruct (m t) as [[a|e] t1] eqn:E1.
  - intros E2. injection E2 as _ <-. eapply Hm, E1.
  - intros E2. destruct (Hh e t1 o t' E2) as [->|]; [|by right]. eapply Hm, E1.
Qed.

Lemma writes_only_set1 `{AttachmentTable} `{Ffprobe} k v :
  (k <> f \/ In v vs) -> f <> dur_key -> writes_only f vs (set_fields [(k, v)]).
Proof.
  intros Hkv Hf t o t' E. rewrite set_fields_spec in E.
  destruct (write_guard t); injection E as <- <-; [|by left].
  change (fld (upd t k v) f = fld t f \/ In (fld (upd t k v) f) vs).
  rewrite fld_upd by done. destruct (String.eqb_spec k f); [|by left].
  destruct Hkv; [done | by right].
Qed.
End WritesOnly.

(** Close [writes_only f vs m] for a flow built from the monad's
    operations, one-field writes and stateless computations. *)
Ltac solve_writes_only :=
  repeat first
    [ apply writes_only_get
    | apply writes_only_bind; intros
    | apply writes_only_try_except; intros
    | apply writes_only_set1; [solve [left; discriminate | right; simpl; tauto] | discriminate]
    | match goal with |- writes_only _ _ (match ?x with _ => _ end) => destruct x end
    | match goal with |- writes_only _ _ (if ?x then _ else _) => destruct x end
    | apply writes_only_stateless; solve [solve_stateless] ].

(** ** Phase refinement of a flow *)

Lemma phase_of_val_inv v p : phase_of_val v = Some p -> v = encode p.
Proof.
  destruct v as [|s|]; simpl; try discriminate.
  repeat match goal with |- context [String.eqb ?a ?b] => destruct (String.eqb_spec a b) end;
    intros E; try discriminate; injection E as <-; subst; reflexivity.
Qed.

(** From Processing or Reviewing, the table reaches Reviewing, Published
    and Failed. *)
Lemma active_reaches p q :
  p = Processing \/ p = Reviewing -> q = Reviewing \/ q = Published \/ q = Failed ->
  phase_steps p q.
Proof.
  intros [-> | ->] [-> | [-> | ->]]; eauto 6 with py.
Qed.

(** A flow that leaves in the phase field [f] either its first value or
    "Revisando", "Publicado" or "Error" moves an active phase along the
    table. *)
Lemma active_flow_refines f {A} (m : PyM task A) t o t' p :
  writes_only f [VStr "Revisando"; VStr "Publicado"; VStr "Error"] m ->
  m t = (o, t') -> p = Processing \/ p = Reviewing -> phase_of_val (fld t f) = Some p ->
  exists p', phase_of_val (fld t' f) = Some p' /\ phase_steps p p'.
Proof.
  intros Hw Hm Hp Hv. destruct (Hw t o t' Hm) as [E | E].
  - exists p. rewrite E. split; [done | constructor].
  - simpl in E. destruct E as [E|[E|[E|[]]]]; rewrite <- E.
    + exists Reviewing. split; [done|]. apply active_reaches; auto.
    + exists Published. split; [done|]. apply active_reaches; auto.
    + exists Failed. split; [done|]. apply active_reaches; auto.
Qed.
