(* ===== verification/Facebook.v ===== *)
(** * Facebook: [_run_facebook_flow] (lines 358-583)

    [publish_on_facebook] leaves [fb_estado = "Procesando"] and, for a feed,
    the JSON list of the unpublished photo ids in [fb_post_id]; for a reel
    the video id in [fb_video_id]; for a story the story's id in
    [fb_post_id].  The flow is one sequence of statements with early
    returns (a [stmt] whose [None] is Python's implicit [return None]):

    - "Procesando" becomes "Revisando" and the flow goes on in the same call;
    - a feed in "Revisando" whose [fb_post_id] is a JSON list publishes the
      photos with [POST /{page}/feed]: an [id] in the answer publishes the
      post, the error codes 9007 and 2207027 ("still processing") keep it in
      "Revisando", any other answer or a failed request raises;
    - a published post without URL gets [https://www.facebook.com/{id}];
    - a story with a post id is "Publicado", whatever its phase;
    - a reel in "Revisando" polls the upload, publishes it, uploads the cover
      as thumbnail, and reads its permalink.

    The outer [try] re-raises ([except Exception: raise], line 558) before
    the handler that would build the UI notification (line 566): that
    handler is unreachable and every exception leaves the flow.  The two
    inner [try ... except Exception as e: raise] blocks are the identity
    too. *)

From Stdlib Require Import String ZArith List Bool.
From stdpp Require Import base gmap strings list.
From S2P Require Import Prelude Json Http Base64 Task Text Write Estado Flow.

Open Scope string_scope.
Open Scope py_scope.

Module Facebook.
Section Flow.
Context `{Remote} `{Ffprobe} `{AttachmentTable} `{Config} `{Html2Text}.

Definition footprint : list string := ["fb_estado"; "fb_post_id"; "fb_post_url"].

Definition fb_url (id : val) : string := "https://www.facebook.com/" ++ val_str id.

(** The feed's photo ids: [json.loads] of the stripped [fb_post_id] when it
    starts with [[], [None] when it does not or does not parse. *)
Definition media_ids (t : task) : option json :=
  let v := strip (str_or_empty (fld t "fb_post_id")) in
  if startswith "[" v then json_loads v else None.

(** [[{"media_fbid": mid} for mid in media_ids]] *)
Definition attached_media (l : list json) : json :=
  JArr (map (fun mid => JObj [("media_fbid", mid)]) l).

(** [POST {base_url}/{partner_facebook_page_id}/feed] *)
Definition feed_request (t : task) (combined_text : string) (l : list json) : request :=
  {| rq_method := POST;
     rq_url := graph_base_url ++ "/" ++ val_str (partner_facebook_page_id t) ++ "/feed";
     rq_params := [("access_token", val_json (partner_page_access_token t));
                   ("message", JStr combined_text);
                   ("attached_media", JStr (json_dumps (attached_media l)));
                   ("published", JBool true)];
     rq_headers := []; rq_timeout := Some 20%Z |}.

(** The warning returned while Facebook processes the photos. *)
Definition processing_action (from_cron : bool) : action :=
  if from_cron then ActTrue
  else ActNotify {| n_title := "Procesando";
                    n_message := "Facebook aún está procesando las imágenes.";
                    n_type := "warning"; n_sticky := Some true; n_reload := true |}.

(** The feed branch (lines 373-420) for the ids [l]. *)
Definition feed_publish (from_cron : bool) (combined_text : string) (l : list json) : stmt task action :=
  t <- get ;;
  data <- try_except (send_checked_json (feed_request t combined_text l))
            (fun e => set_fields [("fb_estado", VStr "Error")] ;;
                      raise (ValidationError
                        ("Facebook Feed: error de comunicación con la API. Detalle: " ++ exc_str e))) ;;
  id <- dict_get data "id" ;;
  if jtruthy id then
    exec (set_fields [("fb_post_id", json_to_val (opt_obj id))] ;;
          set_fields [("fb_estado", VStr "Publicado")])
  else
    err <- dict_get_or data "error" (JObj []) ;;
    code <- dict_get err "code" ;;
    if jin_nums code [9007; 2207027]%Z then return_ (processing_action from_cron)
    else set_fields [("fb_estado", VStr "Error")] ;;
         raise (ValidationError ("Facebook Feed: error al publicar. Detalle: " ++ py_repr data)).

(** [# VALIDACIÓN BASE] (lines 368-370): no return. *)
Definition init_step : stmt task action :=
  t <- get ;;
  when (fld_is t "fb_estado" "Procesando") (exec (set_fields [("fb_estado", VStr "Revisando")])).

(** [if media_ids:] *)
Definition feed_step (from_cron : bool) (combined_text : string) : stmt task action :=
  t <- get ;;
  if fld_is t "fb_estado" "Revisando" && bool_decide (tipo t = feed)
     && truthy (fld t "fb_post_id") && negb (truthy (fld t "fb_post_url")) then
    match media_ids t with
    | Some (JArr l) => if negb (Nat.eqb (length l) 0) then feed_publish from_cron combined_text l else skip
    | _ => skip
    end
  else skip.

(** [# URL Facebook Feed] (lines 423-424) *)
Definition url_step : stmt task action :=
  t <- get ;;
  when (truthy (fld t "fb_post_id") && fld_is t "fb_estado" "Publicado"
        && negb (truthy (fld t "fb_post_url")))
    (exec (set_fields [("fb_post_url", VStr (fb_url (fld t "fb_post_id")))])).

Definition story_action (from_cron : bool) : action :=
  if from_cron then ActTrue
  else ActNotify {| n_title := "Publicado";
                    n_message := "Historia publicada correctamente (sin enlace público).";
                    n_type := "success"; n_sticky := Some false; n_reload := true |}.

(** [# 2.2) FACEBOOK STORIES (VIDEO)] (lines 427-453) *)
Definition story_step (from_cron : bool) : stmt task action :=
  t <- get ;;
  when (bool_decide (tipo t = video_stories) && truthy (fld t "fb_post_id"))
    (exec (set_fields [("fb_estado", VStr "Publicado")]) ;;;
     (t <- get ;;
      when (negb (truthy (fld t "fb_post_url")))
        (exec (set_fields [("fb_post_url", VStr (fb_url (partner_facebook_page_id t)))]))) ;;;
     return_ (story_action from_cron)).

(** [GET {base_url}/{fb_video_id}?fields=status] *)
Definition status_request (t : task) : request :=
  {| rq_method := GET; rq_url := graph_base_url ++ "/" ++ val_str (fld t "fb_video_id");
     rq_params := [("access_token", val_json (partner_page_access_token t));
                   ("fields", JStr "status")];
     rq_headers := []; rq_timeout := Some 20%Z |}.

(** [POST {base_url}/me/video_reels] with [upload_phase=finish] *)
Definition reel_publish_request (t : task) (combined_text : string) : request :=
  {| rq_method := POST; rq_url := graph_base_url ++ "/me/video_reels";
     rq_params := [("access_token", val_json (partner_page_access_token t));
                   ("video_id", val_json (fld t "fb_video_id"));
                   ("upload_phase", JStr "finish");
                   ("video_state", JStr "PUBLISHED");
                   ("description", JStr combined_text)];
     rq_headers := []; rq_timeout := Some 20%Z |}.

(** [POST .../{fb_video_id}/thumbnails] with the decoded cover as the
    multipart file [source]. *)
Definition thumb_request (t : task) (image_data : string) : request :=
  {| rq_method := POST;
     rq_url := graph_base_url ++ "/" ++ val_str (fld t "fb_video_id") ++ "/thumbnails";
     rq_params := [("source", JStr image_data);
                   ("access_token", val_json (partner_page_access_token t));
                   ("is_preferred", JStr "true")];
     rq_headers := []; rq_timeout := Some 20%Z |}.

(** [GET {base_url}/{fb_post_id}?fields=permalink_url] *)
Definition permalink_request (t : task) (post_id : val) : request :=
  {| rq_method := GET; rq_url := graph_base_url ++ "/" ++ val_str post_id;
     rq_params := [("fields", JStr "permalink_url");
                   ("access_token", val_json (partner_page_access_token t))];
     rq_headers := []; rq_timeout := Some 20%Z |}.

(** [(d.get(k) or {})] *)
Definition get_or_empty {S} (d : json) (k : string) : PyM S json :=
  v <- dict_get d k ;; ret (if jtruthy v then opt_obj v else JObj []).

(** [(st.get(ph) or {}).get("status")] *)
Definition phase_get {S} (st : json) (ph : string) : PyM S (option json) :=
  p <- get_or_empty st ph ;; dict_get p "status".

(** The cover upload (lines 511-529). *)
Definition upload_thumbnail : PyM task unit :=
  t <- get ;;
  if truthy (imagen_portada t) && truthy (fld t "fb_video_id") then
    match b64decode (str_or_empty (imagen_portada t)) with
    | inr e => raise e
    | inl image_data =>
        resp_thumb <- send (thumb_request t image_data) ;;
        if (400 <=? rs_status resp_thumb)%Z then
          raise (ValidationError ("FB thumbnails error: " ++ Z_to_string (rs_status resp_thumb)
                                  ++ " " ++ rs_text resp_thumb))
        else ret tt
    end
  else ret tt.

(** [# REVISANDO] of the reels (lines 471-529). *)
Definition reel_review (combined_text : string) : stmt task action :=
  t <- get ;;
  sdata <- send_checked_json (status_request t) ;;
  st <- get_or_empty sdata "status" ;;
  _ <- dict_get st "video_status" ;;
  uploading <- phase_get st "uploading_phase" ;;
  _ <- phase_get st "processing_phase" ;;
  _ <- phase_get st "publishing_phase" ;;
  if negb (jis_str uploading "complete") then return_ ActTrue
  else
    pdata <- send_checked_json (reel_publish_request t combined_text) ;;
    post_id <- dict_get pdata "post_id" ;;
    if negb (jtruthy post_id) then
      raise (ValidationError ("Facebook Reel: no devolvió post_id. Detalle: " ++ py_repr pdata))
    else
      exec (set_fields [("fb_post_id", json_to_val (opt_obj post_id))] ;;
            set_fields [("fb_estado", VStr "Publicado")] ;;
            upload_thumbnail).

(** [# PUBLICADO → URL REEL] (lines 531-552) *)
Definition reel_permalink (from_cron : bool) : stmt task action :=
  t <- get ;;
  ldata <- send_checked_json (permalink_request t (fld t "fb_post_id")) ;;
  link <- dict_get ldata "permalink_url" ;;
  exec (set_fields [("fb_post_url", match link with Some j => json_to_val j | None => VFalse end)]) ;;;
  return_ (published_action from_cron "Reel publicado correctamente.").

(** [# FACEBOOK REELS (VIDEO)] (lines 456-555) *)
Definition reels_step (from_cron : bool) (combined_text : string) : stmt task action :=
  t <- get ;;
  when (bool_decide (tipo t = video_reels))
    ((t <- get ;;
      when (fld_is t "fb_estado" "Procesando")
        (exec (set_fields [("fb_estado", VStr "Revisando")]) ;;; return_ ActTrue)) ;;;
     (t <- get ;;
      when (fld_is t "fb_estado" "Revisando" && truthy (fld t "fb_video_id"))
        (reel_review combined_text)) ;;;
     (t <- get ;;
      when (fld_is t "fb_estado" "Publicado" && truthy (fld t "fb_post_id")
            && negb (truthy (fld t "fb_post_url")))
        (reel_permalink from_cron))).

(** [_run_facebook_flow(from_cron)]: the caption is computed before the
    [try]; the result is the method's return value. *)
Definition run_facebook_flow (from_cron : bool) : stmt task action :=
  t <- get ;;
  let combined_text := prepare_text t in
  init_step ;;;
  feed_step from_cron combined_text ;;;
  url_step ;;;
  story_step from_cron ;;;
  reels_step from_cron combined_text.
End Flow.

Section Static.
Context `{Remote} `{Ffprobe} `{AttachmentTable} `{Config}.

Lemma media_ids_upd t k v : k <> "fb_post_id" -> media_ids (upd t k v) = media_ids t.
Proof.
  intros Hk. unfold media_ids. rewrite fld_upd by discriminate.
  by destruct (String.eqb_spec k "fb_post_id").
Qed.

Lemma feed_request_upd t k v c l : feed_request (upd t k v) c l = feed_request t c l.
Proof. reflexivity. Qed.

Lemma reel_publish_request_upd t k v c :
  k <> "fb_video_id" -> reel_publish_request (upd t k v) c = reel_publish_request t c.
Proof.
  intros Hk. unfold reel_publish_request. rewrite fld_upd by discriminate.
  by destruct (String.eqb_spec k "fb_video_id").
Qed.

Lemma status_request_upd t k v :
  k <> "fb_video_id" -> status_request (upd t k v) = status_request t.
Proof.
  intros Hk. unfold status_request. rewrite fld_upd by discriminate.
  by destruct (String.eqb_spec k "fb_video_id").
Qed.

Lemma permalink_request_upd t k v p : permalink_request (upd t k v) p = permalink_request t p.
Proof. reflexivity. Qed.

Lemma thumb_request_upd t k v d :
  k <> "fb_video_id" -> thumb_request (upd t k v) d = thumb_request t d.
Proof.
  intros Hk. unfold thumb_request. rewrite fld_upd by discriminate.
  by destruct (String.eqb_spec k "fb_video_id").
Qed.

Lemma fb_url_nonempty v : String.eqb (fb_url v) EmptyString = false.
Proof. reflexivity. Qed.
End Static.

#[export] Hint Rewrite @media_ids_upd @reel_publish_request_upd @status_request_upd
  @thumb_request_upd using discriminate : updrw.
#[export] Hint Rewrite @feed_request_upd @permalink_request_upd @fb_url_nonempty : updrw.

(** ** Reading the answers *)

(** A phase entry of a reel's status the code can read: absent, falsy, or
    an object. *)
Definition phase_ok (o : option json) : Prop :=
  match o with
  | Some (JObj _) | None => True
  | Some j => jtruthy (Some j) = false
  end.

(** The [status] of a phase entry, as [phase_get] reads it. *)
Definition phase_status (o : option json) : option json :=
  match o with Some (JObj p) => obj_lookup "status" p | _ => None end.

Lemma phase_get_spec {S} st ph (s : S) :
  phase_ok (obj_lookup ph st) ->
  phase_get (JObj st) ph s = (Ret (phase_status (obj_lookup ph st)), s).
Proof.
  unfold phase_get, get_or_empty, bind, dict_get, ret. simpl.
  destruct (obj_lookup ph st) as [j|]; [|done]. intros Hp.
  destruct j as [| | | | |l|kv]; simpl in *; rewrite ?Hp; try done. destruct kv; done.
Qed.

Lemma get_or_empty_obj {S} k kv st (s : S) :
  obj_lookup k kv = Some (JObj st) -> get_or_empty (JObj kv) k s = (Ret (JObj st), s).
Proof.
  intros E. unfold get_or_empty, bind, dict_get, ret. simpl. rewrite E. by destruct st.
Qed.

(** [flow_run], reading the status objects of a reel. *)
Ltac fb_run Hw :=
  repeat (flow_run Hw;
          match goal with
          | H : obj_lookup ?k ?kv = Some (JObj ?st) |- context [get_or_empty (JObj ?kv) ?k ?s] =>
              rewrite (get_or_empty_obj k kv st s H)
          | H : phase_ok (obj_lookup ?ph ?st) |- context [phase_get (JObj ?st) ?ph ?s] =>
              rewrite (phase_get_spec st ph s H)
          end);
  flow_run Hw.

Ltac fb_unfold :=
  unfold init_step, feed_step, feed_publish, url_step,
    story_step, reels_step, reel_review, reel_permalink,
    upload_thumbnail, send, seq, when, exec, skip, return_.

(** ** The steps of the flow *)

(** Close a hypothesis of a step lemma on the state the flow reached. *)
Ltac fb_side Hw := flow_run Hw; first [done | discriminate | congruence | eassumption].

(** Run the statement [s1] of [s1 ;;; s2] by the step lemma [L]. *)
Ltac fb_seq L Hw := erewrite seq_fall; [| eapply L; fb_side Hw].

Section Steps.
Context `{Remote} `{Ffprobe} `{AttachmentTable} `{Config}.

Lemma init_step_processing t :
  write_ok t = true -> fld t "fb_estado" = VStr "Procesando" ->
  init_step t = (Ret None, upd t "fb_estado" (VStr "Revisando")).
Proof. intros Hw Hs. fb_unfold. by flow_run Hw. Qed.

Lemma init_step_falls t :
  write_ok t = true -> exists t', init_step t = (Ret None, t') /\ frame ["fb_estado"] t t'.
Proof.
  intros Hw. fb_unfold. flow_cases Hw; eexists; (split; [reflexivity | solve_frame Hw]).
Qed.

Lemma url_step_falls t :
  write_ok t = true -> exists t', url_step t = (Ret None, t') /\ frame ["fb_post_url"] t t'.
Proof.
  intros Hw. fb_unfold. flow_cases Hw; eexists; (split; [reflexivity | solve_frame Hw]).
Qed.

Lemma story_step_publishes fc t :
  write_ok t = true -> tipo t = video_stories -> truthy (fld t "fb_post_id") = true ->
  exists t', story_step fc t = (Ret (Some (story_action fc)), t') /\
    fld t' "fb_estado" = VStr "Publicado" /\ truthy (fld t' "fb_post_url") = true /\
    frame footprint t t'.
Proof.
  intros Hw Ht Hi. fb_unfold. flow_cases Hw;
    eexists; (split; [reflexivity|]); flow_run Hw; (split; [done|]); (split; [done|]); solve_frame Hw.
Qed.

Lemma init_step_skip t : fld t "fb_estado" <> VStr "Procesando" -> init_step t = (Ret None, t).
Proof. intros Hs. fb_unfold. by flow_run Hw. Qed.

Lemma feed_step_skip fc c t : tipo t <> feed -> feed_step fc c t = (Ret None, t).
Proof. intros Ht. fb_unfold. by flow_run Hw. Qed.

Lemma story_step_skip fc t : tipo t <> video_stories -> story_step fc t = (Ret None, t).
Proof. intros Ht. fb_unfold. by flow_run Hw. Qed.

Lemma reels_step_skip fc c t : tipo t <> video_reels -> reels_step fc c t = (Ret None, t).
Proof. intros Ht. fb_unfold. by flow_run Hw. Qed.

Lemma url_step_skip t :
  fld t "fb_estado" <> VStr "Publicado" -> url_step t = (Ret None, t).
Proof. intros Hs. fb_unfold. by flow_run Hw. Qed.

Lemma url_step_set t :
  write_ok t = true -> fld t "fb_estado" = VStr "Publicado" ->
  truthy (fld t "fb_post_id") = true -> truthy (fld t "fb_post_url") = false ->
  url_step t = (Ret None, upd t "fb_post_url" (VStr (fb_url (fld t "fb_post_id")))).
Proof. intros Hw Hs Hi Hu. fb_unfold. by flow_run Hw. Qed.

(** A feed post whose photos are uploaded: [fb_post_id] holds their ids
    and there is no URL yet. *)
Definition feed_ready (t : task) (l : list json) : Prop :=
  tipo t = feed /\ truthy (fld t "fb_post_id") = true /\ truthy (fld t "fb_post_url") = false /\
  media_ids t = Some (JArr l) /\ l <> [].

Lemma feed_ready_upd t l v : feed_ready t l -> feed_ready (upd t "fb_estado" v) l.
Proof.
  intros (Ht & Hi & Hu & Hm & Hl). repeat split; try done;
    rewrite ?fld_upd by discriminate; by autorewrite with updrw.
Qed.

(** The answer of the feed request [rq]: [{"error": {"code": c, ...}, ...}]
    without an [id]. *)
Definition feed_error (rq : request) (kv : list (string * json)) (c : Z) : Prop :=
  replies_json rq (JObj kv) /\ jtruthy (obj_lookup "id" kv) = false /\
  exists ekv, obj_lookup "error" kv = Some (JObj ekv) /\ obj_lookup "code" ekv = Some (JNum c).

Lemma feed_step_published fc c t l kv idj :
  write_ok t = true -> fld t "fb_estado" = VStr "Revisando" -> feed_ready t l ->
  replies_json (feed_request t c l) (JObj kv) ->
  obj_lookup "id" kv = Some idj -> jtruthy (Some idj) = true ->
  feed_step fc c t =
    (Ret None, upd (upd t "fb_post_id" (json_to_val idj)) "fb_estado" (VStr "Publicado")).
Proof.
  intros Hw Hs (Ht & Hi & Hu & Hm & Hl) Hr Hd Hid. destruct l as [|m l]; [done|].
  fb_unfold. by flow_run Hw.
Qed.

Lemma feed_step_processing fc c t l kv code :
  write_ok t = true -> fld t "fb_estado" = VStr "Revisando" -> feed_ready t l ->
  feed_error (feed_request t c l) kv code -> In code [9007; 2207027]%Z ->
  feed_step fc c t = (Ret (Some (processing_action fc)), t).
Proof.
  intros Hw Hs (Ht & Hi & Hu & Hm & Hl) (Hr & Hn & ekv & He & Hc) Hin.
  destruct l as [|m l]; [done|]. fb_unfold. flow_run Hw.
  destruct Hin as [<-|[<-|[]]]; by flow_run Hw.
Qed.

Lemma feed_step_rejected fc c t l kv code :
  write_ok t = true -> fld t "fb_estado" = VStr "Revisando" -> feed_ready t l ->
  feed_error (feed_request t c l) kv code -> ~ In code [9007; 2207027]%Z ->
  feed_step fc c t =
    (Raise (ValidationError ("Facebook Feed: error al publicar. Detalle: " ++ py_repr (JObj kv))),
     upd t "fb_estado" (VStr "Error")).
Proof.
  intros Hw Hs (Ht & Hi & Hu & Hm & Hl) (Hr & Hn & ekv & He & Hc) Hin.
  assert (Hc' : existsb (num_eq_int (NInt code)) [9007; 2207027]%Z = false).
  { apply not_true_is_false. intros E. apply Hin. apply existsb_exists in E.
    destruct E as (x & Hx & Ex). apply Z.eqb_eq in Ex. by subst. }
  destruct l as [|m l]; [done|]. fb_unfold. flow_run Hw. cbn [json_num]. rewrite Hc'. by flow_run Hw.
Qed.

(** The status answer of a reel: [{"status": {...st...}, ...}]. *)
Definition reel_status (t : task) (kv st : list (string * json)) : Prop :=
  replies_json (status_request t) (JObj kv) /\ obj_lookup "status" kv = Some (JObj st) /\
  phase_ok (obj_lookup "uploading_phase" st) /\ phase_ok (obj_lookup "processing_phase" st) /\
  phase_ok (obj_lookup "publishing_phase" st).

Lemma reel_status_upd t v kv st : reel_status t kv st -> reel_status (upd t "fb_estado" v) kv st.
Proof. unfold reel_status. by rewrite status_request_upd by discriminate. Qed.

(** The upload is complete and [/me/video_reels] answers
    [{"post_id": pid, ...}]. *)
Definition reel_ready (t : task) (c : string) (kv st pkv : list (string * json)) (pid : json) : Prop :=
  reel_status t kv st /\ jis_str (phase_status (obj_lookup "uploading_phase" st)) "complete" = true /\
  replies_json (reel_publish_request t c) (JObj pkv) /\
  obj_lookup "post_id" pkv = Some pid /\ jtruthy (Some pid) = true.

Lemma reels_step_waiting fc c t kv st :
  write_ok t = true -> fld t "fb_estado" = VStr "Revisando" -> tipo t = video_reels ->
  truthy (fld t "fb_video_id") = true -> reel_status t kv st ->
  jis_str (phase_status (obj_lookup "uploading_phase" st)) "complete" = false ->
  reels_step fc c t = (Ret (Some ActTrue), t).
Proof. intros Hw Hs Ht Hv (Hr & Hk & Hu & Hp & Hb) Hc. fb_unfold. by fb_run Hw. Qed.

(** The review of a ready reel without a cover: the post id and Publicado. *)
Lemma reel_review_published c t kv st pkv pid :
  write_ok t = true -> truthy (imagen_portada t) = false -> reel_ready t c kv st pkv pid ->
  reel_review c t = (Ret None, upd (upd t "fb_post_id" (json_to_val pid)) "fb_estado" (VStr "Publicado")).
Proof.
  intros Hw Hc ((Hr & Hk & Hu1 & Hp & Hb) & Hok & Hpr & Hpid & Hpt).
  pose proof (truthy_json_to_val _ Hpt).
  unfold reel_review, upload_thumbnail, send, seq, when, exec, skip, return_. by fb_run Hw.
Qed.

(** The review of a ready reel whose cover upload answers an HTTP error. *)
Lemma reel_review_thumbnail_error c t kv st pkv pid d r :
  write_ok t = true -> reel_ready t c kv st pkv pid -> truthy (fld t "fb_video_id") = true ->
  truthy (imagen_portada t) = true -> b64decode (str_or_empty (imagen_portada t)) = inl d ->
  remote (thumb_request t d) = Reply r -> (400 <=? rs_status r)%Z = true ->
  reel_review c t =
    (Raise (ValidationError ("FB thumbnails error: " ++ Z_to_string (rs_status r) ++ " " ++ rs_text r)),
     upd (upd t "fb_post_id" (json_to_val pid)) "fb_estado" (VStr "Publicado")).
Proof.
  intros Hw ((Hr & Hk & Hu1 & Hp & Hb) & Hok & Hpr & Hpid & Hpt) Hv Hc Hd Hth Hst.
  unfold reel_review, upload_thumbnail, send, seq, when, exec, skip, return_. by fb_run Hw.
Qed.

(** The permalink of a published reel. *)
Lemma reel_permalink_run fc t lkv :
  write_ok t = true -> replies_json (permalink_request t (fld t "fb_post_id")) (JObj lkv) ->
  reel_permalink fc t =
    (Ret (Some (published_action fc "Reel publicado correctamente.")),
     upd t "fb_post_url" (match obj_lookup "permalink_url" lkv with
                          | Some j => json_to_val j | None => VFalse end)).
Proof. intros Hw Hl. unfold reel_permalink, seq, exec, return_. by fb_run Hw. Qed.

Lemma reels_step_published fc c t kv st pkv pid lkv :
  write_ok t = true -> fld t "fb_estado" = VStr "Revisando" -> tipo t = video_reels ->
  truthy (fld t "fb_video_id") = true -> truthy (fld t "fb_post_url") = false ->
  truthy (imagen_portada t) = false -> reel_ready t c kv st pkv pid ->
  replies_json (permalink_request t (json_to_val pid)) (JObj lkv) ->
  reels_step fc c t =
    (Ret (Some (published_action fc "Reel publicado correctamente.")),
     upd (upd (upd t "fb_post_id" (json_to_val pid)) "fb_estado" (VStr "Publicado"))
       "fb_post_url" (match obj_lookup "permalink_url" lkv with
                      | Some j => json_to_val j | None => VFalse end)).
Proof.
  intros Hw Hs Ht Hv Hu Hc Hready Hl.
  pose proof (reel_review_published c t kv st pkv pid Hw Hc Hready) as Hrev.
  pose proof (reel_permalink_run fc (upd (upd t "fb_post_id" (json_to_val pid)) "fb_estado" (VStr "Publicado")) lkv)
    as Hperm.
  rewrite !permalink_request_upd, !fld_upd in Hperm by discriminate. cbn in Hperm.
  specialize (Hperm Hw Hl).
  assert (Hpt : truthy (json_to_val pid) = true)
    by (apply truthy_json_to_val; apply Hready).
  unfold reels_step, seq, when, exec, skip, return_. by flow_run Hw.
Qed.

Lemma reels_step_thumbnail_error fc c t kv st pkv pid d r :
  write_ok t = true -> fld t "fb_estado" = VStr "Revisando" -> tipo t = video_reels ->
  truthy (fld t "fb_video_id") = true -> reel_ready t c kv st pkv pid ->
  truthy (imagen_portada t) = true -> b64decode (str_or_empty (imagen_portada t)) = inl d ->
  remote (thumb_request t d) = Reply r -> (400 <= rs_status r)%Z ->
  reels_step fc c t =
    (Raise (ValidationError ("FB thumbnails error: " ++ Z_to_string (rs_status r) ++ " " ++ rs_text r)),
     upd (upd t "fb_post_id" (json_to_val pid)) "fb_estado" (VStr "Publicado")).
Proof.
  intros Hw Hs Ht Hv Hready Hc Hd Hth Hst. apply Z.leb_le in Hst.
  pose proof (reel_review_thumbnail_error c t kv st pkv pid d r Hw Hready Hv Hc Hd Hth Hst) as Hrev.
  unfold reels_step, seq, when, exec, skip, return_. by flow_run Hw.
Qed.
End Steps.

Section Theorems.
Context `{Remote} `{Ffprobe} `{AttachmentTable} `{Config} `{Html2Text}.

(** Run the flow: the caption, then the steps one after the other. *)
Lemma run_facebook_flow_eq fc t :
  run_facebook_flow fc t =
    (init_step ;;; feed_step fc (prepare_text t) ;;; url_step ;;; story_step fc ;;;
     reels_step fc (prepare_text t)) t.
Proof. reflexivity. Qed.

(** C17: one call publishes a feed post from "Procesando": the phase goes through "Revisando"
    to "Publicado" and the URL is built from the new post id, with no call left for the review
    phase. *)
Theorem fb_feed_published fc t l kv idj :
  write_ok t = true -> fld t "fb_estado" = VStr "Procesando" -> feed_ready t l ->
  replies_json (feed_request t (prepare_text t) l) (JObj kv) ->
  obj_lookup "id" kv = Some idj -> jtruthy (Some idj) = true ->
  run_facebook_flow fc t =
    (Ret None,
     upd (upd (upd (upd t "fb_estado" (VStr "Revisando")) "fb_post_id" (json_to_val idj))
            "fb_estado" (VStr "Publicado")) "fb_post_url" (VStr (fb_url (json_to_val idj)))).
Proof.
  intros Hw Hs Hf Hr Hd Hid. pose proof (truthy_json_to_val _ Hid) as Hv.
  pose proof (feed_ready_upd _ _ (VStr "Revisando") Hf) as Hf'. destruct Hf as (Ht & Hi & Hu & _).
  rewrite run_facebook_flow_eq.
  fb_seq init_step_processing Hw. fb_seq open_constr:(feed_step_published fc _ _ l kv idj) Hw.
  fb_seq url_step_set Hw.
  fb_seq story_step_skip Hw. rewrite reels_step_skip by fb_side Hw. by flow_run Hw.
Qed.

(** C18: a story with a post id is marked "Publicado" whatever its phase, "Error" included, and
    gets a URL. *)
Theorem fb_story_published fc t :
  write_ok t = true -> tipo t = video_stories -> truthy (fld t "fb_post_id") = true ->
  exists t', run_facebook_flow fc t = (Ret (Some (story_action fc)), t') /\
    fld t' "fb_estado" = VStr "Publicado" /\ truthy (fld t' "fb_post_url") = true /\
    frame footprint t t'.
Proof.
  intros Hw Ht Hi. rewrite run_facebook_flow_eq.
  destruct (init_step_falls t Hw) as (t1 & E1 & F1). rewrite (seq_fall _ _ _ _ E1).
  rewrite (seq_fall _ _ _ _ (feed_step_skip _ _ _ ltac:(by rewrite (frame_tipo _ _ _ F1), Ht))).
  destruct (url_step_falls t1 ltac:(by rewrite (frame_write_ok _ _ _ F1))) as (t2 & E2 & F2).
  rewrite (seq_fall _ _ _ _ E2).
  assert (F12 : frame footprint t t2).
  { eapply frame_trans; eapply frame_mono; eauto; intros k; simpl; tauto. }
  destruct (story_step_publishes fc t2) as (t3 & E3 & Hs3 & Hu3 & F3).
  - by rewrite (frame_write_ok _ _ _ F12).
  - by rewrite (frame_tipo _ _ _ F12).
  - rewrite (frame_fld _ _ _ _ F2), (frame_fld _ _ _ _ F1); try done; simpl; intuition discriminate.
  - exists t3. rewrite (seq_return _ _ _ _ _ E3). do 3 (split; [done|]). eauto with py.
Qed.


(** The first call on a reel in "Procesando" does not stop after moving it to "Revisando"
    (the reel branch's own [return True] for "Procesando" is dead code): it already asks for
    the upload status, and returns [True] while the upload is incomplete. *)
Theorem fb_reel_polled_in_first_call fc t kv st :
  write_ok t = true -> fld t "fb_estado" = VStr "Procesando" -> tipo t = video_reels ->
  truthy (fld t "fb_video_id") = true -> reel_status t kv st ->
  jis_str (phase_status (obj_lookup "uploading_phase" st)) "complete" = false ->
  run_facebook_flow fc t = (Ret (Some ActTrue), upd t "fb_estado" (VStr "Revisando")).
Proof.
  intros Hw Hs Ht Hv Hr Hc. rewrite run_facebook_flow_eq.
  fb_seq init_step_processing Hw. fb_seq feed_step_skip Hw. fb_seq url_step_skip Hw.
  fb_seq story_step_skip Hw.
  rewrite (reels_step_waiting _ _ _ kv st); try fb_side Hw. by apply reel_status_upd.
Qed.

(** A reel in "Revisando" whose upload is complete is published in one call: post id,
    "Publicado", and the permalink as URL. *)
Theorem fb_reel_published fc t kv st pkv pid lkv :
  write_ok t = true -> fld t "fb_estado" = VStr "Revisando" -> tipo t = video_reels ->
  truthy (fld t "fb_video_id") = true -> truthy (fld t "fb_post_url") = false ->
  truthy (imagen_portada t) = false -> reel_ready t (prepare_text t) kv st pkv pid ->
  replies_json (permalink_request t (json_to_val pid)) (JObj lkv) ->
  run_facebook_flow fc t =
    (Ret (Some (published_action fc "Reel publicado correctamente.")),
     upd (upd (upd t "fb_post_id" (json_to_val pid)) "fb_estado" (VStr "Publicado"))
       "fb_post_url" (match obj_lookup "permalink_url" lkv with
                      | Some j => json_to_val j | None => VFalse end)).
Proof.
  intros Hw Hs Ht Hv Hu Hc Hr Hl. rewrite run_facebook_flow_eq.
  fb_seq init_step_skip Hw. fb_seq feed_step_skip Hw. fb_seq url_step_skip Hw.
  fb_seq story_step_skip Hw. by apply reels_step_published with kv st pkv.
Qed.

(** C19: when the cover upload answers an HTTP error after the reel was published, the
    flow raises [ValidationError "FB thumbnails error: <status> <text>"] with [fb_post_id]
    and [fb_estado = "Publicado"] already written: [revisar_post] propagates the exception,
    and only a caller that catches it ([publicar_post]) keeps these writes. *)
Theorem fb_reel_thumbnail_error fc t kv st pkv pid d r :
  write_ok t = true -> fld t "fb_estado" = VStr "Revisando" -> tipo t = video_reels ->
  truthy (fld t "fb_video_id") = true -> reel_ready t (prepare_text t) kv st pkv pid ->
  truthy (imagen_portada t) = true -> b64decode (str_or_empty (imagen_portada t)) = inl d ->
  remote (thumb_request t d) = Reply r -> (400 <= rs_status r)%Z ->
  run_facebook_flow fc t =
    (Raise (ValidationError ("FB thumbnails error: " ++ Z_to_string (rs_status r) ++ " " ++ rs_text r)),
     upd (upd t "fb_post_id" (json_to_val pid)) "fb_estado" (VStr "Publicado")).
Proof.
  intros Hw Hs Ht Hv Hr Hc Hd Hth Hst. rewrite run_facebook_flow_eq.
  fb_seq init_step_skip Hw. fb_seq feed_step_skip Hw. fb_seq url_step_skip Hw.
  fb_seq story_step_skip Hw. by eapply reels_step_thumbnail_error.
Qed.

(** While Facebook still processes the photos (error codes 9007 and 2207027) the post
    stays in "Revisando" and the flow returns the warning, or [True] under the scheduler. *)
Theorem fb_feed_still_processing fc t l kv code :
  write_ok t = true -> fld t "fb_estado" = VStr "Procesando" -> feed_ready t l ->
  feed_error (feed_request t (prepare_text t) l) kv code -> In code [9007; 2207027]%Z ->
  run_facebook_flow fc t = (Ret (Some (processing_action fc)), upd t "fb_estado" (VStr "Revisando")).
Proof.
  intros Hw Hs Hf He Hin. pose proof (feed_ready_upd _ _ (VStr "Revisando") Hf) as Hf'.
  rewrite run_facebook_flow_eq. fb_seq init_step_processing Hw.
  by erewrite seq_return; [| eapply (feed_step_processing fc _ _ l kv code); fb_side Hw].
Qed.

(** C20: any other answer without [id] records "Error" and raises [ValidationError] with the
    answer. *)
Theorem fb_feed_rejected fc t l kv code :
  write_ok t = true -> fld t "fb_estado" = VStr "Procesando" -> feed_ready t l ->
  feed_error (feed_request t (prepare_text t) l) kv code -> ~ In code [9007; 2207027]%Z ->
  run_facebook_flow fc t =
    (Raise (ValidationError ("Facebook Feed: error al publicar. Detalle: " ++ py_repr (JObj kv))),
     upd (upd t "fb_estado" (VStr "Revisando")) "fb_estado" (VStr "Error")).
Proof.
  intros Hw Hs Hf He Hin. pose proof (feed_ready_upd _ _ (VStr "Revisando") Hf) as Hf'.
  rewrite run_facebook_flow_eq. fb_seq init_step_processing Hw.
  by erewrite seq_raise; [| eapply (feed_step_rejected fc _ _ l kv code); fb_side Hw].
Qed.

Lemma fb_flow_frame fc : preserves footprint (run_facebook_flow fc).
Proof.
  unfold run_facebook_flow. fb_unfold.
  unfold phase_get, get_or_empty, send_checked_json, send, raise_for_status, resp_json, dict_get_or,
    dict_get.
  solve_preserves.
Qed.

Lemma fb_flow_writes fc :
  writes_only "fb_estado" [VStr "Revisando"; VStr "Publicado"; VStr "Error"] (run_facebook_flow fc).
Proof.
  unfold run_facebook_flow. fb_unfold.
  unfold phase_get, get_or_empty, send_checked_json, send, raise_for_status, resp_json, dict_get_or,
    dict_get.
  solve_writes_only.
Qed.

(** The photo ids [publish_on_facebook] stores in [fb_post_id] as
    [json.dumps(photo_ids)] (line 854) are read back unchanged by the feed
    branch of the flow ([json.loads] of the stripped field, lines 375-381),
    for ids of printable characters other than quotes and backslashes, as
    the Graph API's numeric ids are. *)
Lemma fb_post_id_roundtrip t ids :
  Forall (fun s => plain s = true) ids ->
  fld t "fb_post_id" = VStr (json_dumps (JArr (map JStr ids))) ->
  media_ids t = Some (JArr (map JStr ids)).
Proof.
  intros Hp Hf. unfold media_ids. rewrite Hf. cbn [str_or_empty].
  rewrite strip_json_dumps_arr, startswith_json_dumps_arr. by apply json_loads_dumps_plain.
Qed.
End Theorems.
End Facebook.
