(* ===== verification/Instagram.v ===== *)
(** * Instagram: [_run_instagram_flow] (lines 585-703)

    A container created by [publish_on_instagram] is in [ig_estado =
    "Procesando"].  The first call of the flow moves it to "Revisando" and
    returns; the next calls poll the container's [status_code]: missing,
    [IN_PROGRESS] or [PROCESSING] keeps waiting, [ERROR] records the error,
    anything else publishes it ([media_publish]) and reads its permalink.
    Every exception is caught, recorded in [ig_estado]/[ig_error], and
    raised again when the scheduler runs the flow. *)

From Stdlib Require Import String ZArith List Bool.
From stdpp Require Import base gmap strings list.
From S2P Require Import Prelude Json Http Task Write Estado Flow.

Open Scope string_scope.

Module Instagram.
Section Flow.
Context `{Remote} `{Ffprobe} `{AttachmentTable} `{Config}.

(** The fields the flow writes. *)
Definition footprint : list string := ["ig_estado"; "ig_error"; "inst_post_id"; "inst_post_url"].

(** [GET {base_url}/{inst_post_id}?fields=status_code] *)
Definition status_request (t : task) : request :=
  {| rq_method := GET; rq_url := graph_base_url ++ "/" ++ val_str (fld t "inst_post_id");
     rq_params := [("access_token", val_json (partner_page_access_token t));
                   ("fields", JStr "status_code")];
     rq_headers := []; rq_timeout := Some 20%Z |}.

(** [POST {base_url}/{partner_instagram_page_id}/media_publish] *)
Definition publish_request (t : task) : request :=
  {| rq_method := POST;
     rq_url := graph_base_url ++ "/" ++ val_str (partner_instagram_page_id t) ++ "/media_publish";
     rq_params := [("access_token", val_json (partner_page_access_token t));
                   ("creation_id", val_json (fld t "inst_post_id"))];
     rq_headers := []; rq_timeout := Some 20%Z |}.

(** [GET {base_url}/{ig_media_id}?fields=permalink] *)
Definition permalink_request (t : task) (media_id : json) : request :=
  {| rq_method := GET; rq_url := graph_base_url ++ "/" ++ json_str media_id;
     rq_params := [("access_token", val_json (partner_page_access_token t));
                   ("fields", JStr "permalink")];
     rq_headers := []; rq_timeout := Some 20%Z |}.

(** [self.ig_estado = "Error"; self.ig_error = msg], then raise
    [ValidationError(self.ig_error)] under the scheduler or return the
    danger notification. *)
Definition record_error (from_cron : bool) (msg : string) : PyM task action :=
  set_fields [("ig_estado", VStr "Error")] ;;
  set_fields [("ig_error", VStr msg)] ;;
  err <- getf "ig_error" ;;
  if from_cron then raise (ValidationError (val_str err))
  else ret (error_action "Error Instagram" (val_str err)).

(** The [Revisando] branch (lines 599-685). *)
Definition review (from_cron : bool) : PyM task action :=
  t <- get ;;
  sdata <- send_checked_json (status_request t) ;;
  status_code <- dict_get sdata "status_code" ;;
  if negb (jtruthy status_code) || jin_strs status_code ["IN_PROGRESS"; "PROCESSING"] then
    ret ActTrue
  else if jis_str status_code "ERROR" then
    record_error from_cron ("Container ERROR: " ++ py_repr sdata)
  else
    pdata <- send_checked_json (publish_request t) ;;
    ig_media_id <- dict_get pdata "id" ;;
    if negb (jtruthy ig_media_id) then
      record_error from_cron ("media_publish sin id: " ++ py_repr pdata)
    else
      let mid := opt_obj ig_media_id in
      ldata <- send_checked_json (permalink_request t mid) ;;
      permalink <- dict_get ldata "permalink" ;;
      set_fields [("inst_post_id", json_to_val mid)] ;;
      set_fields [("inst_post_url", if jtruthy permalink then json_to_val (opt_obj permalink)
                                    else VFalse)] ;;
      set_fields [("ig_estado", VStr "Publicado")] ;;
      set_fields [("ig_error", VFalse)] ;;
      ret (published_action from_cron "Instagram publicado correctamente.").

(** The [except Exception as e] handler (lines 689-703). *)
Definition handler (from_cron : bool) (e : exc) : PyM task action :=
  set_fields [("ig_estado", VStr "Error")] ;;
  set_fields [("ig_error", VStr (exc_str e))] ;;
  if from_cron then raise e else ret (error_action "Error Instagram" (exc_str e)).

(** [_run_instagram_flow(from_cron)].  The [combined_text] it computes is
    not used. *)
Definition run_instagram_flow (from_cron : bool) : PyM task action :=
  try_except
    (t <- get ;;
     if fld_is t "ig_estado" "Procesando" then
       set_fields [("ig_estado", VStr "Revisando")] ;; ret ActTrue
     else if fld_is t "ig_estado" "Revisando" && truthy (fld t "inst_post_id")
             && negb (truthy (fld t "inst_post_url")) then
       review from_cron
     else ret ActTrue)
    (handler from_cron).
End Flow.

Section Theorems.
Context `{Remote} `{Ffprobe} `{AttachmentTable} `{Config}.

(** The fields are read as [Revisando] with a container and no URL. *)
Definition reviewing (t : task) : Prop :=
  fld t "ig_estado" = VStr "Revisando" /\ truthy (fld t "inst_post_id") = true /\
  truthy (fld t "inst_post_url") = false.

Theorem ig_processing_to_reviewing fc t :
  write_ok t = true -> fld t "ig_estado" = VStr "Procesando" ->
  run_instagram_flow fc t = (Ret ActTrue, upd t "ig_estado" (VStr "Revisando")).
Proof. intros Hw Hs. unfold run_instagram_flow. by flow_run Hw. Qed.

(** A container still in progress (no status, [IN_PROGRESS] or [PROCESSING]) leaves the
    task unchanged: the poll is idempotent. *)
Theorem ig_waiting fc t kv :
  write_ok t = true -> reviewing t ->
  replies_json (status_request t) (JObj kv) ->
  jtruthy (obj_lookup "status_code" kv) = false \/
    jin_strs (obj_lookup "status_code" kv) ["IN_PROGRESS"; "PROCESSING"] = true ->
  run_instagram_flow fc t = (Ret ActTrue, t).
Proof.
  intros Hw (Hs & Hi & Hu) Hr Hc. unfold run_instagram_flow, review.
  destruct Hc as [Hc|Hc]; flow_run Hw; [done|]. by rewrite orb_true_r.
Qed.

(** A container in state [ERROR] records "Error" and the payload in [ig_error]; under the
    scheduler the flow raises [ValidationError], otherwise it returns the danger notification. *)
Theorem ig_container_error fc t kv :
  write_ok t = true -> reviewing t ->
  replies_json (status_request t) (JObj kv) ->
  obj_lookup "status_code" kv = Some (JStr "ERROR") ->
  let msg := "Container ERROR: " ++ py_repr (JObj kv) in
  exists t', run_instagram_flow fc t =
    (if fc then Raise (ValidationError msg) else Ret (error_action "Error Instagram" msg), t') /\
    fld t' "ig_estado" = VStr "Error" /\ fld t' "ig_error" = VStr msg /\ frame footprint t t'.
Proof.
  intros Hw (Hs & Hi & Hu) Hr Hc msg. unfold run_instagram_flow, review, record_error, handler.
  flow_run Hw.
  destruct fc; flow_run Hw; eexists; (split; [reflexivity|]); flow_run Hw;
    (split; [done|]); (split; [done|]); solve_frame Hw.
Qed.

(** Under the scheduler the container error raises. *)
Lemma ig_container_error_raises t kv :
  write_ok t = true -> reviewing t ->
  replies_json (status_request t) (JObj kv) ->
  obj_lookup "status_code" kv = Some (JStr "ERROR") ->
  exists t', run_instagram_flow true t =
    (Raise (ValidationError ("Container ERROR: " ++ py_repr (JObj kv))), t').
Proof.
  intros Hw (Hs & Hi & Hu) Hr Hc. unfold run_instagram_flow, review, record_error, handler.
  flow_run Hw. eexists. reflexivity.
Qed.

(** C24: A container that is neither waiting nor in error is published: the media id and the
    permalink are stored, [ig_estado] becomes "Publicado" and [ig_error] is cleared. *)
Theorem ig_published fc t skv sc pkv mid lkv :
  write_ok t = true -> reviewing t ->
  replies_json (status_request t) (JObj skv) ->
  obj_lookup "status_code" skv = Some (JStr sc) ->
  String.eqb sc EmptyString = false -> str_in sc ["IN_PROGRESS"; "PROCESSING"] = false ->
  String.eqb sc "ERROR" = false ->
  replies_json (publish_request t) (JObj pkv) ->
  obj_lookup "id" pkv = Some mid -> jtruthy (Some mid) = true ->
  replies_json (permalink_request t mid) (JObj lkv) ->
  let link := obj_lookup "permalink" lkv in
  let url := if jtruthy link then json_to_val (opt_obj link) else VFalse in
  run_instagram_flow fc t =
    (Ret (published_action fc "Instagram publicado correctamente."),
     upd (upd (upd (upd t "inst_post_id" (json_to_val mid)) "inst_post_url" url)
            "ig_estado" (VStr "Publicado")) "ig_error" VFalse).
Proof.
  intros Hw (Hs & Hi & Hu) Hr Hc Hc1 Hc2 Hc3 Hp Hid Hm Hl link url.
  unfold run_instagram_flow, review. flow_run Hw. done.
Qed.

Theorem ig_other_phases_noop fc t :
  fld t "ig_estado" <> VStr "Procesando" -> fld t "ig_estado" <> VStr "Revisando" ->
  run_instagram_flow fc t = (Ret ActTrue, t).
Proof.
  intros Hn1 Hn2. unfold run_instagram_flow, try_except, bind, get, fld_is.
  by rewrite !bool_decide_eq_false_2.
Qed.

(** An HTTP error status on the container poll is caught by the flow's handler: "Error"
    and the exception's text are recorded, and the exception is raised again under the
    scheduler. *)
Theorem ig_poll_http_error fc t r :
  write_ok t = true -> reviewing t -> replies_status (status_request t) r ->
  let e := http_error_of r in
  run_instagram_flow fc t =
    (if fc then Raise e else Ret (error_action "Error Instagram" (exc_str e)),
     upd (upd t "ig_estado" (VStr "Error")) "ig_error" (VStr (exc_str e))).
Proof.
  intros Hw (Hs & Hi & Hu) Hr e. unfold run_instagram_flow, review, handler.
  flow_run Hw. by destruct fc.
Qed.

Lemma ig_flow_frame fc : preserves footprint (run_instagram_flow fc).
Proof.
  unfold run_instagram_flow, review, record_error, handler, getf, send_checked_json, send,
    raise_for_status, resp_json, dict_get.
  solve_preserves.
Qed.

Lemma ig_flow_writes fc :
  writes_only "ig_estado" [VStr "Revisando"; VStr "Publicado"; VStr "Error"] (run_instagram_flow fc).
Proof.
  unfold run_instagram_flow, review, record_error, handler, getf, send_checked_json, send,
    raise_for_status, resp_json, dict_get.
  solve_writes_only.
Qed.

(** C25: Every call of the Instagram flow moves [ig_estado] along the phase table of the
    specification (or leaves it). *)
Theorem ig_flow_refines fc t o t' p :
  phase_of_val (fld t "ig_estado") = Some p -> run_instagram_flow fc t = (o, t') ->
  exists p', phase_of_val (fld t' "ig_estado") = Some p' /\ phase_steps p p'.
Proof.
  intros Hp Hrun. pose proof (phase_of_val_inv _ _ Hp) as Ev.
  destruct p;
    first [ solve [eapply active_flow_refines; [apply ig_flow_writes | exact Hrun | auto | exact Hp]]
          | rewrite ig_other_phases_noop in Hrun by (rewrite Ev; discriminate);
            injection Hrun as _ <-; eexists; split; [exact Hp | apply steps_refl] ].
Qed.
End Theorems.
End Instagram.
