(* ===== verification/TikTok.v ===== *)
(** * TikTok: [_run_tiktok_flow] (lines 705-784)

    [publicar_post] stores the [publish_id] of a [PULL_FROM_URL] upload in
    [tiktok_post_id] with [tt_estado = "Procesando"].  The first call of the
    flow moves it to "Revisando"; the next calls ask
    [post/publish/status/fetch]: no status, [IN_PROGRESS], [PROCESSING] or
    [PUBLISHING] keeps waiting; [ERROR], [FAILED] or [PUBLISH_FAILED]
    records the error; [PUBLISH_COMPLETE] builds the public URL from
    [publicaly_available_post_id] (sic) or, failing it,
    [publicly_available_post_id]; any other status leaves the record as it
    is.  Exceptions are recorded and raised again under the scheduler. *)

From Stdlib Require Import String ZArith List Bool.
From stdpp Require Import base gmap strings list.
From S2P Require Import Prelude Json Http Task Write Estado Flow.

Open Scope string_scope.

Module TikTok.
Section Flow.
Context `{Remote} `{Ffprobe} `{AttachmentTable}.

Definition footprint : list string := ["tt_estado"; "tt_error"; "tiktok_post_url"].

(** [POST https://open.tiktokapis.com/v2/post/publish/status/fetch/] *)
Definition status_request (t : task) : request :=
  {| rq_method := POST; rq_url := "https://open.tiktokapis.com/v2/post/publish/status/fetch/";
     rq_params := [("publish_id", val_json (fld t "tiktok_post_id"))];
     rq_headers := [("Authorization", "Bearer " ++ val_str (partner_tiktok_access_token t));
                    ("Content-Type", "application/json")];
     rq_timeout := Some 20%Z |}.

Definition public_url (video_id : json) : string :=
  "https://www.tiktok.com/@_/video/" ++ json_str video_id.

(** The [PUBLISH_COMPLETE] branch (lines 748-766). *)
Definition complete (from_cron : bool) (data : json) : PyM task action :=
  d1 <- dict_get_or data "data" (JObj []) ;;
  video_id <- dict_get d1 "publicaly_available_post_id" ;;
  video_id <- (if jtruthy video_id then ret video_id
               else d2 <- dict_get_or data "data" (JObj []) ;;
                    dict_get d2 "publicly_available_post_id") ;;
  (if jtruthy video_id
   then set_fields [("tiktok_post_url", VStr (public_url (opt_obj video_id)))]
   else ret tt) ;;
  set_fields [("tt_estado", VStr "Publicado")] ;;
  set_fields [("tt_error", VFalse)] ;;
  ret (published_action from_cron "TikTok publicado correctamente.").

(** The [Revisando] branch (lines 713-766). *)
Definition review (from_cron : bool) : PyM task action :=
  t <- get ;;
  data <- send_checked_json (status_request t) ;;
  d <- dict_get_or data "data" (JObj []) ;;
  status <- dict_get d "status" ;;
  if negb (jtruthy status) || jin_strs status ["IN_PROGRESS"; "PROCESSING"; "PUBLISHING"] then
    ret ActTrue
  else if jin_strs status ["ERROR"; "FAILED"; "PUBLISH_FAILED"] then
    set_fields [("tt_estado", VStr "Error")] ;;
    set_fields [("tt_error", VStr ("TikTok status error: " ++ py_repr data))] ;;
    err <- getf "tt_error" ;;
    if from_cron then raise (ValidationError (val_str err))
    else ret (error_action "Error TikTok" (val_str err))
  else if jis_str status "PUBLISH_COMPLETE" then complete from_cron data
  else ret ActTrue.

Definition handler (from_cron : bool) (e : exc) : PyM task action :=
  set_fields [("tt_estado", VStr "Error")] ;;
  set_fields [("tt_error", VStr (exc_str e))] ;;
  if from_cron then raise e else ret (error_action "Error TikTok" (exc_str e)).

(** [_run_tiktok_flow(from_cron)] *)
Definition run_tiktok_flow (from_cron : bool) : PyM task action :=
  try_except
    (t <- get ;;
     if fld_is t "tt_estado" "Procesando" then
       set_fields [("tt_estado", VStr "Revisando")] ;; ret ActTrue
     else if fld_is t "tt_estado" "Revisando" && truthy (fld t "tiktok_post_id")
             && negb (truthy (fld t "tiktok_post_url")) then
       review from_cron
     else ret ActTrue)
    (handler from_cron).
End Flow.

Section Theorems.
Context `{Remote} `{Ffprobe} `{AttachmentTable}.

Definition reviewing (t : task) : Prop :=
  fld t "tt_estado" = VStr "Revisando" /\ truthy (fld t "tiktok_post_id") = true /\
  truthy (fld t "tiktok_post_url") = false.

(** The status response [{"data": {...dkv...}, ...}]. *)
Definition status_data (t : task) (kv dkv : list (string * json)) : Prop :=
  replies_json (status_request t) (JObj kv) /\ obj_lookup "data" kv = Some (JObj dkv).

Theorem tt_processing_to_reviewing fc t :
  write_ok t = true -> fld t "tt_estado" = VStr "Procesando" ->
  run_tiktok_flow fc t = (Ret ActTrue, upd t "tt_estado" (VStr "Revisando")).
Proof. intros Hw Hs. unfold run_tiktok_flow. by flow_run Hw. Qed.

(** A publication still in progress (no status, [IN_PROGRESS], [PROCESSING] or
    [PUBLISHING]) leaves the task unchanged: the poll is idempotent. *)
Theorem tt_waiting fc t kv dkv :
  write_ok t = true -> reviewing t -> status_data t kv dkv ->
  jtruthy (obj_lookup "status" dkv) = false \/
    jin_strs (obj_lookup "status" dkv) ["IN_PROGRESS"; "PROCESSING"; "PUBLISHING"] = true ->
  run_tiktok_flow fc t = (Ret ActTrue, t).
Proof.
  intros Hw (Hs & Hi & Hu) (Hr & Hd) Hc. unfold run_tiktok_flow, review.
  destruct Hc as [Hc|Hc]; flow_run Hw; [done|]. by rewrite orb_true_r.
Qed.

(** The three failure statuses, as the tests of [review] read them. *)
Lemma failed_status st : In st ["ERROR"; "FAILED"; "PUBLISH_FAILED"] ->
  jtruthy (Some (JStr st)) = true /\
  jin_strs (Some (JStr st)) ["IN_PROGRESS"; "PROCESSING"; "PUBLISHING"] = false /\
  jin_strs (Some (JStr st)) ["ERROR"; "FAILED"; "PUBLISH_FAILED"] = true.
Proof. intros Hin. destruct Hin as [<-|[<-|[<-|[]]]]; repeat split. Qed.

(** C26: The statuses [ERROR], [FAILED] and [PUBLISH_FAILED] record "Error" and the payload;
    under the scheduler the flow raises, otherwise it returns the danger notification. *)
Theorem tt_status_failed fc t kv dkv st :
  write_ok t = true -> reviewing t -> status_data t kv dkv ->
  obj_lookup "status" dkv = Some (JStr st) -> In st ["ERROR"; "FAILED"; "PUBLISH_FAILED"] ->
  let msg := "TikTok status error: " ++ py_repr (JObj kv) in
  exists t', run_tiktok_flow fc t =
    (if fc then Raise (ValidationError msg) else Ret (error_action "Error TikTok" msg), t') /\
    fld t' "tt_estado" = VStr "Error" /\ fld t' "tt_error" = VStr msg /\ frame footprint t t'.
Proof.
  intros Hw (Hs & Hi & Hu) (Hr & Hd) Hc Hin msg. unfold run_tiktok_flow, review, handler.
  destruct (failed_status st Hin) as (Hf1 & Hf2 & Hf3).
  destruct fc; flow_run Hw; eexists; (split; [reflexivity|]); flow_run Hw;
    (split; [done|]); (split; [done|]); solve_frame Hw.
Qed.

(** The URL is built from the misspelled [publicaly_available_post_id] when the payload
    has it. *)
Theorem tt_published_misspelled fc t kv dkv vid :
  write_ok t = true -> reviewing t -> status_data t kv dkv ->
  obj_lookup "status" dkv = Some (JStr "PUBLISH_COMPLETE") ->
  obj_lookup "publicaly_available_post_id" dkv = Some vid -> jtruthy (Some vid) = true ->
  run_tiktok_flow fc t =
    (Ret (published_action fc "TikTok publicado correctamente."),
     upd (upd (upd t "tiktok_post_url" (VStr (public_url vid))) "tt_estado" (VStr "Publicado"))
       "tt_error" VFalse).
Proof.
  intros Hw (Hs & Hi & Hu) (Hr & Hd) Hc Hv Hvt. unfold run_tiktok_flow, review, complete.
  by flow_run Hw.
Qed.

(** Without the misspelled field, the correctly spelled one is used. *)
Theorem tt_published_spelled fc t kv dkv vid :
  write_ok t = true -> reviewing t -> status_data t kv dkv ->
  obj_lookup "status" dkv = Some (JStr "PUBLISH_COMPLETE") ->
  jtruthy (obj_lookup "publicaly_available_post_id" dkv) = false ->
  obj_lookup "publicly_available_post_id" dkv = Some vid -> jtruthy (Some vid) = true ->
  run_tiktok_flow fc t =
    (Ret (published_action fc "TikTok publicado correctamente."),
     upd (upd (upd t "tiktok_post_url" (VStr (public_url vid))) "tt_estado" (VStr "Publicado"))
       "tt_error" VFalse).
Proof.
  intros Hw (Hs & Hi & Hu) (Hr & Hd) Hc Hm Hv Hvt. unfold run_tiktok_flow, review, complete.
  by flow_run Hw.
Qed.

(** A status the code does not list leaves the task as it is: it is polled again by every
    later sweep. *)
Theorem tt_unknown_status_noop fc t kv dkv st :
  write_ok t = true -> reviewing t -> status_data t kv dkv ->
  obj_lookup "status" dkv = Some (JStr st) -> String.eqb st EmptyString = false ->
  str_in st ["IN_PROGRESS"; "PROCESSING"; "PUBLISHING"] = false ->
  str_in st ["ERROR"; "FAILED"; "PUBLISH_FAILED"] = false ->
  String.eqb st "PUBLISH_COMPLETE" = false ->
  run_tiktok_flow fc t = (Ret ActTrue, t).
Proof.
  intros Hw (Hs & Hi & Hu) (Hr & Hd) Hc Hs1 Hs2 Hs3 Hs4. unfold run_tiktok_flow, review.
  by flow_run Hw.
Qed.

Lemma tt_other_phases_noop fc t :
  fld t "tt_estado" <> VStr "Procesando" -> fld t "tt_estado" <> VStr "Revisando" ->
  run_tiktok_flow fc t = (Ret ActTrue, t).
Proof.
  intros Hn1 Hn2. unfold run_tiktok_flow, try_except, bind, get, fld_is.
  by rewrite !bool_decide_eq_false_2.
Qed.

Lemma tt_flow_frame fc : preserves footprint (run_tiktok_flow fc).
Proof.
  unfold run_tiktok_flow, review, complete, handler, getf, send_checked_json, send,
    raise_for_status, resp_json, dict_get_or, dict_get.
  solve_preserves.
Qed.

Lemma tt_flow_writes fc :
  writes_only "tt_estado" [VStr "Revisando"; VStr "Publicado"; VStr "Error"] (run_tiktok_flow fc).
Proof.
  unfold run_tiktok_flow, review, complete, handler, getf, send_checked_json, send,
    raise_for_status, resp_json, dict_get_or, dict_get.
  solve_writes_only.
Qed.

(** C27: Every call of the TikTok flow moves [tt_estado] along the phase table of the
    specification (or leaves it). *)
Theorem tt_flow_refines fc t o t' p :
  phase_of_val (fld t "tt_estado") = Some p -> run_tiktok_flow fc t = (o, t') ->
  exists p', phase_of_val (fld t' "tt_estado") = Some p' /\ phase_steps p p'.
Proof.
  intros Hp Hrun. pose proof (phase_of_val_inv _ _ Hp) as Ev.
  destruct p;
    first [ solve [eapply active_flow_refines; [apply tt_flow_writes | exact Hrun | auto | exact Hp]]
          | rewrite tt_other_phases_noop in Hrun by (rewrite Ev; discriminate);
            injection Hrun as _ <-; eexists; split; [exact Hp | apply steps_refl] ].
Qed.
End Theorems.
End TikTok.
