(* ===== verification/LinkedIn.v ===== *)
(** * LinkedIn: [_run_linkedin_flow] (lines 786-827)

    [publish_on_linkedin] creates the post synchronously; [publicar_post]
    leaves [li_estado = "Procesando"] with the post URN in
    [linkedin_post_id].  The flow makes no remote call: "Procesando"
    becomes "Revisando" without returning, and "Revisando" with a post id
    fills the URL if it is missing and becomes "Publicado", all in the same
    call. *)

From Stdlib Require Import String ZArith List Bool.
From stdpp Require Import base gmap strings list.
From S2P Require Import Prelude Json Http Task Write Estado Flow.

Open Scope string_scope.

Module LinkedIn.
Section Flow.
Context `{Ffprobe} `{AttachmentTable}.

Definition footprint : list string := ["li_estado"; "li_error"; "linkedin_post_url"].

Definition post_url (post_id : val) : string :=
  "https://www.linkedin.com/feed/update/" ++ val_str post_id ++ "/".

Definition handler (from_cron : bool) (e : exc) : PyM task action :=
  set_fields [("li_estado", VStr "Error")] ;;
  set_fields [("li_error", VStr (exc_str e))] ;;
  if from_cron then raise e else ret (error_action "Error LinkedIn" (exc_str e)).

(** [_run_linkedin_flow(from_cron)] *)
Definition run_linkedin_flow (from_cron : bool) : PyM task action :=
  try_except
    (t <- get ;;
     (if fld_is t "li_estado" "Procesando" then set_fields [("li_estado", VStr "Revisando")]
      else ret tt) ;;
     t <- get ;;
     if fld_is t "li_estado" "Revisando" && truthy (fld t "linkedin_post_id") then
       (if negb (truthy (fld t "linkedin_post_url"))
        then set_fields [("linkedin_post_url", VStr (post_url (fld t "linkedin_post_id")))]
        else ret tt) ;;
       set_fields [("li_estado", VStr "Publicado")] ;;
       set_fields [("li_error", VFalse)] ;;
       ret (published_action from_cron "LinkedIn publicado correctamente.")
     else ret ActTrue)
    (handler from_cron).
End Flow.

Section Theorems.
Context `{Ffprobe} `{AttachmentTable}.

(** One call takes a post from "Procesando" to "Publicado". *)
Theorem li_processing_to_published fc t :
  write_ok t = true -> fld t "li_estado" = VStr "Procesando" ->
  truthy (fld t "linkedin_post_id") = true -> truthy (fld t "linkedin_post_url") = false ->
  run_linkedin_flow fc t =
    (Ret (published_action fc "LinkedIn publicado correctamente."),
     upd (upd (upd (upd t "li_estado" (VStr "Revisando")) "linkedin_post_url"
                    (VStr (post_url (fld t "linkedin_post_id"))))
            "li_estado" (VStr "Publicado")) "li_error" VFalse).
Proof. intros Hw Hs Hi Hu. unfold run_linkedin_flow. by flow_run Hw. Qed.

(** Without a post id the flow stops at "Revisando". *)
Theorem li_processing_without_post fc t :
  write_ok t = true -> fld t "li_estado" = VStr "Procesando" ->
  truthy (fld t "linkedin_post_id") = false ->
  run_linkedin_flow fc t = (Ret ActTrue, upd t "li_estado" (VStr "Revisando")).
Proof. intros Hw Hs Hi. unfold run_linkedin_flow. by flow_run Hw. Qed.

Theorem li_other_phases_noop fc t :
  fld t "li_estado" <> VStr "Procesando" -> fld t "li_estado" <> VStr "Revisando" ->
  run_linkedin_flow fc t = (Ret ActTrue, t).
Proof.
  intros Hn1 Hn2. unfold run_linkedin_flow, try_except, bind, get, ret, fld_is.
  by rewrite !bool_decide_eq_false_2.
Qed.

Lemma li_flow_frame fc : preserves footprint (run_linkedin_flow fc).
Proof. unfold run_linkedin_flow, handler. solve_preserves. Qed.

Lemma li_flow_writes fc :
  writes_only "li_estado" [VStr "Revisando"; VStr "Publicado"; VStr "Error"] (run_linkedin_flow fc).
Proof. unfold run_linkedin_flow, handler. solve_writes_only. Qed.

(** C28: Every call of the LinkedIn flow moves [li_estado] along the phase table of the
    specification (or leaves it). *)
Theorem li_flow_refines fc t o t' p :
  phase_of_val (fld t "li_estado") = Some p -> run_linkedin_flow fc t = (o, t') ->
  exists p', phase_of_val (fld t' "li_estado") = Some p' /\ phase_steps p p'.
Proof.
  intros Hp Hrun. pose proof (phase_of_val_inv _ _ Hp) as Ev.
  destruct p;
    first [ solve [eapply active_flow_refines; [apply li_flow_writes | exact Hrun | auto | exact Hp]]
          | rewrite li_other_phases_noop in Hrun by (rewrite Ev; discriminate);
            injection Hrun as _ <-; eexists; split; [exact Hp | apply steps_refl] ].
Qed.
End Theorems.
End LinkedIn.
