(* ===== verification/Publish.v ===== *)
(** * Publish: the first publication on each network (lines 829-1330)

    [publish_on_facebook], [publish_on_instagram], [publish_on_tiktok] and
    [publish_on_linkedin] are called by [publicar_post] with the S3 URLs of
    the attachments and the prepared text.  Each sends the platform's
    upload requests in order and leaves the record in the phase the
    review flows of [Facebook], [Instagram], [TikTok] and [LinkedIn] start
    from.  Every [self.write] goes through the [write] override
    ([set_fields]); every request is answered by the [Remote] oracle. *)

From Stdlib Require Import String Ascii ZArith List Bool Lia.
From stdpp Require Import base gmap strings list.
From S2P Require Import Prelude Json Http Base64 Task Text Write Flow Facebook.

Open Scope string_scope.
Open Scope py_scope.

(** [l[0]] *)
Definition index0 {S A} (l : list A) : PyM S A :=
  match l with x :: _ => ret x | [] => raise IndexError end.

(** The string items of a list passed to [",".join(l)]: the first item
    that is not a string raises the [TypeError] of [str.join]. *)
Fixpoint str_items {St} (i : nat) (l : list json) : PyM St (list string) :=
  match l with
  | [] => ret []
  | JStr s :: l' => r <- str_items (Datatypes.S i) l' ;; ret (s :: r)
  | j :: _ => raise (TypeError ("sequence item " ++ Z_to_string (Z.of_nat i)
                                ++ ": expected str instance, " ++ type_name j ++ " found"))
  end.

(** [sep.join(l)] of a list of parsed JSON values. *)
Definition join_json {S} (sep : string) (l : list json) : PyM S string :=
  r <- str_items 0 l ;; ret (join sep r).

(** [resp.status_code != 200] *)
Definition not_200 (r : response) : bool := negb (Z.eqb (rs_status r) 200).

(** A [params=] entry whose value may be [None]: [requests] drops it. *)
Definition opt_param (k : string) (v : option string) : list (string * json) :=
  match v with Some s => [(k, JStr s)] | None => [] end.

(** [not x] for an optional string argument ([None] or empty). *)
Definition opt_falsy (v : option string) : bool :=
  match v with Some s => String.eqb s EmptyString | None => true end.

(** [int(s)] of a header value: optional surrounding whitespace, an
    optional sign, decimal digits with single underscores between them. *)
Fixpoint int_digits (acc : Z) (s : string) : option Z :=
  match s with
  | EmptyString => Some acc
  | String "_"%char (String c r) =>
      match digit_val c with Some d => int_digits (acc * 10 + d)%Z r | None => None end
  | String c r => match digit_val c with Some d => int_digits (acc * 10 + d)%Z r | None => None end
  end.

Definition py_int {S} (s : string) : PyM S Z :=
  let s' := strip s in
  let '(neg, body) := match s' with
                      | String "-"%char r => (true, r)
                      | String "+"%char r => (false, r)
                      | _ => (false, s')
                      end in
  match body with
  | String c r =>
      match digit_val c with
      | Some d => match int_digits d r with
                  | Some n => ret (if neg then (- n)%Z else n)
                  | None => raise (ValueError ("invalid literal for int() with base 10: " ++ repr_string s))
                  end
      | None => raise (ValueError ("invalid literal for int() with base 10: " ++ repr_string s))
      end
  | EmptyString => raise (ValueError ("invalid literal for int() with base 10: " ++ repr_string s))
  end.

(** The keys of a parsed JSON object, once each, in the order of their
    first occurrence (the order of the [dict]). *)
Fixpoint obj_keys_from (seen : list string) (kv : list (string * json)) : list string :=
  match kv with
  | [] => []
  | (k, _) :: kv' => if str_in k seen then obj_keys_from seen kv' else k :: obj_keys_from (k :: seen) kv'
  end.

(** [for x in j]: the elements of a list, the keys of a dict, the
    characters of a string; a [TypeError] for a scalar. *)
Definition py_iter {S} (j : json) : PyM S (list json) :=
  match j with
  | JArr l => ret l
  | JObj kv => ret (map JStr (obj_keys_from [] kv))
  | JStr s => ret (map (fun c => JStr (String c EmptyString)) (list_ascii_of_string s))
  | _ => raise (TypeError ("'" ++ type_name j ++ "' object is not iterable"))
  end.

(** [last - first + 1] *)
Definition chunk_size_of {S} (first last : json) : PyM S pynum :=
  match json_num last, json_num first with
  | Some l, Some f => d <- of_outcome (num_sub l f) ;; of_outcome (num_add d (NInt 1))
  | _, _ => raise (TypeError ("unsupported operand type(s) for -: '" ++ type_name last
                              ++ "' and '" ++ type_name first ++ "'"))
  end.

(** The headers of a [Session] request: the session's, overridden by the
    request's under case-insensitive names, then the request's others. *)
Definition same_header (k : string) (kv : string * string) : bool := String.eqb (lower (fst kv)) (lower k).

Definition merge_headers (session req : list (string * string)) : list (string * string) :=
  (map (fun kv => match find (same_header (fst kv)) req with Some kv' => kv' | None => kv end) session
   ++ List.filter (fun kv => negb (existsb (same_header (fst kv)) session)) req)%list.

(** [mimetypes.guess_type(url)[0]] *)
Class MimeTypes : Type := guess_type : string -> option string.

(** ** What the publishers do *)

Section Stateless.
Context {S : Type}.

Lemma stateless_index0 {A} (l : list A) : stateless (S := S) (index0 l).
Proof. destruct l; simpl; eauto with py. Qed.

Lemma stateless_str_items i l : stateless (S := S) (str_items i l).
Proof.
  revert i. induction l as [|j l IH]; intros i; simpl; [eauto with py|].
  destruct j; try (apply stateless_raise). apply stateless_bind; [apply IH | eauto with py].
Qed.

Lemma stateless_join_json sep l : stateless (S := S) (join_json sep l).
Proof. unfold join_json. apply stateless_bind; [apply stateless_str_items | eauto with py]. Qed.

Lemma stateless_py_int s : stateless (S := S) (py_int s).
Proof. unfold py_int. destruct (_ : bool * string) as [neg body]. solve_stateless. Qed.

Lemma stateless_py_iter j : stateless (S := S) (py_iter j).
Proof. destruct j; simpl; eauto with py. Qed.

Lemma stateless_chunk_size_of f l : stateless (S := S) (chunk_size_of f l).
Proof. unfold chunk_size_of. solve_stateless. Qed.
End Stateless.

#[export] Hint Resolve stateless_index0 stateless_str_items stateless_join_json stateless_py_int
  stateless_py_iter stateless_chunk_size_of : py_stateless.

Module Publish.
Section Publish.
Context `{Remote} `{Ffprobe} `{AttachmentTable} `{Config}.

(** ** [publish_on_facebook] (lines 829-983) *)

(** [POST {BASE_URL_LOCAL}/{partner_facebook_page_id}/photos] *)
Definition fb_photo_request (t : task) (photo_url : string) : request :=
  {| rq_method := POST;
     rq_url := graph_base_url ++ "/" ++ val_str (partner_facebook_page_id t) ++ "/photos";
     rq_params := [("url", JStr photo_url); ("published", JStr "false");
                   ("access_token", val_json (partner_page_access_token t))];
     rq_headers := []; rq_timeout := None |}.

(** The loop of the feed branch: the id of each photo, uploaded
    unpublished. *)
Fixpoint fb_upload_photos (t : task) (urls : list string) : PyM task (list json) :=
  match urls with
  | [] => ret []
  | u :: us =>
      resp <- send (fb_photo_request t u) ;;
      data <- resp_json resp ;;
      has_id <- py_in "id" data ;;
      if negb has_id then raise (ValidationError ("Error subiendo foto: " ++ json_str data))
      else id <- dict_index data "id" ;;
           ids <- fb_upload_photos t us ;;
           ret (id :: ids)
  end.

(** [POST {BASE_URL_LOCAL}/{partner_facebook_page_id}/<kind>] with
    [upload_phase=start]. *)
Definition fb_start_request (t : task) (kind : string) : request :=
  {| rq_method := POST;
     rq_url := graph_base_url ++ "/" ++ val_str (partner_facebook_page_id t) ++ "/" ++ kind;
     rq_params := [("upload_phase", JStr "start");
                   ("access_token", val_json (partner_page_access_token t))];
     rq_headers := []; rq_timeout := None |}.

(** [requests.post(upload_url, headers={"Authorization": ..., "file_url": media_urls[0]})] *)
Definition fb_file_request (t : task) (upload_url : json) (media_url : string) : request :=
  {| rq_method := POST; rq_url := json_str upload_url; rq_params := [];
     rq_headers := [("Authorization", "OAuth " ++ val_str (partner_page_access_token t));
                    ("file_url", media_url)];
     rq_timeout := None |}.

(** The start of an upload session: [video_id] and [upload_url] of the
    answer, or the [ValidationError] with [msg]. *)
Definition fb_start (t : task) (kind msg : string) : PyM task (json * json) :=
  resp <- send (fb_start_request t kind) ;;
  data <- resp_json resp ;;
  has_v <- py_in "video_id" data ;;
  has_u <- (if has_v then py_in "upload_url" data else ret false) ;;
  if negb (has_v && has_u) then raise (ValidationError (msg ++ json_str data))
  else video_id <- dict_index data "video_id" ;;
       upload_url <- dict_index data "upload_url" ;;
       ret (video_id, upload_url).

(** The upload of the file by URL: the answer must hold [success]. *)
Definition fb_upload_file (t : task) (upload_url : json) (media_urls : list string)
    (msg : string) : PyM task unit :=
  u <- index0 media_urls ;;
  up <- send (fb_file_request t upload_url u) ;;
  up_data <- resp_json up ;;
  ok <- py_in "success" up_data ;;
  if negb ok then raise (ValidationError (msg ++ json_str up_data)) else ret tt.

(** [POST {BASE_URL_LOCAL}/{partner_facebook_page_id}/video_stories] with
    [upload_phase=finish] *)
Definition fb_story_finish_request (t : task) (video_id : json) : request :=
  {| rq_method := POST;
     rq_url := graph_base_url ++ "/" ++ val_str (partner_facebook_page_id t) ++ "/video_stories";
     rq_params := [("upload_phase", JStr "finish");
                   ("access_token", val_json (partner_page_access_token t));
                   ("video_id", video_id)];
     rq_headers := []; rq_timeout := None |}.

(** [POST {BASE_URL_LOCAL}/{video_id}] with [video_state=UNPUBLISHED] *)
Definition fb_reel_finish_request (t : task) (video_id : json) (combined_text : string) : request :=
  {| rq_method := POST; rq_url := graph_base_url ++ "/" ++ json_str video_id;
     rq_params := [("access_token", val_json (partner_page_access_token t));
                   ("upload_phase", JStr "finish");
                   ("video_state", JStr "UNPUBLISHED");
                   ("description", JStr combined_text)];
     rq_headers := []; rq_timeout := None |}.

(** [# ---- FEED (FOTOS) ----] (lines 834-858) *)
Definition fb_feed (t : task) (media_urls : list string) : PyM task (option bool) :=
  photo_ids <- fb_upload_photos t media_urls ;;
  set_fields [("fb_post_id", VStr (json_dumps (JArr photo_ids))); ("fb_post_url", VFalse);
              ("fb_estado", VStr "Procesando")] ;;
  ret (Some true).

(** [# 2) FACEBOOK STORIES (VIDEO)] (lines 864-925) *)
Definition fb_story (t : task) (media_urls : list string) : PyM task (option bool) :=
  vu <- fb_start t "video_stories" "Error iniciando upload Story FB: " ;;
  let '(video_id, upload_url) := vu in
  set_fields [("fb_video_id", json_to_val video_id); ("fb_post_id", VFalse);
              ("fb_estado", VStr "Procesando")] ;;
  fb_upload_file t upload_url media_urls "Error subiendo video Story FB: " ;;
  fin <- send (fb_story_finish_request t video_id) ;;
  fin_data <- resp_json fin ;;
  post_id <- dict_get fin_data "post_id" ;;
  (if jtruthy post_id then
     set_fields [("fb_video_id", json_to_val video_id); ("fb_post_id", json_to_val (opt_obj post_id));
                 ("fb_estado", VStr "Publicado")]
   else set_fields [("fb_video_id", json_to_val video_id); ("fb_estado", VStr "Procesando")]) ;;
  ret (Some true).

(** [# 3) FACEBOOK REELS (VIDEO)] (lines 930-981) *)
Definition fb_reel (t : task) (media_urls : list string) (combined_text : string)
    : PyM task (option bool) :=
  vu <- fb_start t "video_reels" "Error Starting session (Reel FB): " ;;
  let '(video_id, upload_url) := vu in
  set_fields [("fb_video_id", json_to_val video_id); ("fb_post_id", VFalse);
              ("fb_post_url", VFalse); ("fb_estado", VStr "Procesando")] ;;
  fb_upload_file t upload_url media_urls "Error uploading Reel FB: " ;;
  fin <- send (fb_reel_finish_request t video_id combined_text) ;;
  fin_data <- resp_json fin ;;
  if not_200 fin then raise (ValidationError ("Error finishing upload Reel FB: " ++ json_str fin_data))
  else ret (Some true).

(** [self.publish_on_facebook(media_urls, combined_text)]: [Some true] is
    [return True], [None] the final [return None] of a task of type
    [otro]. *)
Definition publish_on_facebook (media_urls : list string) (combined_text : string)
    : PyM task (option bool) :=
  t <- get ;;
  match tipo t with
  | feed => fb_feed t media_urls
  | video_stories => fb_story t media_urls
  | video_reels => fb_reel t media_urls combined_text
  | otro => ret None
  end.

(** ** [publish_on_instagram] (lines 985-1074) *)

Definition ig_container_url (t : task) : string :=
  graph_base_url ++ "/" ++ val_str (partner_instagram_page_id t) ++ "/media".

(** The [container_params] of a single medium: an image for a feed, a
    story video, and a reel (with its cover) for any other type. *)
Definition ig_container_params (t : task) (combined_text media_url : string)
    (cover_url : option string) : list (string * json) :=
  match tipo t with
  | feed => [("access_token", val_json (partner_page_access_token t)); ("caption", JStr combined_text);
             ("image_url", JStr media_url); ("published", JBool false)]
  | video_stories =>
      [("access_token", val_json (partner_page_access_token t)); ("caption", JStr combined_text);
       ("video_url", JStr media_url); ("published", JBool false); ("media_type", JStr "STORIES")]
  | _ => [("access_token", val_json (partner_page_access_token t)); ("caption", JStr combined_text);
          ("video_url", JStr media_url); ("published", JBool false); ("media_type", JStr "REELS")]
         ++ opt_param "cover_url" cover_url
  end%list.

Definition ig_post (t : task) (params : list (string * json)) : request :=
  {| rq_method := POST; rq_url := ig_container_url t; rq_params := params;
     rq_headers := []; rq_timeout := Some 20%Z |}.

(** [if r.status_code != 200 or not data.get("id"): raise ...; data["id"]] *)
Definition ig_created_id (msg : string) (rq : request) : PyM task json :=
  r <- send rq ;;
  data <- resp_json r ;;
  ok <- (if not_200 r then ret false else id <- dict_get data "id" ;; ret (jtruthy id)) ;;
  if ok then dict_index data "id" else raise (ValidationError (msg ++ json_str data)).

Definition ig_item_params (t : task) (url : string) : list (string * json) :=
  [("access_token", val_json (partner_page_access_token t)); ("is_carousel_item", JStr "true");
   ("image_url", JStr url); ("published", JBool false)].

(** [for url in media_urls: ... carousel_ids.append(d["id"])] *)
Fixpoint ig_carousel_items (t : task) (urls : list string) : PyM task (list json) :=
  match urls with
  | [] => ret []
  | u :: us =>
      id <- ig_created_id "Error item carrusel IG: " (ig_post t (ig_item_params t u)) ;;
      ids <- ig_carousel_items t us ;;
      ret (id :: ids)
  end.

Definition ig_carousel_params (t : task) (children combined_text : string) : list (string * json) :=
  [("media_type", JStr "CAROUSEL"); ("children", JStr children); ("caption", JStr combined_text);
   ("access_token", val_json (partner_page_access_token t)); ("published", JBool false)].

(** The body of the [try] (lines 993-1067). *)
Definition ig_publish_body (media_urls : list string) (combined_text : string)
    (cover_url : option string) : PyM task bool :=
  t <- get ;;
  if bool_decide (tipo t = video_reels) && opt_falsy cover_url then
    raise (ValidationError "Instagram Reels: cover_url es obligatorio.")
  else
    container_id <-
      match media_urls with
      | [u] => ig_created_id "Error al crear contenedor IG: "
                 (ig_post t (ig_container_params t combined_text u cover_url))
      | _ => carousel_ids <- ig_carousel_items t media_urls ;;
             children <- join_json "," carousel_ids ;;
             ig_created_id "Error contenedor carrusel IG: "
               (ig_post t (ig_carousel_params t children combined_text))
      end ;;
    set_fields [("inst_post_id", json_to_val container_id); ("inst_post_url", VFalse);
                ("ig_estado", VStr "Procesando"); ("ig_error", VFalse)] ;;
    ret true.

(** [self.publish_on_instagram(media_urls, combined_text, cover_url)]:
    every exception is recorded in [ig_estado]/[ig_error] and raised
    again. *)
Definition publish_on_instagram (media_urls : list string) (combined_text : string)
    (cover_url : option string) : PyM task bool :=
  try_except (ig_publish_body media_urls combined_text cover_url)
    (fun e => set_fields [("ig_estado", VStr "Error"); ("ig_error", VStr (exc_str e))] ;;
              raise e).

(** ** [publish_on_tiktok] (lines 1076-1102) *)

Definition tt_init_request (t : task) (combined_text media_url : string) : request :=
  {| rq_method := POST; rq_url := "https://open.tiktokapis.com/v2/post/publish/video/init/";
     rq_params := [("post_info", JObj [("title", JStr combined_text); ("privacy_level", JStr "SELF_ONLY");
                                       ("disable_duet", JBool false); ("disable_comment", JBool false);
                                       ("disable_stitch", JBool false)]);
                   ("source_info", JObj [("source", JStr "PULL_FROM_URL"); ("video_url", JStr media_url)])];
     rq_headers := [("Authorization", "Bearer " ++ val_str (partner_tiktok_access_token t));
                    ("Content-Type", "application/json; charset=UTF-8")];
     rq_timeout := None |}.

(** [self.publish_on_tiktok(media_urls, combined_text)]: the [publish_id]
    of the answer. *)
Definition publish_on_tiktok (media_urls : list string) (combined_text : string) : PyM task json :=
  t <- get ;;
  u <- index0 media_urls ;;
  r <- send (tt_init_request t combined_text u) ;;
  response_data <- resp_json r ;;
  if not_200 r then
    raise (ValidationError ("Error al Publicar el video en TIKTOK: " ++ json_str response_data))
  else d <- dict_index response_data "data" ;; dict_index d "publish_id".

(** ** [publish_on_linkedin] (lines 1104-1329) *)

Section LinkedIn.
Context `{MimeTypes}.

Definition LinkedIn_Version : string := "202505".

Definition org_urn (t : task) : string := "urn:li:organization:" ++ val_str (partner_linkedin_page_id t).

(** [session.headers.update(headers)] *)
Definition li_session_headers (token : val) : list (string * string) :=
  [("Authorization", "Bearer " ++ val_str token); ("LinkedIn-Version", LinkedIn_Version);
   ("X-RestLi-Protocol-Version", "2.0.0"); ("Content-Type", "application/json")].

(** [session.post(url, json=body)] *)
Definition li_session_post (token : val) (url : string) (body : list (string * json)) : request :=
  {| rq_method := POST; rq_url := url; rq_params := body; rq_headers := li_session_headers token;
     rq_timeout := None |}.

(** [session.put(url, headers=h, data=d, timeout=n)] *)
Definition li_session_put (token : val) (url : string) (h : list (string * string)) (d : string)
    (n : Z) : request :=
  {| rq_method := PUT; rq_url := url; rq_params := [("data", JStr d)];
     rq_headers := merge_headers (li_session_headers token) h; rq_timeout := Some n |}.

(** [requests.<m>(url, headers=h)] outside the session *)
Definition plain_request (m : method) (url : string) (h : list (string * string))
    (params : list (string * json)) : request :=
  {| rq_method := m; rq_url := url; rq_params := params; rq_headers := h; rq_timeout := None |}.

(** [resp = send(rq); resp.raise_for_status()] *)
Definition send_checked (rq : request) : PyM task response :=
  r <- send rq ;; raise_for_status r ;; ret r.

(** [int(head_resp.headers.get("Content-Length", 0))] *)
Definition content_length (r : response) : PyM task Z :=
  match header_get r "Content-Length" with Some v => py_int v | None => ret 0%Z end.

(** One upload instruction: the chunk [bytes=first-last] of the video,
    uploaded to [uploadUrl]; its [ETag]. *)
Definition li_upload_chunk (token : val) (media_url : string) (instruction : json) : PyM task string :=
  upload_url <- dict_index instruction "uploadUrl" ;;
  first_byte <- dict_index instruction "firstByte" ;;
  last_byte <- dict_index instruction "lastByte" ;;
  chunk_size <- chunk_size_of first_byte last_byte ;;
  let range_header := "bytes=" ++ json_str first_byte ++ "-" ++ json_str last_byte in
  chunk_resp <- send_checked (plain_request GET media_url [("Range", range_header)] []) ;;
  upload_resp <- send_checked (li_session_put token (json_str upload_url)
                   [("Content-Type", "application/octet-stream"); ("Content-Length", json_str (num_json chunk_size))]
                   (rs_text chunk_resp) 30) ;;
  match header_get upload_resp "ETag" with
  | Some etag => if String.eqb etag EmptyString
                 then raise (ValidationError "No se recibió ETag al subir parte del video") else ret etag
  | None => raise (ValidationError "No se recibió ETag al subir parte del video")
  end.

Fixpoint li_upload_chunks (token : val) (media_url : string) (l : list json) : PyM task (list string) :=
  match l with
  | [] => ret []
  | ins :: l' => e <- li_upload_chunk token media_url ins ;;
                 es <- li_upload_chunks token media_url l' ;; ret (e :: es)
  end.

Definition li_distribution : json :=
  JObj [("feedDistribution", JStr "MAIN_FEED"); ("targetEntities", JArr []);
        ("thirdPartyDistributionChannels", JArr [])].

(** [# VIDEO (reel)] (lines 1130-1237): the [post_data] of the reel. *)
Definition li_reel (t : task) (token : val) (media_urls : list string) (combined_text : string)
    : PyM task (list (string * json)) :=
  match media_urls with
  | [media_url] =>
      head_resp <- send_checked (plain_request HEAD media_url [] []) ;;
      size_bytes <- content_length head_resp ;;
      if Z.eqb size_bytes 0 then raise (ValidationError "No se pudo obtener el tamaño del video") else
      let has_thumbnail := truthy (imagen_portada t) in
      init_resp <- send_checked (li_session_post token
                     "https://api.linkedin.com/rest/videos?action=initializeUpload"
                     [("initializeUploadRequest",
                       JObj [("owner", JStr (org_urn t)); ("fileSizeBytes", JNum size_bytes);
                             ("uploadCaptions", JBool false); ("uploadThumbnail", JBool has_thumbnail)])]) ;;
      init_json <- resp_json init_resp ;;
      value <- dict_index init_json "value" ;;
      video_urn <- dict_index value "video" ;;
      upload_token <- dict_index value "uploadToken" ;;
      upload_instructions <- dict_index value "uploadInstructions" ;;
      thumbnail_url <- dict_get value "thumbnailUploadUrl" ;;
      instructions <- py_iter upload_instructions ;;
      uploaded_etags <- li_upload_chunks token media_url instructions ;;
      (if has_thumbnail && jtruthy thumbnail_url then
         match b64decode (str_or_empty (imagen_portada t)) with
         | inl thumb_bytes =>
             _ <- send_checked (li_session_put token (json_str (opt_obj thumbnail_url))
                                  [("Content-Type", "image/jpeg")] thumb_bytes 15) ;; ret tt
         | inr e => raise e
         end
       else ret tt) ;;
      _ <- send_checked (li_session_post token "https://api.linkedin.com/rest/videos?action=finalizeUpload"
             [("finalizeUploadRequest",
               JObj [("video", video_urn); ("uploadToken", upload_token);
                     ("uploadedPartIds", JArr (map JStr uploaded_etags))])]) ;;
      set_fields [("post_estado", VStr "Procesando")] ;;
      set_fields [("linkedin_post_id", json_to_val video_urn)] ;;
      ret [("author", JStr (org_urn t)); ("commentary", JStr combined_text); ("visibility", JStr "PUBLIC");
           ("distribution", li_distribution); ("content", JObj [("media", JObj [("id", video_urn)])]);
           ("lifecycleState", JStr "PUBLISHED"); ("isReshareDisabledByAuthor", JBool false)]
  | _ => raise (ValidationError "Los Reels solo admiten un (1) video")
  end.

(** One image of the feed branch (lines 1241-1258): its URN. *)
Definition li_upload_image (t : task) (token : val) (url : string) : PyM task json :=
  init_resp <- send_checked (li_session_post token "https://api.linkedin.com/rest/images?action=initializeUpload"
                 [("initializeUploadRequest", JObj [("owner", JStr (org_urn t))])]) ;;
  init_json <- resp_json init_resp ;;
  value <- dict_index init_json "value" ;;
  image_urn <- dict_index value "image" ;;
  upload_url <- dict_index value "uploadUrl" ;;
  let mime := guess_type url in
  img <- send (plain_request GET url [] []) ;;
  _ <- send_checked (plain_request PUT (json_str upload_url)
         [("Content-Type", match mime with Some m => m | None => "application/octet-stream" end)]
         [("data", JStr (rs_text img))]) ;;
  ret image_urn.

Fixpoint li_upload_images (t : task) (token : val) (urls : list string) : PyM task (list json) :=
  match urls with
  | [] => ret []
  | u :: us => urn <- li_upload_image t token u ;;
               urns <- li_upload_images t token us ;; ret (urn :: urns)
  end.

(** [# IMÁGENES / CARRUSEL] (lines 1239-1292): the [post_data] of the feed. *)
Definition li_feed (t : task) (token : val) (media_urls : list string) (combined_text : string)
    : PyM task (list (string * json)) :=
  media_urns <- li_upload_images t token media_urls ;;
  ret ([("author", JStr (org_urn t)); ("commentary", JStr combined_text); ("visibility", JStr "PUBLIC");
        ("distribution", li_distribution); ("lifecycleState", JStr "PUBLISHED");
        ("isReshareDisabledByAuthor", JBool false)]
       ++ [("content", match media_urns with
                       | [u] => JObj [("media", JObj [("id", u)])]
                       | _ => JObj [("multiImage", JObj [("images", JArr (map (fun u => JObj [("id", u)]) media_urns))])]
                       end)])%list.

Definition li_urn_error : string := "LinkedIn no devolvió un URN en X‑RestLi‑Id".

(** [# 3) Crear el post] (lines 1293-1311): the post, its URN, the
    Publicado of a non-reel, and the result. *)
Definition li_create_post (t : task) (token : val) (post_data : list (string * json))
    : PyM task (string * string) :=
  post_resp <- send_checked (li_session_post token "https://api.linkedin.com/rest/posts" post_data) ;;
  match header_get post_resp "X-RestLi-Id" with
  | Some post_urn =>
      if String.eqb post_urn EmptyString then raise (ValidationError li_urn_error) else
      (if bool_decide (tipo t = video_reels) then ret tt else set_fields [("post_estado", VStr "Publicado")]) ;;
      ret (post_urn, "https://www.linkedin.com/feed/update/" ++ post_urn ++ "/")
  | None => raise (ValidationError li_urn_error)
  end.

(** The body of the [try] (lines 1129-1311): the post's URN and URL. *)
Definition li_body (t : task) (token : val) (media_urls : list string) (combined_text : string)
    : PyM task (string * string) :=
  post_data <- match tipo t with
               | video_reels => li_reel t token media_urls combined_text
               | feed => li_feed t token media_urls combined_text
               | tp => raise (ValidationError ("Tipo de publicación no soportado: " ++ tipo_key tp))
               end ;;
  li_create_post t token post_data.

(** The detail of an [HTTPError]: the [message] or [error] of the JSON
    body, or the first 200 characters of the text when reading them
    raises. *)
Definition li_http_detail (txt : string) : PyM task string :=
  try_except
    (error_details <- (match json_loads txt with Some j => ret j | None => raise JSONDecodeError end) ;;
     has_msg <- py_in "message" error_details ;;
     if has_msg then m <- dict_index error_details "message" ;; ret (": " ++ json_str m)
     else has_err <- py_in "error" error_details ;;
          if has_err then m <- dict_index error_details "error" ;; ret (": " ++ json_str m)
          else ret "")
    (fun _ => ret (": " ++ str_prefix 200 txt)).

(** The two [except] clauses (lines 1313-1329). *)
Definition li_handler (e : exc) : PyM task (string * string) :=
  match e with
  | HTTPError st _ _ txt =>
      set_fields [("post_estado", VStr "Error")] ;;
      detail <- li_http_detail txt ;;
      raise (ValidationError ("Error HTTP " ++ Z_to_string st ++ detail))
  | _ =>
      set_fields [("post_estado", VStr "Error")] ;;
      raise (ValidationError ("Error inesperado: " ++ exc_str e))
  end.

(** [self.publish_on_linkedin(media_urls, combined_text)] *)
Definition publish_on_linkedin (media_urls : list string) (combined_text : string)
    : PyM task (string * string) :=
  t <- get ;;
  match media_urls with
  | [] => raise (ValidationError "No se proporcionaron URLs de medios")
  | _ =>
      let token := get_param "linkedin.access_token" in
      if negb (truthy token) then raise (ValidationError "Falta configurar linkedin.access_token")
      else try_except (li_body t token media_urls combined_text) li_handler
  end.

End LinkedIn.
End Publish.

Section Theorems.
Context `{Remote} `{Ffprobe} `{AttachmentTable} `{Config}.

Lemma fb_upload_photos_stateless t urls : stateless (fb_upload_photos t urls).
Proof. induction urls; simpl; solve_stateless. Qed.

Lemma ig_created_id_stateless msg rq : stateless (ig_created_id msg rq).
Proof. unfold ig_created_id. solve_stateless. Qed.

Lemma ig_carousel_items_stateless t urls : stateless (ig_carousel_items t urls).
Proof. induction urls; simpl; [solve_stateless|]. apply stateless_bind; [apply ig_created_id_stateless|]. intros; solve_stateless. Qed.

Lemma fb_start_stateless t kind msg : stateless (fb_start t kind msg).
Proof. unfold fb_start. solve_stateless. Qed.

Lemma fb_upload_file_stateless t u l msg : stateless (fb_upload_file t u l msg).
Proof. unfold fb_upload_file. solve_stateless. Qed.

#[local] Hint Resolve fb_upload_photos_stateless fb_start_stateless fb_upload_file_stateless
  ig_created_id_stateless ig_carousel_items_stateless : py_stateless.

(** The fields the Facebook publisher writes. *)
Definition fb_footprint : list string := ["fb_post_id"; "fb_post_url"; "fb_estado"; "fb_video_id"].

Lemma fb_publish_frame urls combined_text : preserves fb_footprint (publish_on_facebook urls combined_text).
Proof. unfold publish_on_facebook, fb_feed, fb_story, fb_reel. solve_preserves. Qed.

Lemma tt_publish_frame fp urls combined_text : preserves fp (publish_on_tiktok urls combined_text).
Proof. unfold publish_on_tiktok. solve_preserves. Qed.

(** The photo loop on answers that carry the ids. *)
Lemma fb_upload_photos_ids t urls ids s :
  Forall2 (fun u id => answers (fb_photo_request t u) (JObj [("id", JStr id)])) urls ids ->
  fb_upload_photos t urls s = (Ret (map JStr ids), s).
Proof.
  induction 1 as [|u id urls ids Ha _ IH]; [done|]. cbn [fb_upload_photos].
  rewrite (answers_send_json _ _ _ _ Ha). cbn. unfold bind at 1. by rewrite IH.
Qed.

(** C8: publishing a feed whose photo uploads answer with plain string
    ids stores [json.dumps] of the ids in [fb_post_id] and marks Facebook
    "Procesando"; the feed branch of the review flow reads the same ids
    back. *)
Theorem fb_feed_publish_roundtrip urls ids combined_text t :
  tipo t = feed -> write_ok t = true ->
  Forall2 (fun u id => answers (fb_photo_request t u) (JObj [("id", JStr id)])) urls ids ->
  Forall (fun s => plain s = true) ids ->
  exists t', publish_on_facebook urls combined_text t = (Ret (Some true), t') /\
    fld t' "fb_estado" = VStr "Procesando" /\ Facebook.media_ids t' = Some (JArr (map JStr ids)).
Proof.
  intros Ht Hw Hans Hplain. unfold publish_on_facebook, get, bind at 1. rewrite Ht. unfold fb_feed.
  rewrite (bind_run_ret _ _ _ _ _ (fb_upload_photos_ids t urls ids t Hans)).
  rewrite (bind_run_ret _ _ _ _ _ (setl_ok _ t Hw)).
  eexists. split; [reflexivity|]. split.
  - by rewrite fld_updl.
  - apply Facebook.fb_post_id_roundtrip; [done|]. by rewrite fld_updl.
Qed.

(** The fields the Instagram publisher writes. *)
Definition ig_footprint : list string := ["inst_post_id"; "inst_post_url"; "ig_estado"; "ig_error"].

Lemma ig_publish_body_frame urls combined_text cover_url :
  preserves ig_footprint (ig_publish_body urls combined_text cover_url).
Proof.
  unfold ig_publish_body. apply preserves_bind; [apply preserves_get|intros t].
  destruct (_ && _); [apply preserves_raise|].
  apply preserves_bind; [|intros; solve_preserves].
  apply preserves_stateless. destruct urls as [|u [|u' us]]; solve_stateless;
    apply ig_created_id_stateless || apply ig_carousel_items_stateless.
Qed.

Lemma ig_publish_frame urls combined_text cover_url :
  preserves ig_footprint (publish_on_instagram urls combined_text cover_url).
Proof.
  unfold publish_on_instagram. apply preserves_try_except; [apply ig_publish_body_frame|].
  intros; solve_preserves.
Qed.

(** C9: every exception of [publish_on_instagram] is recorded before it
    is raised again: on a record that accepts writes, the exception [e]
    leaves [ig_estado = "Error"] and [ig_error = str(e)]. *)
Theorem ig_publish_error_recorded urls combined_text cover_url t e t' :
  write_ok t = true ->
  publish_on_instagram urls combined_text cover_url t = (Raise e, t') ->
  fld t' "ig_estado" = VStr "Error" /\ fld t' "ig_error" = VStr (exc_str e).
Proof.
  intros Hw. unfold publish_on_instagram, try_except.
  destruct (ig_publish_body urls combined_text cover_url t) as [[a|e1] t1] eqn:E; [discriminate|].
  assert (write_ok t1 = true) as Hw1
    by (rewrite (frame_write_ok _ _ _ (ig_publish_body_frame _ _ _ _ _ _ E)); exact Hw).
  unfold bind at 1. rewrite (setl_ok _ _ Hw1). intros Er. injection Er as <- <-.
  split; by rewrite fld_updl.
Qed.

Section LinkedInTheorems.
Context `{MimeTypes}.

Lemma send_checked_stateless rq : stateless (send_checked rq).
Proof. unfold send_checked. solve_stateless. Qed.

Lemma content_length_stateless r : stateless (content_length r).
Proof. unfold content_length. solve_stateless. Qed.

#[local] Hint Resolve send_checked_stateless content_length_stateless : py_stateless.

Lemma li_upload_chunks_stateless token u l : stateless (li_upload_chunks token u l).
Proof. induction l; simpl; [solve_stateless|]. unfold li_upload_chunk. solve_stateless. Qed.

Lemma li_upload_images_stateless t token l : stateless (li_upload_images t token l).
Proof. induction l; simpl; [solve_stateless|]. unfold li_upload_image. solve_stateless. Qed.

Lemma li_http_detail_stateless txt : stateless (li_http_detail txt).
Proof. unfold li_http_detail. solve_stateless. Qed.

#[local] Hint Resolve li_upload_chunks_stateless li_upload_images_stateless li_http_detail_stateless
  : py_stateless.

(** The fields the LinkedIn publisher writes. *)
Definition li_footprint : list string := ["post_estado"; "linkedin_post_id"].

Lemma li_body_frame t token urls combined_text :
  preserves li_footprint (li_body t token urls combined_text).
Proof. unfold li_body, li_create_post, li_reel, li_feed. solve_preserves. Qed.

Lemma publish_on_linkedin_frame urls combined_text :
  preserves li_footprint (publish_on_linkedin urls combined_text).
Proof.
  unfold publish_on_linkedin. apply preserves_bind; [apply preserves_get | intros t].
  destruct urls; [apply preserves_raise|]. destruct (negb _); [apply preserves_raise|].
  apply preserves_try_except; [apply li_body_frame | intros e; unfold li_handler; solve_preserves].
Qed.

(** C7: [publish_on_linkedin] writes no field but [post_estado] and
    [linkedin_post_id]: the network's own phase [li_estado], its error
    [li_error] and [linkedin_post_url] are never touched, whatever the
    answers of LinkedIn. *)
Theorem li_publish_frame urls combined_text : preserves li_footprint (publish_on_linkedin urls combined_text).
Proof. apply publish_on_linkedin_frame. Qed.

(** The detail [publish_on_linkedin] appends to an HTTP error: the first
    200 characters of a body that is not JSON, the [message] of a JSON
    object that has one. *)
Lemma li_http_detail_cases txt d t :
  (json_loads txt = None /\ d = ": " ++ str_prefix 200 txt) \/
  (exists kv m, json_loads txt = Some (JObj kv) /\ obj_lookup "message" kv = Some m /\ d = ": " ++ json_str m) ->
  li_http_detail txt t = (Ret d, t).
Proof.
  unfold li_http_detail, try_except, bind. intros [[-> ->] | (kv & m & -> & Hm & ->)]; [done|].
  cbn. by rewrite Hm.
Qed.

(** C10: an HTTP error of a LinkedIn request is reported as [Error HTTP
    <status>] followed by the detail of its body, and leaves [post_estado]
    at "Error". *)
Theorem li_http_error_reported urls combined_text t t1 st reason url txt d :
  urls <> [] -> truthy (get_param "linkedin.access_token") = true -> write_ok t = true ->
  li_body t (get_param "linkedin.access_token") urls combined_text t = (Raise (HTTPError st reason url txt), t1) ->
  (json_loads txt = None /\ d = ": " ++ str_prefix 200 txt) \/
  (exists kv m, json_loads txt = Some (JObj kv) /\ obj_lookup "message" kv = Some m /\ d = ": " ++ json_str m) ->
  exists t', publish_on_linkedin urls combined_text t =
               (Raise (ValidationError ("Error HTTP " ++ Z_to_string st ++ d)), t') /\
             fld t' "post_estado" = VStr "Error".
Proof.
  intros Hu Htok Hw Hb Hd. unfold publish_on_linkedin, get, bind at 1.
  destruct urls as [|u us]; [done|]. rewrite Htok. cbn [negb].
  rewrite (try_except_raise _ _ _ _ _ Hb). unfold li_handler.
  assert (write_ok t1 = true) as Hw1 by (rewrite (frame_write_ok _ _ _ (li_body_frame _ _ _ _ _ _ _ Hb)); exact Hw).
  rewrite (bind_run_ret _ _ _ _ _ (setl_ok _ _ Hw1)).
  rewrite (bind_run_ret _ _ _ _ _ (li_http_detail_cases txt d _ Hd)).
  eexists. split; [reflexivity|]. by rewrite fld_updl.
Qed.

End LinkedInTheorems.

End Theorems.
End Publish.
