(* ===== verification/Creator.v ===== *)
(** * Creator: TikTok's creator check (lines 168-179 and 1587-1650)

    [check_tiktok_creator_status] asks TikTok whether the creator of the
    task's partner can publish and how long a video may be; it records the
    answer in [tiktok_creator_status_info] and raises when the creator has
    reached its limit or the video is too long.  The onchange of
    [red_social_ids] runs it as soon as TikTok is among the selected
    networks. *)

From Stdlib Require Import String Ascii ZArith List Bool Lia.
From stdpp Require Import base gmap strings list.
From S2P Require Import Prelude Json Http Task Text Write Flow Publish.

Open Scope string_scope.
Open Scope py_scope.

Module Creator.
Section Creator.
Context `{Remote} `{Ffprobe} `{AttachmentTable}.

Definition creator_info_url : string := "https://open.tiktokapis.com/v2/post/publish/creator_info/query/".

(** [requests.post(url, json=payload, headers=headers, timeout=10)] *)
Definition creator_request (token : val) : request :=
  {| rq_method := POST; rq_url := creator_info_url;
     rq_params := [("fields", JArr [JStr "can_publish"; JStr "max_video_post_duration_sec"])];
     rq_headers := [("Authorization", "Bearer " ++ val_str token); ("Content-Type", "application/json")];
     rq_timeout := Some 10%Z |}.

(** [self.tiktok_video_duration]: an Integer field reads [0] when unset. *)
Definition int_field (v : val) : Z := match v with VInt z => z | _ => 0%Z end.

(** [f"{x}"] of a value returned by [.get(k, None)]. *)
Definition opt_str (o : option json) : string := match o with Some j => json_str j | None => "None" end.

Definition limit_msg : string := "❌ El creador ha alcanzado el límite de publicaciones. No puede publicar en este momento.".

Definition too_long_msg (dur : Z) (max_duration : json) : string :=
  "⛔ El video excede la duración máxima permitida." ++ newline ++ "Duración del video: " ++ Z_to_string dur ++ " s" ++ newline
  ++ "Máximo permitido por TikTok: " ++ json_str max_duration ++ " s".

Definition ok_msg (max_duration : option json) (dur : Z) : string :=
  "✔ El creador puede publicar." ++ newline ++ "Duración máxima permitida: " ++ opt_str max_duration ++ " segundos." ++ newline
  ++ "Duración del video a publicar: " ++ Z_to_string dur ++ " segundos.".

(** [self.tiktok_creator_status_info = msg; raise ValidationError(msg)] *)
Definition record_and_raise {A} (msg : string) : PyM task A :=
  set_fields [("tiktok_creator_status_info", VStr msg)] ;; raise (ValidationError msg).

(** [self.tiktok_video_duration > max_duration] *)
Definition duration_exceeds (dur : Z) (max_duration : json) : PyM task bool :=
  match json_num max_duration with
  | Some m => ret (int_gt_num dur m)
  | None => raise (TypeError ("'>' not supported between instances of 'int' and '"
                              ++ type_name max_duration ++ "'"))
  end.

(** [self.check_tiktok_creator_status()] *)
Definition check_tiktok_creator_status : PyM task bool :=
  t <- get ;;
  let access_token := partner_tiktok_access_token t in
  if negb (truthy access_token) then
    raise (ValidationError "No existe access_token de TikTok para este creador.")
  else
    response <- send (creator_request access_token) ;;
    if not_200 response then
      record_and_raise ("Error consultando TikTok Creator Info: " ++ rs_text response)
    else
      data <- resp_json response ;;
      d <- dict_get_or data "data" (JObj []) ;;
      can_publish <- dict_get d "can_publish" ;;
      match can_publish with
      | Some (JBool false) => record_and_raise limit_msg
      | _ =>
          d <- dict_get_or data "data" (JObj []) ;;
          max_duration <- dict_get d "max_video_post_duration_sec" ;;
          let dur := int_field (fld t "tiktok_video_duration") in
          match max_duration with
          | Some m =>
              if jtruthy max_duration && negb (Z.eqb dur 0) then
                exceeds <- duration_exceeds dur m ;;
                if exceeds then record_and_raise (too_long_msg dur m) else ret tt
              else ret tt
          | None => ret tt
          end ;;
          set_fields [("tiktok_creator_status_info", VStr (ok_msg max_duration dur))] ;;
          ret true
      end.

(** [_onchange_red_social_ids_check_tiktok] *)
Definition onchange_red_social_ids_check_tiktok : PyM task unit :=
  t <- get ;;
  match red_social_ids t with
  | [] => ret tt
  | _ => if has_network t "TikTok" then _ <- check_tiktok_creator_status ;; ret tt else ret tt
  end.

End Creator.

Section Theorems.
Context `{Remote} `{Ffprobe} `{AttachmentTable}.

(** What the check decides from TikTok's [data] and the video's
    duration: the message it records, and whether it refuses. *)
Definition creator_verdict (kv : list (string * json)) (dur : Z) : string * bool :=
  match obj_lookup "can_publish" kv with
  | Some (JBool false) => (limit_msg, true)
  | _ => match obj_lookup "max_video_post_duration_sec" kv with
         | Some (JNum m) =>
             if negb (Z.eqb m 0) && negb (Z.eqb dur 0) && (m <? dur)%Z
             then (too_long_msg dur (JNum m), true) else (ok_msg (Some (JNum m)) dur, false)
         | o => (ok_msg o dur, false)
         end
  end.

(** C13: on a creator whose token is set and whose query answers 200
    with [data], [check_tiktok_creator_status] records the message of
    [creator_verdict] in [tiktok_creator_status_info] and raises it
    exactly when the creator reached its limit or the video, of a known
    duration, exceeds a known maximum; an unset duration (0) always
    passes. *)
Theorem creator_check_verdict t r kv :
  truthy (partner_tiktok_access_token t) = true -> write_ok t = true ->
  remote (creator_request (partner_tiktok_access_token t)) = Reply r -> rs_status r = 200%Z ->
  rs_body r = Some (JObj [("data", JObj kv)]) ->
  (obj_lookup "max_video_post_duration_sec" kv = None \/
   exists m, obj_lookup "max_video_post_duration_sec" kv = Some (JNum m)) ->
  check_tiktok_creator_status t =
    (if snd (creator_verdict kv (int_field (fld t dur_key)))
     then Raise (ValidationError (fst (creator_verdict kv (int_field (fld t dur_key)))))
     else Ret true,
     upd t "tiktok_creator_status_info" (VStr (fst (creator_verdict kv (int_field (fld t dur_key)))))).
Proof.
  intros Htok Hw Hr Hst Hb Hm. unfold dur_key.
  unfold check_tiktok_creator_status, creator_verdict, send, resp_json, not_200, record_and_raise,
    dict_get_or, dict_get. py_unfold. rewrite Htok, Hr, Hst, Hb. cbn -[set_fields ok_msg too_long_msg limit_msg].
  destruct (obj_lookup "can_publish" kv) as [c|] eqn:Ec; [destruct c as [| [] | | | | |]|];
    destruct Hm as [Hm | [m Hm]]; rewrite ?Hm; cbn -[set_fields ok_msg too_long_msg limit_msg];
    try (rewrite (set1_ok _ _ _ Hw); reflexivity);
    unfold duration_exceeds; cbn -[set_fields ok_msg too_long_msg limit_msg];
    destruct (m =? 0)%Z, (int_field (fld t "tiktok_video_duration") =? 0)%Z,
      (m <? int_field (fld t "tiktok_video_duration"))%Z;
    cbn -[set_fields ok_msg too_long_msg limit_msg]; rewrite (set1_ok _ _ _ Hw); reflexivity.
Qed.
End Theorems.
End Creator.
