(* ===== verification/Revisar.v ===== *)
(** * The review sweep: [revisar_post] (lines 313-347)

    [revisar_post(from_cron)] runs, for each task of the recordset, the
    flow of every selected network in the order Facebook, Instagram,
    TikTok, LinkedIn, then sets [post_estado = "Publicado"] when the phase of
    every selected network is "publicado" (after [strip().lower()]).  No
    [try] protects a flow: an exception stops the loop, and the remaining
    flows and tasks are not reviewed.

    The record [platform] is the interface between a flow and the sweep:
    the network's name, its phase field, the fields its flow may write, the
    flow, and the flow's law (it changes only its own fields), which each
    platform's file proves ([fb_flow_frame], [ig_flow_frame], ...).

    The scheduler job that calls [revisar_post(from_cron=True)] is not part
    of the repository; Odoo runs it in one transaction, rolled back when it
    raises ([transaction]).  [cron_sweep] is that call on a batch. *)

From Stdlib Require Import String ZArith List Bool.
From stdpp Require Import base gmap strings list.
From S2P Require Import Prelude Json Http Task Text Write Estado Flow Facebook Instagram TikTok LinkedIn.

Open Scope string_scope.

Section Platforms.
Context `{Remote} `{Ffprobe} `{AttachmentTable} `{Config} `{Html2Text}.

Record platform : Type := Platform {
  pl_name : string;                          (** the [red.social] name *)
  pl_estado : string;                        (** its phase field *)
  pl_footprint : list string;                (** the fields its flow may write *)
  pl_flow : bool -> PyM task unit;           (** [rec._run_<p>_flow(from_cron)] *)
  pl_estado_in_footprint : In pl_estado pl_footprint;
  pl_flow_frame : forall fc, preserves pl_footprint (pl_flow fc)
}.

(** A call whose result is dropped. *)
Definition discard {A} (m : PyM task A) : PyM task unit := _ <- m ;; ret tt.

Lemma preserves_discard fp {A} (m : PyM task A) : preserves fp m -> preserves fp (discard m).
Proof. intros Hm. apply preserves_bind; [done | intros; apply preserves_ret]. Qed.

Definition facebook : platform :=
  {| pl_name := "Facebook"; pl_estado := "fb_estado"; pl_footprint := Facebook.footprint;
     pl_flow fc := discard (Facebook.run_facebook_flow fc);
     pl_estado_in_footprint := ltac:(simpl; tauto);
     pl_flow_frame fc := preserves_discard _ _ (Facebook.fb_flow_frame fc) |}.

Definition instagram : platform :=
  {| pl_name := "Instagram"; pl_estado := "ig_estado"; pl_footprint := Instagram.footprint;
     pl_flow fc := discard (Instagram.run_instagram_flow fc);
     pl_estado_in_footprint := ltac:(simpl; tauto);
     pl_flow_frame fc := preserves_discard _ _ (Instagram.ig_flow_frame fc) |}.

Definition tiktok : platform :=
  {| pl_name := "TikTok"; pl_estado := "tt_estado"; pl_footprint := TikTok.footprint;
     pl_flow fc := discard (TikTok.run_tiktok_flow fc);
     pl_estado_in_footprint := ltac:(simpl; tauto);
     pl_flow_frame fc := preserves_discard _ _ (TikTok.tt_flow_frame fc) |}.

Definition linkedin : platform :=
  {| pl_name := "LinkedIn"; pl_estado := "li_estado"; pl_footprint := LinkedIn.footprint;
     pl_flow fc := discard (LinkedIn.run_linkedin_flow fc);
     pl_estado_in_footprint := ltac:(simpl; tauto);
     pl_flow_frame fc := preserves_discard _ _ (LinkedIn.li_flow_frame fc) |}.

(** The networks in the order [revisar_post] runs and reads them. *)
Definition platforms : list platform := [facebook; instagram; tiktok; linkedin].

(** [if "<p>" in active: rec._run_<p>_flow(from_cron)] *)
Definition run_selected (fc : bool) (active : list string) (p : platform) : PyM task unit :=
  if str_in (pl_name p) active then pl_flow p fc else ret tt.

(** [(rec.<p>_estado or "").strip().lower()] *)
Definition estado_norm (t : task) (p : platform) : string :=
  lower (strip (str_or_empty (fld t (pl_estado p)))).

(** [estados]: the phases of the selected networks. *)
Definition estados (active : list string) (t : task) : list string :=
  map (estado_norm t) (filter (fun p => str_in (pl_name p) active) platforms).

(** [estados and all(e == "publicado" for e in estados)] *)
Definition all_published (active : list string) (t : task) : bool :=
  negb (Nat.eqb (length (estados active t)) 0) &&
  forallb (fun e => String.eqb e "publicado") (estados active t).

(** The body of the loop for one record. *)
Definition revisar_one (fc : bool) : PyM task unit :=
  t <- get ;;
  let active := red_social_ids t in
  for_each (run_selected fc active) platforms ;;
  t <- get ;;
  if all_published active t then set_fields [("post_estado", VStr "Publicado")] else ret tt.

(** [for rec in self: ...; return True]: an exception leaves the records
    already reviewed, the record it came from as the exception left it,
    and the rest untouched. *)
Fixpoint revisar_post (fc : bool) (ts : list task) : outcome bool * list task :=
  match ts with
  | [] => (Ret true, [])
  | t :: rest =>
      match revisar_one fc t with
      | (Ret _, t') => let '(o, rest') := revisar_post fc rest in (o, t' :: rest')
      | (Raise e, t') => (Raise e, t' :: rest)
      end
  end.

Definition cron_sweep : PyM (list task) bool := transaction (revisar_post true).

(** [n] runs of the scheduled job; a run that raises is logged and the
    next one starts from what is committed. *)
Fixpoint sweeps (n : nat) (ts : list task) : list task :=
  match n with
  | O => ts
  | S n' => sweeps n' (snd (cron_sweep ts))
  end.
End Platforms.

(** ** Lemmas on the loop *)

Section ForEach.
Context {S A : Type}.

Lemma for_each_app (f : A -> PyM S unit) l1 l2 s :
  for_each f (l1 ++ l2) s = bind (for_each f l1) (fun _ => for_each f l2) s.
Proof.
  revert s. induction l1 as [|x l1 IH]; intros s; simpl; [done|].
  unfold bind. destruct (f x s) as [[[]|e] s1]; [apply IH | reflexivity].
Qed.

(** A property of the state every step keeps holds after the loop. *)
Lemma for_each_inv (P : S -> Prop) (f : A -> PyM S unit) l :
  (forall x s o s', In x l -> P s -> f x s = (o, s') -> P s') ->
  forall s o s', P s -> for_each f l s = (o, s') -> P s'.
Proof.
  induction l as [|x l IH]; simpl; intros Hf s o s' Hs E.
  - by injection E as _ <-.
  - unfold bind in E. destruct (f x s) as [[[]|e] s1] eqn:E1.
    + eapply IH; [| eapply Hf; eauto | exact E]. intros; eapply Hf; eauto.
    + injection E as _ <-. eapply Hf; eauto.
Qed.
End ForEach.

Section Sweep.
Context `{Remote} `{Ffprobe} `{AttachmentTable} `{Config} `{Html2Text}.

(** The fields some flow may write. *)
Definition all_footprints : list string := concat (map pl_footprint platforms).

Lemma run_selected_frame fc a p : In p platforms -> preserves all_footprints (run_selected fc a p).
Proof.
  intros Hp. unfold run_selected. destruct (str_in _ _); [|apply preserves_ret].
  intros t o t' E. eapply frame_mono; [eapply pl_flow_frame, E|].
  intros k Hk. apply in_concat. exists (pl_footprint p). split; [by apply in_map|done].
Qed.

Lemma for_each_run_selected_frame fc a t o t' :
  for_each (run_selected fc a) platforms t = (o, t') -> frame all_footprints t t'.
Proof.
  apply (for_each_inv (fun s => frame all_footprints t s)); [|apply frame_refl].
  intros p s o' s' Hp Hs E. eapply frame_trans; [exact Hs|]. by eapply run_selected_frame.
Qed.

Lemma estados_ext a t t' :
  (forall p, In p platforms -> fld t' (pl_estado p) = fld t (pl_estado p)) ->
  estados a t' = estados a t.
Proof.
  intros Hp. unfold estados. apply map_ext_in. intros p Hin.
  apply list_elem_of_In, list_elem_of_filter in Hin as [_ Hin%list_elem_of_In].
  unfold estado_norm. by rewrite Hp.
Qed.

Lemma all_published_upd a t v :
  all_published a (upd t "post_estado" v) = all_published a t.
Proof.
  unfold all_published. rewrite (estados_ext a t); [done|].
  intros p Hp. rewrite fld_upd; [|simpl in Hp; intuition subst; discriminate].
  simpl in Hp; intuition subst; reflexivity.
Qed.

Lemma post_estado_not_in_footprints : ~ In "post_estado" all_footprints.
Proof. simpl. intuition discriminate. Qed.

(** C3: a review that ends normally sets [post_estado] to "Publicado" exactly when every
    selected network is "publicado", and otherwise leaves it as it was: it never sets "Error"
    or any other phase. *)
Theorem revisar_one_post_estado fc t t' :
  revisar_one fc t = (Ret tt, t') ->
  fld t' "post_estado" =
    if all_published (red_social_ids t) t' then VStr "Publicado" else fld t "post_estado".
Proof.
  unfold revisar_one, bind, get. intros E.
  destruct (for_each _ platforms t) as [[[]|e] t1] eqn:E1; [|discriminate].
  pose proof (for_each_run_selected_frame _ _ _ _ _ E1) as F.
  assert (Hp : fld t1 "post_estado" = fld t "post_estado").
  { apply (frame_fld _ _ _ _ F); [discriminate | apply post_estado_not_in_footprints]. }
  destruct (all_published (red_social_ids t) t1) eqn:A.
  - rewrite set_fields_spec in E. destruct (write_guard t1); [|discriminate].
    injection E as <-. change (fld (upd t1 "post_estado" (VStr "Publicado")) "post_estado" =
      if all_published (red_social_ids t) (upd t1 "post_estado" (VStr "Publicado"))
      then VStr "Publicado" else fld t "post_estado").
    by rewrite all_published_upd, A, fld_upd.
  - unfold ret in E. injection E as <-. by rewrite A.
Qed.

(** An exception in the flow of a selected network ends the review of the
    record: the networks after it are not reviewed and the record keeps
    what the flows before it wrote. *)
Lemma revisar_one_abort fc t pre p post t1 e t2 :
  platforms = (pre ++ p :: post)%list ->
  for_each (run_selected fc (red_social_ids t)) pre t = (Ret tt, t1) ->
  str_in (pl_name p) (red_social_ids t) = true -> pl_flow p fc t1 = (Raise e, t2) ->
  revisar_one fc t = (Raise e, t2).
Proof.
  intros Hl Hpre Hs Hf. unfold revisar_one. rewrite Hl. unfold bind at 1, get.
  unfold bind at 1. rewrite for_each_app. unfold bind at 1. rewrite Hpre.
  simpl. unfold bind at 1. unfold run_selected at 1. rewrite Hs, Hf. reflexivity.
Qed.

(** C2: when [revisar_post] raises, the batch splits at the record the exception came from:
    the records before it are reviewed, that record is left as the exception found it, and the
    records after it are not reviewed. *)
Theorem revisar_post_abort fc ts e ts' :
  revisar_post fc ts = (Raise e, ts') ->
  exists pre pre' t t' post,
    ts = (pre ++ t :: post)%list /\ ts' = (pre' ++ t' :: post)%list /\
    Forall2 (fun a b => revisar_one fc a = (Ret tt, b)) pre pre' /\ revisar_one fc t = (Raise e, t').
Proof.
  revert ts'. induction ts as [|t ts IH]; simpl; intros ts' E; [discriminate|].
  destruct (revisar_one fc t) as [[[]|e'] t1] eqn:E1.
  - destruct (revisar_post fc ts) as [o rest] eqn:E2. injection E as -> <-.
    destruct (IH rest eq_refl) as (pre & pre' & u & u' & post & -> & -> & Hf & Hu).
    exists (t :: pre), (t1 :: pre'), u, u', post. repeat split; [| done]. by constructor.
  - injection E as -> <-. by exists [], [], t, t1, ts.
Qed.

Lemma sweeps_fixed ts e : cron_sweep ts = (Raise e, ts) -> forall n, sweeps n ts = ts.
Proof. intros E n. induction n as [|n IH]; [done|]. simpl. by rewrite E. Qed.

Lemma cron_sweep_raise ts e ts' :
  revisar_post true ts = (Raise e, ts') -> cron_sweep ts = (Raise e, ts).
Proof. intros E. unfold cron_sweep, transaction. by rewrite E. Qed.

(** Under the scheduler, a batch in which one record raises is rolled back as a whole, so
    with unchanged answers of the platforms every later run raises again and no record of the
    batch ever progresses, not even those reviewed before the failing one. *)
Theorem cron_sweep_stuck ts e ts' :
  revisar_post true ts = (Raise e, ts') -> forall n, sweeps n ts = ts.
Proof. intros E. eapply sweeps_fixed, cron_sweep_raise, E. Qed.

Lemma run_selected_frame_own fc a p s o s' :
  run_selected fc a p s = (o, s') -> frame (pl_footprint p) s s'.
Proof.
  unfold run_selected. destruct (str_in _ _); [apply pl_flow_frame | apply preserves_ret].
Qed.

Lemma tiktok_idle fc a s :
  fld s "tt_estado" = VStr "Programado" -> run_selected fc a tiktok s = (Ret tt, s).
Proof.
  intros Hs. unfold run_selected. destruct (str_in _ _); [|done].
  simpl. unfold discard, bind. by rewrite TikTok.tt_other_phases_noop by (rewrite Hs; discriminate).
Qed.

Lemma all_published_blocked a t p :
  In p platforms -> str_in (pl_name p) a = true -> String.eqb (estado_norm t p) "publicado" = false ->
  all_published a t = false.
Proof.
  intros Hp Hs He. unfold all_published. apply andb_false_intro2, not_true_iff_false.
  intros Hall. rewrite forallb_forall in Hall.
  assert (Hin : In (estado_norm t p) (estados a t)).
  { apply in_map, list_elem_of_In, list_elem_of_filter. split; [by rewrite Hs | by apply list_elem_of_In]. }
  apply Hall in Hin. by rewrite He in Hin.
Qed.

(** C4: a record with TikTok selected whose [tt_estado] is still at its default "Programado"
    (a feed post: [publicar_post] starts TikTok only for reels) never gets [post_estado =
    "Publicado"] from a review, and its [tt_estado] stays "Programado". *)
Theorem tiktok_unstarted_blocks_publicado fc t o t' :
  str_in "TikTok" (red_social_ids t) = true -> fld t "tt_estado" = VStr "Programado" ->
  revisar_one fc t = (o, t') ->
  fld t' "post_estado" = fld t "post_estado" /\ fld t' "tt_estado" = VStr "Programado".
Proof.
  intros Hs Htt. unfold revisar_one, bind at 1, get.
  set (P := fun s => fld s "post_estado" = fld t "post_estado" /\ fld s "tt_estado" = VStr "Programado").
  assert (Hstep : forall p s o1 s1, In p platforms -> P s ->
            run_selected fc (red_social_ids t) p s = (o1, s1) -> P s1).
  { intros p s o1 s1 Hp [Hp1 Hp2] E. destruct Hp as [<-|[<-|[<-|[<-|[]]]]];
      [ | | rewrite tiktok_idle in E by done; by injection E as _ <- | ];
      apply run_selected_frame_own in E; split;
      (rewrite (frame_fld _ _ _ _ E); [done | discriminate | simpl; intuition discriminate]). }
  destruct (for_each (run_selected fc (red_social_ids t)) platforms t) as [[[]|e] t1] eqn:E1; intros E; unfold bind in E; rewrite E1 in E; cbv beta iota in E.
  - assert (HP : P t1) by (eapply (for_each_inv P); [exact Hstep | split; [done|exact Htt] | exact E1]).
    rewrite (all_published_blocked _ _ tiktok) in E; [| simpl; tauto | done |].
    + unfold ret in E. injection E as _ <-. exact HP.
    + unfold estado_norm. simpl. by rewrite (proj2 HP).
  - injection E as _ <-. eapply (for_each_inv P); [exact Hstep | split; [done|exact Htt] | exact E1].
Qed.

(** C1: an Instagram container in state [ERROR] blocks the scheduler for good: the flow
    records "Error" and raises, the whole batch is rolled back, so the record stays in
    "Revisando" and every later run fails the same way, for the other records of the batch
    too. *)
Theorem ig_container_error_blocks_batch t rest kv :
  write_ok t = true -> Instagram.reviewing t ->
  replies_json (Instagram.status_request t) (JObj kv) ->
  obj_lookup "status_code" kv = Some (JStr "ERROR") ->
  str_in "Facebook" (red_social_ids t) = false -> str_in "Instagram" (red_social_ids t) = true ->
  forall n, sweeps n (t :: rest) = t :: rest.
Proof.
  intros Hw Hr Hk Hc Hfb Hig.
  destruct (Instagram.ig_container_error_raises t kv Hw Hr Hk Hc) as [t2 E].
  assert (E1 : revisar_one true t = (Raise (ValidationError ("Container ERROR: " ++ py_repr (JObj kv))), t2)).
  { apply (revisar_one_abort true t [facebook] instagram [tiktok; linkedin] t); [done | | done |].
    - cbn [for_each]. unfold bind, run_selected. cbn [pl_name facebook]. by rewrite Hfb.
    - cbn [pl_flow instagram]. unfold discard, bind. by rewrite E. }
  eapply sweeps_fixed, (cron_sweep_raise _ _ (t2 :: rest)). simpl. by rewrite E1.
Qed.
End Sweep.
