(* ===== verification/Publicar.v ===== *)
(** * Publicar: the publication button and its S3 staging (lines 1331-1740)

    [publicar_post] checks the task, stages its attachments (and the cover
    of a reel) on S3 with [upload_files_to_s3], then runs one [try] block
    per selected network: the block marks the network "Procesando", calls
    its [publish_on_*] of [Publish], and on an exception marks it "Error"
    with the message.  The result is a notification when a network
    started; when none did, or when anything outside the blocks raises,
    the method marks the selected networks "Error" and raises, so that
    Odoo's transaction ([transaction]) discards those marks.  A success
    without errors runs [revisar_post] on the record and ignores its
    exception.  [check_tiktok_creator_status] and the onchange that calls
    it query TikTok's creator information.

    S3 is an oracle ([S3]): the client's creation, each [put_object], and
    the [timestamp]/[random_digits] of each call.  The upload loop carries
    the local [file_name_raw] from one iteration to the next, as Python
    does, since the handler of an item reads it.  The mails of the error
    paths and the logging are not modelled. *)

From Stdlib Require Import String Ascii ZArith List Bool Lia.
From stdpp Require Import base gmap strings list.
From S2P Require Import Prelude Json Http Base64 Task Text Write Flow Facebook Revisar Publish.

Open Scope string_scope.
Open Scope py_scope.

(** ** [upload_files_to_s3] (lines 1652-1740) *)

(** [boto3.client('s3', ...)], [s3_client.put_object(...)] and the clock:
    [Some m] is an exception whose [str] is [m]. *)
Class S3 : Type := {
  s3_client_error : val -> val -> option string;
  s3_put_object : string -> string -> string -> option string;   (** key, body, content type *)
  s3_stamp : nat -> string * string   (** [timestamp] and [random_digits] of the n-th call *)
}.

(** The items [upload_files_to_s3] tells apart: an [ir.attachment], a
    [(name, data)] pair, a base64 string, and anything else. *)
Inductive s3_item : Type :=
| ItemRecord (a : attachment)
| ItemPair (name data : string)
| ItemB64 (data : string)
| ItemOther.

Definition bucket_name : string := "odoo-geniolibre".
Definition region_name : string := "us-east-2".
Definition allowed_extensions : list string := ["jpg"; "jpeg"; "mp4"].

(** [name.split('.')[-1]] *)
Definition last_segment (s : string) : string := List.last (split_on "." s) s.

(** The S3 key of the [idx]-th file of a call. *)
Definition s3_key (ts rnd : string) (idx : nat) (ext : string) : string :=
  "media_" ++ ts ++ "_" ++ rnd ++ "-" ++ Z_to_string (Z.of_nat idx) ++ "." ++ ext.

Definition s3_url (key : string) : string :=
  "https://" ++ bucket_name ++ ".s3." ++ region_name ++ ".amazonaws.com/" ++ key.

Section Upload.
Context `{S3} {St : Type}.

(** [file_name_raw, file_data] of an item; [None] is the [else] branch,
    which assigns neither. *)
Definition item_name_data (ts rnd : string) (idx : nat) (item : s3_item) : option (string * string) :=
  match item with
  | ItemRecord a => Some (att_name a, att_datas a)
  | ItemPair n d => Some (n, d)
  | ItemB64 d => Some ("upload_" ++ ts ++ "_" ++ rnd ++ "-" ++ Z_to_string (Z.of_nat idx) ++ ".jpg", d)
  | ItemOther => None
  end.

(** The body of the loop's [try] for one item: its public URL. *)
Definition upload_item_body (ts rnd : string) (idx : nat) (file_name_raw file_data : string)
    : PyM St string :=
  let file_ext := lower (last_segment file_name_raw) in
  if negb (str_in file_ext allowed_extensions) then
    raise (ValidationError ("Tipo de archivo '" ++ file_ext ++ "' no permitido. Solo JPG, JPEG o MP4."))
  else
    let file_name := s3_key ts rnd idx file_ext in
    match b64decode file_data with
    | inr e => raise e
    | inl file_bytes =>
        match s3_put_object file_name file_bytes
                (if str_in file_ext ["jpg"; "jpeg"] then "image/jpeg" else "video/mp4") with
        | Some m => raise (ValidationError m)
        | None => ret (s3_url file_name)
        end
    end.

(** [file_name_raw] read in the handler: a local of the function, it keeps
    the value of the last iteration that assigned it, and is unbound before
    the first. *)
Definition read_file_name_raw (cur : option string) : PyM St string :=
  match cur with
  | Some n => ret n
  | None => raise (UnboundLocalError "file_name_raw")
  end.

(** One iteration, with the [file_name_raw] the earlier ones left: the
    name and the URL of the item; an exception is raised again with the
    name [file_name_raw] holds. *)
Definition upload_item (ts rnd : string) (idx : nat) (prev : option string) (item : s3_item)
    : PyM St (string * string) :=
  let cur := match item_name_data ts rnd idx item with Some (n, _) => Some n | None => prev end in
  try_except
    (match item_name_data ts rnd idx item with
     | Some (file_name_raw, file_data) =>
         u <- upload_item_body ts rnd idx file_name_raw file_data ;; ret (file_name_raw, u)
     | None => raise (ValidationError "Formato de archivo no soportado o inválido.")
     end)
    (fun e => n <- read_file_name_raw cur ;;
              raise (ValidationError ("Error al subir archivo " ++ n ++ ": " ++ exc_str e))).

(** [for idx, item in enumerate(files, start=1)] *)
Fixpoint upload_loop (ts rnd : string) (idx : nat) (prev : option string) (files : list s3_item)
    : PyM St (list string) :=
  match files with
  | [] => ret []
  | item :: rest => nu <- upload_item ts rnd idx prev item ;;
                    us <- upload_loop ts rnd (S idx) (Some (fst nu)) rest ;; ret (snd nu :: us)
  end.

(** [upload_files_to_s3(files, aws_api, aws_secret)], the clock reading
    [stamp]. *)
Definition upload_files_to_s3 (stamp : string * string) (files : list s3_item) (aws_api aws_secret : val)
    : PyM St (list string) :=
  if negb (truthy aws_api) || negb (truthy aws_secret) then
    raise (ValidationError "No se configuró correctamente el servicio de AWS.")
  else match s3_client_error aws_api aws_secret with
       | Some m => raise (ValidationError ("Error al crear el cliente AWS S3: " ++ m))
       | None =>
           match files with
           | [] => raise (ValidationError "No se encontraron archivos adjuntos o imágenes.")
           | _ => upload_loop (fst stamp) (snd stamp) 1 None files
           end
       end.
End Upload.

(** ** [publicar_post] (lines 1331-1585) *)

(** The lists [errors], [success_messages] and [published_on]. *)
Record pub_acc : Type := PubAcc {
  errors : list string;
  success_messages : list string;
  published_on : list string
}.

Definition acc0 : pub_acc := PubAcc [] [] [].

Definition add_error (msg : string) (a : pub_acc) : pub_acc :=
  PubAcc (errors a ++ [msg]) (success_messages a) (published_on a).

Definition add_success (net : string) (a : pub_acc) : pub_acc :=
  PubAcc (errors a) (success_messages a ++ [net ++ ": Publicación en proceso"]) (published_on a ++ [net]).

Definition no_response : string := "No se recibió respuesta del servidor".

(** The [vals] the error paths write: the phase and the message of
    Facebook, Instagram and TikTok when selected (LinkedIn is not
    listed). *)
Definition error_vals (t : task) (detalle : string) : list (string * val) :=
  ((if has_network t "Facebook" then [("fb_estado", VStr "Error"); ("fb_error", VStr detalle)] else [])
   ++ (if has_network t "Instagram" then [("ig_estado", VStr "Error"); ("ig_error", VStr detalle)] else [])
   ++ (if has_network t "TikTok" then [("tt_estado", VStr "Error"); ("tt_error", VStr detalle)] else []))%list.

Section Publicar.
Context `{Remote} `{Ffprobe} `{AttachmentTable} `{Config} `{Html2Text} `{MimeTypes} `{S3}.

(** [if update_vals: self.write(update_vals)] *)
Definition write_error_vals (detalle : string) : PyM task unit :=
  t <- get ;;
  match error_vals t detalle with
  | [] => ret tt
  | uv => set_fields uv
  end.

(** [try: self.write({est: "Procesando", err: False}); body
     except Exception as e: self.write({est: "Error", err: str(e)});
     errors.append(f"{net}: {str(e)}")] *)
Definition try_network (net est err : string) (body : PyM task pub_acc) (acc : pub_acc)
    : PyM task pub_acc :=
  try_except (set_fields [(est, VStr "Procesando"); (err, VFalse)] ;; body)
    (fun e => set_fields [(est, VStr "Error"); (err, VStr (exc_str e))] ;;
              ret (add_error (net ++ ": " ++ exc_str e) acc)).

(** [# Facebook] (lines 1405-1414) *)
Definition fb_block (media_urls : list string) (combined_text : string) (acc : pub_acc)
    : PyM task pub_acc :=
  try_network "Facebook" "fb_estado" "fb_error"
    (_ <- Publish.publish_on_facebook media_urls combined_text ;; ret (add_success "Facebook" acc)) acc.

(** [# Instagram] (lines 1417-1426) *)
Definition ig_block (media_urls : list string) (combined_text : string) (cover_url : option string)
    (acc : pub_acc) : PyM task pub_acc :=
  try_network "Instagram" "ig_estado" "ig_error"
    (_ <- Publish.publish_on_instagram media_urls combined_text cover_url ;;
     ret (add_success "Instagram" acc)) acc.

(** [# TikTok] (lines 1429-1444) *)
Definition tt_block (media_urls : list string) (combined_text : string) (acc : pub_acc)
    : PyM task pub_acc :=
  try_network "TikTok" "tt_estado" "tt_error"
    (tik_response <- Publish.publish_on_tiktok media_urls combined_text ;;
     if jtruthy (Some tik_response) then
       set_fields [("tiktok_post_id", json_to_val tik_response)] ;; ret (add_success "TikTok" acc)
     else
       set_fields [("tt_estado", VStr "Error"); ("tt_error", VStr no_response)] ;;
       ret (add_error ("TikTok: " ++ no_response) acc)) acc.

(** [# LinkedIn] (lines 1447-1463): the answer of [publish_on_linkedin] is
    a non-empty dict, so its [else] branch is never taken. *)
Definition li_block (media_urls : list string) (combined_text : string) (acc : pub_acc)
    : PyM task pub_acc :=
  try_network "LinkedIn" "li_estado" "li_error"
    (r <- Publish.publish_on_linkedin media_urls combined_text ;;
     set_fields [("linkedin_post_id", VStr (fst r)); ("linkedin_post_url", VStr (snd r))] ;;
     ret (add_success "LinkedIn" acc)) acc.

(** The four blocks in order, each when its network is selected (TikTok
    only for a reel). *)
Definition publicar_networks (t : task) (media_urls : list string) (combined_text : string)
    (cover_url : option string) : PyM task pub_acc :=
  acc <- (if has_network t "Facebook" then fb_block media_urls combined_text acc0 else ret acc0) ;;
  acc <- (if has_network t "Instagram" then ig_block media_urls combined_text cover_url acc else ret acc) ;;
  acc <- (if has_network t "TikTok" && bool_decide (tipo t = video_reels)
          then tt_block media_urls combined_text acc else ret acc) ;;
  if has_network t "LinkedIn" then li_block media_urls combined_text acc else ret acc.

(** [self.revisar_post()] on the record, its exception ignored: the
    writes made before it stay. *)
Definition revisar_self : PyM task unit :=
  fun t => match revisar_post false [t] with
           | (_, [t']) => (Ret tt, t')
           | _ => (Ret tt, t)
           end.

Definition nl : string := newline.

Definition error_detalle (acc : pub_acc) : string :=
  match errors acc with [] => "Error no especificado" | es => join nl es end.

Definition all_failed_msg (acc : pub_acc) : string :=
  "No se pudo iniciar el proceso en ninguna red social:" ++ nl ++ error_detalle acc.

(** [# Resultado final] (lines 1466-1557) *)
Definition publicar_final (acc : pub_acc) : PyM task action :=
  match published_on acc with
  | _ :: _ =>
      set_fields [("post_estado", VStr "Procesando")] ;;
      match errors acc with
      | _ :: _ =>
          ret (ActNotify {| n_title := "Proceso con observaciones";
                            n_message := join nl (success_messages acc ++ ["Errores:"] ++ errors acc);
                            n_type := "danger"; n_sticky := Some true; n_reload := false |})
      | [] =>
          revisar_self ;;
          ret (ActNotify {| n_title := "Proceso en curso";
                            n_message := "Contenido enviado a procesamiento en: " ++ join ", " (published_on acc);
                            n_type := "success"; n_sticky := Some false; n_reload := true |})
      end
  | [] =>
      set_fields [("post_estado", VStr "Procesando")] ;;
      write_error_vals (error_detalle acc) ;;
      raise (ValidationError (all_failed_msg acc))
  end%list.

(** The networks selected without their credential. *)
Definition credential_errors (t : task) : list string :=
  ((if has_network t "Facebook" && negb (truthy (partner_facebook_page_id t)) then ["Facebook"] else [])
   ++ (if has_network t "Instagram" && negb (truthy (partner_instagram_page_id t)) then ["Instagram"] else [])
   ++ (if has_network t "TikTok" && negb (truthy (partner_tiktok_access_token t)) then ["TikTok"] else [])
   ++ (if has_network t "LinkedIn" && negb (truthy (partner_linkedin_page_id t)) then ["LinkedIn"] else []))%list.

(** The S3 URLs of the attachments and of the reel's cover. *)
Definition publicar_setup (t : task) : PyM task (list string * option string) :=
  let aws_api := get_param "gl_aws.api_key" in
  let aws_secret := get_param "gl_aws.secret" in
  match credential_errors t with
  | _ :: _ => raise (ValidationError ("Los datos de acceso no fueron configurados para: "
                                       ++ join ", " (credential_errors t)))
  | [] =>
      media_urls <- upload_files_to_s3 (s3_stamp 0) (map ItemRecord (adjuntos_ids t)) aws_api aws_secret ;;
      cover_url <- (if truthy (imagen_portada t) && bool_decide (tipo t = video_reels) then
                      us <- upload_files_to_s3 (s3_stamp 1) [ItemPair "portada.jpg" (str_or_empty (imagen_portada t))]
                              aws_api aws_secret ;;
                      u <- index0 us ;; ret (Some u)
                    else ret None) ;;
      ret (media_urls, cover_url)
  end.

(** The body of the outer [try] (lines 1367-1557). *)
Definition publicar_body (t : task) : PyM task action :=
  let combined_text := prepare_text t in
  mc <- publicar_setup t ;;
  acc <- publicar_networks t (fst mc) combined_text (snd mc) ;;
  publicar_final acc.

(** The checks before the [try] (lines 1355-1365). *)
Definition publicar_precheck (t : task) : option string :=
  if negb (truthy (imagen_portada t)) && bool_decide (tipo t = video_reels) then
    Some "Debe especificar una portada para el reel"
  else if negb (truthy (fecha_publicacion t)) then Some "Debe seleccionar una fecha de publicación"
  else if negb (String.eqb (state t) "03_approved") then Some "El estado de la Tarea debe ser 'Aprobado'"
  else match red_social_ids t with
       | [] => Some "Debe seleccionar al menos una red social"
       | _ => None
       end.

(** The outer [except Exception as e] (lines 1559-1585): the Error marks
    of the selected networks, then the raise; the mail to the
    administrator is not modelled. *)
Definition publicar_handler (e : exc) : PyM task action :=
  write_error_vals (exc_str e) ;;
  raise (ValidationError ("Error en el proceso de publicación: " ++ exc_str e)).

(** [task.publicar_post()] *)
Definition publicar_post : PyM task action :=
  t <- get ;;
  match publicar_precheck t with
  | Some msg => raise (ValidationError msg)
  | None => try_except (publicar_body t) publicar_handler
  end.

(** The button: one request, one transaction. *)
Definition publicar_post_button : PyM task action := transaction publicar_post.

End Publicar.

(** ** The S3 keys of one call *)

Lemma s3_key_inj ts rnd i j e1 e2 : s3_key ts rnd i e1 = s3_key ts rnd j e2 -> i = j.
Proof.
  unfold s3_key. intros E.
  do 5 apply string_app_inv_head in E.
  apply split_first_dot in E as [E _]; try apply Z_to_string_no_dot.
  apply Z_to_string_inj in E. lia.
Qed.

Lemma s3_url_inj k1 k2 : s3_url k1 = s3_url k2 -> k1 = k2.
Proof. unfold s3_url. intros E. by do 5 apply string_app_inv_head in E. Qed.

(** The URL of one uploaded file: its key holds its index. *)
Definition url_of_index (ts rnd : string) (k : nat) (u : string) : Prop :=
  exists ext, u = s3_url (s3_key ts rnd k ext).

Section UploadProofs.
Context `{S3} {St : Type}.

Lemma upload_item_body_url ts rnd idx n d s o s' :
  upload_item_body (St := St) ts rnd idx n d s = (o, s') ->
  s' = s /\ forall u, o = Ret u -> url_of_index ts rnd idx u.
Proof.
  unfold upload_item_body, raise, ret.
  destruct (negb _); [intros E; injection E as <- <-; split; [done | discriminate]|].
  destruct (b64decode d) as [bytes|e]; [|intros E; injection E as <- <-; split; [done | discriminate]].
  destruct (s3_put_object _ _ _); intros E; injection E as <- <-; (split; [done|]);
    intros u Hu; [discriminate|]. injection Hu as <-. eexists. reflexivity.
Qed.

Lemma upload_item_url ts rnd idx prev item s o s' :
  upload_item (St := St) ts rnd idx prev item s = (o, s') ->
  s' = s /\ forall nu, o = Ret nu -> url_of_index ts rnd idx (snd nu).
Proof.
  unfold upload_item, try_except, read_file_name_raw, bind, raise, ret.
  destruct (item_name_data ts rnd idx item) as [[name data]|].
  - destruct (upload_item_body ts rnd idx name data s) as [[u|e] s1] eqn:E;
      apply upload_item_body_url in E as [-> Hu].
    + intros [= <- <-]. split; [done|]. intros nu [= <-]. exact (Hu u eq_refl).
    + intros [= <- <-]. split; [done | discriminate].
  - destruct prev; intros [= <- <-]; (split; [done | discriminate]).
Qed.

Lemma upload_loop_urls ts rnd idx prev files s urls s' :
  upload_loop (St := St) ts rnd idx prev files s = (Ret urls, s') ->
  s' = s /\ length urls = length files /\ NoDup urls /\
  Forall (fun u => exists k, (idx <= k)%nat /\ url_of_index ts rnd k u) urls.
Proof.
  revert idx prev urls s'. induction files as [|item files IH]; intros idx prev urls s' E.
  - injection E as <- <-. repeat split; constructor.
  - cbn [upload_loop] in E. unfold bind at 1 in E.
    destruct (upload_item ts rnd idx prev item s) as [[nu|e] s1] eqn:E1; [|discriminate].
    apply upload_item_url in E1 as [-> Hu]. specialize (Hu nu eq_refl).
    unfold bind in E. destruct (upload_loop ts rnd (S idx) _ files s) as [[us|e] s2] eqn:E2; [|discriminate].
    injection E as <- <-. apply IH in E2 as (-> & Hl & Hnd & Hall).
    split; [done|]. split; [simpl; lia|]. split.
    + constructor; [|done]. intros Hin. rewrite Forall_forall in Hall.
      destruct (Hall _ Hin) as (k & Hk & e2 & Hk2). destruct Hu as [e1 Hu1].
      rewrite Hu1 in Hk2. apply s3_url_inj, s3_key_inj in Hk2. lia.
    + constructor; [exists idx; split; [lia | done]|].
      eapply Forall_impl; [exact Hall|]. intros v (k & Hk & Hv). exists k. split; [lia | done].
Qed.

(** An item of no supported type: the [ValidationError] of the [else]
    branch reaches the handler, which reads [file_name_raw]. *)
Lemma upload_loop_other ts rnd idx prev rest s :
  upload_loop (St := St) ts rnd idx prev (ItemOther :: rest) s =
    (Raise (match prev with
            | None => UnboundLocalError "file_name_raw"
            | Some n => ValidationError ("Error al subir archivo " ++ n ++
                                         ": Formato de archivo no soportado o inválido.")
            end), s).
Proof. by destruct prev. Qed.

(** C11: a call of [upload_files_to_s3] that returns gives one URL per
    file, all distinct: the keys [media_{timestamp}_{random}-{idx}.{ext}]
    of one call never overwrite each other on S3. *)
Theorem upload_files_to_s3_distinct stamp files aws_api aws_secret s urls s' :
  upload_files_to_s3 (St := St) stamp files aws_api aws_secret s = (Ret urls, s') ->
  length urls = length files /\ NoDup urls.
Proof.
  unfold upload_files_to_s3. destruct (_ || _); [discriminate|].
  destruct (s3_client_error aws_api aws_secret); [discriminate|].
  destruct files as [|f fs]; [discriminate|].
  intros E. apply upload_loop_urls in E as (_ & Hl & Hnd & _). done.
Qed.

(** C12: the handler of [upload_files_to_s3] reads [file_name_raw], which an
    item of no supported type never assigns: such an item first in the
    list makes the call raise [UnboundLocalError] instead of the
    [ValidationError] of its branch, and after an uploaded pair the
    [ValidationError] names the previous file. *)
Theorem upload_unsupported_item_error stamp rest aws_api aws_secret s :
  truthy aws_api = true -> truthy aws_secret = true -> s3_client_error aws_api aws_secret = None ->
  upload_files_to_s3 (St := St) stamp (ItemOther :: rest) aws_api aws_secret s =
    (Raise (UnboundLocalError "file_name_raw"), s) /\
  forall n d u, upload_item_body (St := St) (fst stamp) (snd stamp) 1 n d s = (Ret u, s) ->
    upload_files_to_s3 (St := St) stamp (ItemPair n d :: ItemOther :: rest) aws_api aws_secret s =
      (Raise (ValidationError ("Error al subir archivo " ++ n ++
                               ": Formato de archivo no soportado o inválido.")), s).
Proof.
  intros Ha Hs Hc. unfold upload_files_to_s3. rewrite Ha, Hs, Hc. cbn -[upload_loop].
  split; [apply upload_loop_other|]. intros n d u Hu.
  cbn [upload_loop]. unfold bind at 1, upload_item, try_except. cbn [item_name_data].
  unfold bind at 1. rewrite Hu. reflexivity.
Qed.
End UploadProofs.

(** ** What [publicar_post] does *)

(** The fields the blocks and the final writes may change. *)
Definition publicar_footprint : list string :=
  ["fb_estado"; "fb_error"; "fb_post_id"; "fb_post_url"; "fb_video_id";
   "ig_estado"; "ig_error"; "inst_post_id"; "inst_post_url";
   "tt_estado"; "tt_error"; "tiktok_post_id";
   "li_estado"; "li_error"; "linkedin_post_id"; "linkedin_post_url"; "post_estado"].

Lemma frame_red_social fp t t' : frame fp t t' -> red_social_ids t' = red_social_ids t.
Proof. by intros [-> _]. Qed.

Lemma frame_has_network fp t t' n : frame fp t t' -> has_network t' n = has_network t n.
Proof. intros F. unfold has_network. by rewrite (frame_red_social _ _ _ F). Qed.

Section PublicarProofs.
Context `{Remote} `{Ffprobe} `{AttachmentTable} `{Config} `{Html2Text} `{MimeTypes} `{S3}.

Lemma preserves_incl fp fp' {A} (m : PyM task A) : preserves fp m -> incl fp fp' -> preserves fp' m.
Proof. intros Hm Hi t o t' E. eapply frame_mono; [eapply Hm, E | exact Hi]. Qed.

Lemma try_network_frame net est err body acc :
  In est publicar_footprint -> In err publicar_footprint -> preserves publicar_footprint body ->
  preserves publicar_footprint (try_network net est err body acc).
Proof.
  intros He Hr Hb. unfold try_network.
  apply preserves_try_except; [apply preserves_bind; [|intros; exact Hb] | intros e];
    [|apply preserves_bind; [|intros; apply preserves_ret]];
    apply preserves_set_fields; repeat (apply List.Forall_cons; [assumption|]); apply List.Forall_nil.
Qed.

Lemma fb_block_frame urls combined_text acc : preserves publicar_footprint (fb_block urls combined_text acc).
Proof.
  apply try_network_frame; [simpl; tauto | simpl; tauto|]. apply preserves_bind; [|intros; apply preserves_ret].
  eapply preserves_incl; [apply Publish.fb_publish_frame | intros x; simpl; tauto].
Qed.

Lemma ig_block_frame urls combined_text cover_url acc :
  preserves publicar_footprint (ig_block urls combined_text cover_url acc).
Proof.
  apply try_network_frame; [simpl; tauto | simpl; tauto|]. apply preserves_bind; [|intros; apply preserves_ret].
  eapply preserves_incl; [apply Publish.ig_publish_frame | intros x; simpl; tauto].
Qed.

Lemma tt_block_frame urls combined_text acc : preserves publicar_footprint (tt_block urls combined_text acc).
Proof.
  apply try_network_frame; [simpl; tauto | simpl; tauto|].
  apply preserves_bind; [apply Publish.tt_publish_frame | intros; solve_preserves].
Qed.

Lemma li_block_frame urls combined_text acc : preserves publicar_footprint (li_block urls combined_text acc).
Proof.
  apply try_network_frame; [simpl; tauto | simpl; tauto|].
  apply preserves_bind; [|intros; solve_preserves].
  eapply preserves_incl; [apply Publish.publish_on_linkedin_frame | intros x; simpl; tauto].
Qed.

Lemma publicar_networks_frame t urls combined_text cover_url :
  preserves publicar_footprint (publicar_networks t urls combined_text cover_url).
Proof.
  unfold publicar_networks.
  apply preserves_bind; [destruct (has_network t "Facebook"); [apply fb_block_frame | apply preserves_ret]|intros].
  apply preserves_bind; [destruct (has_network t "Instagram"); [apply ig_block_frame | apply preserves_ret]|intros].
  apply preserves_bind; [destruct (_ && _); [apply tt_block_frame | apply preserves_ret]|intros].
  destruct (has_network t "LinkedIn"); [apply li_block_frame | apply preserves_ret].
Qed.
(** The Facebook review flow after its first statement, on a task of type
    [otro] that is not published: every statement is skipped. *)
Lemma fb_rest_otro fc c t :
  tipo t = otro -> fld t "fb_estado" <> VStr "Publicado" ->
  (Facebook.feed_step fc c ;;; Facebook.url_step ;;; Facebook.story_step fc ;;; Facebook.reels_step fc c) t
  = (Ret None, t).
Proof.
  intros Ht Hs.
  rewrite (seq_fall _ _ _ _ (Facebook.feed_step_skip fc c t ltac:(by rewrite Ht))).
  rewrite (seq_fall _ _ _ _ (Facebook.url_step_skip t Hs)).
  rewrite (seq_fall _ _ _ _ (Facebook.story_step_skip fc t ltac:(by rewrite Ht))).
  apply Facebook.reels_step_skip. by rewrite Ht.
Qed.

(** C6: on a task of type [otro], [publish_on_facebook] sends nothing
    and returns [None], yet the Facebook block of [publicar_post] counts
    it as started ([published_on], success message, [fb_estado =
    "Procesando"]); the review flow then moves it to "Revisando" and
    leaves it there on every later call. *)
Theorem fb_otro_reported_started urls combined_text acc t fc :
  tipo t = otro -> write_ok t = true ->
  exists t1 t2,
    fb_block urls combined_text acc t = (Ret (add_success "Facebook" acc), t1) /\
    fld t1 "fb_estado" = VStr "Procesando" /\
    Facebook.run_facebook_flow fc t1 = (Ret None, t2) /\ fld t2 "fb_estado" = VStr "Revisando" /\
    Facebook.run_facebook_flow fc t2 = (Ret None, t2).
Proof.
  intros Ht Hw. set (t1 := updl t [("fb_estado", VStr "Procesando"); ("fb_error", VFalse)]).
  assert (Hp1 : fld t1 "fb_estado" = VStr "Procesando") by (unfold t1; by rewrite fld_updl).
  assert (Hwt1 : write_ok t1 = true) by exact Hw.
  assert (Hp2 : fld (upd t1 "fb_estado" (VStr "Revisando")) "fb_estado" = VStr "Revisando")
    by (by rewrite fld_upd).
  exists t1, (upd t1 "fb_estado" (VStr "Revisando")). split; [|split; [done|split; [|split; [done|]]]].
  - unfold fb_block, try_network. apply try_except_ok.
    rewrite (bind_run_ret _ _ _ _ _ (setl_ok _ _ Hw)).
    unfold Publish.publish_on_facebook, bind, get. cbn [tipo updl with_fields]. by rewrite Ht.
  - rewrite Facebook.run_facebook_flow_eq, (seq_fall _ _ _ _ (Facebook.init_step_processing t1 Hwt1 Hp1)).
    apply fb_rest_otro; [exact Ht | by rewrite Hp2].
  - rewrite Facebook.run_facebook_flow_eq, (seq_fall _ _ _ _ (Facebook.init_step_skip _ ltac:(by rewrite Hp2))).
    apply fb_rest_otro; [exact Ht | by rewrite Hp2].
Qed.

Lemma error_vals_footprint t d : Forall (fun kv => In kv.1 publicar_footprint) (error_vals t d).
Proof.
  unfold error_vals.
  destruct (has_network t "Facebook"), (has_network t "Instagram"), (has_network t "TikTok");
    rewrite List.Forall_forall; intros kv Hkv; simpl in Hkv;
    repeat destruct Hkv as [<-|Hkv]; try destruct Hkv; apply str_in_spec; reflexivity.
Qed.

Lemma write_error_vals_run d t :
  write_ok t = true ->
  exists t', write_error_vals d t = (Ret tt, t') /\ frame publicar_footprint t t' /\
    (has_network t "Facebook" = true -> fld t' "fb_estado" = VStr "Error").
Proof.
  intros Hw. unfold write_error_vals, bind at 1, get.
  pose proof (error_vals_footprint t d) as Hf.
  destruct (error_vals t d) as [|p l] eqn:E.
  - exists t. split; [done|]. split; [apply frame_refl|].
    intros Hn. unfold error_vals in E. rewrite Hn in E. discriminate.
  - exists (updl t (p :: l)). split; [by apply setl_ok|]. split.
    + eapply frame_set_fields; [exact Hf | by apply setl_ok].
    + intros Hn. rewrite fld_updl by discriminate. rewrite <- E. unfold error_vals. rewrite Hn.
      cbn [app list_to_map foldr fst snd]. by rewrite lookup_insert_eq.
Qed.

(** C5: when no selected network started, [publicar_post] marks the
    selected networks "Error" and raises [Error en el proceso de
    publicación: No se pudo iniciar el proceso en ninguna red
    social:...]; the button's transaction rolls all of it back, so the
    task keeps the phases it had before the click. *)
Theorem publicar_none_started_rolled_back t media cover acc t2 :
  publicar_precheck t = None -> write_ok t = true ->
  publicar_setup t t = (Ret (media, cover), t) ->
  publicar_networks t media (prepare_text t) cover t = (Ret acc, t2) ->
  published_on acc = [] ->
  exists t',
    publicar_post t = (Raise (ValidationError ("Error en el proceso de publicación: " ++ all_failed_msg acc)), t') /\
    (has_network t "Facebook" = true -> fld t' "fb_estado" = VStr "Error") /\
    publicar_post_button t = (Raise (ValidationError ("Error en el proceso de publicación: " ++ all_failed_msg acc)), t).
Proof.
  intros Hp Hw Hs Hn Hpub.
  pose proof (publicar_networks_frame _ _ _ _ _ _ _ Hn) as F2.
  assert (Hw2 : write_ok t2 = true) by (rewrite (frame_write_ok _ _ _ F2); exact Hw).
  destruct (write_error_vals_run (error_detalle acc) (updl t2 [("post_estado", VStr "Procesando")]) Hw2)
    as (t4 & E4 & F4 & _).
  assert (Hw4 : write_ok t4 = true) by (rewrite (frame_write_ok _ _ _ F4); exact Hw2).
  destruct (write_error_vals_run (exc_str (ValidationError (all_failed_msg acc))) t4 Hw4) as (t5 & E5 & F5 & Hfb5).
  assert (Hbody : publicar_body t t = (Raise (ValidationError (all_failed_msg acc)), t4)).
  { unfold publicar_body. rewrite (bind_run_ret _ _ _ _ _ Hs). cbn [fst snd].
    rewrite (bind_run_ret _ _ _ _ _ Hn). unfold publicar_final. rewrite Hpub.
    rewrite (bind_run_ret _ _ _ _ _ (setl_ok _ _ Hw2)), (bind_run_ret _ _ _ _ _ E4). reflexivity. }
  assert (Hpost : publicar_post t =
            (Raise (ValidationError ("Error en el proceso de publicación: " ++ all_failed_msg acc)), t5)).
  { unfold publicar_post, bind at 1, get. rewrite Hp, (try_except_raise _ _ _ _ _ Hbody).
    unfold publicar_handler. rewrite (bind_run_ret _ _ _ _ _ E5). reflexivity. }
  exists t5. split; [exact Hpost|]. split.
  - intros Hf. apply Hfb5. rewrite (frame_has_network _ _ _ _ F4). change (has_network t2 "Facebook" = true).
    by rewrite (frame_has_network _ _ _ _ F2).
  - unfold publicar_post_button, transaction. by rewrite Hpost.
Qed.

End PublicarProofs.
