(* ===== verification/Witnesses.v ===== *)
(** * Concrete runs of the theorems

    Each theorem with hypotheses is applied here to a concrete task and
    concrete answers of the platforms, ffprobe, the attachment table and
    the configuration, which shows its hypotheses can hold together.  The
    oracles are local instances of a section, one world per scenario. *)

From Stdlib Require Import String ZArith List Bool.
From stdpp Require Import base gmap strings list.
From S2P Require Import Prelude Json Http Base64 Task Text Write Schedule Estado Flow Facebook Instagram TikTok LinkedIn Revisar.

Open Scope string_scope.

(** ** Building blocks *)

Definition graph : string := "https://graph.facebook.com/v19.0".

(** A [200] answer with a JSON body. *)
Definition ok_json (j : json) : reply :=
  Reply {| rs_status := 200; rs_reason := "OK"; rs_url := graph; rs_text := json_dumps j; rs_body := Some j;
           rs_headers := [] |}.

(** A remote that answers by URL. *)
Definition routes (tbl : list (string * reply)) : request -> reply :=
  fun rq => match find (fun '(u, _) => String.eqb u (rq_url rq)) tbl with
            | Some (_, r) => r
            | None => NoReply "Connection refused"
            end.

Definition image1 : attachment :=
  {| att_id := 1; att_name := "foto.jpg"; att_mimetype := VStr "image/jpeg"; att_datas := "aGVsbG8=" |}.
Definition video2 : attachment :=
  {| att_id := 2; att_name := "reel.mp4"; att_mimetype := VStr "video/mp4"; att_datas := "AAAA" |}.
Definition video3 : attachment :=
  {| att_id := 3; att_name := "otro.mp4"; att_mimetype := VStr "video/mp4"; att_datas := "BBBB" |}.

(** An approved task of type [tp] for the networks [nets]. *)
Definition mk_task (tp : tipo_sel) (nets : list string) (atts : list attachment)
    (flds : list (string * val)) : task :=
  {| task_id := 7; state := "03_approved"; tipo := tp; fecha_publicacion := VStr "2026-01-05 10:00:00";
     adjuntos_ids := atts; imagen_portada := VFalse; red_social_ids := nets; tag_names := [];
     project_type := VStr "marketing"; description := VStr "Hola"; hashtags := VStr "#gl";
     partner_page_access_token := VStr "tok"; partner_facebook_page_id := VStr "page1";
     partner_instagram_page_id := VStr "ig1"; partner_tiktok_access_token := VStr "ttk";
     partner_linkedin_page_id := VStr "li1";
     fields := list_to_map flds ∪ default_fields |}.

Definition w_table : gmap Z attachment := list_to_map [(1%Z, image1); (2%Z, video2); (3%Z, video3)].

(** ffprobe reports 12.5 s for [video2] and 30 s for the rest. *)
Definition w_ffprobe (datas : string) : proc_result :=
  ProcOut (json_dumps (JObj [("format", JObj [("duration", JStr (if String.eqb datas "AAAA" then "12.5" else "30"))])])).

(** ** Instagram: a container in state [ERROR] *)

Section IgError.
#[local] Instance ige_remote : Remote :=
  routes [(graph ++ "/c1", ok_json (JObj [("status_code", JStr "ERROR")]))].
#[local] Instance ige_ff : Ffprobe := w_ffprobe.
#[local] Instance ige_att : AttachmentTable := w_table.
#[local] Instance ige_cfg : Config := fun _ => VStr "v19.0".
#[local] Instance ige_h2t : Html2Text := fun s => s.

Definition ige_task : task :=
  mk_task feed ["Instagram"] [image1] [("ig_estado", VStr "Revisando"); ("inst_post_id", VStr "c1")].

Lemma ig_container_error_blocks_batch_witness : sweeps 5 [ige_task] = [ige_task].
Proof.
  apply (ig_container_error_blocks_batch ige_task [] [("status_code", JStr "ERROR")]);
    try reflexivity.
  - repeat split; reflexivity.
  - eexists. split; [reflexivity|]. split; reflexivity.
Defined.

Definition ige_kv : list (string * json) := [("status_code", JStr "ERROR")].
Definition ige_msg : string := "Container ERROR: " ++ py_repr (JObj ige_kv).

Lemma ig_container_error_witness :
  exists t', Instagram.run_instagram_flow false ige_task =
    (Ret (error_action "Error Instagram" ige_msg), t') /\
    fld t' "ig_estado" = VStr "Error" /\ fld t' "ig_error" = VStr ige_msg /\
    frame Instagram.footprint ige_task t'.
Proof.
  apply (Instagram.ig_container_error false ige_task ige_kv); [reflexivity | | |].
  - repeat split; reflexivity.
  - eexists. split; [reflexivity|]. split; reflexivity.
  - reflexivity.
Defined.

Lemma cron_sweep_stuck_witness : sweeps 5 [ige_task] = [ige_task].
Proof. eapply (cron_sweep_stuck [ige_task] (ValidationError ige_msg)). reflexivity. Defined.

Lemma revisar_post_abort_witness :
  exists pre pre' t t' post,
    [ige_task] = (pre ++ t :: post)%list /\ snd (revisar_post true [ige_task]) = (pre' ++ t' :: post)%list /\
    Forall2 (fun a b => revisar_one true a = (Ret tt, b)) pre pre' /\
    revisar_one true t = (Raise (ValidationError ige_msg), t').
Proof.
  apply (revisar_post_abort true [ige_task] (ValidationError ige_msg)). reflexivity.
Defined.

Lemma ig_flow_refines_witness :
  exists p', phase_of_val (fld (snd (Instagram.run_instagram_flow true ige_task)) "ig_estado") = Some p' /\
    phase_steps Reviewing p'.
Proof.
  apply (Instagram.ig_flow_refines true ige_task
           (fst (Instagram.run_instagram_flow true ige_task)) _ Reviewing);
    [reflexivity | vm_compute; reflexivity].
Defined.
End IgError.

(** ** Instagram: a container that is ready *)

Section IgOk.
Definition igo_status : list (string * json) := [("status_code", JStr "FINISHED")].
Definition igo_publish : list (string * json) := [("id", JStr "m9")].
Definition igo_link : list (string * json) := [("permalink", JStr "https://www.instagram.com/p/m9/")].

#[local] Instance igo_remote : Remote :=
  routes [(graph ++ "/c1", ok_json (JObj igo_status));
          (graph ++ "/ig1/media_publish", ok_json (JObj igo_publish));
          (graph ++ "/m9", ok_json (JObj igo_link))].
#[local] Instance igo_ff : Ffprobe := w_ffprobe.
#[local] Instance igo_att : AttachmentTable := w_table.
#[local] Instance igo_cfg : Config := fun _ => VStr "v19.0".
#[local] Instance igo_h2t : Html2Text := fun s => s.

Definition igo_task : task :=
  mk_task feed ["Instagram"] [image1] [("ig_estado", VStr "Revisando"); ("inst_post_id", VStr "c1")].

Lemma ig_published_witness :
  Instagram.run_instagram_flow true igo_task =
    (Ret (published_action true "Instagram publicado correctamente."),
     upd (upd (upd (upd igo_task "inst_post_id" (VStr "m9")) "inst_post_url"
                   (VStr "https://www.instagram.com/p/m9/"))
            "ig_estado" (VStr "Publicado")) "ig_error" VFalse).
Proof.
  apply (Instagram.ig_published true igo_task igo_status "FINISHED" igo_publish (JStr "m9") igo_link);
    try reflexivity; try (repeat split; reflexivity);
    eexists; (split; [reflexivity|]); split; reflexivity.
Defined.

Lemma revisar_one_post_estado_witness :
  exists t', revisar_one true igo_task = (Ret tt, t') /\ fld t' "post_estado" = VStr "Publicado".
Proof.
  exists (snd (revisar_one true igo_task)).
  assert (E : revisar_one true igo_task = (Ret tt, snd (revisar_one true igo_task)))
    by (vm_compute; reflexivity).
  split; [exact E|]. rewrite (revisar_one_post_estado _ _ _ E). vm_compute. reflexivity.
Defined.

Definition igtt_task : task :=
  mk_task feed ["Instagram"; "TikTok"] [image1]
    [("ig_estado", VStr "Revisando"); ("inst_post_id", VStr "c1")].

Lemma tiktok_unstarted_blocks_publicado_witness :
  fld (snd (revisar_one true igtt_task)) "post_estado" = fld igtt_task "post_estado" /\
  fld (snd (revisar_one true igtt_task)) "tt_estado" = VStr "Programado".
Proof.
  apply (tiktok_unstarted_blocks_publicado true igtt_task (fst (revisar_one true igtt_task)));
    [reflexivity | reflexivity | vm_compute; reflexivity].
Defined.
End IgOk.

(** ** TikTok *)

Definition tt_status_url : string := "https://open.tiktokapis.com/v2/post/publish/status/fetch/".

Definition tt_task : task :=
  mk_task video_reels ["TikTok"] [video2] [("tt_estado", VStr "Revisando"); ("tiktok_post_id", VStr "p1")].

Section TtComplete.
Definition ttc_data : list (string * json) :=
  [("status", JStr "PUBLISH_COMPLETE"); ("publicaly_available_post_id", JNum 7351)].
Definition ttc_kv : list (string * json) := [("data", JObj ttc_data)].

#[local] Instance ttc_remote : Remote := routes [(tt_status_url, ok_json (JObj ttc_kv))].
#[local] Instance ttc_ff : Ffprobe := w_ffprobe.
#[local] Instance ttc_att : AttachmentTable := w_table.

Lemma tt_published_misspelled_witness :
  TikTok.run_tiktok_flow true tt_task =
    (Ret (published_action true "TikTok publicado correctamente."),
     upd (upd (upd tt_task "tiktok_post_url" (VStr (TikTok.public_url (JNum 7351))))
            "tt_estado" (VStr "Publicado")) "tt_error" VFalse).
Proof.
  apply (TikTok.tt_published_misspelled true tt_task ttc_kv ttc_data); try reflexivity.
  - repeat split; reflexivity.
  - split; [|reflexivity]. eexists. split; [reflexivity|]. split; reflexivity.
Defined.
End TtComplete.

Section TtUnknown.
Definition ttu_data : list (string * json) := [("status", JStr "SEND_TO_USER_INBOX")].
Definition ttu_kv : list (string * json) := [("data", JObj ttu_data)].

#[local] Instance ttu_remote : Remote := routes [(tt_status_url, ok_json (JObj ttu_kv))].
#[local] Instance ttu_ff : Ffprobe := w_ffprobe.
#[local] Instance ttu_att : AttachmentTable := w_table.

Lemma tt_unknown_status_noop_witness : TikTok.run_tiktok_flow true tt_task = (Ret ActTrue, tt_task).
Proof.
  apply (TikTok.tt_unknown_status_noop true tt_task ttu_kv ttu_data "SEND_TO_USER_INBOX");
    try reflexivity.
  - repeat split; reflexivity.
  - split; [|reflexivity]. eexists. split; [reflexivity|]. split; reflexivity.
Defined.
End TtUnknown.

Section TtFailed.
Definition ttf_data : list (string * json) := [("status", JStr "FAILED"); ("fail_reason", JStr "duration")].
Definition ttf_kv : list (string * json) := [("data", JObj ttf_data)].
Definition ttf_msg : string := "TikTok status error: " ++ py_repr (JObj ttf_kv).

#[local] Instance ttf_remote : Remote := routes [(tt_status_url, ok_json (JObj ttf_kv))].
#[local] Instance ttf_ff : Ffprobe := w_ffprobe.
#[local] Instance ttf_att : AttachmentTable := w_table.

Lemma tt_status_failed_witness :
  exists t', TikTok.run_tiktok_flow false tt_task = (Ret (error_action "Error TikTok" ttf_msg), t') /\
    fld t' "tt_estado" = VStr "Error" /\ fld t' "tt_error" = VStr ttf_msg /\
    frame TikTok.footprint tt_task t'.
Proof.
  apply (TikTok.tt_status_failed false tt_task ttf_kv ttf_data "FAILED"); try reflexivity.
  - repeat split; reflexivity.
  - split; [|reflexivity]. eexists. split; [reflexivity|]. split; reflexivity.
  - simpl; tauto.
Defined.

Lemma tt_flow_refines_witness :
  exists p', phase_of_val (fld (snd (TikTok.run_tiktok_flow false tt_task)) "tt_estado") = Some p' /\
    phase_steps Reviewing p'.
Proof.
  apply (TikTok.tt_flow_refines false tt_task (fst (TikTok.run_tiktok_flow false tt_task)) _ Reviewing);
    [reflexivity | vm_compute; reflexivity].
Defined.
End TtFailed.

(** ** LinkedIn *)

Section Li.
#[local] Instance li_ff : Ffprobe := w_ffprobe.
#[local] Instance li_att : AttachmentTable := w_table.

Definition li_task : task :=
  mk_task feed ["LinkedIn"] [image1]
    [("li_estado", VStr "Procesando"); ("linkedin_post_id", VStr "urn:li:share:42")].

Lemma li_processing_to_published_witness :
  LinkedIn.run_linkedin_flow true li_task =
    (Ret (published_action true "LinkedIn publicado correctamente."),
     upd (upd (upd (upd li_task "li_estado" (VStr "Revisando")) "linkedin_post_url"
                    (VStr (LinkedIn.post_url (VStr "urn:li:share:42"))))
            "li_estado" (VStr "Publicado")) "li_error" VFalse).
Proof. apply LinkedIn.li_processing_to_published; reflexivity. Defined.

Lemma li_flow_refines_witness :
  exists p', phase_of_val (fld (snd (LinkedIn.run_linkedin_flow true li_task)) "li_estado") = Some p' /\
    phase_steps Processing p'.
Proof.
  apply (LinkedIn.li_flow_refines true li_task (fst (LinkedIn.run_linkedin_flow true li_task)) _ Processing);
    [reflexivity | vm_compute; reflexivity].
Defined.
End Li.

(** ** The global status *)

Lemma post_estado_global_error_witness :
  compute_post_estado_global (mk_task feed ["Facebook"] [image1] [("tt_estado", VStr " ERROR ")]) = "Error".
Proof. apply (post_estado_global_error _ "tt_estado" " ERROR "); [simpl; tauto | reflexivity | reflexivity]. Defined.

(** ** The checks of [write] *)

Section Checks.
#[local] Instance ck_ff : Ffprobe := w_ffprobe.
#[local] Instance ck_att : AttachmentTable := w_table.

Definition reel2 : task := mk_task video_reels ["Facebook"] [video2] [].
Definition reel3 : task := mk_task video_reels ["Facebook"] [video3] [].

Lemma write_shares_duration_witness :
  exists t1' t2', write (fields_vals [("description", VStr "Nuevo")]) [reel2; reel3] = (Ret tt, [t1'; t2']) /\
    fld t1' dur_key = VInt 30 /\ fld t2' dur_key = VInt 30.
Proof.
  apply (write_shares_duration reel2 reel3 video2 video3 12 30);
    first [ intros v; reflexivity | split; [reflexivity | split; [left; reflexivity | repeat split]] ].
Defined.

Lemma write_create_bypasses_check_witness :
  exists t', write {| wv_tipo := None; wv_fecha := None; wv_adjuntos := Some [CmdCreate image1];
                      wv_fields := ∅ |} [reel2] = (Ret tt, [t']) /\ adjuntos_ids t' = [video2; image1].
Proof.
  apply (write_create_bypasses_check reel2 video2 image1 12);
    [split; [reflexivity | split; [left; reflexivity | repeat split]] | intros v; reflexivity | reflexivity].
Defined.

Lemma write_feed_video_rejected_witness :
  write (fields_vals [("description", VStr "Nuevo")]) [mk_task feed ["Facebook"] [image1; video2] []] =
    (Raise (ValidationError "Solo se aceptan imágenes para publicaciones de tipo 'Feed'. No se permiten videos MP4."),
     [mk_task feed ["Facebook"] [image1; video2] []]).
Proof.
  apply (write_feed_video_rejected _ [image1] video2 []); try reflexivity.
  repeat constructor. discriminate.
Defined.

Lemma write_requires_fecha_witness :
  write {| wv_tipo := None; wv_fecha := Some VFalse; wv_adjuntos := None; wv_fields := ∅ |} [reel2] =
    (Raise (ValidationError "La 'Fecha y hora de Publicación' es obligatoria cuando el tipo no es 'Otro'."),
     [reel2]).
Proof. apply write_requires_fecha; [discriminate | reflexivity]. Defined.
End Checks.

(** ** Facebook *)

(** [fb_post_id] as [publish_on_facebook] stores it: the JSON list of the
    photo ids. *)
Definition fb_ids : list json := [JStr "111"; JStr "222"].
Definition fb_feed_task : task :=
  mk_task feed ["Facebook"] [image1]
    [("fb_estado", VStr "Procesando"); ("fb_post_id", VStr (json_dumps (JArr fb_ids)))].

Definition with_cover (t : task) (c : val) : task :=
  {| task_id := task_id t; state := state t; tipo := tipo t; fecha_publicacion := fecha_publicacion t;
     adjuntos_ids := adjuntos_ids t; imagen_portada := c; red_social_ids := red_social_ids t;
     tag_names := tag_names t; project_type := project_type t; description := description t;
     hashtags := hashtags t; partner_page_access_token := partner_page_access_token t;
     partner_facebook_page_id := partner_facebook_page_id t;
     partner_instagram_page_id := partner_instagram_page_id t;
     partner_tiktok_access_token := partner_tiktok_access_token t;
     partner_linkedin_page_id := partner_linkedin_page_id t; fields := fields t |}.

Definition fb_feed_reply (kv : list (string * json)) : request -> reply :=
  routes [(graph ++ "/page1/feed", ok_json (JObj kv))].

Section FbFeed.
Definition fbf_kv : list (string * json) := [("id", JStr "page1_999")].

#[local] Instance fbf_remote : Remote := fb_feed_reply fbf_kv.
#[local] Instance fbf_ff : Ffprobe := w_ffprobe.
#[local] Instance fbf_att : AttachmentTable := w_table.
#[local] Instance fbf_cfg : Config := fun _ => VStr "v19.0".
#[local] Instance fbf_h2t : Html2Text := fun s => s.

Lemma fb_feed_published_witness :
  Facebook.run_facebook_flow true fb_feed_task =
    (Ret None,
     upd (upd (upd (upd fb_feed_task "fb_estado" (VStr "Revisando")) "fb_post_id" (VStr "page1_999"))
            "fb_estado" (VStr "Publicado")) "fb_post_url" (VStr (Facebook.fb_url (VStr "page1_999")))).
Proof.
  apply (Facebook.fb_feed_published true fb_feed_task fb_ids fbf_kv (JStr "page1_999")); try reflexivity.
  - repeat split; try reflexivity. discriminate.
  - eexists. split; [reflexivity|]. split; reflexivity.
Defined.

End FbFeed.

Section FbFeedWait.
Definition fbw_kv : list (string * json) := [("error", JObj [("code", JNum 9007)])].

#[local] Instance fbw_remote : Remote := fb_feed_reply fbw_kv.
#[local] Instance fbw_ff : Ffprobe := w_ffprobe.
#[local] Instance fbw_att : AttachmentTable := w_table.
#[local] Instance fbw_cfg : Config := fun _ => VStr "v19.0".
#[local] Instance fbw_h2t : Html2Text := fun s => s.

Lemma fb_feed_still_processing_witness :
  Facebook.run_facebook_flow false fb_feed_task =
    (Ret (Some (Facebook.processing_action false)), upd fb_feed_task "fb_estado" (VStr "Revisando")).
Proof.
  apply (Facebook.fb_feed_still_processing false fb_feed_task fb_ids fbw_kv 9007); try reflexivity.
  - repeat split; try reflexivity. discriminate.
  - split; [eexists; split; [reflexivity|]; split; reflexivity|].
    split; [reflexivity|]. eexists. split; reflexivity.
  - simpl; tauto.
Defined.
End FbFeedWait.

Section FbFeedRejected.
Definition fbr_kv : list (string * json) :=
  [("error", JObj [("code", JNum 100); ("message", JStr "Invalid parameter")])].

#[local] Instance fbr_remote : Remote := fb_feed_reply fbr_kv.
#[local] Instance fbr_ff : Ffprobe := w_ffprobe.
#[local] Instance fbr_att : AttachmentTable := w_table.
#[local] Instance fbr_cfg : Config := fun _ => VStr "v19.0".
#[local] Instance fbr_h2t : Html2Text := fun s => s.

Lemma fb_feed_rejected_witness :
  Facebook.run_facebook_flow true fb_feed_task =
    (Raise (ValidationError ("Facebook Feed: error al publicar. Detalle: " ++ py_repr (JObj fbr_kv))),
     upd (upd fb_feed_task "fb_estado" (VStr "Revisando")) "fb_estado" (VStr "Error")).
Proof.
  apply (Facebook.fb_feed_rejected true fb_feed_task fb_ids fbr_kv 100); try reflexivity.
  - repeat split; try reflexivity. discriminate.
  - split; [eexists; split; [reflexivity|]; split; reflexivity|].
    split; [reflexivity|]. eexists. split; reflexivity.
  - simpl. intuition discriminate.
Defined.
End FbFeedRejected.

Section FbStory.
#[local] Instance fbs_remote : Remote := routes [].
#[local] Instance fbs_ff : Ffprobe := w_ffprobe.
#[local] Instance fbs_att : AttachmentTable := w_table.
#[local] Instance fbs_cfg : Config := fun _ => VStr "v19.0".
#[local] Instance fbs_h2t : Html2Text := fun s => s.

(** A story whose phase is "Error". *)
Definition fbs_task : task :=
  mk_task video_stories ["Facebook"] [video2] [("fb_estado", VStr "Error"); ("fb_post_id", VStr "s1")].

Lemma fb_story_published_witness :
  exists t', Facebook.run_facebook_flow true fbs_task = (Ret (Some (Facebook.story_action true)), t') /\
    fld t' "fb_estado" = VStr "Publicado" /\ truthy (fld t' "fb_post_url") = true /\
    frame Facebook.footprint fbs_task t'.
Proof. apply Facebook.fb_story_published; reflexivity. Defined.
End FbStory.

Definition fb_reel_task (estado : string) : task :=
  mk_task video_reels ["Facebook"] [video2] [("fb_estado", VStr estado); ("fb_video_id", VStr "v1")].

Definition phase_obj (s : string) : json := JObj [("status", JStr s)].

Definition reel_status_kv (upload : string) : list (string * json) :=
  [("status", JObj [("video_status", JStr "processing"); ("uploading_phase", phase_obj upload);
                    ("processing_phase", phase_obj "in_progress");
                    ("publishing_phase", phase_obj "not_started")])].

Definition reel_st (upload : string) : list (string * json) :=
  [("video_status", JStr "processing"); ("uploading_phase", phase_obj upload);
   ("processing_phase", phase_obj "in_progress"); ("publishing_phase", phase_obj "not_started")].

Definition reel_routes (upload : string) (thumb : reply) : request -> reply :=
  routes [(graph ++ "/v1", ok_json (JObj (reel_status_kv upload)));
          (graph ++ "/me/video_reels", ok_json (JObj [("post_id", JStr "r77")]));
          (graph ++ "/v1/thumbnails", thumb);
          (graph ++ "/r77", ok_json (JObj [("permalink_url", JStr "/reel/r77")]))].

Definition thumb_refused : response :=
  {| rs_status := 400; rs_reason := "Bad Request"; rs_url := graph ++ "/v1/thumbnails";
     rs_text := "bad image"; rs_body := None; rs_headers := [] |}.

Section FbReelUploading.
#[local] Instance fru_remote : Remote := reel_routes "in_progress" (Reply thumb_refused).
#[local] Instance fru_ff : Ffprobe := w_ffprobe.
#[local] Instance fru_att : AttachmentTable := w_table.
#[local] Instance fru_cfg : Config := fun _ => VStr "v19.0".
#[local] Instance fru_h2t : Html2Text := fun s => s.

Lemma fb_reel_polled_in_first_call_witness :
  Facebook.run_facebook_flow true (fb_reel_task "Procesando") =
    (Ret (Some ActTrue), upd (fb_reel_task "Procesando") "fb_estado" (VStr "Revisando")).
Proof.
  apply (Facebook.fb_reel_polled_in_first_call true _ (reel_status_kv "in_progress") (reel_st "in_progress"));
    try reflexivity.
  repeat split; try exact I. eexists. split; [reflexivity|]. split; reflexivity.
Defined.
End FbReelUploading.

Section FbReelDone.
#[local] Instance frd_remote : Remote := reel_routes "complete" (Reply thumb_refused).
#[local] Instance frd_ff : Ffprobe := w_ffprobe.
#[local] Instance frd_att : AttachmentTable := w_table.
#[local] Instance frd_cfg : Config := fun _ => VStr "v19.0".
#[local] Instance frd_h2t : Html2Text := fun s => s.

Lemma fb_reel_published_witness :
  Facebook.run_facebook_flow true (fb_reel_task "Revisando") =
    (Ret (Some (published_action true "Reel publicado correctamente.")),
     upd (upd (upd (fb_reel_task "Revisando") "fb_post_id" (VStr "r77")) "fb_estado" (VStr "Publicado"))
       "fb_post_url" (VStr "/reel/r77")).
Proof.
  apply (Facebook.fb_reel_published true _ (reel_status_kv "complete") (reel_st "complete")
           [("post_id", JStr "r77")] (JStr "r77") [("permalink_url", JStr "/reel/r77")]);
    try reflexivity.
  - repeat split; try exact I; try reflexivity; eexists; (split; [reflexivity|]); split; reflexivity.
  - eexists. split; [reflexivity|]. split; reflexivity.
Defined.

Lemma fb_reel_thumbnail_error_witness :
  Facebook.run_facebook_flow true (with_cover (fb_reel_task "Revisando") (VStr "aGVsbG8=")) =
    (Raise (ValidationError ("FB thumbnails error: " ++ Z_to_string 400 ++ " " ++ "bad image")),
     upd (upd (with_cover (fb_reel_task "Revisando") (VStr "aGVsbG8=")) "fb_post_id" (VStr "r77"))
       "fb_estado" (VStr "Publicado")).
Proof.
  apply (Facebook.fb_reel_thumbnail_error true _ (reel_status_kv "complete") (reel_st "complete")
           [("post_id", JStr "r77")] (JStr "r77") "hello" thumb_refused); try reflexivity.
  repeat split; try exact I; try reflexivity; eexists; (split; [reflexivity|]); split; reflexivity.
Defined.
End FbReelDone.

(** ** Polls that wait, an HTTP error, the spelled TikTok field *)

Section Waiting.
Definition igw_kv : list (string * json) := [("status_code", JStr "IN_PROGRESS")].
Definition ttw_kv : list (string * json) := [("data", JObj [("status", JStr "PROCESSING")])].
Definition tts_data : list (string * json) :=
  [("status", JStr "PUBLISH_COMPLETE"); ("publicly_available_post_id", JStr "7352")].

Definition http_503 : response :=
  {| rs_status := 503; rs_reason := "Service Unavailable"; rs_url := graph ++ "/c2?fields=status_code";
     rs_text := "Service Unavailable"; rs_body := None; rs_headers := [] |}.

#[local] Instance wt_remote : Remote :=
  routes [(graph ++ "/c1", ok_json (JObj igw_kv)); (graph ++ "/c2", Reply http_503);
          (tt_status_url, ok_json (JObj ttw_kv))].
#[local] Instance wt_ff : Ffprobe := w_ffprobe.
#[local] Instance wt_att : AttachmentTable := w_table.
#[local] Instance wt_cfg : Config := fun _ => VStr "v19.0".

Lemma ig_waiting_witness : Instagram.run_instagram_flow true igo_task = (Ret ActTrue, igo_task).
Proof.
  apply (Instagram.ig_waiting true igo_task igw_kv); [reflexivity | repeat split; reflexivity | |].
  - eexists. split; [reflexivity|]. split; reflexivity.
  - right. reflexivity.
Defined.

Definition igh_task : task :=
  mk_task feed ["Instagram"] [image1] [("ig_estado", VStr "Revisando"); ("inst_post_id", VStr "c2")].

Lemma ig_poll_http_error_witness :
  Instagram.run_instagram_flow true igh_task =
    (Raise (http_error_of http_503),
     upd (upd igh_task "ig_estado" (VStr "Error")) "ig_error" (VStr (exc_str (http_error_of http_503)))).
Proof.
  assert (Hw : write_ok igh_task = true) by reflexivity.
  assert (Hr : Instagram.reviewing igh_task) by (repeat split; reflexivity).
  assert (Hs : replies_status (Instagram.status_request igh_task) http_503) by (split; [reflexivity | cbn; lia]).
  exact (Instagram.ig_poll_http_error true igh_task http_503 Hw Hr Hs).
Defined.

Lemma tt_waiting_witness : TikTok.run_tiktok_flow true tt_task = (Ret ActTrue, tt_task).
Proof.
  apply (TikTok.tt_waiting true tt_task ttw_kv [("status", JStr "PROCESSING")]);
    [reflexivity | repeat split; reflexivity | | right; reflexivity].
  split; [|reflexivity]. eexists. split; [reflexivity|]. split; reflexivity.
Defined.
End Waiting.

Section TtSpelled.
#[local] Instance tts_remote : Remote :=
  routes [(tt_status_url, ok_json (JObj [("data", JObj tts_data)]))].
#[local] Instance tts_ff : Ffprobe := w_ffprobe.
#[local] Instance tts_att : AttachmentTable := w_table.

Lemma tt_published_spelled_witness :
  TikTok.run_tiktok_flow false tt_task =
    (Ret (published_action false "TikTok publicado correctamente."),
     upd (upd (upd tt_task "tiktok_post_url" (VStr (TikTok.public_url (JStr "7352"))))
            "tt_estado" (VStr "Publicado")) "tt_error" VFalse).
Proof.
  apply (TikTok.tt_published_spelled false tt_task [("data", JObj tts_data)] tts_data); try reflexivity.
  - repeat split; reflexivity.
  - split; [|reflexivity]. eexists. split; [reflexivity|]. split; reflexivity.
Defined.
End TtSpelled.

(** ** Scheduling *)

Section Programar.
#[local] Instance pr_ff : Ffprobe := w_ffprobe.
#[local] Instance pr_att : AttachmentTable := w_table.

Definition pending_task : task :=
  {| task_id := 8; state := "01_in_progress"; tipo := feed; fecha_publicacion := VStr "2026-01-05 10:00:00";
     adjuntos_ids := [image1]; imagen_portada := VFalse; red_social_ids := ["Facebook"]; tag_names := [];
     project_type := VFalse; description := VFalse; hashtags := VFalse;
     partner_page_access_token := VFalse; partner_facebook_page_id := VFalse;
     partner_instagram_page_id := VFalse; partner_tiktok_access_token := VFalse;
     partner_linkedin_page_id := VFalse; fields := default_fields |}.

Lemma programar_post_error_witness : programar_post pending_task = (Raise programar_error, pending_task).
Proof. apply programar_post_error. left. discriminate. Defined.

Lemma programar_post_ok_witness :
  programar_post (mk_task feed ["Facebook"] [image1] []) =
    (Ret tt, with_fields (mk_task feed ["Facebook"] [image1] [])
               (with_extra (write_extra (mk_task feed ["Facebook"] [image1] []))
                  (list_to_map [("post_estado", VStr "Programado")])
                ∪ fields (mk_task feed ["Facebook"] [image1] []))).
Proof. apply programar_post_ok; reflexivity. Defined.
End Programar.

