(* ===== verification/ContractWitnesses.v ===== *)
(** * Concrete contracts for the theorems of [Dates] and [Contracts]

    A monthly contract of customer 7 started on 31 January 2025, with one
    contract line; amounts are integers ([Num := Z], [sum] is [Z.add] from
    [0]).  Each witness applies a theorem to these values and discharges
    its hypotheses by evaluation. *)

From Stdlib Require Import String ZArith List Bool Lia.
From stdpp Require Import base list relations.
From S2P Require Import Prelude Dates Contracts.
Import ListNotations.

Open Scope string_scope.
Open Scope Z_scope.

Definition line1 : contract_line (Num:=Z) :=
  {| line_product_id := 11; line_description := "Hosting"; line_qty_ordered := 1;
     line_price_unit := 100; line_discount := 0; line_tax_ids := [3]; line_sub_total := 100 |}.

Definition jan31 : date := mk_date 2025 1 31.

Definition mk_contract (id : Z) (next : option date) (period : Z) (k : option interval) (st : stage)
    : contract (Num:=Z) :=
  {| c_id := id; partner_id := 7; recurring_period := period; recurring_period_interval := k;
     next_invoice_date := next; date_start := Some jan31; date_end := None; invoice_count := 0;
     current_reference := 0; lock := false; state := st; contract_line_ids := [line1];
     amount_total := 0; invoices_active := false |}.

Definition monthly : contract (Num:=Z) := mk_contract 1 (Some jan31) 1 (Some Months) New.
Definition backwards : contract (Num:=Z) := mk_contract 1 (Some jan31) (-1) (Some Months) New.

Lemma ord2ymd_ymd2ord_witness : ord2ymd (ymd2ord (mk_date 2024 2 29)) = mk_date 2024 2 29.
Proof. apply ord2ymd_ymd2ord. reflexivity. Defined.

Lemma rd_add_valid_witness : valid (mk_date 2025 2 28) = true.
Proof. apply (rd_add_valid (rd_of_months 1) jan31). vm_compute. reflexivity. Defined.

Lemma generate_next_date_direction_witness :
  exists d, next_invoice_date (fst (snd (action_generate_invoice (backwards, [])))) = Some d /\
    (if recurring_period backwards <? 0 then date_ltb d jan31 else date_ltb jan31 d) = true.
Proof.
  apply (generate_next_date_direction backwards [] (fst (snd (action_generate_invoice (backwards, []))))
           (snd (snd (action_generate_invoice (backwards, [])))) jan31);
    [reflexivity | reflexivity | discriminate | vm_compute; reflexivity].
Defined.

Lemma generate_monthly_clamps_witness :
  exists d, next_invoice_date (fst (snd (action_generate_invoice (monthly, [])))) = Some d /\
    12 * year d + month d = 12 * year jan31 + month jan31 + (if recurring_period monthly =? 0 then 1 else recurring_period monthly) /\
    day d = Z.min (days_in_month (year d) (month d)) (day jan31).
Proof.
  apply (generate_monthly_clamps monthly [] (fst (snd (action_generate_invoice (monthly, []))))
           (snd (snd (action_generate_invoice (monthly, [])))) jan31);
    [reflexivity | reflexivity | reflexivity | vm_compute; reflexivity].
Defined.

Lemma missed_invoice_date_never_invoiced_witness :
  (run_days [mk_date 2025 2 1; mk_date 2025 2 2] ([monthly], [])).1 !! 0%nat = Some monthly.
Proof.
  apply (missed_invoice_date_never_invoiced _ _ _ 0 monthly jan31); [reflexivity | reflexivity |].
  repeat constructor.
Defined.

Definition two_contracts : list (contract (Num:=Z)) :=
  [monthly; mk_contract 2 (Some jan31) 1 (Some Days) Cancelled].

Lemma state_change_counts_invariant_witness :
  counts_consistent (snd (subscription_contract_state_change jan31 (two_contracts, []))).1
                    (snd (subscription_contract_state_change jan31 (two_contracts, []))).2.
Proof.
  apply state_change_counts_invariant.
  - apply (bool_decide_unpack _). vm_compute. reflexivity.
  - repeat constructor.
Defined.

Lemma stage_never_expires_witness :
  state (fst (snd (action_to_confirm monthly), @nil (move (Num:=Z)))) <> Expire_Soon /\
  state (fst (snd (action_to_confirm monthly), @nil (move (Num:=Z)))) <> Expired.
Proof.
  apply (stage_never_expires 0 Z.add (monthly, []) (snd (action_to_confirm monthly), []));
    [eapply rtc_l; [apply step_confirm | apply rtc_refl] | discriminate | discriminate].
Defined.

Definition order_line : sale_order_line :=
  {| sol_order_partner_id := 7; sol_create_date := mk_date 2025 2 10; sol_product_id := 11; sol_contract_id := None |}.

Lemma sale_order_lines_without_end_date_witness :
  fst (compute_sale_order_lines (monthly, [order_line])) = Raise date_vs_bool_error.
Proof.
  apply (sale_order_lines_without_end_date monthly [order_line] jan31); [reflexivity | reflexivity |].
  constructor. split; reflexivity.
Defined.

Lemma compute_next_matches_generate_witness :
  match compute_next_invoice_date monthly, action_generate_invoice (set_next_invoice_date (Some jan31) monthly, []) with
  | (Ret _, c1), (Ret _, (c2, _)) => next_invoice_date c1 = next_invoice_date c2
  | (Raise e1, _), (Raise e2, _) => e1 = e2
  | _, _ => False
  end.
Proof. apply (compute_next_matches_generate monthly [] jan31); [reflexivity | discriminate]. Defined.

Lemma daily_job_once_a_day_witness :
  state_change_one jan31 (fst (snd (state_change_one jan31 (monthly, []))), snd (snd (state_change_one jan31 (monthly, [])))) =
    (Ret tt, (fst (snd (state_change_one jan31 (monthly, []))), snd (snd (state_change_one jan31 (monthly, []))))).
Proof.
  apply (daily_job_once_a_day jan31 monthly [] (fst (snd (state_change_one jan31 (monthly, []))))
           (snd (snd (state_change_one jan31 (monthly, [])))));
    [reflexivity | reflexivity | discriminate | vm_compute; reflexivity].
Defined.

