(* ===== verification/PublishWitnesses.v ===== *)
(** * Concrete runs of the publication theorems

    The theorems of [RedSocial], [Publish], [Creator] and [Publicar]
    applied to concrete tasks, answers of the platforms, S3 and the
    configuration of [Witnesses]; each discharges its hypotheses by
    evaluation. *)

From Stdlib Require Import String ZArith List Bool.
From stdpp Require Import base gmap strings list.
From S2P Require Import Prelude Json Http Base64 Task RedSocial Text Write Flow Facebook Revisar Publish Creator Publicar Witnesses.

Open Scope string_scope.

(** ** [_auto_init] after a record named ["facebook"] *)

Lemma auto_init_case_blocks_network_witness :
  has_network (mk_task feed ["facebook"] [image1] []) "Facebook" = false.
Proof.
  apply (auto_init_case_blocks_network ["facebook"] _ "Facebook" "facebook");
    [by left | reflexivity | intros [E|[]]; discriminate |].
  intros x [<-|[]]. by left.
Defined.

(** ** Facebook: a feed of one photo *)

Section FbFeed.
#[local] Instance fbw_remote : Remote :=
  routes [(graph ++ "/page1/photos", ok_json (JObj [("id", JStr "111")]))].
#[local] Instance fbw_ff : Ffprobe := w_ffprobe.
#[local] Instance fbw_att : AttachmentTable := w_table.
#[local] Instance fbw_cfg : Config := fun _ => VStr "v19.0".

Definition fbw_task : task := mk_task feed ["Facebook"] [image1] [].

Lemma fb_feed_publish_roundtrip_witness :
  exists t', Publish.publish_on_facebook ["https://s3/a.jpg"] "Hola" fbw_task = (Ret (Some true), t') /\
    fld t' "fb_estado" = VStr "Procesando" /\ Facebook.media_ids t' = Some (JArr (map JStr ["111"])).
Proof.
  apply Publish.fb_feed_publish_roundtrip;
    [reflexivity | vm_compute; reflexivity | | repeat constructor].
  repeat constructor. eexists. split; reflexivity.
Defined.
End FbFeed.

(** ** Instagram: the container request fails *)

Section IgFail.
#[local] Instance igw_remote : Remote := routes [].
#[local] Instance igw_ff : Ffprobe := w_ffprobe.
#[local] Instance igw_att : AttachmentTable := w_table.
#[local] Instance igw_cfg : Config := fun _ => VStr "v19.0".

Definition igw_task : task := mk_task feed ["Instagram"] [image1] [].

Lemma ig_publish_error_recorded_witness :
  fld (snd (Publish.publish_on_instagram ["https://s3/a.jpg"] "Hola" None igw_task)) "ig_estado" = VStr "Error" /\
  fld (snd (Publish.publish_on_instagram ["https://s3/a.jpg"] "Hola" None igw_task)) "ig_error"
    = VStr (exc_str (RequestException "Connection refused")).
Proof.
  apply (Publish.ig_publish_error_recorded ["https://s3/a.jpg"] "Hola" None igw_task
           (RequestException "Connection refused")); vm_compute; reflexivity.
Defined.
End IgFail.

(** ** LinkedIn: the image upload is refused with 403 *)

Section LiForbidden.
Definition li_images_url : string := "https://api.linkedin.com/rest/images?action=initializeUpload".
#[local] Instance liw_remote : Remote :=
  routes [(li_images_url, Reply {| rs_status := 403; rs_reason := "Forbidden"; rs_url := li_images_url;
                                   rs_text := "Forbidden"; rs_body := None; rs_headers := [] |})].
#[local] Instance liw_ff : Ffprobe := w_ffprobe.
#[local] Instance liw_att : AttachmentTable := w_table.
#[local] Instance liw_cfg : Config := fun _ => VStr "li-token".
#[local] Instance liw_mime : MimeTypes := fun _ => Some "image/jpeg".

Definition liw_task : task := mk_task feed ["LinkedIn"] [image1] [].

Lemma li_http_error_reported_witness :
  exists t', Publish.publish_on_linkedin ["https://s3/a.jpg"] "Hola" liw_task =
               (Raise (ValidationError ("Error HTTP " ++ Z_to_string 403 ++ ": " ++ str_prefix 200 "Forbidden")), t') /\
             fld t' "post_estado" = VStr "Error".
Proof.
  apply (Publish.li_http_error_reported ["https://s3/a.jpg"] "Hola" liw_task
           (snd (Publish.li_body liw_task (get_param "linkedin.access_token") ["https://s3/a.jpg"] "Hola" liw_task))
           403 "Forbidden" li_images_url "Forbidden");
    [discriminate | reflexivity | vm_compute; reflexivity | vm_compute; reflexivity | left; split; reflexivity].
Defined.

(** A body with a float member, [{"message": "Quota", "retryAfter": 1.5}],
    is read by [json()]: the detail is its [message]. *)
Example li_http_detail_float_member :
  fst (Publish.li_http_detail ("{" ++ dquote ++ "message" ++ dquote ++ ": " ++ dquote ++ "Quota" ++ dquote
         ++ ", " ++ dquote ++ "retryAfter" ++ dquote ++ ": 1.5}") liw_task) = Ret ": Quota".
Proof. vm_compute. reflexivity. Qed.
End LiForbidden.

(** ** S3 and the publication button *)

Section Button.
#[local] Instance pw_remote : Remote := routes [].
#[local] Instance pw_ff : Ffprobe := w_ffprobe.
#[local] Instance pw_att : AttachmentTable := w_table.
#[local] Instance pw_cfg : Config := fun _ => VStr "v19.0".
#[local] Instance pw_h2t : Html2Text := fun s => s.
#[local] Instance pw_mime : MimeTypes := fun _ => Some "image/jpeg".
#[local] Instance pw_s3 : S3 :=
  {| s3_client_error _ _ := None; s3_put_object _ _ _ := None; s3_stamp _ := ("20260105_100000", "40719") |}.

Definition pw_files : list s3_item := [ItemRecord image1; ItemPair "portada.JPG" "aGVsbG8="].

Lemma upload_files_to_s3_distinct_witness :
  length [s3_url (s3_key "20260105_100000" "40719" 1 "jpg"); s3_url (s3_key "20260105_100000" "40719" 2 "jpg")]
    = length pw_files /\
  NoDup [s3_url (s3_key "20260105_100000" "40719" 1 "jpg"); s3_url (s3_key "20260105_100000" "40719" 2 "jpg")].
Proof.
  apply (upload_files_to_s3_distinct (St := unit) (s3_stamp 0) pw_files (VStr "key") (VStr "secret") tt _ tt).
  vm_compute. reflexivity.
Defined.

(** A list whose second item is of no supported type. *)
Lemma upload_unsupported_item_error_witness :
  truthy (VStr "key") = true /\ truthy (VStr "secret") = true /\
  s3_client_error (VStr "key") (VStr "secret") = None /\
  (upload_files_to_s3 (St := unit) (s3_stamp 0) [ItemOther] (VStr "key") (VStr "secret") tt =
     (Raise (UnboundLocalError "file_name_raw"), tt) /\
   forall n d u, upload_item_body (St := unit) (fst (s3_stamp 0)) (snd (s3_stamp 0)) 1 n d tt = (Ret u, tt) ->
     upload_files_to_s3 (St := unit) (s3_stamp 0) [ItemPair n d; ItemOther] (VStr "key") (VStr "secret") tt =
       (Raise (ValidationError ("Error al subir archivo " ++ n ++
                                ": Formato de archivo no soportado o inválido.")), tt)).
Proof.
  split; [reflexivity|]. split; [reflexivity|]. split; [reflexivity|].
  apply (upload_unsupported_item_error (St := unit) (s3_stamp 0) [] (VStr "key") (VStr "secret") tt);
    reflexivity.
Defined.

(** A task of type [otro] for Facebook. *)
Definition otro_task : task := mk_task otro ["Facebook"] [image1] [].

Lemma fb_otro_reported_started_witness :
  exists t1 t2,
    fb_block ["https://s3/a.jpg"] "Hola" acc0 otro_task = (Ret (add_success "Facebook" acc0), t1) /\
    fld t1 "fb_estado" = VStr "Procesando" /\
    Facebook.run_facebook_flow false t1 = (Ret None, t2) /\ fld t2 "fb_estado" = VStr "Revisando" /\
    Facebook.run_facebook_flow false t2 = (Ret None, t2).
Proof. apply fb_otro_reported_started; [reflexivity | vm_compute; reflexivity]. Defined.

(** A feed for Facebook whose every request is refused. *)
Definition pw_task : task := mk_task feed ["Facebook"] [image1] [].

Definition pw_media : list string :=
  match fst (publicar_setup pw_task pw_task) with Ret mc => fst mc | Raise _ => [] end.

Definition pw_acc : pub_acc :=
  match fst (publicar_networks pw_task pw_media (prepare_text pw_task) None pw_task) with
  | Ret a => a | Raise _ => acc0 end.

Lemma publicar_none_started_rolled_back_witness :
  exists t',
    publicar_post pw_task =
      (Raise (ValidationError ("Error en el proceso de publicación: " ++ all_failed_msg pw_acc)), t') /\
    (has_network pw_task "Facebook" = true -> fld t' "fb_estado" = VStr "Error") /\
    publicar_post_button pw_task =
      (Raise (ValidationError ("Error en el proceso de publicación: " ++ all_failed_msg pw_acc)), pw_task).
Proof.
  apply (publicar_none_started_rolled_back pw_task pw_media None pw_acc
           (snd (publicar_networks pw_task pw_media (prepare_text pw_task) None pw_task)));
    vm_compute; reflexivity.
Defined.
End Button.

(** ** TikTok: a creator at its limit *)

Section CreatorLimit.
Definition crw_kv : list (string * json) := [("can_publish", JBool false)].
Definition crw_response : response :=
  {| rs_status := 200; rs_reason := "OK"; rs_url := Creator.creator_info_url;
     rs_text := json_dumps (JObj [("data", JObj crw_kv)]);
     rs_body := Some (JObj [("data", JObj crw_kv)]); rs_headers := [] |}.
#[local] Instance crw_remote : Remote := routes [(Creator.creator_info_url, Reply crw_response)].
#[local] Instance crw_ff : Ffprobe := w_ffprobe.
#[local] Instance crw_att : AttachmentTable := w_table.

Definition crw_task : task := mk_task video_reels ["TikTok"] [video2] [].

Lemma creator_check_verdict_witness :
  Creator.check_tiktok_creator_status crw_task =
    (if snd (Creator.creator_verdict crw_kv (Creator.int_field (fld crw_task dur_key)))
     then Raise (ValidationError (fst (Creator.creator_verdict crw_kv (Creator.int_field (fld crw_task dur_key)))))
     else Ret true,
     upd crw_task "tiktok_creator_status_info"
       (VStr (fst (Creator.creator_verdict crw_kv (Creator.int_field (fld crw_task dur_key)))))).
Proof.
  apply (Creator.creator_check_verdict crw_task crw_response crw_kv);
    [reflexivity | vm_compute; reflexivity | reflexivity | reflexivity | reflexivity | left; reflexivity].
Defined.
End CreatorLimit.
